(** * terraform-provider-ciscosecureaccess: resource handlers

    A shallow embedding of the CRUD handlers of the provider
    (internal/provider/resource_*.go) and of the status-code branching,
    retry classification and reconciliation logic they contain.

    Conventions of the embedding:
    - a handler is a program in a state monad over a [World]: the remote
      service, the log of API exchanges, and the response object
      ([Diagnostics], [State]) that the Go code mutates in place;
    - a nil-pointer dereference of the Go code is the outcome [Panicked];
    - logging (tflog, log.Printf) has no effect on the result and is left out;
    - the formatted detail text of a diagnostic or of an error is left out:
      a diagnostic keeps its severity and its summary;
    - the fields of a decoded payload that the code dereferences without a
      test are taken to be present. *)

From Stdlib Require Import ZArith List String Ascii Bool Lia Permutation DecimalString.
From Stdlib Require DecimalPos.
Import ListNotations.
Local Open Scope string_scope.
Local Open Scope Z_scope.
Local Open Scope list_scope.
#[local] Set Warnings "-register-all".

(** ** terraform-plugin-framework: attribute values *)

Module types.

(** basetypes values carry a state: null, unknown or known. *)
Inductive Value (A : Type) : Type :=
| Null
| Unknown
| Known (a : A).
Arguments Null {A}.
Arguments Unknown {A}.
Arguments Known {A} a.

Definition IsNull {A} (v : Value A) : bool :=
  match v with Null => true | _ => false end.

Definition IsUnknown {A} (v : Value A) : bool :=
  match v with Unknown => true | _ => false end.

Definition StringValue := Value string.
Definition BoolValue := Value bool.
Definition Int64Value := Value Z.
Definition SetValue (A : Type) := Value (list A).
Definition ListValue (A : Type) := Value (list A).

(** ValueString, ValueBool, ValueInt64: the zero value unless known. *)
Definition ValueString (v : StringValue) : string :=
  match v with Known s => s | _ => EmptyString end.
Definition ValueBool (v : BoolValue) : bool :=
  match v with Known b => b | _ => false end.
Definition ValueInt64 (v : Int64Value) : Z :=
  match v with Known z => z | _ => 0 end.

(** Equal of the scalar values: same state, and same value when known. *)
Definition Equal {A} (eqb : A -> A -> bool) (x y : Value A) : bool :=
  match x, y with
  | Null, Null => true
  | Unknown, Unknown => true
  | Known a, Known b => eqb a b
  | _, _ => false
  end.

Definition StringEqual : StringValue -> StringValue -> bool := Equal String.eqb.
Definition BoolEqual : BoolValue -> BoolValue -> bool := Equal Bool.eqb.
Definition Int64Equal : Int64Value -> Int64Value -> bool := Equal Z.eqb.

(** SetValue.Equal: same state; when known, same number of elements and
    every element of the receiver contained in the other set. *)
Definition contains {A} (eqb : A -> A -> bool) (elements : list A) (v : A) : bool :=
  existsb (fun e => eqb e v) elements.

Definition elementsEqual {A} (eqb : A -> A -> bool) (s other : list A) : bool :=
  (List.length s =? List.length other)%nat && forallb (contains eqb other) s.

Definition SetEqual {A} (eqb : A -> A -> bool) (s other : SetValue A) : bool :=
  Equal (elementsEqual eqb) s other.

(** ElementsAs with allowUnhandled = true: a null or unknown collection
    leaves the target slice empty.  The element types are fixed by the
    schema, so the conversion reports no diagnostic. *)
Definition ElementsAs {A} (s : Value (list A)) : list A :=
  match s with Known l => l | _ => [] end.

(** ElementsAs with allowUnhandled = true into a slice declared with var:
    the slice stays nil for a null or unknown collection. *)
Definition ElementsAsSlice {A} (s : Value (list A)) : option (list A) :=
  match s with Known l => Some l | _ => None end.

(** SetValueFrom / ListValueFrom: a nil slice (or nil pointer) gives the
    null collection. *)
Definition ValueFrom {A} (slice : option (list A)) : Value (list A) :=
  match slice with Some l => Known l | None => Null end.

(** A slice declared with var and grown by append is nil while empty. *)
Definition appended {A} (l : list A) : option (list A) :=
  match l with [] => None | _ => Some l end.

End types.

(** ** terraform-plugin-framework: diagnostics *)

Module diag.

Inductive Severity : Type := SeverityError | SeverityWarning.

Record Diagnostic : Type := mkDiagnostic {
  severity : Severity;
  Summary : string
}.

Definition Diagnostics := list Diagnostic.

Definition isError (d : Diagnostic) : bool :=
  match severity d with SeverityError => true | SeverityWarning => false end.

Definition HasError (ds : Diagnostics) : bool := existsb isError ds.

Definition NewErrorDiagnostic (summary : string) : Diagnostic :=
  mkDiagnostic SeverityError summary.

Definition Append (ds more : Diagnostics) : Diagnostics := ds ++ more.

Definition AddError (ds : Diagnostics) (summary : string) : Diagnostics :=
  Append ds [NewErrorDiagnostic summary].

End diag.

(** ** Go standard library pieces *)

(** strings.Contains *)
Fixpoint Contains (s substr : string) : bool :=
  if String.prefix substr s then true
  else match s with
       | EmptyString => false
       | String _ rest => Contains rest substr
       end.

Definition digitOf (c : ascii) : option Z :=
  let n := Z.of_nat (nat_of_ascii c) in
  if (48 <=? n) && (n <=? 57) then Some (n - 48) else None.

Fixpoint parseDigits (s : string) (acc : Z) : option Z :=
  match s with
  | EmptyString => Some acc
  | String c rest =>
      match digitOf c with
      | Some d => parseDigits rest (acc * 10 + d)
      | None => None
      end
  end.

(** strconv.ParseUint(s, 10, 64): [None] is a syntax error; a value
    beyond 64 bits is a range error and comes back as the largest value. *)
Definition ParseUint (s : string) : option (Z * bool) :=
  match s with
  | EmptyString => None
  | _ => match parseDigits s 0 with
         | Some un => if un <? 2 ^ 64 then Some (un, true) else Some (2 ^ 64 - 1, false)
         | None => None
         end
  end.

(** strconv.ParseInt(s, 10, 64): the value and whether err is nil.  A
    syntax error gives 0, a range error the nearest bound. *)
Definition ParseInt (s : string) : Z * bool :=
  match s with
  | EmptyString => (0, false)
  | String c rest =>
      let neg := Ascii.eqb c "-" in
      let body := if Ascii.eqb c "+" || neg then rest else s in
      match ParseUint body with
      | None => (0, false)
      | Some (un, inRange) =>
          if negb neg && (2 ^ 63 <=? un) then (2 ^ 63 - 1, false)
          else if neg && (2 ^ 63 <? un) then (- 2 ^ 63, false)
          else (if neg then - un else un, inRange)
      end
  end.

(** strconv.Atoi on a 64-bit platform. *)
Definition Atoi (s : string) : Z * bool := ParseInt s.

(** strconv.Itoa *)
Definition Itoa (i : Z) : string := NilZero.string_of_int (Z.to_int i).

(** net/http: the part of a response the handlers look at. *)
Record BodyReader : Type := mkBody {
  content : string;
  readErr : option string
}.

Record HttpResponse : Type := mkHttpResponse {
  StatusCode : Z;
  Status : string;
  Body : option BodyReader
}.

(** What an Execute() of the generated client returns: the decoded value,
    the HTTP response and the error, each of which may be nil. *)
Record ApiReply (A : Type) : Type := mkReply {
  value : option A;
  httpRes : option HttpResponse;
  err : option string
}.
Arguments mkReply {A} value httpRes err.
Arguments value {A} a.
Arguments httpRes {A} a.
Arguments err {A} a.

(** A Go value of type interface{} as encoding/json decodes it. *)
Inductive Any : Type :=
| AnyNil
| AnyString (s : string)
| AnySlice (elems : list Any)
| AnyMap (entries : list (string * Any))
| AnyOther.

Fixpoint mapIndex {A} (m : list (string * A)) (key : string) : option A :=
  match m with
  | [] => None
  | (k, v) :: rest => if String.eqb k key then Some v else mapIndex rest key
  end.

(** ** The generated REST client (go-ciscosecureaccess): request and
    response types, as far as the handlers build or inspect them *)

Module rules.

(** The SettingName enumeration; the constants the provider mentions are
    constructors, any other name is [SETTINGNAME_other]. *)
Inductive SettingName : Type :=
| SETTINGNAME_UMBRELLA_LOG_LEVEL
| SETTINGNAME_UMBRELLA_POSTURE_PROFILE_ID_CLIENTBASED
| SETTINGNAME_UMBRELLA_DEFAULT_TRAFFIC
| SETTINGNAME_SSE_GLOBAL_IPS_ENABLED
| SETTINGNAME_UMBRELLA_POSTURE_IPS_PROFILE_ID
| SETTINGNAME_other (name : string).

Record SettingValue : Type := mkSettingValue {
  SVString : option string;
  SVInt64 : option Z;
  SVBool : option bool
}.

Record RuleSettingsInner : Type := mkRuleSettingsInner {
  SettingName_ : option SettingName;
  SettingValue_ : SettingValue
}.

Record AttributeName : Type := mkAttributeName {
  AttributeNameDestination : option string;
  AttributeNameSource : option string
}.

Record AttributeValue : Type := mkAttributeValue {
  ArrayOfInt64 : option (list Z);
  ArrayOfString : option (list string);
  AVBool : option bool
}.

Definition ArrayOfInt64AsAttributeValue (v : list Z) : AttributeValue :=
  mkAttributeValue (Some v) None None.
Definition ArrayOfStringAsAttributeValue (v : list string) : AttributeValue :=
  mkAttributeValue None (Some v) None.
Definition BoolAsAttributeValue (v : bool) : AttributeValue :=
  mkAttributeValue None None (Some v).

Record RuleConditionsInner : Type := mkRuleConditionsInner {
  AttributeName_ : AttributeName;
  AttributeValue_ : AttributeValue;
  AttributeOperator : string
}.

Record AddRuleRequest : Type := mkAddRuleRequest {
  RuleName : string;
  RuleAction : string;
  RuleConditions : list RuleConditionsInner;
  RuleSettings : list RuleSettingsInner;
  RuleDescription : option string;
  RuleIsEnabled : option bool;
  RulePriority : option Z
}.

Definition NewAddRuleRequest (name action : string)
    (conditions : list RuleConditionsInner) (settings : list RuleSettingsInner)
    : AddRuleRequest :=
  mkAddRuleRequest name action conditions settings None None None.

Record PutRuleRequest : Type := NewPutRuleRequest {
  PutRuleName : string;
  PutRuleAction : string;
  PutRulePriority : Z;
  PutRuleConditions : list RuleConditionsInner;
  PutRuleSettings : list RuleSettingsInner
}.

(** The rule as AddRule, GetRule and PutRule return it: what the getters
    GetRuleId(), GetRuleName(), ... return, and the pointer RuleAction,
    [None] when it is nil. *)
Record RuleResponse : Type := mkRuleResponse {
  GetRuleId : Z;
  GetRuleName : string;
  RespRuleAction : option string;
  GetRuleDescription : string;
  GetRuleIsEnabled : bool;
  GetRulePriority : Z;
  RespRuleConditions : list RuleConditionsInner;
  RespRuleSettings : list RuleSettingsInner
}.

(** An entry of GetPolicySettings, and the body of PutPolicySetting. *)
Record SettingsObject : Type := mkSettingsObject {
  ObjSettingName : SettingName;
  ObjSettingValue : SettingValue
}.

End rules.

Module privateapps.

Record NetworkBasedAccess : Type := mkNetworkBasedAccess {
  NetworkType : string
}.

Record ClientBasedAccess : Type := mkClientBasedAccess {
  ClientType : string;
  ReachableAddresses : list string
}.

Record AccessTypesRequestInner : Type := mkAccessTypesRequestInner {
  NetworkBasedAccess_ : option NetworkBasedAccess;
  ClientBasedAccess_ : option ClientBasedAccess
}.

Record ProtocolPortsInner : Type := mkProtocolPortsInner {
  Protocol : string;
  Ports : string
}.

(** DestinationAddr is the slice as Go has it: [None] is the nil slice,
    which types.SetValueFrom turns into the null set. *)
Record ResourceAddressesInner : Type := mkResourceAddressesInner {
  DestinationAddr : option (list string);
  ProtocolPorts : list ProtocolPortsInner
}.

Record PrivateResourceRequest : Type := mkPrivateResourceRequest {
  Name : string;
  AccessTypes : list AccessTypesRequestInner;
  ResourceAddresses : list ResourceAddressesInner;
  Description : option string;
  CertificateId : option Z
}.

Definition NewPrivateResourceRequest (name : string)
    (accessTypes : list AccessTypesRequestInner)
    (addresses : list ResourceAddressesInner) : PrivateResourceRequest :=
  mkPrivateResourceRequest name accessTypes addresses None None.

(** The private resource as AddPrivateResource and GetPrivateResource
    return it: GetResourceId() and the fields Read reads; Name and
    Description are pointers, [None] when nil. *)
Record PrivateResourceResponse : Type := mkPrivateResourceResponse {
  GetResourceId : Z;
  RespName : option string;
  RespDescription : option string;
  RespResourceAddresses : list ResourceAddressesInner;
  RespAccessTypes : Any
}.

End privateapps.

Module ntg.

Inductive PatchValue : Type :=
| StringAsPatchNetworkTunnelGroupRequestInnerValue (s : string)
| RoutingRequestAsPatchNetworkTunnelGroupRequestInnerValue
    (routingType : string) (NetworkCIDRs : list string).

Record PatchNetworkTunnelGroupRequestInner : Type :=
  NewPatchNetworkTunnelGroupRequestInner {
    Op : string;
    Path : string;
    Value : PatchValue
  }.

(** A hub of a tunnel group.  Its fields are pointers, [None] when nil;
    DatacenterName and DatacenterIp stand for hub.Datacenter.Name and
    hub.Datacenter.Ip. *)
Record Hub : Type := mkHub {
  HubId : option Z;
  DatacenterName : option string;
  DatacenterIp : option string;
  AuthId : option string;
  IsPrimary : option bool
}.

(** GetNetworkTunnelGroup: what Read reads of the reply.  Name, Region and
    DeviceType are pointers, [None] when nil; NetworkCIDRs stands for
    Routing.Data.StaticDataResponseObj.NetworkCIDRs, [None] when there is no
    static routing object to dereference. *)
Record NetworkTunnelGroupResponse : Type := mkNetworkTunnelGroupResponse {
  Name : option string;
  Region : option string;
  NetworkCIDRs : option (list string);
  DeviceType : option string;
  Hubs : list Hub
}.

(** AddNetworkTunnelGroup: the request Create builds, with the routing it
    sets, and what Create reads of the reply (GetId() and Hubs). *)
Record RoutingRequest : Type := mkRoutingRequest {
  RoutingType : string;
  StaticNetworkCIDRs : list string
}.

Record AddNetworkTunnelGroupRequest : Type := mkAddNetworkTunnelGroupRequest {
  AddName : string;
  AddRegion : string;
  AuthIdPrefix : string;
  Passphrase : string;
  Routing : option RoutingRequest;
  AddDeviceType : option string
}.

Definition NewAddNetworkTunnelGroupRequest (name region authIdPrefix passphrase : string)
    : AddNetworkTunnelGroupRequest :=
  mkAddNetworkTunnelGroupRequest name region authIdPrefix passphrase None None.

Definition SetRouting (o : AddNetworkTunnelGroupRequest) (v : RoutingRequest)
    : AddNetworkTunnelGroupRequest :=
  mkAddNetworkTunnelGroupRequest (AddName o) (AddRegion o) (AuthIdPrefix o) (Passphrase o)
    (Some v) (AddDeviceType o).

Definition SetDeviceType (o : AddNetworkTunnelGroupRequest) (v : string)
    : AddNetworkTunnelGroupRequest :=
  mkAddNetworkTunnelGroupRequest (AddName o) (AddRegion o) (AuthIdPrefix o) (Passphrase o)
    (Routing o) (Some v).

Record AddedNetworkTunnelGroup : Type := mkAddedNetworkTunnelGroup {
  AddedId : Z;
  AddedHubs : list Hub
}.

End ntg.

Module destinationlists.

Record DestinationObject : Type := mkDestinationObject {
  Id : string;
  Destination : string;
  Type_ : string;
  Comment : option string
}.

Record DestinationCreateObject : Type := mkDestinationCreateObject {
  CreateDestination : string;
  CreateComment : option string
}.

Definition NewDestinationCreateObject (destination : string) : DestinationCreateObject :=
  mkDestinationCreateObject destination None.

Definition SetComment (o : DestinationCreateObject) (c : string) : DestinationCreateObject :=
  mkDestinationCreateObject (CreateDestination o) (Some c).

Record DestinationListObject : Type := mkDestinationListObject {
  ListId : Z;
  ListName : string
}.

(** CreateDestinationList: an entry of the request as Create fills it, and
    the request. *)
Record DestinationListCreateDestinationsInner : Type :=
  mkDestinationListCreateDestinationsInner {
    InnerComment : option string;
    InnerType : option string;
    InnerDestination : string
  }.

Record DestinationListCreate : Type := mkDestinationListCreate {
  Access : string;
  IsGlobal : bool;
  CreateName : string;
  BundleTypeId : option Z;
  Destinations : list DestinationListCreateDestinationsInner
}.

End destinationlists.

Module resconn.

(** A connector agent as the API returns it.  The fields are pointers,
    [None] when nil. *)
Record ConnectorResponse : Type := mkConnectorResponse {
  Id : option Z;
  Hostname : option string;
  InstanceId : option string;
  Status : option string;
  Confirmed : option bool;
  Enabled : option bool
}.

(** PatchConnector: one operation of the request. *)
Record ConnectorPatchReqInner : Type := mkConnectorPatchReqInner {
  Op : option string;
  Path : option string;
  Value : option bool
}.

(** ListConnectors: the value of the reply as processConnectorResponse
    tells it apart by its dynamic type: a *ConnectorListRes, a value of
    another type that has GetTotal() and GetData(), or anything else. *)
Inductive ListConnectorsValue : Type :=
| ConnectorListRes (total : Z) (data : list ConnectorResponse)
| WithTotalAndData (total : Z) (data : list ConnectorResponse)
| OtherValue.

End resconn.

Module reports.

(** An entry of GetIdentities.  Type_ stands for identity.Type.Type, a
    pointer behind a pointer: [None] when one of the two is nil. *)
Record Identity : Type := mkIdentity {
  Id : Z;
  Label : string;
  Type_ : option string
}.

End reports.

(** ** The remote service *)

(** The API operations the handlers invoke, with their arguments. *)
Inductive Call : Type :=
| AddRule (body : rules.AddRuleRequest)
| GetRule (id : Z)
| PutRule (id : Z) (body : rules.PutRuleRequest)
| DeleteRule (id : Z)
| GetPolicySettings
| PutPolicySetting (name : rules.SettingName) (body : rules.SettingsObject)
| AddPrivateResource (body : privateapps.PrivateResourceRequest)
| GetPrivateResource (id : Z)
| PutPrivateResource (id : Z) (body : privateapps.PrivateResourceRequest)
| DeletePrivateResource (id : Z)
| GetNetworkTunnelGroup (id : Z)
| PatchNetworkTunnelGroup (id : Z) (body : list ntg.PatchNetworkTunnelGroupRequestInner)
| DeleteNetworkTunnelGroup (id : Z)
| GetDestinationList (id : Z)
| UpdateDestinationLists (id : Z) (name : string)
| DeleteDestinationList (id : Z)
| GetDestinations (id : Z)
| CreateDestinations (id : Z) (body : list destinationlists.DestinationCreateObject)
| DeleteDestinations (id : Z) (body : list Z)
| GetConnector (id : Z)
| DeleteConnector (id : Z).

(** The type of the value an operation decodes from a successful reply. *)
Definition Payload (c : Call) : Type :=
  match c with
  | AddRule _ | GetRule _ | PutRule _ _ => rules.RuleResponse
  | GetPolicySettings => list rules.SettingsObject
  | AddPrivateResource _ | GetPrivateResource _ | PutPrivateResource _ _ =>
      privateapps.PrivateResourceResponse
  | GetNetworkTunnelGroup _ | PatchNetworkTunnelGroup _ _ =>
      ntg.NetworkTunnelGroupResponse
  | GetDestinationList _ => destinationlists.DestinationListObject
  | GetDestinations _ => list destinationlists.DestinationObject
  | GetConnector _ => resconn.ConnectorResponse
  | DeleteRule _ | PutPolicySetting _ _ | DeletePrivateResource _
  | DeleteNetworkTunnelGroup _ | UpdateDestinationLists _ _
  | DeleteDestinationList _ | CreateDestinations _ _ | DeleteDestinations _ _
  | DeleteConnector _ => unit
  end.

(** The service behind the client: any state, any answer to any call. *)
Class RemoteService (Srv : Type) : Type := {
  Execute : forall c : Call, Srv -> ApiReply (Payload c) * Srv
}.

(** One request and what came back, as the exchange log keeps it. *)
Record Exchange : Type := mkExchange {
  request : Call;
  response : option HttpResponse;
  failed : bool
}.

Definition replyStatus (e : Exchange) : option Z :=
  option_map StatusCode (response e).

Definition isSome {A} (o : option A) : bool :=
  match o with Some _ => true | None => false end.

Definition exchangeOf (c : Call) (r : ApiReply (Payload c)) : Exchange :=
  mkExchange c (httpRes r) (isSome (err r)).

(** Whether an operation changes the remote configuration. *)
Definition isWrite (c : Call) : bool :=
  match c with
  | GetRule _ | GetPolicySettings | GetPrivateResource _
  | GetNetworkTunnelGroup _ | GetDestinationList _ | GetDestinations _
  | GetConnector _ => false
  | _ => true
  end.

(** ** Handlers as programs over a world *)

(** resp.State of a handler response. *)
Inductive TfState (Mdl : Type) : Type :=
| StateUntouched
| StateSet (m : Mdl)
| StateRemoved.
Arguments StateUntouched {Mdl}.
Arguments StateSet {Mdl} m.
Arguments StateRemoved {Mdl}.

Record World (Srv Mdl : Type) : Type := mkWorld {
  remote : Srv;
  exchanges : list Exchange;
  Diagnostics : diag.Diagnostics;
  State : TfState Mdl
}.
Arguments mkWorld {Srv Mdl} remote exchanges Diagnostics State.
Arguments remote {Srv Mdl} w.
Arguments exchanges {Srv Mdl} w.
Arguments Diagnostics {Srv Mdl} w.
Arguments State {Srv Mdl} w.

Inductive Outcome (W A : Type) : Type :=
| Returned (a : A) (w : W)
| Panicked (w : W).
Arguments Returned {W A} a w.
Arguments Panicked {W A} w.

Definition Prog (W A : Type) : Type := W -> Outcome W A.

Definition ret {W A} (a : A) : Prog W A := fun w => Returned a w.

Definition bind {W A B} (m : Prog W A) (k : A -> Prog W B) : Prog W B :=
  fun w => match m w with
           | Returned a w' => k a w'
           | Panicked w' => Panicked w'
           end.

Definition panic {W A} : Prog W A := fun w => Panicked w.

(** *p: the value behind a pointer; a nil pointer panics. *)
Definition deref {W A} (p : option A) : Prog W A :=
  fun w => match p with Some a => Returned a w | None => Panicked w end.

(** A loop that builds one value for every element and dereferences
    pointers of the element on the way: [None] when it finds a nil pointer. *)
Fixpoint collect {A B} (body : A -> option B) (l : list A) : option (list B) :=
  match l with
  | [] => Some []
  | a :: rest =>
      match body a with
      | None => None
      | Some b =>
          match collect body rest with
          | None => None
          | Some bs => Some (b :: bs)
          end
      end
  end.

Notation "x <- m ;; k" := (bind m (fun x => k))
  (at level 61, m at next level, right associativity).
Notation "m ;;; k" := (bind m (fun _ => k))
  (at level 61, right associativity).

Definition finalWorld {W A} (o : Outcome W A) : W :=
  match o with Returned _ w => w | Panicked w => w end.

Definition hasPanicked {W A} (o : Outcome W A) : bool :=
  match o with Returned _ _ => false | Panicked _ => true end.

(** retry-go: what an attempt hands back to retry.Do; a successful attempt
    also leaves the value it assigned to the variables of the caller. *)
Inductive AttemptResult (A : Type) : Type :=
| AttemptOk (a : A)
| AttemptError (msg : string)
| AttemptUnrecoverable (msg : string).
Arguments AttemptOk {A} a.
Arguments AttemptError {A} msg.
Arguments AttemptUnrecoverable {A} msg.

Section Programs.

Context {Srv : Type} {service : RemoteService Srv} {Mdl : Type}.

Local Abbreviation W := (World Srv Mdl).

(** The world a handler starts in: nothing exchanged, empty response. *)
Definition fresh (srv : Srv) : W := mkWorld srv [] [] StateUntouched.

(** Execute() on the client: the service answers and the exchange is logged. *)
(** The world once the service has answered the call [c] with [r]. *)
Definition afterCall (w : W) (c : Call) (r : ApiReply (Payload c)) (srv' : Srv) : W :=
  mkWorld srv' (exchanges w ++ [exchangeOf c r]) (Diagnostics w) (State w).

Definition invoke (c : Call) : Prog W (ApiReply (Payload c)) :=
  fun w =>
    let (r, srv') := Execute c (remote w) in
    Returned r (afterCall w c r srv').

Definition AddError (summary : string) : Prog W unit :=
  fun w => Returned tt (mkWorld (remote w) (exchanges w)
                                (diag.AddError (Diagnostics w) summary) (State w)).

Definition Append (ds : diag.Diagnostics) : Prog W unit :=
  fun w => Returned tt (mkWorld (remote w) (exchanges w)
                                (diag.Append (Diagnostics w) ds) (State w)).

Definition HasError : Prog W bool :=
  fun w => Returned (diag.HasError (Diagnostics w)) w.

(** resp.State.Set of a model whose values carry the types of the schema,
    as every model does that a handler has decoded from a plan or a state or
    has built itself: the conversion reports no diagnostic.  The zero struct
    that a failed State.Get leaves behind holds collections without an
    element type; the models here do not represent it. *)
Definition StateSet_ (m : Mdl) : Prog W diag.Diagnostics :=
  fun w => Returned [] (mkWorld (remote w) (exchanges w) (Diagnostics w) (StateSet m)).

Definition RemoveResource : Prog W unit :=
  fun w => Returned tt (mkWorld (remote w) (exchanges w) (Diagnostics w) StateRemoved).

(** httpRes.Body.Close(), also when deferred: a nil Body panics. *)
Definition Close (body : option BodyReader) : Prog W unit :=
  match body with
  | Some _ => ret tt
  | None => panic
  end.

(** io.ReadAll(httpRes.Body): the bytes read and the read error. *)
Definition ReadAll (body : option BodyReader) : Prog W (string * option string) :=
  match body with
  | Some b => ret (content b, readErr b)
  | None => panic
  end.

(** retry.Do with retry.Attempts(1 + more): an attempt that succeeds or
    fails unrecoverably ends the loop, any other failure is retried until
    the attempts are used up.  The result is the value of the successful
    attempt or the error of retry.Do.  The delay between attempts and the
    cancellation by context are not modelled. *)
Fixpoint retryLoop {A} (more : nat) (attempt : Prog W (AttemptResult A))
    : Prog W (A + string) :=
  r <- attempt ;;
  match r with
  | AttemptOk a => ret (inl a)
  | AttemptUnrecoverable msg => ret (inr msg)
  | AttemptError msg =>
      match more with
      | O => ret (inr msg)
      | S more' => retryLoop more' attempt
      end
  end.

(** fwserver: when the Delete handler returns without an error diagnostic,
    the framework removes the resource from the state. *)
Definition DeleteResource (handler : Prog W unit) : Prog W unit :=
  handler ;;;
  e <- HasError ;;
  if e then ret tt else RemoveResource.

Definition retryDo {A} (attempts : nat) (attempt : Prog W (AttemptResult A))
    : Prog W (A + string) :=
  retryLoop (Nat.pred attempts) attempt.

End Programs.

(** ** terraform-plugin-framework: handler requests *)

Module resource.

(** req.Plan.Get and req.State.Get fill a model and report diagnostics. *)
Record CreateRequest (Mdl : Type) : Type := mkCreateRequest {
  CreatePlan : Mdl;
  CreatePlanDiags : diag.Diagnostics
}.
Arguments mkCreateRequest {Mdl}.
Arguments CreatePlan {Mdl}.
Arguments CreatePlanDiags {Mdl}.

Record ReadRequest (Mdl : Type) : Type := mkReadRequest {
  ReadState : Mdl;
  ReadStateDiags : diag.Diagnostics
}.
Arguments mkReadRequest {Mdl}.
Arguments ReadState {Mdl}.
Arguments ReadStateDiags {Mdl}.

Record UpdateRequest (Mdl : Type) : Type := mkUpdateRequest {
  UpdatePlan : Mdl;
  UpdatePlanDiags : diag.Diagnostics;
  UpdateState : Mdl;
  UpdateStateDiags : diag.Diagnostics
}.
Arguments mkUpdateRequest {Mdl}.
Arguments UpdatePlan {Mdl}.
Arguments UpdatePlanDiags {Mdl}.
Arguments UpdateState {Mdl}.
Arguments UpdateStateDiags {Mdl}.

Record DeleteRequest (Mdl : Type) : Type := mkDeleteRequest {
  DeleteState : Mdl;
  DeleteStateDiags : diag.Diagnostics
}.
Arguments mkDeleteRequest {Mdl}.
Arguments DeleteState {Mdl}.
Arguments DeleteStateDiags {Mdl}.

End resource.

Import types resource.

(** len(l) > 0 *)
Definition nonEmptyList {A} (l : list A) : bool :=
  match l with [] => false | _ => true end.

(** httpRes != nil && httpRes.StatusCode == code *)
Definition statusIs {A} (r : ApiReply A) (code : Z) : bool :=
  match httpRes r with
  | Some h => StatusCode h =? code
  | None => false
  end.

(** ** resource_access_policy.go *)

Module AccessPolicy.

Definition DIRECTORY_USERS_TYPE_ID : Z := 7.
Definition DIRECTORY_USERS : string := "directory_users".
Definition PRIVATE_APPS_SCHEMA : string := "private_apps".
Definition PRIVATE_APPS_TYPE : string := "apps".
Definition NETWORKS : string := "networks".
Definition NETWORKS_TYPE_ID : Z := 40.
Definition PUBLIC_INTERNET_SCHEMA : string := "internet".
Definition PUBLIC_INTERNET_TYPE_ID : Z := 15.

Record accessPolicyResourceModel : Type := mkModel {
  ID : Int64Value;
  Name : StringValue;
  Action : StringValue;
  PrivateResourceIds : SetValue Z;
  DestinationListIds : SetValue Z;
  Description : StringValue;
  Enabled : BoolValue;
  LogLevel : StringValue;
  Priority : Int64Value;
  ClientPostureProfileId : Int64Value;
  SourceIds : SetValue Z;
  SourceTypes : SetValue string;
  PrivateDestinationTypes : SetValue string;
  PublicDestinationTypes : SetValue string;
  TrafficType : StringValue
}.

(** Field assignments of the Go code. *)
Definition setID (m : accessPolicyResourceModel) v : accessPolicyResourceModel :=
  mkModel v (Name m) (Action m) (PrivateResourceIds m) (DestinationListIds m) (Description m) (Enabled m) (LogLevel m) (Priority m) (ClientPostureProfileId m) (SourceIds m) (SourceTypes m) (PrivateDestinationTypes m) (PublicDestinationTypes m) (TrafficType m).

Definition setName (m : accessPolicyResourceModel) v : accessPolicyResourceModel :=
  mkModel (ID m) v (Action m) (PrivateResourceIds m) (DestinationListIds m) (Description m) (Enabled m) (LogLevel m) (Priority m) (ClientPostureProfileId m) (SourceIds m) (SourceTypes m) (PrivateDestinationTypes m) (PublicDestinationTypes m) (TrafficType m).

Definition setAction (m : accessPolicyResourceModel) v : accessPolicyResourceModel :=
  mkModel (ID m) (Name m) v (PrivateResourceIds m) (DestinationListIds m) (Description m) (Enabled m) (LogLevel m) (Priority m) (ClientPostureProfileId m) (SourceIds m) (SourceTypes m) (PrivateDestinationTypes m) (PublicDestinationTypes m) (TrafficType m).

Definition setPrivateResourceIds (m : accessPolicyResourceModel) v : accessPolicyResourceModel :=
  mkModel (ID m) (Name m) (Action m) v (DestinationListIds m) (Description m) (Enabled m) (LogLevel m) (Priority m) (ClientPostureProfileId m) (SourceIds m) (SourceTypes m) (PrivateDestinationTypes m) (PublicDestinationTypes m) (TrafficType m).

Definition setDestinationListIds (m : accessPolicyResourceModel) v : accessPolicyResourceModel :=
  mkModel (ID m) (Name m) (Action m) (PrivateResourceIds m) v (Description m) (Enabled m) (LogLevel m) (Priority m) (ClientPostureProfileId m) (SourceIds m) (SourceTypes m) (PrivateDestinationTypes m) (PublicDestinationTypes m) (TrafficType m).

Definition setDescription (m : accessPolicyResourceModel) v : accessPolicyResourceModel :=
  mkModel (ID m) (Name m) (Action m) (PrivateResourceIds m) (DestinationListIds m) v (Enabled m) (LogLevel m) (Priority m) (ClientPostureProfileId m) (SourceIds m) (SourceTypes m) (PrivateDestinationTypes m) (PublicDestinationTypes m) (TrafficType m).

Definition setEnabled (m : accessPolicyResourceModel) v : accessPolicyResourceModel :=
  mkModel (ID m) (Name m) (Action m) (PrivateResourceIds m) (DestinationListIds m) (Description m) v (LogLevel m) (Priority m) (ClientPostureProfileId m) (SourceIds m) (SourceTypes m) (PrivateDestinationTypes m) (PublicDestinationTypes m) (TrafficType m).

Definition setLogLevel (m : accessPolicyResourceModel) v : accessPolicyResourceModel :=
  mkModel (ID m) (Name m) (Action m) (PrivateResourceIds m) (DestinationListIds m) (Description m) (Enabled m) v (Priority m) (ClientPostureProfileId m) (SourceIds m) (SourceTypes m) (PrivateDestinationTypes m) (PublicDestinationTypes m) (TrafficType m).

Definition setPriority (m : accessPolicyResourceModel) v : accessPolicyResourceModel :=
  mkModel (ID m) (Name m) (Action m) (PrivateResourceIds m) (DestinationListIds m) (Description m) (Enabled m) (LogLevel m) v (ClientPostureProfileId m) (SourceIds m) (SourceTypes m) (PrivateDestinationTypes m) (PublicDestinationTypes m) (TrafficType m).

Definition setClientPostureProfileId (m : accessPolicyResourceModel) v : accessPolicyResourceModel :=
  mkModel (ID m) (Name m) (Action m) (PrivateResourceIds m) (DestinationListIds m) (Description m) (Enabled m) (LogLevel m) (Priority m) v (SourceIds m) (SourceTypes m) (PrivateDestinationTypes m) (PublicDestinationTypes m) (TrafficType m).

Definition setSourceIds (m : accessPolicyResourceModel) v : accessPolicyResourceModel :=
  mkModel (ID m) (Name m) (Action m) (PrivateResourceIds m) (DestinationListIds m) (Description m) (Enabled m) (LogLevel m) (Priority m) (ClientPostureProfileId m) v (SourceTypes m) (PrivateDestinationTypes m) (PublicDestinationTypes m) (TrafficType m).

Definition setSourceTypes (m : accessPolicyResourceModel) v : accessPolicyResourceModel :=
  mkModel (ID m) (Name m) (Action m) (PrivateResourceIds m) (DestinationListIds m) (Description m) (Enabled m) (LogLevel m) (Priority m) (ClientPostureProfileId m) (SourceIds m) v (PrivateDestinationTypes m) (PublicDestinationTypes m) (TrafficType m).

Definition setPrivateDestinationTypes (m : accessPolicyResourceModel) v : accessPolicyResourceModel :=
  mkModel (ID m) (Name m) (Action m) (PrivateResourceIds m) (DestinationListIds m) (Description m) (Enabled m) (LogLevel m) (Priority m) (ClientPostureProfileId m) (SourceIds m) (SourceTypes m) v (PublicDestinationTypes m) (TrafficType m).

Definition setPublicDestinationTypes (m : accessPolicyResourceModel) v : accessPolicyResourceModel :=
  mkModel (ID m) (Name m) (Action m) (PrivateResourceIds m) (DestinationListIds m) (Description m) (Enabled m) (LogLevel m) (Priority m) (ClientPostureProfileId m) (SourceIds m) (SourceTypes m) (PrivateDestinationTypes m) v (TrafficType m).

Definition setTrafficType (m : accessPolicyResourceModel) v : accessPolicyResourceModel :=
  mkModel (ID m) (Name m) (Action m) (PrivateResourceIds m) (DestinationListIds m) (Description m) (Enabled m) (LogLevel m) (Priority m) (ClientPostureProfileId m) (SourceIds m) (SourceTypes m) (PrivateDestinationTypes m) (PublicDestinationTypes m) v.

Definition ValidSourceTypes : list string := [DIRECTORY_USERS; NETWORKS].

Definition ValidPrivateDestinationTypes : list string := [PRIVATE_APPS_SCHEMA].

Definition ValidPublicDestinationTypes : list string := [PUBLIC_INTERNET_SCHEMA].

Definition sourceCondition (name : string) (v : rules.AttributeValue) (op : string)
    : rules.RuleConditionsInner :=
  rules.mkRuleConditionsInner (rules.mkAttributeName None (Some name)) v op.

Definition destinationCondition (name : string) (v : rules.AttributeValue) (op : string)
    : rules.RuleConditionsInner :=
  rules.mkRuleConditionsInner (rules.mkAttributeName (Some name) None) v op.

Definition sourceTypeId (sourceType : string) : list Z :=
  if String.eqb sourceType DIRECTORY_USERS then [DIRECTORY_USERS_TYPE_ID]
  else if String.eqb sourceType NETWORKS then [NETWORKS_TYPE_ID]
  else [].

Definition buildSourceConditions (plan : accessPolicyResourceModel)
    : list rules.RuleConditionsInner :=
  let sourceIds := ElementsAs (SourceIds plan) in
  let conditions :=
    if nonEmptyList sourceIds
    then [sourceCondition "umbrella.source.identity_ids"
            (rules.ArrayOfInt64AsAttributeValue sourceIds) "INTERSECT"]
    else [] in
  let sourceTypeNames := ElementsAs (SourceTypes plan) in
  let sourceTypes := flat_map sourceTypeId sourceTypeNames in
  if nonEmptyList sourceTypes
  then conditions ++ [sourceCondition "umbrella.source.identity_type_ids"
                        (rules.ArrayOfInt64AsAttributeValue sourceTypes) "INTERSECT"]
  else conditions.

Definition privateTypeOf (destinationType : string) : list string :=
  if String.eqb destinationType PRIVATE_APPS_SCHEMA then [PRIVATE_APPS_TYPE] else [].

Definition buildDestinationConditions (plan : accessPolicyResourceModel)
    : list rules.RuleConditionsInner :=
  let privateResourceIds := ElementsAs (PrivateResourceIds plan) in
  let c1 :=
    if nonEmptyList privateResourceIds
    then [destinationCondition "umbrella.destination.private_resource_ids"
            (rules.ArrayOfInt64AsAttributeValue privateResourceIds) "IN"]
    else [] in
  let destinationListIds := ElementsAs (DestinationListIds plan) in
  let c2 :=
    if nonEmptyList destinationListIds
    then c1 ++ [destinationCondition "umbrella.destination.destination_list_ids"
                  (rules.ArrayOfInt64AsAttributeValue destinationListIds) "INTERSECT"]
    else c1 in
  let privateTypeNames := ElementsAs (PrivateDestinationTypes plan) in
  let privateTypes := flat_map privateTypeOf privateTypeNames in
  let c3 :=
    if nonEmptyList privateTypes
    then c2 ++ [destinationCondition "umbrella.destination.private_resource_types"
                  (rules.ArrayOfStringAsAttributeValue privateTypes) "INTERSECT"]
    else c2 in
  let publicTypeNames := ElementsAs (PublicDestinationTypes plan) in
  (* the loop appends one condition at the first "internet" and breaks *)
  if existsb (fun publicType => String.eqb publicType PUBLIC_INTERNET_SCHEMA) publicTypeNames
  then c3 ++ [destinationCondition "umbrella.destination.all"
                (rules.BoolAsAttributeValue true) "="]
  else c3.

Definition buildRuleSettings (plan : accessPolicyResourceModel)
    : list rules.RuleSettingsInner :=
  let logLevelSetting :=
    rules.mkRuleSettingsInner (Some rules.SETTINGNAME_UMBRELLA_LOG_LEVEL)
      (rules.mkSettingValue (Some (ValueString (LogLevel plan))) None None) in
  let settings := [logLevelSetting] in
  let settings :=
    if negb (IsNull (ClientPostureProfileId plan))
    then settings ++
         [rules.mkRuleSettingsInner
            (Some rules.SETTINGNAME_UMBRELLA_POSTURE_PROFILE_ID_CLIENTBASED)
            (rules.mkSettingValue None (Some (ValueInt64 (ClientPostureProfileId plan))) None)]
    else settings in
  settings ++
  [rules.mkRuleSettingsInner (Some rules.SETTINGNAME_UMBRELLA_DEFAULT_TRAFFIC)
     (rules.mkSettingValue (Some (ValueString (TrafficType plan))) None None)].

Definition formatCreateAccessPolicyRequest (plan : accessPolicyResourceModel)
    : rules.AddRuleRequest :=
  let ruleConditionsList := buildSourceConditions plan ++ buildDestinationConditions plan in
  let ruleDefinition :=
    rules.NewAddRuleRequest (ValueString (Name plan)) (ValueString (Action plan))
      ruleConditionsList (buildRuleSettings plan) in
  rules.mkAddRuleRequest
    (rules.RuleName ruleDefinition) (rules.RuleAction ruleDefinition)
    (rules.RuleConditions ruleDefinition) (rules.RuleSettings ruleDefinition)
    (Some (ValueString (Description plan)))
    (Some (ValueBool (Enabled plan)))
    (if negb (ValueInt64 (Priority plan) =? 0)
     then Some (ValueInt64 (Priority plan))
     else rules.RulePriority ruleDefinition).

(** Utility functions for string/int64 conversion. *)
Definition atoi64 (a : string) : Z :=
  let (i, ok) := ParseInt a in
  if ok then i else 0.

(** hasChanges checks if there are any changes between plan and state. *)
Definition hasChanges (plan state : accessPolicyResourceModel) : bool :=
  negb (StringEqual (Name plan) (Name state)) ||
  negb (StringEqual (Description plan) (Description state)) ||
  negb (BoolEqual (Enabled plan) (Enabled state)) ||
  negb (Int64Equal (Priority plan) (Priority state)) ||
  negb (SetEqual Z.eqb (SourceIds plan) (SourceIds state)) ||
  negb (SetEqual String.eqb (SourceTypes plan) (SourceTypes state)) ||
  negb (SetEqual String.eqb (PrivateDestinationTypes plan) (PrivateDestinationTypes state)) ||
  negb (SetEqual String.eqb (PublicDestinationTypes plan) (PublicDestinationTypes state)) ||
  negb (SetEqual Z.eqb (PrivateResourceIds plan) (PrivateResourceIds state)) ||
  negb (SetEqual Z.eqb (DestinationListIds plan) (DestinationListIds state)) ||
  negb (StringEqual (LogLevel plan) (LogLevel state)) ||
  negb (Int64Equal (ClientPostureProfileId plan) (ClientPostureProfileId state)) ||
  negb (StringEqual (TrafficType plan) (TrafficType state)).

(** The body of the loop over readResp.RuleConditions in Read; [None] when
    the value array of a types condition is nil and the range panics. *)
Definition readCondition (state : accessPolicyResourceModel)
    (condition : rules.RuleConditionsInner) : option accessPolicyResourceModel :=
  let name := rules.AttributeName_ condition in
  let val := rules.AttributeValue_ condition in
  match rules.AttributeNameDestination name, rules.AttributeNameSource name with
  | Some dest, _ =>
      if String.eqb dest "umbrella.destination.private_resource_ids" then
        Some (setPrivateResourceIds state (ValueFrom (rules.ArrayOfInt64 val)))
      else if String.eqb dest "umbrella.destination.destination_list_ids" then
        Some (setDestinationListIds state (ValueFrom (rules.ArrayOfInt64 val)))
      else if String.eqb dest "umbrella.destination.private_resource_types" then
        match rules.ArrayOfString val with
        | None => None
        | Some typeIds =>
            let typeNames :=
              flat_map (fun typeId => if String.eqb typeId PRIVATE_APPS_TYPE
                                      then [PRIVATE_APPS_SCHEMA] else []) typeIds in
            Some (setPrivateDestinationTypes state (ValueFrom (appended typeNames)))
        end
      else if String.eqb dest "umbrella.destination.all" then
        match rules.AVBool val with
        | Some true => Some (setPublicDestinationTypes state (Known [PUBLIC_INTERNET_SCHEMA]))
        | _ => Some state
        end
      else Some state
  | None, Some src =>
      if String.eqb src "umbrella.source.identity_type_ids" then
        match rules.ArrayOfInt64 val with
        | None => None
        | Some typeIds =>
            let typeNames :=
              flat_map (fun typeId => if typeId =? DIRECTORY_USERS_TYPE_ID then [DIRECTORY_USERS]
                                      else if typeId =? NETWORKS_TYPE_ID then [NETWORKS]
                                      else []) typeIds in
            Some (setSourceTypes state (ValueFrom (appended typeNames)))
        end
      else if String.eqb src "umbrella.source.identity_ids" then
        Some (setSourceIds state (ValueFrom (rules.ArrayOfInt64 val)))
      else Some state
  | None, None => Some state
  end.

Fixpoint readConditions (state : accessPolicyResourceModel)
    (conditions : list rules.RuleConditionsInner) : option accessPolicyResourceModel :=
  match conditions with
  | [] => Some state
  | condition :: rest =>
      match readCondition state condition with
      | Some state' => readConditions state' rest
      | None => None
      end
  end.

(** The body of the loop over readResp.RuleSettings in Read. *)
Definition readSetting (state : accessPolicyResourceModel)
    (setting : rules.RuleSettingsInner) : accessPolicyResourceModel :=
  let val := rules.SettingValue_ setting in
  match rules.SettingName_ setting with
  | Some rules.SETTINGNAME_UMBRELLA_LOG_LEVEL =>
      match rules.SVString val with
      | Some s => setLogLevel state (Known s)
      | None => state
      end
  | Some rules.SETTINGNAME_UMBRELLA_POSTURE_PROFILE_ID_CLIENTBASED =>
      match rules.SVInt64 val with
      | Some i => setClientPostureProfileId state (Known i)
      | None => state
      end
  | Some rules.SETTINGNAME_UMBRELLA_DEFAULT_TRAFFIC =>
      match rules.SVString val with
      | Some s => setTrafficType state (Known s)
      | None => state
      end
  | _ => state
  end.

(** The plan agrees with the state on the fields hasChanges compares:
    each pair is Equal in the sense of the framework. *)
Definition agreesWith (plan state : accessPolicyResourceModel) : Prop :=
  StringEqual (Name plan) (Name state) = true /\
  StringEqual (Description plan) (Description state) = true /\
  BoolEqual (Enabled plan) (Enabled state) = true /\
  Int64Equal (Priority plan) (Priority state) = true /\
  SetEqual Z.eqb (SourceIds plan) (SourceIds state) = true /\
  SetEqual String.eqb (SourceTypes plan) (SourceTypes state) = true /\
  SetEqual String.eqb (PrivateDestinationTypes plan) (PrivateDestinationTypes state) = true /\
  SetEqual String.eqb (PublicDestinationTypes plan) (PublicDestinationTypes state) = true /\
  SetEqual Z.eqb (PrivateResourceIds plan) (PrivateResourceIds state) = true /\
  SetEqual Z.eqb (DestinationListIds plan) (DestinationListIds state) = true /\
  StringEqual (LogLevel plan) (LogLevel state) = true /\
  Int64Equal (ClientPostureProfileId plan) (ClientPostureProfileId state) = true /\
  StringEqual (TrafficType plan) (TrafficType state) = true.

Section Handlers.

Context {Srv : Type} {service : RemoteService Srv}.

Local Abbreviation W := (World Srv accessPolicyResourceModel).

(** The function retried by retry.Do in Create. *)
Definition createAttempt (ruleDefinition : rules.AddRuleRequest)
    (plan : accessPolicyResourceModel) : Prog W (AttemptResult unit) :=
  r <- invoke (AddRule ruleDefinition) ;;
  match httpRes r with Some h => Close (Body h) | None => ret tt end ;;;
  match err r with
  | Some e =>
      match httpRes r with
      | Some h =>
          read <- ReadAll (Body h) ;;
          let bodyStr := fst read in
          if (StatusCode h =? 400) &&
             Contains bodyStr "invalid data passed. the ID's provided for"
             || (StatusCode h =? 409)
          then ret (AttemptError "retryable error")
          else
            AddError "Error creating access policy" ;;;
            ret (AttemptUnrecoverable e)
      | None =>
          AddError "Error creating access policy" ;;;
          ret (AttemptUnrecoverable e)
      end
  | None =>
      let priority := match value r with Some c => rules.GetRulePriority c | None => 0 end in
      let id := match value r with Some c => rules.GetRuleId c | None => 0 end in
      let plan := setID (setPriority plan (Known priority)) (Known id) in
      diags <- StateSet_ plan ;;
      Append diags ;;;
      e <- HasError ;;
      if e then ret (AttemptUnrecoverable "failed to set state") else ret (AttemptOk tt)
  end.

(** Create creates the resource and sets the initial Terraform state. *)
Definition Create (req : CreateRequest accessPolicyResourceModel) : Prog W unit :=
  let plan := CreatePlan req in
  Append (CreatePlanDiags req) ;;;
  e <- HasError ;;
  if e then ret tt else
  let ruleDefinition := formatCreateAccessPolicyRequest plan in
  err <- retryDo 6 (createAttempt ruleDefinition plan) ;;
  match err with
  | inr _ =>
      e <- HasError ;;
      if negb e then AddError "Error creating access policy" else ret tt
  | inl _ => ret tt
  end.

Definition Read (req : ReadRequest accessPolicyResourceModel) : Prog W unit :=
  let state := ReadState req in
  let diags := ReadStateDiags req in
  e <- HasError ;;
  if e then Append diags else
  let resourceId := ValueInt64 (ID state) in
  r <- invoke (GetRule resourceId) ;;
  if statusIs r 404 then RemoveResource
  else match err r with
  | Some _ => AddError "Error reading access policy"
  | None =>
      match value r with
      | None => panic
      | Some readResp =>
          match readConditions state (rules.RespRuleConditions readResp) with
          | None => panic
          | Some state =>
              let state := fold_left readSetting (rules.RespRuleSettings readResp) state in
              let state := setName state (Known (rules.GetRuleName readResp)) in
              ruleAction <- deref (rules.RespRuleAction readResp) ;;
              let state := setAction state (Known ruleAction) in
              let state := setDescription state (Known (rules.GetRuleDescription readResp)) in
              let state := setEnabled state (Known (rules.GetRuleIsEnabled readResp)) in
              let state := setPriority state (Known (rules.GetRulePriority readResp)) in
              diags <- StateSet_ state ;;
              Append diags
          end
      end
  end.

(** Update updates the resource and sets the updated Terraform state on success. *)
Definition Update (req : UpdateRequest accessPolicyResourceModel) : Prog W unit :=
  let plan := UpdatePlan req in
  let state := UpdateState req in
  Append (UpdatePlanDiags req) ;;;
  e <- HasError ;;
  if e then ret tt else
  Append (UpdateStateDiags req) ;;;
  e <- HasError ;;
  if e then ret tt else
  let setState := (diags <- StateSet_ plan ;; Append diags) in
  if hasChanges plan state then
    let baseline := formatCreateAccessPolicyRequest plan in
    match rules.RulePriority baseline with
    | None => panic
    | Some priority =>
        let payload :=
          rules.NewPutRuleRequest (rules.RuleName baseline) (rules.RuleAction baseline)
            priority (rules.RuleConditions baseline) (rules.RuleSettings baseline) in
        r <- invoke (PutRule (ValueInt64 (ID plan)) payload) ;;
        match err r with
        | Some _ => AddError "Error updating access policy"
        | None => setState
        end
    end
  else setState.

(** The function retried by retry.Do in Delete. *)
Definition deleteAttempt (state : accessPolicyResourceModel) : Prog W (AttemptResult unit) :=
  r <- invoke (DeleteRule (ValueInt64 (ID state))) ;;
  if statusIs r 404 then ret (AttemptOk tt)
  else if isSome (err r) && statusIs r 409 then
    ret (AttemptError "conflict deleting access policy")
  else match err r with
  | Some _ => ret (AttemptUnrecoverable "failed to delete access policy")
  | None => ret (AttemptOk tt)
  end.

(** Delete deletes the resource and removes the Terraform state on success. *)
Definition Delete (req : DeleteRequest accessPolicyResourceModel) : Prog W unit :=
  let state := DeleteState req in
  Append (DeleteStateDiags req) ;;;
  e <- HasError ;;
  if e then ret tt else
  err <- retryDo 3 (deleteAttempt state) ;;
  match err with
  | inr _ => AddError "Error deleting access policy"
  | inl _ => ret tt
  end.

End Handlers.

End AccessPolicy.

(** ** resource_private_resource.go *)

Module PrivateResource.

Definition accessTypeClient : string := "client".
Definition accessTypeNetwork : string := "network".

Definition privateResourceHTTPNotFound : Z := 404.
Definition privateResourceHTTPConflict : Z := 409.
Definition privateResourceHTTPTooManyReqs : Z := 429.

Definition retryMaxAttempts : nat := 3.

(** trafficSelectorModel represents protocol and port configuration. *)
Record trafficSelectorModel : Type := mkTrafficSelector {
  Ports : StringValue;
  Protocol : StringValue
}.

(** addressTypesModel represents address configuration for private resources. *)
Record addressTypesModel : Type := mkAddressTypes {
  AddressList : SetValue string;
  TrafficSelector : SetValue trafficSelectorModel
}.

Record privateResourceResourceModel : Type := mkModel {
  ID : StringValue;
  Name : StringValue;
  AccessTypes : SetValue string;
  Addresses : SetValue addressTypesModel;
  Description : StringValue;
  ClientReachableAddresses : SetValue string;
  CertificateID : Int64Value
}.

Definition setID (m : privateResourceResourceModel) v : privateResourceResourceModel :=
  mkModel v (Name m) (AccessTypes m) (Addresses m) (Description m) (ClientReachableAddresses m) (CertificateID m).

Definition setName (m : privateResourceResourceModel) v : privateResourceResourceModel :=
  mkModel (ID m) v (AccessTypes m) (Addresses m) (Description m) (ClientReachableAddresses m) (CertificateID m).

Definition setAccessTypes (m : privateResourceResourceModel) v : privateResourceResourceModel :=
  mkModel (ID m) (Name m) v (Addresses m) (Description m) (ClientReachableAddresses m) (CertificateID m).

Definition setAddresses (m : privateResourceResourceModel) v : privateResourceResourceModel :=
  mkModel (ID m) (Name m) (AccessTypes m) v (Description m) (ClientReachableAddresses m) (CertificateID m).

Definition setDescription (m : privateResourceResourceModel) v : privateResourceResourceModel :=
  mkModel (ID m) (Name m) (AccessTypes m) (Addresses m) v (ClientReachableAddresses m) (CertificateID m).

Definition setClientReachableAddresses (m : privateResourceResourceModel) v : privateResourceResourceModel :=
  mkModel (ID m) (Name m) (AccessTypes m) (Addresses m) (Description m) v (CertificateID m).

Definition setCertificateID (m : privateResourceResourceModel) v : privateResourceResourceModel :=
  mkModel (ID m) (Name m) (AccessTypes m) (Addresses m) (Description m) (ClientReachableAddresses m) v.

(** Equal of the object values nested in the sets. *)
Definition trafficSelectorEqual (a b : trafficSelectorModel) : bool :=
  StringEqual (Ports a) (Ports b) && StringEqual (Protocol a) (Protocol b).

Definition addressTypesEqual (a b : addressTypesModel) : bool :=
  SetEqual String.eqb (AddressList a) (AddressList b) &&
  SetEqual trafficSelectorEqual (TrafficSelector a) (TrafficSelector b).

(** hasResourceChanges checks if the resource has any changes that require
    an update. *)
Definition hasResourceChanges (plan state : privateResourceResourceModel) : bool :=
  negb (StringEqual (Name plan) (Name state)) ||
  negb (StringEqual (Description plan) (Description state)) ||
  negb (SetEqual String.eqb (AccessTypes plan) (AccessTypes state)) ||
  negb (SetEqual addressTypesEqual (Addresses plan) (Addresses state)) ||
  negb (Int64Equal (CertificateID plan) (CertificateID state)).

(** parseAccessTypes extracts and converts access types from the plan. *)
Definition parseAccessTypes (plan : privateResourceResourceModel)
    : list privateapps.AccessTypesRequestInner * diag.Diagnostics :=
  let accessTypes := ElementsAs (AccessTypes plan) in
  (map (fun accessType =>
          if String.eqb accessType accessTypeNetwork then
            privateapps.mkAccessTypesRequestInner
              (Some (privateapps.mkNetworkBasedAccess accessTypeNetwork)) None
          else if String.eqb accessType accessTypeClient then
            let addresses := ElementsAs (ClientReachableAddresses plan) in
            privateapps.mkAccessTypesRequestInner None
              (Some (privateapps.mkClientBasedAccess accessTypeClient addresses))
          else privateapps.mkAccessTypesRequestInner None None)
       accessTypes, []).

(** processReadAddresses converts API address response to internal model. *)
Definition processReadAddresses (apiAddresses : list privateapps.ResourceAddressesInner)
    : list addressTypesModel * diag.Diagnostics :=
  (map (fun resourceAddress =>
          let protocolPortsInner :=
            map (fun pp => mkTrafficSelector (Known (privateapps.Ports pp))
                                             (Known (privateapps.Protocol pp)))
                (privateapps.ProtocolPorts resourceAddress) in
          mkAddressTypes
            (ValueFrom (privateapps.DestinationAddr resourceAddress))
            (ValueFrom (Some protocolPortsInner)))
       apiAddresses, []).

Definition isNil (a : Any) : bool :=
  match a with AnyNil => true | _ => false end.

(** The body of the loop over the access types in processReadAccessTypes:
    the flag clientTypeMissing and the state after one element. *)
Definition readAccessType (acc : bool * privateResourceResourceModel) (access : Any)
    : bool * privateResourceResourceModel :=
  let (clientTypeMissing, state) := acc in
  match access with
  | AnyMap accessMap =>
      match mapIndex accessMap "ClientBasedAccess" with
      | Some clientAccess =>
          if isNil clientAccess then acc
          else
            (false,
             match clientAccess with
             | AnyMap clientMap =>
                 match mapIndex clientMap "ReachableAddresses" with
                 | Some (AnySlice addressSlice) =>
                     let stringAddresses :=
                       map (fun addr => match addr with AnyString s => s | _ => EmptyString end)
                           addressSlice in
                     setClientReachableAddresses state (ValueFrom (Some stringAddresses))
                 | _ => state
                 end
             | _ => state
             end)
      | None => acc
      end
  | _ => acc
  end.

(** processReadAccessTypes processes access types from API response and
    updates state. *)
Definition processReadAccessTypes (apiAccessTypes : Any)
    (state : privateResourceResourceModel)
    : privateResourceResourceModel * diag.Diagnostics :=
  let (clientTypeMissing, state) :=
    match apiAccessTypes with
    | AnySlice accessTypes => fold_left readAccessType accessTypes (true, state)
    | _ => (true, state)
    end in
  (if clientTypeMissing then setClientReachableAddresses state Null else state, []).

(** The plan agrees with the state on the fields hasResourceChanges
    compares: each pair is Equal in the sense of the framework. *)
Definition agreesWith (plan state : privateResourceResourceModel) : Prop :=
  StringEqual (Name plan) (Name state) = true /\
  StringEqual (Description plan) (Description state) = true /\
  SetEqual String.eqb (AccessTypes plan) (AccessTypes state) = true /\
  SetEqual addressTypesEqual (Addresses plan) (Addresses state) = true /\
  Int64Equal (CertificateID plan) (CertificateID state) = true.

Section Handlers.

Context {Srv : Type} {service : RemoteService Srv}.

(** privateapps.ProtocolClientToResource of the client library. *)
Variable ProtocolClientToResource : string -> string.

Local Abbreviation W := (World Srv privateResourceResourceModel).

(** parseTrafficSelectors extracts and converts traffic selector
    configurations. *)
Definition parseTrafficSelectors (addressConfig : addressTypesModel)
    : list privateapps.ProtocolPortsInner * diag.Diagnostics :=
  let protocolPortsList := ElementsAs (TrafficSelector addressConfig) in
  (map (fun selector =>
          privateapps.mkProtocolPortsInner
            (ProtocolClientToResource (ValueString (Protocol selector)))
            (ValueString (Ports selector)))
       protocolPortsList, []).

(** parseAddresses extracts and converts address configurations from the
    plan; the loop stops at the first entry whose selectors report an error. *)
Fixpoint parseAddressList (addressList : list addressTypesModel)
    : option (list privateapps.ResourceAddressesInner) * diag.Diagnostics :=
  match addressList with
  | [] => (Some [], [])
  | addressConfig :: rest =>
      let (protocolPortsInner, trafficDiags) := parseTrafficSelectors addressConfig in
      if diag.HasError trafficDiags then (None, trafficDiags)
      else
        let ips := ElementsAsSlice (AddressList addressConfig) in
        match parseAddressList rest with
        | (Some inner, diags) =>
            (Some (privateapps.mkResourceAddressesInner ips protocolPortsInner :: inner), diags)
        | (None, diags) => (None, diags)
        end
  end.

Definition parseAddresses (plan : privateResourceResourceModel)
    : option (list privateapps.ResourceAddressesInner) * diag.Diagnostics :=
  parseAddressList (ElementsAs (Addresses plan)).

(** formatCreatePrivateResourceRequest converts the Terraform plan into an
    API request. *)
Definition formatCreatePrivateResourceRequest (plan : privateResourceResourceModel)
    : option privateapps.PrivateResourceRequest * diag.Diagnostics :=
  let (accessTypesInner, accessDiags) := parseAccessTypes plan in
  if diag.HasError accessDiags then (None, accessDiags)
  else
    match parseAddresses plan with
    | (None, addressDiags) => (None, addressDiags)
    | (Some addressesInner, addressDiags) =>
        if diag.HasError addressDiags then (None, addressDiags)
        else
          let request :=
            privateapps.NewPrivateResourceRequest (ValueString (Name plan))
              accessTypesInner addressesInner in
          (Some (privateapps.mkPrivateResourceRequest
                   (privateapps.Name request) (privateapps.AccessTypes request)
                   (privateapps.ResourceAddresses request)
                   (Some (ValueString (Description plan)))
                   (if negb (IsNull (CertificateID plan))
                    then Some (ValueInt64 (CertificateID plan))
                    else privateapps.CertificateId request)), [])
    end.

(** The function retried by retry.Do in createPrivateResourceWithRetry. *)
Definition createAttempt (resourceDefinition : privateapps.PrivateResourceRequest)
    : Prog W (AttemptResult (option privateapps.PrivateResourceResponse)) :=
  r <- invoke (AddPrivateResource resourceDefinition) ;;
  match err r with
  | Some e =>
      match httpRes r with
      | None => panic
      | Some h =>
          _ <- ReadAll (Body h) ;;
          let statusCode := StatusCode h in
          if (statusCode =? privateResourceHTTPConflict) ||
             (statusCode =? privateResourceHTTPTooManyReqs)
          then ret (AttemptError "retryable error")
          else ret (AttemptUnrecoverable e)
      end
  | None => ret (AttemptOk (value r))
  end.

(** createPrivateResourceWithRetry creates a private resource with retry
    logic for handling conflicts. *)
Definition createPrivateResourceWithRetry
    (resourceDefinition : privateapps.PrivateResourceRequest)
    : Prog W (option privateapps.PrivateResourceResponse + string) :=
  retryDo retryMaxAttempts (createAttempt resourceDefinition).

(** Create creates the resource and sets the initial Terraform state. *)
Definition Create (req : CreateRequest privateResourceResourceModel) : Prog W unit :=
  let plan := CreatePlan req in
  Append (CreatePlanDiags req) ;;;
  e <- HasError ;;
  if e then ret tt else
  match formatCreatePrivateResourceRequest plan with
  | (None, diags) => Append diags
  | (Some resourceDefinition, diags) =>
      if diag.HasError diags then Append diags
      else
        created <- createPrivateResourceWithRetry resourceDefinition ;;
        match created with
        | inr _ => AddError "Error creating private resource"
        | inl createResp =>
            let resourceID :=
              match createResp with
              | Some c => privateapps.GetResourceId c
              | None => 0
              end in
            let plan := setID plan (Known (Itoa resourceID)) in
            diags <- StateSet_ plan ;;
            Append diags
        end
  end.

Definition Read (req : ReadRequest privateResourceResourceModel) : Prog W unit :=
  let state := ReadState req in
  Append (ReadStateDiags req) ;;;
  e <- HasError ;;
  if e then ret tt else
  let policyId := fst (Atoi (ValueString (ID state))) in
  r <- invoke (GetPrivateResource policyId) ;;
  match httpRes r with
  | None => panic
  | Some h =>
      match err r with
      | Some _ =>
          if StatusCode h =? privateResourceHTTPNotFound then RemoveResource
          else AddError "Error reading private resource"
      | None =>
          match value r with
          | None => panic
          | Some readResp =>
              name <- deref (privateapps.RespName readResp) ;;
              let state := setName state (Known name) in
              description <- deref (privateapps.RespDescription readResp) ;;
              let state := setDescription state (Known description) in
              let (addressUpdates, addressDiags) :=
                processReadAddresses (privateapps.RespResourceAddresses readResp) in
              if diag.HasError addressDiags then Append addressDiags
              else
                let (state, accessTypesDiags) :=
                  processReadAccessTypes (privateapps.RespAccessTypes readResp) state in
                if diag.HasError accessTypesDiags then Append accessTypesDiags
                else
                  let state := setAddresses state (ValueFrom (appended addressUpdates)) in
                  diags <- StateSet_ state ;;
                  Append diags
          end
      end
  end.

(** updatePrivateResource performs the actual resource update. *)
Definition updatePrivateResource (plan : privateResourceResourceModel)
    : Prog W (option string) :=
  match formatCreatePrivateResourceRequest plan with
  | (Some baseline, diags) =>
      if diag.HasError diags
      then Append diags ;;; ret (Some "failed to format update request")
      else
        let payload :=
          privateapps.NewPrivateResourceRequest (privateapps.Name baseline)
            (privateapps.AccessTypes baseline) (privateapps.ResourceAddresses baseline) in
        let payload :=
          privateapps.mkPrivateResourceRequest
            (privateapps.Name payload) (privateapps.AccessTypes payload)
            (privateapps.ResourceAddresses payload)
            (privateapps.Description baseline)
            (match privateapps.CertificateId baseline with
             | Some c => Some c
             | None => privateapps.CertificateId payload
             end) in
        let id := fst (Atoi (ValueString (ID plan))) in
        r <- invoke (PutPrivateResource id payload) ;;
        match err r with
        | Some _ => ret (Some "API call failed")
        | None => ret None
        end
  | (None, diags) => Append diags ;;; ret (Some "failed to format update request")
  end.

Definition Update (req : UpdateRequest privateResourceResourceModel) : Prog W unit :=
  let plan := UpdatePlan req in
  let state := UpdateState req in
  Append (UpdatePlanDiags req) ;;;
  Append (UpdateStateDiags req) ;;;
  e <- HasError ;;
  if e then ret tt else
  let setState := (diags <- StateSet_ plan ;; Append diags) in
  if hasResourceChanges plan state then
    err <- updatePrivateResource plan ;;
    match err with
    | Some _ => AddError "Error updating private resource"
    | None => setState
    end
  else setState.

(** Delete deletes the resource and removes the Terraform state on success. *)
Definition Delete (req : DeleteRequest privateResourceResourceModel) : Prog W unit :=
  let state := DeleteState req in
  Append (DeleteStateDiags req) ;;;
  e <- HasError ;;
  if e then ret tt else
  let id := fst (Atoi (ValueString (ID state))) in
  r <- invoke (DeletePrivateResource id) ;;
  match httpRes r with
  | None => panic
  | Some h =>
      if StatusCode h =? privateResourceHTTPNotFound then ret tt
      else match err r with
      | Some _ => AddError "Error deleting private resource"
      | None => ret tt
      end
  end.

End Handlers.

End PrivateResource.

(** ** resource_ntg.go *)

Module Ntg.

Record datacenterModel : Type := mkDatacenter {
  DatacenterName : StringValue;
  IP : StringValue
}.

Record hubModel : Type := mkHubModel {
  HubId : Int64Value;
  Datacenter : datacenterModel;
  AuthID : StringValue;
  IsPrimary : BoolValue
}.

(** ntgResourceModel maps the data schema data. *)
Record ntgResourceModel : Type := mkModel {
  Id : Int64Value;
  NetworkCidrs : list StringValue;
  Name : StringValue;
  Region : StringValue;
  IdentifierPrefix : StringValue;
  PresharedKey : StringValue;
  DeviceType : StringValue;
  Hubs : ListValue hubModel
}.

Definition setId (m : ntgResourceModel) v : ntgResourceModel :=
  mkModel v (NetworkCidrs m) (Name m) (Region m) (IdentifierPrefix m) (PresharedKey m) (DeviceType m) (Hubs m).

Definition setNetworkCidrs (m : ntgResourceModel) v : ntgResourceModel :=
  mkModel (Id m) v (Name m) (Region m) (IdentifierPrefix m) (PresharedKey m) (DeviceType m) (Hubs m).

Definition setName (m : ntgResourceModel) v : ntgResourceModel :=
  mkModel (Id m) (NetworkCidrs m) v (Region m) (IdentifierPrefix m) (PresharedKey m) (DeviceType m) (Hubs m).

Definition setRegion (m : ntgResourceModel) v : ntgResourceModel :=
  mkModel (Id m) (NetworkCidrs m) (Name m) v (IdentifierPrefix m) (PresharedKey m) (DeviceType m) (Hubs m).

Definition setIdentifierPrefix (m : ntgResourceModel) v : ntgResourceModel :=
  mkModel (Id m) (NetworkCidrs m) (Name m) (Region m) v (PresharedKey m) (DeviceType m) (Hubs m).

Definition setPresharedKey (m : ntgResourceModel) v : ntgResourceModel :=
  mkModel (Id m) (NetworkCidrs m) (Name m) (Region m) (IdentifierPrefix m) v (DeviceType m) (Hubs m).

Definition setDeviceType (m : ntgResourceModel) v : ntgResourceModel :=
  mkModel (Id m) (NetworkCidrs m) (Name m) (Region m) (IdentifierPrefix m) (PresharedKey m) v (Hubs m).

Definition setHubs (m : ntgResourceModel) v : ntgResourceModel :=
  mkModel (Id m) (NetworkCidrs m) (Name m) (Region m) (IdentifierPrefix m) (PresharedKey m) (DeviceType m) v.

(** The inner loop of compareStringSlicesAsSets: is [test] found in [b]? *)
Fixpoint foundIn (test : StringValue) (b : list StringValue) : bool :=
  match b with
  | [] => false
  | compare :: rest => if StringEqual test compare then true else foundIn test rest
  end.

(** The outer loop: check if every element in 'a' exists in 'b'. *)
Fixpoint everyFound (a b : list StringValue) : bool :=
  match a with
  | [] => true
  | test :: rest => if negb (foundIn test b) then false else everyFound rest b
  end.

Definition compareStringSlicesAsSets (a b : list StringValue) : bool :=
  if negb (List.length a =? List.length b)%nat then false
  else everyFound a b.

(** convertNetworkCidrsToStrings converts terraform string values to string slice. *)
Definition convertNetworkCidrsToStrings (cidrs : list StringValue) : list string :=
  map ValueString cidrs.

(** convertStringsToNetworkCidrs converts string slice to terraform string values. *)
Definition convertStringsToNetworkCidrs (cidrs : list string) : list StringValue :=
  map (fun cidr => Known cidr) cidrs.

(** The patch operations Update collects before it calls the API. *)
Definition patchesFor (plan state : ntgResourceModel)
    : list ntg.PatchNetworkTunnelGroupRequestInner :=
  let patchInners := [] in
  let patchInners :=
    if negb (StringEqual (Name plan) (Name state))
    then patchInners ++
         [ntg.NewPatchNetworkTunnelGroupRequestInner "replace" "/name"
            (ntg.StringAsPatchNetworkTunnelGroupRequestInnerValue (ValueString (Name plan)))]
    else patchInners in
  let patchInners :=
    if negb (StringEqual (PresharedKey plan) (PresharedKey state))
    then patchInners ++
         [ntg.NewPatchNetworkTunnelGroupRequestInner "replace" "/passphrase"
            (ntg.StringAsPatchNetworkTunnelGroupRequestInnerValue
               (ValueString (PresharedKey plan)))]
    else patchInners in
  if negb (compareStringSlicesAsSets (NetworkCidrs state) (NetworkCidrs plan))
  then patchInners ++
       [ntg.NewPatchNetworkTunnelGroupRequestInner "replace" "/routing"
          (ntg.RoutingRequestAsPatchNetworkTunnelGroupRequestInnerValue "static"
             (convertNetworkCidrsToStrings (NetworkCidrs plan)))]
  else patchInners.

(** Convert API hubs to terraform models: the body of the loop over the
    hubs, [None] when one of the pointers it dereferences is nil. *)
Definition hubInstance (hub : ntg.Hub) : option hubModel :=
  match ntg.DatacenterName hub, ntg.DatacenterIp hub, ntg.HubId hub,
        ntg.AuthId hub, ntg.IsPrimary hub with
  | Some name, Some ip, Some id, Some authId, Some isPrimary =>
      Some (mkHubModel (Known id) (mkDatacenter (Known name) (Known ip))
              (Known authId) (Known isPrimary))
  | _, _, _, _, _ => None
  end.

Section Handlers.

Context {Srv : Type} {service : RemoteService Srv}.

Local Abbreviation W := (World Srv ntgResourceModel).

Definition Read (req : ReadRequest ntgResourceModel) : Prog W unit :=
  let state := ReadState req in
  Append (ReadStateDiags req) ;;;
  e <- HasError ;;
  if e then ret tt else
  let tunnelId := ValueInt64 (Id state) in
  r <- invoke (GetNetworkTunnelGroup tunnelId) ;;
  if statusIs r 404 then RemoveResource
  else match err r with
  | Some _ => AddError "Error reading network tunnel group"
  | None =>
      match value r with
      | None => panic
      | Some readResp =>
          name <- deref (ntg.Name readResp) ;;
          let state := setName state (Known name) in
          region <- deref (ntg.Region readResp) ;;
          let state := setRegion state (Known region) in
          networkCIDRs <- deref (ntg.NetworkCIDRs readResp) ;;
          let state := setNetworkCidrs state (convertStringsToNetworkCidrs networkCIDRs) in
          deviceType <- deref (ntg.DeviceType readResp) ;;
          let state := setDeviceType state (Known deviceType) in
          hubs <- deref (collect hubInstance (ntg.Hubs readResp)) ;;
          let state := setHubs state (ValueFrom (appended hubs)) in
          diags <- StateSet_ state ;;
          Append diags
      end
  end.

(** Update updates the resource and sets the updated Terraform state on success. *)
Definition Update (req : UpdateRequest ntgResourceModel) : Prog W unit :=
  let plan := UpdatePlan req in
  let state := UpdateState req in
  Append (UpdatePlanDiags req) ;;;
  e <- HasError ;;
  if e then ret tt else
  Append (UpdateStateDiags req) ;;;
  e <- HasError ;;
  if e then ret tt else
  let tunnelId := ValueInt64 (Id plan) in
  let patchInners := patchesFor plan state in
  let setState :=
    (let state := setName state (Name plan) in
     let state := setNetworkCidrs state (NetworkCidrs plan) in
     let state := setPresharedKey state (PresharedKey plan) in
     diags <- StateSet_ state ;;
     Append diags) in
  if nonEmptyList patchInners then
    r <- invoke (PatchNetworkTunnelGroup tunnelId patchInners) ;;
    match err r with
    | Some _ => AddError "Error updating network tunnel group"
    | None => setState
    end
  else setState.

(** Delete deletes the resource and removes the Terraform state on success. *)
Definition Delete (req : DeleteRequest ntgResourceModel) : Prog W unit :=
  let state := DeleteState req in
  Append (DeleteStateDiags req) ;;;
  e <- HasError ;;
  if e then ret tt else
  let tunnelId := ValueInt64 (Id state) in
  r <- invoke (DeleteNetworkTunnelGroup tunnelId) ;;
  if statusIs r 404 then ret tt
  else match err r with
  | Some _ => AddError "Error deleting network tunnel group"
  | None =>
      match httpRes r with
      | None => panic
      | Some _ => ret tt
      end
  end.

End Handlers.

End Ntg.

(** ** resource_destination_list.go *)

Module DestinationList.

Definition httpStatusOK : Z := 200.
Definition httpStatusNotFound : Z := 404.

Definition quote : string := String (ascii_of_nat 34) EmptyString.

(** The marker of a missing list in a reply body:
    "statusCode":404,"error":"Not Found" with its double quotes. *)
Definition destinationListNotFoundError : string :=
  (quote ++ "statusCode" ++ quote ++ ":404," ++ quote ++ "error" ++ quote ++ ":"
   ++ quote ++ "Not Found" ++ quote)%string.

(** destinationModel represents a destination in a destination list. *)
Record destinationModel : Type := mkDestination {
  DestId : StringValue;
  Comment : StringValue;
  Destination : StringValue;
  Type_ : StringValue
}.

Record destinationListResourceModel : Type := mkModel {
  Id : Int64Value;
  Name : StringValue;
  Destinations : SetValue destinationModel
}.

Definition setName (m : destinationListResourceModel) v : destinationListResourceModel :=
  mkModel (Id m) v (Destinations m).

Definition setDestinations (m : destinationListResourceModel) v : destinationListResourceModel :=
  mkModel (Id m) (Name m) v.

(** One entry of the API reply as a destinationModel. *)
Definition modeledDestination (d : destinationlists.DestinationObject) : destinationModel :=
  mkDestination (Known (destinationlists.Id d))
    (match destinationlists.Comment d with
     | Some c => Known c
     | None => Null
     end)
    (Known (destinationlists.Destination d))
    (Known (destinationlists.Type_ d)).

(** The inner loops of Update: is there an entry of [others] whose
    Destination == [target]?  The Go == on the two string values compares
    their state and their text. *)
Fixpoint reconciled (target : StringValue) (others : list destinationModel) : bool :=
  match others with
  | [] => false
  | o :: rest =>
      if StringEqual (Destination o) target then true else reconciled target rest
  end.

(** Find missing destinations that need to be created. *)
Fixpoint missingDestinations (planDestinationList readDestinations : list destinationModel)
    : list destinationlists.DestinationCreateObject :=
  match planDestinationList with
  | [] => []
  | p :: rest =>
      if negb (reconciled (Destination p) readDestinations) then
        destinationlists.SetComment
          (destinationlists.NewDestinationCreateObject (ValueString (Destination p)))
          (ValueString (Comment p))
        :: missingDestinations rest readDestinations
      else missingDestinations rest readDestinations
  end.

(** The object Update sends for a planned destination that is missing. *)
Definition createObjectFor (p : destinationModel)
    : destinationlists.DestinationCreateObject :=
  destinationlists.SetComment
    (destinationlists.NewDestinationCreateObject (ValueString (Destination p)))
    (ValueString (Comment p)).

(** Delete unmanaged destinations: the ids to remove, or [None] when the id
    of one of them does not convert. *)
Fixpoint extraDestinations (readDestinations planDestinationList : list destinationModel)
    : option (list Z) :=
  match readDestinations with
  | [] => Some []
  | r :: rest =>
      if negb (reconciled (Destination r) planDestinationList) then
        let (destinationID, ok) := ParseInt (ValueString (DestId r)) in
        if ok then
          match extraDestinations rest planDestinationList with
          | Some ids => Some (destinationID :: ids)
          | None => None
          end
        else None
      else extraDestinations rest planDestinationList
  end.

Section Handlers.

Context {Srv : Type} {service : RemoteService Srv}.

Local Abbreviation W := (World Srv destinationListResourceModel).

(** GetDestinations retrieves destinations for a destination list. *)
Definition GetDestinations_ (r : destinationListResourceModel)
    : Prog W (list destinationModel + string) :=
  reply <- invoke (GetDestinations (ValueInt64 (Id r))) ;;
  match err reply with
  | Some _ =>
      match httpRes reply with
      | None => panic
      | Some _ => ret (inr "error reading destinations for destination list")
      end
  | None =>
      match value reply with
      | None => panic
      | Some data => ret (inl (map modeledDestination data))
      end
  end.

(** UpdateDestinations updates the destinations in the resource model. *)
Definition UpdateDestinations (r : destinationListResourceModel)
    : Prog W (destinationListResourceModel * diag.Diagnostics) :=
  got <- GetDestinations_ r ;;
  match got with
  | inr _ =>
      ret (r, diag.AddError []
                ("Error retrieving destinations for " ++ ValueString (Name r))%string)
  | inl readDestinations =>
      ret (setDestinations r (ValueFrom (Some readDestinations)), [])
  end.

(** Read reads the destination list resource state. *)
Definition Read (req : ReadRequest destinationListResourceModel) : Prog W unit :=
  let data := ReadState req in
  let diags := ReadStateDiags req in
  if diag.HasError diags then Append diags else
  r <- invoke (GetDestinationList (ValueInt64 (Id data))) ;;
  match err r with
  | Some _ =>
      match httpRes r with
      | None => panic
      | Some h =>
          match Body h with
          | None => AddError "Error reading response body"
          | Some _ =>
              read <- ReadAll (Body h) ;;
              Close (Body h) ;;;
              match snd read with
              | Some _ => AddError "Error reading response body"
              | None =>
                  if Contains (fst read) destinationListNotFoundError
                  then RemoveResource
                  else AddError ("HTTP Response: " ++ Status h)%string
              end
          end
      end
  | None =>
      match value r with
      | None => panic
      | Some destinationListResp =>
          let data := setName data (Known (destinationlists.ListName destinationListResp)) in
          updated <- UpdateDestinations data ;;
          let (data, diags) := updated in
          if diag.HasError diags then Append diags
          else
            diags <- StateSet_ data ;;
            Append diags
      end
  end.

(** Update, first part ("Update API call logic"): the name is patched when
    it changed; the result is the state model to go on with, [None] after a
    failed patch.  The summary of the diagnostics that print the response
    pointer keeps its constant part. *)
Definition updateName (plan state : destinationListResourceModel)
    : Prog W (option destinationListResourceModel) :=
  if negb (StringEqual (Name plan) (Name state)) then
    r <- invoke (UpdateDestinationLists (ValueInt64 (Id plan)) (ValueString (Name plan))) ;;
    match err r with
    | Some _ => AddError "HTTP Response: " ;;; ret None
    | None => ret (Some (setName state (Name plan)))
    end
  else ret (Some state).

(** Update, second part (from "Get current destinations"): the destinations
    of the plan are reconciled with the ones the API reports. *)
Definition reconcileDestinations (plan state : destinationListResourceModel)
    : Prog W unit :=
  got <- GetDestinations_ state ;;
  match got with
  | inr _ =>
      AddError ("Error retrieving destinations for " ++ ValueString (Name plan))%string
  | inl readDestinations =>
      let planDestinationList := ElementsAs (Destinations plan) in
      let missing := missingDestinations planDestinationList readDestinations in
      created <-
        (if nonEmptyList missing then
           r <- invoke (CreateDestinations (ValueInt64 (Id plan)) missing) ;;
           match err r with
           | Some _ => AddError "HTTP Response: " ;;; ret false
           | None => ret true
           end
         else ret true) ;;
      if negb created then ret tt else
      match extraDestinations readDestinations planDestinationList with
      | None => AddError "Error converting destination ID"
      | Some extra =>
          deleted <-
            (if nonEmptyList extra then
               r <- invoke (DeleteDestinations (ValueInt64 (Id plan)) extra) ;;
               match err r with
               | Some _ => AddError "HTTP Response: " ;;; ret false
               | None => ret true
               end
             else ret true) ;;
          if negb deleted then ret tt else
          updated <- UpdateDestinations plan ;;
          let (plan, diags) := updated in
          if diag.HasError diags then Append diags
          else
            diags <- StateSet_ plan ;;
            Append diags
      end
  end.

(** Update updates the destination list resource. *)
Definition Update (req : UpdateRequest destinationListResourceModel) : Prog W unit :=
  let plan := UpdatePlan req in
  let state := UpdateState req in
  Append (UpdatePlanDiags req) ;;;
  Append (UpdateStateDiags req) ;;;
  e <- HasError ;;
  if e then ret tt else
  renamed <- updateName plan state ;;
  match renamed with
  | None => ret tt
  | Some state => reconcileDestinations plan state
  end.

(** Delete deletes the destination list resource. *)
Definition Delete (req : DeleteRequest destinationListResourceModel) : Prog W unit :=
  let data := DeleteState req in
  Append (DeleteStateDiags req) ;;;
  e <- HasError ;;
  if e then ret tt else
  r <- invoke (DeleteDestinationList (ValueInt64 (Id data))) ;;
  match httpRes r with
  | None => panic
  | Some h =>
      if StatusCode h =? httpStatusNotFound then ret tt
      else match err r with
      | Some _ => AddError ("HTTP Response: " ++ Status h)%string
      | None =>
          match value r with
          | None => panic
          | Some _ => ret tt
          end
      end
  end.

End Handlers.

End DestinationList.

(** ** resource_resource_connector_agent.go *)

Module ConnectorAgent.

Definition connectorHTTPOK : Z := 200.
Definition connectorHTTPBadRequest : Z := 400.
Definition connectorHTTPNotFound : Z := 404.
Definition connectorHTTPTooManyReqs : Z := 429.

Definition connectorRetryMaxAttempts : nat := 6.

Record resourceConnectorAgentResourceModel : Type := mkModel {
  ID : Int64Value;
  InstanceID : StringValue;
  Hostname : StringValue;
  Status : StringValue;
  Confirmed : BoolValue;
  Enabled : BoolValue
}.

(** LoadFromAPI populates the model from API response data; [None] when
    one of the pointers it dereferences is nil. *)
Definition LoadFromAPI (r : resourceConnectorAgentResourceModel)
    (agent : resconn.ConnectorResponse) : option resourceConnectorAgentResourceModel :=
  match resconn.Id agent, resconn.Hostname agent, resconn.InstanceId agent,
        resconn.Status agent, resconn.Confirmed agent, resconn.Enabled agent with
  | Some id, Some hostname, Some instanceId, Some status, Some confirmed, Some enabled =>
      Some (mkModel (Known id) (Known instanceId) (Known hostname) (Known status)
              (Known confirmed) (Known enabled))
  | _, _, _, _, _, _ => None
  end.

Section Handlers.

Context {Srv : Type} {service : RemoteService Srv}.

Local Abbreviation W := (World Srv resourceConnectorAgentResourceModel).

(** The function retried by retry.Do in Read. *)
Definition readAttempt (data : resourceConnectorAgentResourceModel) (agentID : Z)
    : Prog W (AttemptResult unit) :=
  r <- invoke (GetConnector agentID) ;;
  let proceed : Prog W (AttemptResult unit) :=
    match err r with
    | Some e => ret (AttemptUnrecoverable e)
    | None =>
        match value r with
        | None => panic
        | Some agent =>
            state <- deref (LoadFromAPI data agent) ;;
            diags <- StateSet_ state ;;
            Append diags ;;;
            ret (AttemptOk tt)
        end
    end in
  match httpRes r with
  | Some h =>
      if StatusCode h =? connectorHTTPNotFound then
        RemoveResource ;;; ret (AttemptOk tt)
      else if StatusCode h =? connectorHTTPTooManyReqs then
        ret (AttemptError "too many requests")
      else if StatusCode h =? connectorHTTPOK then proceed
      else match err r with
           | Some _ => ret (AttemptUnrecoverable "non-retryable error")
           | None => proceed
           end
  | None => proceed
  end.

Definition Read (req : ReadRequest resourceConnectorAgentResourceModel) : Prog W unit :=
  let data := ReadState req in
  Append (ReadStateDiags req) ;;;
  e <- HasError ;;
  if e then ret tt else
  let agentID := ValueInt64 (ID data) in
  err <- retryDo connectorRetryMaxAttempts (readAttempt data agentID) ;;
  match err with
  | inr _ => AddError "Could not retrieve resource connector agent config"
  | inl _ => ret tt
  end.

(** The function retried by retry.Do in Delete. *)
Definition deleteAttempt (agentID : Z) : Prog W (AttemptResult unit) :=
  r <- invoke (DeleteConnector agentID) ;;
  let proceed : Prog W (AttemptResult unit) :=
    match err r with
    | Some _ => ret (AttemptUnrecoverable "failed to delete connector")
    | None => ret (AttemptOk tt)
    end in
  match httpRes r with
  | Some h =>
      if StatusCode h =? connectorHTTPTooManyReqs then
        ret (AttemptError "too many requests")
      else if StatusCode h =? connectorHTTPNotFound then ret (AttemptOk tt)
      else proceed
  | None => proceed
  end.

(** Delete deletes the resource connector agent and removes the Terraform
    state on success. *)
Definition Delete (req : DeleteRequest resourceConnectorAgentResourceModel) : Prog W unit :=
  let data := DeleteState req in
  Append (DeleteStateDiags req) ;;;
  e <- HasError ;;
  if e then ret tt else
  let agentID := ValueInt64 (ID data) in
  err <- retryDo connectorRetryMaxAttempts (deleteAttempt agentID) ;;
  match err with
  | inr _ => AddError "Error deleting resource connector agent"
  | inl _ => ret tt
  end.

End Handlers.

End ConnectorAgent.

(** ** resource_global_settings.go *)

Module GlobalSettings.

(** Static ID for the global settings singleton resource. *)
Definition globalSettingsResourceID : string := "global-settings".

(** globalSettingsResourceModel represents the Terraform resource data model. *)
Record globalSettingsResourceModel : Type := mkModel {
  Id : StringValue;
  EnableGlobalDecryption : BoolValue;
  GlobalIPSProfileId : Int64Value
}.

Definition setId (m : globalSettingsResourceModel) v : globalSettingsResourceModel :=
  mkModel v (EnableGlobalDecryption m) (GlobalIPSProfileId m).

Definition setEnableGlobalDecryption (m : globalSettingsResourceModel) v
    : globalSettingsResourceModel :=
  mkModel (Id m) v (GlobalIPSProfileId m).

Definition setGlobalIPSProfileId (m : globalSettingsResourceModel) v
    : globalSettingsResourceModel :=
  mkModel (Id m) (EnableGlobalDecryption m) v.

(** The body of the loop over the settings in FetchState. *)
Definition fetchSetting (state : globalSettingsResourceModel)
    (setting : rules.SettingsObject) : globalSettingsResourceModel :=
  let val := rules.ObjSettingValue setting in
  match rules.ObjSettingName setting with
  | rules.SETTINGNAME_SSE_GLOBAL_IPS_ENABLED =>
      match rules.SVBool val with
      | Some b => setEnableGlobalDecryption state (Known b)
      | None => state
      end
  | rules.SETTINGNAME_UMBRELLA_POSTURE_IPS_PROFILE_ID =>
      match rules.SVInt64 val with
      | Some i => setGlobalIPSProfileId state (Known i)
      | None => state
      end
  | _ => state
  end.

Section Handlers.

Context {Srv : Type} {service : RemoteService Srv}.

Local Abbreviation W := (World Srv globalSettingsResourceModel).

(** FetchState retrieves the current global settings state from the API. *)
Definition FetchState (state : globalSettingsResourceModel)
    : Prog W (globalSettingsResourceModel * diag.Diagnostics) :=
  r <- invoke GetPolicySettings ;;
  match err r with
  | Some _ =>
      ret (state, diag.AddError [] "Error retrieving global policy settings")
  | None =>
      let getResp := match value r with Some l => l | None => [] end in
      ret (fold_left fetchSetting getResp state, [])
  end.

(** PutState updates the global settings state via the API.  The result is
    the current state and the plan as the function leaves them, and the
    diagnostics it returns. *)
Definition PutState (currentState plan : globalSettingsResourceModel)
    : Prog W (globalSettingsResourceModel * globalSettingsResourceModel * diag.Diagnostics) :=
  first <-
    (if negb (IsUnknown (EnableGlobalDecryption plan)) &&
        negb (Bool.eqb (ValueBool (EnableGlobalDecryption plan))
                       (ValueBool (EnableGlobalDecryption currentState)))
     then
       let settingValue := ValueBool (EnableGlobalDecryption plan) in
       let settingsRequestObject :=
         rules.mkSettingsObject rules.SETTINGNAME_SSE_GLOBAL_IPS_ENABLED
           (rules.mkSettingValue None None (Some settingValue)) in
       r <- invoke (PutPolicySetting rules.SETTINGNAME_SSE_GLOBAL_IPS_ENABLED
                      settingsRequestObject) ;;
       match err r with
       | Some _ =>
           ret (currentState, plan,
                diag.AddError [] "Error updating global decryption setting")
       | None =>
           ret (setEnableGlobalDecryption currentState (EnableGlobalDecryption plan),
                plan, [])
       end
     else if IsUnknown (EnableGlobalDecryption plan) then
       ret (currentState,
            setEnableGlobalDecryption plan (EnableGlobalDecryption currentState), [])
     else ret (currentState, plan, [])) ;;
  let '(currentState, plan, diags) := first in
  if diag.HasError diags then ret (currentState, plan, diags) else
  if negb (IsUnknown (GlobalIPSProfileId plan)) &&
     negb (ValueInt64 (GlobalIPSProfileId plan) =? ValueInt64 (GlobalIPSProfileId currentState))
  then
    let settingValue := ValueInt64 (GlobalIPSProfileId plan) in
    let settingsRequestObject :=
      rules.mkSettingsObject rules.SETTINGNAME_UMBRELLA_POSTURE_IPS_PROFILE_ID
        (rules.mkSettingValue None (Some settingValue) None) in
    r <- invoke (PutPolicySetting rules.SETTINGNAME_UMBRELLA_POSTURE_IPS_PROFILE_ID
                   settingsRequestObject) ;;
    match err r with
    | Some _ =>
        ret (currentState, plan,
             diag.AddError diags "Error updating global IPS profile ID setting")
    | None =>
        ret (setGlobalIPSProfileId currentState (GlobalIPSProfileId plan), plan, diags)
    end
  else if IsUnknown (GlobalIPSProfileId plan) then
    ret (currentState, setGlobalIPSProfileId plan (GlobalIPSProfileId currentState), diags)
  else ret (currentState, plan, diags).

(** Create creates the global settings resource. *)
Definition Create (req : CreateRequest globalSettingsResourceModel) : Prog W unit :=
  let plan := CreatePlan req in
  Append (CreatePlanDiags req) ;;;
  e <- HasError ;;
  if e then ret tt else
  fetched <- FetchState (mkModel Null Null Null) ;;
  let (currentState, diags) := fetched in
  if diag.HasError diags then Append diags else
  put <- PutState currentState plan ;;
  let '(_, plan, diags) := put in
  if diag.HasError diags then Append diags else
  let plan := setId plan (Known globalSettingsResourceID) in
  diags <- StateSet_ plan ;;
  Append diags.

(** Read reads the global settings resource state. *)
Definition Read (req : ReadRequest globalSettingsResourceModel) : Prog W unit :=
  let data := ReadState req in
  Append (ReadStateDiags req) ;;;
  e <- HasError ;;
  if e then ret tt else
  fetched <- FetchState data ;;
  let (data, diags) := fetched in
  if diag.HasError diags then Append diags else
  let data := setId data (Known globalSettingsResourceID) in
  diags <- StateSet_ data ;;
  Append diags.

(** Update updates the global settings resource. *)
Definition Update (req : UpdateRequest globalSettingsResourceModel) : Prog W unit :=
  let plan := UpdatePlan req in
  let state := UpdateState req in
  Append (UpdatePlanDiags req) ;;;
  Append (UpdateStateDiags req) ;;;
  e <- HasError ;;
  if e then ret tt else
  put <- PutState state plan ;;
  let '(_, plan, diags) := put in
  if diag.HasError diags then Append diags else
  let plan := setId plan (Known globalSettingsResourceID) in
  diags <- StateSet_ plan ;;
  Append diags.

(** Delete removes the global settings resource from Terraform state.
    Note: This doesn't actually delete the settings from the API since they
    are global. *)
Definition Delete (req : DeleteRequest globalSettingsResourceModel) : Prog W unit :=
  Append (DeleteStateDiags req) ;;;
  e <- HasError ;;
  if e then ret tt else
  ret tt.

End Handlers.

End GlobalSettings.

(** * Create of the tunnel groups and of the destination lists, Create and
      Update of the connector agents, the identity data source *)

(** ** The operations these handlers add *)

(** The API operations that only these handlers invoke. *)
Inductive FurtherCall : Type :=
| AddNetworkTunnelGroup (body : ntg.AddNetworkTunnelGroupRequest)
| CreateDestinationList (body : destinationlists.DestinationListCreate)
| ListConnectors (filters : string)
| PatchConnector (id : Z) (body : list resconn.ConnectorPatchReqInner)
| GetIdentities (limit offset : Z) (search identitytypes : string).

Definition FurtherPayload (c : FurtherCall) : Type :=
  match c with
  | AddNetworkTunnelGroup _ => ntg.AddedNetworkTunnelGroup
  | CreateDestinationList _ => destinationlists.DestinationListObject
  | ListConnectors _ => resconn.ListConnectorsValue
  | PatchConnector _ _ => unit
  | GetIdentities _ _ _ _ => list reports.Identity
  end.

(** The service behind these operations: any state, any answer. *)
Class FurtherService (Srv : Type) : Type := {
  ExecuteFurther : forall c : FurtherCall, Srv -> ApiReply (FurtherPayload c) * Srv
}.

Record FurtherExchange : Type := mkFurtherExchange {
  furtherRequest : FurtherCall;
  furtherResponse : option HttpResponse;
  furtherFailed : bool
}.

Definition furtherExchangeOf (c : FurtherCall) (r : ApiReply (FurtherPayload c))
    : FurtherExchange :=
  mkFurtherExchange c (httpRes r) (isSome (err r)).

(** The client of these handlers: the service, and the log of the further
    operations beside the log of the world; each log is in the order of
    the calls. *)
Record Client (Srv : Type) : Type := mkClient {
  backend : Srv;
  furtherExchanges : list FurtherExchange
}.
Arguments mkClient {Srv} backend furtherExchanges.
Arguments backend {Srv} c.
Arguments furtherExchanges {Srv} c.

(** The operations of [Call] through the client. *)
Definition clientService {Srv : Type} (service : RemoteService Srv)
    : RemoteService (Client Srv) :=
  {| Execute := fun c client =>
       let (r, srv') := Execute c (backend client) in
       (r, mkClient srv' (furtherExchanges client)) |}.

Section FurtherPrograms.

Context {Srv : Type} {further : FurtherService Srv} {Mdl : Type}.

Local Abbreviation W := (World (Client Srv) Mdl).

(** The world a handler starts in. *)
Definition freshClient (srv : Srv) : W := fresh (mkClient srv []).

(** The world once the service has answered the call [c] with [r]. *)
Definition afterFurtherCall (w : W) (c : FurtherCall) (r : ApiReply (FurtherPayload c))
    (srv' : Srv) : W :=
  mkWorld (mkClient srv' (furtherExchanges (remote w) ++ [furtherExchangeOf c r]))
    (exchanges w) (Diagnostics w) (State w).

(** Execute() on the client: the service answers and the exchange is logged. *)
Definition invokeFurther (c : FurtherCall) : Prog W (ApiReply (FurtherPayload c)) :=
  fun w =>
    let (r, srv') := ExecuteFurther c (backend (remote w)) in
    Returned r (afterFurtherCall w c r srv').

End FurtherPrograms.

(** ** resource_ntg.go: Create *)

Module NtgCreation.

Section Handlers.

Context {Srv : Type} {further : FurtherService Srv}.

(** ntg.NewDeviceTypeFromValue of the client library: [None] is its error. *)
Variable NewDeviceTypeFromValue : string -> option string.

Local Abbreviation W := (World (Client Srv) Ntg.ntgResourceModel).

(** Create creates the resource and sets the initial Terraform state. *)
Definition Create (req : CreateRequest Ntg.ntgResourceModel) : Prog W unit :=
  let plan := CreatePlan req in
  Append (CreatePlanDiags req) ;;;
  e <- HasError ;;
  if e then ret tt else
  let tunnelIdentifier := ValueString (Ntg.IdentifierPrefix plan) in
  let name := ValueString (Ntg.Name plan) in
  let routeList := Ntg.convertNetworkCidrsToStrings (Ntg.NetworkCidrs plan) in
  let region := ValueString (Ntg.Region plan) in
  let presharedKey := ValueString (Ntg.PresharedKey plan) in
  let devTypeDescription := ValueString (Ntg.DeviceType plan) in
  let addNetworkTunnelGroupRequest :=
    ntg.NewAddNetworkTunnelGroupRequest name region tunnelIdentifier presharedKey in
  let staticRoute := ntg.mkRoutingRequest "static" routeList in
  let addNetworkTunnelGroupRequest :=
    ntg.SetRouting addNetworkTunnelGroupRequest staticRoute in
  match NewDeviceTypeFromValue devTypeDescription with
  | None => AddError "Error parsing device type for tunnel"
  | Some deviceType =>
      let addNetworkTunnelGroupRequest :=
        ntg.SetDeviceType addNetworkTunnelGroupRequest deviceType in
      r <- invokeFurther (AddNetworkTunnelGroup addNetworkTunnelGroupRequest) ;;
      match err r with
      | Some _ => AddError "Error creating network tunnel group"
      | None =>
          match value r with
          | None => panic
          | Some createResp =>
              let plan := Ntg.setId plan (Known (ntg.AddedId createResp)) in
              hubs <- deref (collect Ntg.hubInstance (ntg.AddedHubs createResp)) ;;
              let plan := Ntg.setHubs plan (ValueFrom (appended hubs)) in
              diags <- StateSet_ plan ;;
              Append diags
          end
      end
  end.

End Handlers.

End NtgCreation.

(** ** resource_destination_list.go: Create *)

Module DestinationListCreation.

(** Bundle type ID for destination lists. *)
Definition defaultBundleTypeID : Z := 2.

Definition setId (m : DestinationList.destinationListResourceModel) v
    : DestinationList.destinationListResourceModel :=
  DestinationList.mkModel v (DestinationList.Name m) (DestinationList.Destinations m).

(** One planned destination as an entry of the request. *)
Definition createEntry (p : DestinationList.destinationModel)
    : destinationlists.DestinationListCreateDestinationsInner :=
  destinationlists.mkDestinationListCreateDestinationsInner
    (Some (ValueString (DestinationList.Comment p)))
    (Some (ValueString (DestinationList.Type_ p)))
    (ValueString (DestinationList.Destination p)).

Section Handlers.

Context {Srv : Type} {service : RemoteService Srv} {further : FurtherService Srv}.

Local Abbreviation W := (World (Client Srv) DestinationList.destinationListResourceModel).

(** Create creates the destination list and reads its destinations back. *)
Definition Create (req : CreateRequest DestinationList.destinationListResourceModel)
    : Prog W unit :=
  let plan := CreatePlan req in
  Append (CreatePlanDiags req) ;;;
  e <- HasError ;;
  if e then ret tt else
  let planDestinationList := ElementsAs (DestinationList.Destinations plan) in
  let modeledDestinations := map createEntry planDestinationList in
  let createRequest :=
    destinationlists.mkDestinationListCreate "none" false
      (ValueString (DestinationList.Name plan)) (Some defaultBundleTypeID)
      modeledDestinations in
  r <- invokeFurther (CreateDestinationList createRequest) ;;
  match httpRes r with
  | None => panic
  | Some h =>
      if negb (StatusCode h =? DestinationList.httpStatusOK) then
        match err r with
        | None => panic
        | Some _ => AddError ("HTTP Response: " ++ Status h)%string
        end
      else
        match value r with
        | None => panic
        | Some createResp =>
            let plan := setId plan (Known (destinationlists.ListId createResp)) in
            updated <- DestinationList.UpdateDestinations (service := clientService service)
                         plan ;;
            let (plan, diags) := updated in
            if diag.HasError diags then Append diags
            else
              diags <- StateSet_ plan ;;
              Append diags
        end
  end.

End Handlers.

End DestinationListCreation.

(** ** resource_resource_connector_agent.go: Create and Update *)

Module ConnectorAgentConfiguration.

(** JSON patch operations. *)
Definition connectorPatchOpReplace : string := "replace".
Definition connectorPatchPathConfirmed : string := "/confirmed".
Definition connectorPatchPathEnabled : string := "/enabled".

Local Abbreviation Model := ConnectorAgent.resourceConnectorAgentResourceModel.

Definition setConfirmed (m : Model) v : Model :=
  ConnectorAgent.mkModel (ConnectorAgent.ID m) (ConnectorAgent.InstanceID m)
    (ConnectorAgent.Hostname m) (ConnectorAgent.Status m) v (ConnectorAgent.Enabled m).

Definition setEnabled (m : Model) v : Model :=
  ConnectorAgent.mkModel (ConnectorAgent.ID m) (ConnectorAgent.InstanceID m)
    (ConnectorAgent.Hostname m) (ConnectorAgent.Status m) (ConnectorAgent.Confirmed m) v.

(** ValueBoolPointer: nil for a null value, else a pointer to the value
    (false when unknown). *)
Definition ValueBoolPointer (v : BoolValue) : option bool :=
  match v with
  | Null => None
  | Unknown => Some false
  | Known b => Some b
  end.

(** handleListConnectorsError processes errors from the ListConnectors API
    call. *)
Definition handleListConnectorsError {A} (httpRes : option HttpResponse) (err : string)
    : AttemptResult A :=
  let statusCode := match httpRes with Some h => StatusCode h | None => 0 end in
  if (statusCode =? ConnectorAgent.connectorHTTPBadRequest) ||
     (statusCode =? ConnectorAgent.connectorHTTPTooManyReqs)
  then AttemptError "retryable error"
  else AttemptUnrecoverable "non-retryable error".

Section Handlers.

Context {Srv : Type} {further : FurtherService Srv}.

(** json.Marshal of a map[string]string with the one entry key: value; for
    such a map it returns no error. *)
Variable Marshal : string -> string -> string.

Local Abbreviation W := (World (Client Srv) Model).

(** buildAgentFilter creates a JSON filter for finding the connector agent. *)
Definition buildAgentFilter (data : Model) : string + string :=
  if negb (IsNull (ConnectorAgent.InstanceID data)) then
    inl (Marshal "instanceId" (ValueString (ConnectorAgent.InstanceID data)))
  else if negb (IsNull (ConnectorAgent.Hostname data)) then
    inl (Marshal "hostname" (ValueString (ConnectorAgent.Hostname data)))
  else inr "either instance_id or hostname must be specified".

(** patchConnectorField updates a single field on the connector using PATCH
    operation. *)
Definition patchConnectorField (agentID : Z) (path : string) (value : option bool)
    : Prog W (option string) :=
  let req :=
    resconn.mkConnectorPatchReqInner (Some connectorPatchOpReplace) (Some path) value in
  let reqs := [req] in
  r <- invokeFurther (PatchConnector agentID reqs) ;;
  ret (err r).

(** Synchronize updates the resource connector agent based on plan changes;
    the result is the state as the function leaves it. *)
Definition Synchronize (state plan : Model) : Prog W Model :=
  let agentID := ValueInt64 (ConnectorAgent.ID state) in
  state <-
    (if ValueBool (ConnectorAgent.Confirmed plan) &&
        negb (Bool.eqb (ValueBool (ConnectorAgent.Confirmed plan))
                       (ValueBool (ConnectorAgent.Confirmed state)))
     then
       err <- patchConnectorField agentID connectorPatchPathConfirmed
                (ValueBoolPointer (ConnectorAgent.Confirmed plan)) ;;
       match err with
       | Some _ => ret state
       | None => ret (setConfirmed state (ConnectorAgent.Confirmed plan))
       end
     else ret state) ;;
  if ValueBool (ConnectorAgent.Enabled plan) &&
     negb (Bool.eqb (ValueBool (ConnectorAgent.Enabled plan))
                    (ValueBool (ConnectorAgent.Enabled state)))
  then
    err <- patchConnectorField agentID connectorPatchPathEnabled
             (ValueBoolPointer (ConnectorAgent.Enabled plan)) ;;
    match err with
    | Some _ => ret state
    | None => ret (setEnabled state (ConnectorAgent.Enabled plan))
    end
  else ret state.

(** The part of processConnectorResponse shared by its two typed branches:
    the total decides, and the first entry of the data is loaded and
    synchronized.  The value of a successful attempt is the model the
    caller goes on with. *)
Definition processAgents (totalAgents : Z) (agentsData : list resconn.ConnectorResponse)
    (data : Model) : Prog W (AttemptResult Model) :=
  if totalAgents =? 0 then ret (AttemptError "no connector agent matching filter found")
  else if totalAgents >? 1 then ret (AttemptUnrecoverable "filter matches multiple agents")
  else
    match agentsData with
    | agent :: _ =>
        state <- deref (ConnectorAgent.LoadFromAPI data agent) ;;
        state <- Synchronize state data ;;
        ret (AttemptOk state)
    | [] => ret (AttemptOk data)
    end.

(** processConnectorResponse processes the successful response from
    ListConnectors; a nil *ConnectorListRes has total 0 and no data. *)
Definition processConnectorResponse (agents : option resconn.ListConnectorsValue)
    (data : Model) : Prog W (AttemptResult Model) :=
  match agents with
  | None => processAgents 0 [] data
  | Some (resconn.ConnectorListRes total agentsData) => processAgents total agentsData data
  | Some (resconn.WithTotalAndData total agentsData) => processAgents total agentsData data
  | Some resconn.OtherValue =>
      ret (AttemptError "unexpected response type from ListConnectors")
  end.

(** The function retried by retry.Do in findAndConfigureAgent. *)
Definition findAttempt (filters : string) (data : Model) : Prog W (AttemptResult Model) :=
  r <- invokeFurther (ListConnectors filters) ;;
  match err r with
  | Some e => ret (handleListConnectorsError (httpRes r) e)
  | None => processConnectorResponse (value r) data
  end.

(** findAndConfigureAgent finds the connector agent and configures it. *)
Definition findAndConfigureAgent (filters : string) (data : Model)
    : Prog W (Model + string) :=
  retryDo ConnectorAgent.connectorRetryMaxAttempts (findAttempt filters data).

Definition Create (req : CreateRequest Model) : Prog W unit :=
  let data := CreatePlan req in
  Append (CreatePlanDiags req) ;;;
  e <- HasError ;;
  if e then ret tt else
  match buildAgentFilter data with
  | inr _ => AddError "Error building agent filter"
  | inl filters =>
      found <- findAndConfigureAgent filters data ;;
      match found with
      | inr _ => AddError "Could not retrieve resource connector agent config"
      | inl data =>
          diags <- StateSet_ data ;;
          Append diags
      end
  end.

Definition Update (req : UpdateRequest Model) : Prog W unit :=
  let plan := UpdatePlan req in
  let state := UpdateState req in
  Append (UpdatePlanDiags req) ;;;
  Append (UpdateStateDiags req) ;;;
  e <- HasError ;;
  if e then ret tt else
  state <- Synchronize state plan ;;
  diags <- StateSet_ state ;;
  Append diags.

End Handlers.

End ConnectorAgentConfiguration.

(** ** data_source_identity.go *)

Module IdentityDataSource.

(** Constants for identity data source. *)
Definition identityBatchSize : Z := 100.
Definition identityTypeUser : string := "directory_user".
Definition identityTypeGroup : string := "directory_group".

(** IdentityModel maps the identity data from the API. *)
Record IdentityModel : Type := mkIdentityModel {
  Id : Int64Value;
  Label : StringValue;
  Type_ : StringValue
}.

(** identityDataSourceModel maps the data source schema data. *)
Record identityDataSourceModel : Type := mkModel {
  Identities : ListValue IdentityModel;
  Filter : StringValue
}.

Definition setIdentities (m : identityDataSourceModel) v : identityDataSourceModel :=
  mkModel v (Filter m).

(** req.Config.Get of a data source fills a model and reports diagnostics. *)
Record ConfigRequest : Type := mkConfigRequest {
  Config : identityDataSourceModel;
  ConfigDiags : diag.Diagnostics
}.

(** One entry of a batch as an IdentityModel: the body of the loop over
    the batch, [None] when the type it dereferences is nil. *)
Definition modeledIdentity (identity : reports.Identity) : option IdentityModel :=
  match reports.Type_ identity with
  | Some type =>
      Some (mkIdentityModel (Known (reports.Id identity)) (Known (reports.Label identity))
              (Known type))
  | None => None
  end.

(** The variables of getIdentitiesForFilter that the retried function
    assigns to. *)
Record retrieval : Type := mkRetrieval {
  offset : Z;
  diagnostics : diag.Diagnostics;
  identities : list IdentityModel;
  done : bool
}.

Definition percent : string := String (ascii_of_nat 37) EmptyString.

Section Handlers.

Context {Srv : Type} {further : FurtherService Srv}.

Local Abbreviation W := (World (Client Srv) identityDataSourceModel).

(** The function retried by retry.Do in getIdentitiesForFilter: the
    variables as one call leaves them, and what it returns. *)
Definition fetchBatch (filter identityType : string) (vars : retrieval)
    : Prog W (retrieval * AttemptResult unit) :=
  r <- invokeFurther (GetIdentities identityBatchSize (offset vars)
                        (percent ++ filter ++ percent)%string identityType) ;;
  match err r with
  | Some e =>
      if statusIs r 429 then ret (vars, AttemptError e)
      else
        ret (mkRetrieval (offset vars)
               (diag.AddError (diagnostics vars) "Error listing identity/group source")
               (identities vars) true,
             AttemptUnrecoverable e)
  | None =>
      match value r with
      | None => panic
      | Some data =>
          batch <- deref (collect modeledIdentity data) ;;
          let identities := identities vars ++ batch in
          let done :=
            if Z.of_nat (List.length data) <? identityBatchSize then true else done vars in
          ret (mkRetrieval (offset vars + identityBatchSize) (diagnostics vars)
                 identities done,
               AttemptOk tt)
      end
  end.

(** retry.Do with retry.Attempts(1 + more) around fetchBatch: as
    [retryLoop], for a function that assigns to the variables of its caller;
    the result is the error of retry.Do. *)
Fixpoint fetchWithRetry (more : nat) (filter identityType : string) (vars : retrieval)
    : Prog W (retrieval * option string) :=
  res <- fetchBatch filter identityType vars ;;
  let (vars', result) := res in
  match result with
  | AttemptOk _ => ret (vars', None)
  | AttemptUnrecoverable msg => ret (vars', Some msg)
  | AttemptError msg =>
      match more with
      | O => ret (vars', Some msg)
      | S more' => fetchWithRetry more' filter identityType vars'
      end
  end.

(** The for loop of getIdentitiesForFilter, for at most [rounds] rounds:
    [None] when the loop is still running after them. *)
Fixpoint retrieve (rounds : nat) (filter identityType : string) (vars : retrieval)
    : Prog W (option (list IdentityModel * diag.Diagnostics)) :=
  match rounds with
  | O => ret None
  | S rounds' =>
      let vars := mkRetrieval (offset vars) (diagnostics vars) (identities vars) false in
      res <- fetchWithRetry 2 filter identityType vars ;;
      let (vars, err) := res in
      let vars :=
        if isSome err && negb (diag.HasError (diagnostics vars))
        then mkRetrieval (offset vars)
               (diag.AddError (diagnostics vars)
                  "Failed to retrieve identities after retries")
               (identities vars) (done vars)
        else vars in
      if done vars then ret (Some (identities vars, diagnostics vars))
      else retrieve rounds' filter identityType vars
  end.

(** getIdentitiesForFilter retrieves identities from the API with
    pagination and retry logic. *)
Definition getIdentitiesForFilter (rounds : nat) (filter identityType : string)
    : Prog W (option (list IdentityModel * diag.Diagnostics)) :=
  retrieve rounds filter identityType (mkRetrieval 0 [] [] false).

(** Read retrieves the identities from the API and sets the state; [false]
    when getIdentitiesForFilter is still running after [rounds] rounds. *)
Definition Read (rounds : nat) (req : ConfigRequest) : Prog W bool :=
  let data := Config req in
  Append (ConfigDiags req) ;;;
  e <- HasError ;;
  if e then ret true else
  got <- getIdentitiesForFilter rounds (ValueString (Filter data)) identityTypeUser ;;
  match got with
  | None => ret false
  | Some (identities, getDiag) =>
      if diag.HasError getDiag then Append getDiag ;;; ret true
      else
        let data := setIdentities data (ValueFrom (appended identities)) in
        diags <- StateSet_ data ;;
        Append diags ;;;
        ret true
  end.

(** The service answers every GetIdentities with an error and the status
    429. *)
Definition rateLimited (filter identityType : string) : Prop :=
  forall offset s, exists r s' h,
    ExecuteFurther
      (GetIdentities identityBatchSize offset (percent ++ filter ++ percent)%string
         identityType) s
    = (r, s')
    /\ err r <> None /\ httpRes r = Some h /\ StatusCode h = 429.

(** The service delivers the list [all] in batches. *)
Definition paginated (filter identityType : string) (all : list reports.Identity) : Prop :=
  forall (n : nat) s, exists r s',
    ExecuteFurther
      (GetIdentities identityBatchSize (Z.of_nat n) (percent ++ filter ++ percent)%string
         identityType) s
    = (r, s')
    /\ err r = None
    /\ value r = Some (firstn 100 (skipn n all)).

End Handlers.

End IdentityDataSource.

(** ** Readings of the further exchanges *)

(** What a handler leaves of a world when it only adds [n] further
    exchanges. *)
Definition grownBy {Srv Mdl : Type} (n : nat) (w w' : World (Client Srv) Mdl) : Prop :=
  exchanges w' = exchanges w
  /\ Diagnostics w' = Diagnostics w
  /\ State w' = State w
  /\ exists tail, furtherExchanges (remote w') = furtherExchanges (remote w) ++ tail
                  /\ List.length tail = n.

(** The outcome keeps the response of the handler as it was in [w]. *)
Definition keeps {W' Mdl A : Type} (w : World W' Mdl) (o : Outcome (World W' Mdl) A) : Prop :=
  exchanges (finalWorld o) = exchanges w
  /\ Diagnostics (finalWorld o) = Diagnostics w
  /\ State (finalWorld o) = State w.

(** The PATCH that switches one flag of an agent on. *)
Definition enablingPatch (agentID : Z) (path : string) : FurtherCall :=
  PatchConnector agentID
    [resconn.mkConnectorPatchReqInner (Some "replace") (Some path) (Some true)].

(** A reply to ListConnectors after which findAndConfigureAgent tries again. *)
Definition waitingReply (r : ApiReply resconn.ListConnectorsValue) : Prop :=
  match err r with
  | Some _ =>
      match httpRes r with
      | Some h => StatusCode h = 400 \/ StatusCode h = 429
      | None => False
      end
  | None =>
      match value r with
      | None => True
      | Some (resconn.ConnectorListRes total _) => total = 0
      | Some (resconn.WithTotalAndData total _) => total = 0
      | Some resconn.OtherValue => True
      end
  end.

(** ** Answers with every pointer set *)

(** A hub whose pointers are all set. *)
Definition completeHub (hub : ntg.Hub) : Prop :=
  ntg.HubId hub <> None
  /\ ntg.DatacenterName hub <> None
  /\ ntg.DatacenterIp hub <> None
  /\ ntg.AuthId hub <> None
  /\ ntg.IsPrimary hub <> None.

(** An agent whose pointers are all set. *)
Definition completeAgent (agent : resconn.ConnectorResponse) : Prop :=
  resconn.Id agent <> None
  /\ resconn.Hostname agent <> None
  /\ resconn.InstanceId agent <> None
  /\ resconn.Status agent <> None
  /\ resconn.Confirmed agent <> None
  /\ resconn.Enabled agent <> None.

(** ** Shapes of an exchange log *)

(** A log of a retry loop: every exchange but the last one is [retryable]. *)
Fixpoint retriedOnly (retryable : Exchange -> bool) (log : list Exchange) : bool :=
  match log with
  | [] => true
  | e :: rest =>
      match rest with
      | [] => true
      | _ => retryable e && retriedOnly retryable rest
      end
  end.

(** The exchange failed with one of the status codes. *)
Definition failedWith (codes : list Z) (e : Exchange) : bool :=
  failed e &&
  match replyStatus e with
  | Some code => existsb (Z.eqb code) codes
  | None => false
  end.

(** No exchange follows a failed one. *)
Fixpoint endsAtFirstFailure (log : list Exchange) : bool :=
  match log with
  | [] => true
  | e :: rest =>
      if failed e then match rest with [] => true | _ => false end
      else endsAtFirstFailure rest
  end.

Definition noneFailed (log : list Exchange) : bool :=
  forallb (fun e => negb (failed e)) log.

(** * Concrete services and requests for the examples *)

(** The reply 200 OK without error and without a decoded value. *)
Definition okReply {A} : ApiReply A :=
  mkReply None (Some (mkHttpResponse 200 "200 OK" (Some (mkBody EmptyString None)))) None.

(** A failed reply with the given status and body. *)
Definition failedReply {A} (code : Z) (status body : string) : ApiReply A :=
  mkReply None (Some (mkHttpResponse code status (Some (mkBody body None)))) (Some status).

(** A service that accepts every call. *)
Definition acceptAll : RemoteService unit :=
  {| Execute := fun c srv => (okReply, srv) |}.

(** A service that fails every call with the same status and body. *)
Definition failAll (code : Z) (status body : string) : RemoteService unit :=
  {| Execute := fun c srv => (failedReply code status body, srv) |}.

(** A service that counts the calls and fails the first [n] of them with
    the given status, then fails with the status [after]. *)
Definition failThen (n : nat) (code : Z) (status : string) (after : Z) (afterStatus : string)
    : RemoteService nat :=
  {| Execute := fun c srv =>
       (if (srv <? n)%nat then failedReply code status EmptyString
        else failedReply after afterStatus EmptyString, S srv) |}.

Module Examples.

Definition cidr (s : string) : StringValue := Known s.

Definition ntgModel (name key : string) (cidrs : list string) : Ntg.ntgResourceModel :=
  Ntg.mkModel (Known 7) (map cidr cidrs) (Known name) (Known "us-east")
    (Known "prefix") (Known key) (Known "ASA") Null.

Definition ntgUpdate (plan state : Ntg.ntgResourceModel)
    : UpdateRequest Ntg.ntgResourceModel :=
  mkUpdateRequest plan [] state [].

Definition policy (name action : string) : AccessPolicy.accessPolicyResourceModel :=
  AccessPolicy.mkModel (Known 12) (Known name) (Known action)
    (Known [3; 4]) Null (Known "test rule") (Known true) (Known "LOG_ALL")
    (Known 5) Null (Known [100]) Null Null Null (Known "PRIVATE_NETWORK").

Definition privateResource (name : string) (reachable : list string)
    : PrivateResource.privateResourceResourceModel :=
  PrivateResource.mkModel (Known "31") (Known name) (Known ["network"])
    (Known [PrivateResource.mkAddressTypes (Known ["10.10.110.2/32"])
              (Known [PrivateResource.mkTrafficSelector (Known "443") (Known "tcp")])])
    (Known "application") (Known reachable) Null.

Definition connector (id : Z) : ConnectorAgent.resourceConnectorAgentResourceModel :=
  ConnectorAgent.mkModel (Known id) (Known "i-0abc") (Known "host") (Known "connected")
    (Known true) (Known true).

(** The reply 404, and a service that answers it to everything. *)
Definition gone {A} : ApiReply A := failedReply 404 "404 Not Found" EmptyString.

Definition notFound : RemoteService unit := failAll 404 "404 Not Found" EmptyString.

(** The "200 Not Found" of the destination lists API: a failed call whose
    body holds the not-found marker. *)
Definition listGone {A} : ApiReply A :=
  failedReply 200 "200 OK" DestinationList.destinationListNotFoundError.

Definition listNotFound : RemoteService unit :=
  failAll 200 "200 OK" DestinationList.destinationListNotFoundError.

(** A destination list as the API reports it, and a service that reports
    it on GetDestinations and accepts every other call. *)
Definition observedDestinations : list destinationlists.DestinationObject :=
  [destinationlists.mkDestinationObject "1" "a.example.com" "DOMAIN" None;
   destinationlists.mkDestinationObject "2" "b.example.com" "DOMAIN" (Some "kept")].

Definition listService : RemoteService unit :=
  {| Execute := fun c srv =>
       (match c as c0 return ApiReply (Payload c0) with
        | GetDestinations _ =>
            mkReply (Some observedDestinations)
              (Some (mkHttpResponse 200 "200 OK" (Some (mkBody EmptyString None)))) None
        | _ => okReply
        end, srv) |}.

(** A service that reports the same destination list and fails every
    CreateDestinations with the status 500. *)
Definition createRefusing : RemoteService unit :=
  {| Execute := fun c srv =>
       (match c as c0 return ApiReply (Payload c0) with
        | GetDestinations _ =>
            mkReply (Some observedDestinations)
              (Some (mkHttpResponse 200 "200 OK" (Some (mkBody EmptyString None)))) None
        | CreateDestinations _ _ => failedReply 500 "500 Internal Server Error" EmptyString
        | _ => okReply
        end, srv) |}.

Definition planned (destination comment : string) : DestinationList.destinationModel :=
  DestinationList.mkDestination Unknown (Known comment) (Known destination) (Known "DOMAIN").

(** The plan keeps b.example.com, drops a.example.com and adds c.example.com. *)
Definition listUpdate : UpdateRequest DestinationList.destinationListResourceModel :=
  mkUpdateRequest
    (DestinationList.mkModel (Known 5) (Known "list")
       (Known [planned "b.example.com" "kept"; planned "c.example.com" "new"])) []
    (DestinationList.mkModel (Known 5) (Known "list") Null) [].

(** The reply 200 OK with a decoded value. *)
Definition found {A} (a : A) : ApiReply A :=
  mkReply (Some a) (Some (mkHttpResponse 200 "200 OK" (Some (mkBody EmptyString None)))) None.

(** A policy with every kind of condition and a posture profile. *)
Definition typedPolicy : AccessPolicy.accessPolicyResourceModel :=
  AccessPolicy.mkModel (Known 12) (Known "rule") (Known "allow")
    (Known [3; 4]) (Known [8]) (Known "test rule") (Known true) (Known "LOG_ALL")
    (Known 5) (Known 9) (Known [100]) (Known ["directory_users"; "networks"])
    (Known ["private_apps"]) (Known ["internet"]) (Known "PRIVATE_NETWORK").

(** The rule as the API reports it once it has accepted the plan. *)
Definition reportedRule (plan : AccessPolicy.accessPolicyResourceModel) : rules.RuleResponse :=
  let request := AccessPolicy.formatCreateAccessPolicyRequest plan in
  rules.mkRuleResponse (ValueInt64 (AccessPolicy.ID plan))
    (rules.RuleName request) (Some (rules.RuleAction request))
    (ValueString (AccessPolicy.Description plan)) (ValueBool (AccessPolicy.Enabled plan))
    (ValueInt64 (AccessPolicy.Priority plan))
    (rules.RuleConditions request) (rules.RuleSettings request).

Definition tunnelGroup : ntg.NetworkTunnelGroupResponse :=
  ntg.mkNetworkTunnelGroupResponse (Some "tunnel") (Some "us-east") (Some ["10.0.0.0/8"])
    (Some "ASA")
    [ntg.mkHub (Some 1) (Some "dc-1") (Some "192.0.2.1") (Some "prefix@1") (Some true)].

Definition reportedResource : privateapps.PrivateResourceResponse :=
  privateapps.mkPrivateResourceResponse 31 (Some "app") (Some "application")
    [privateapps.mkResourceAddressesInner (Some ["10.10.110.2/32"])
       [privateapps.mkProtocolPortsInner "tcp" "443"]]
    (AnySlice [AnyMap [("NetworkBasedAccess", AnyMap [])]]).

(** A service that reports the rule, the tunnel group and the private
    resource above and accepts every other call. *)
Definition reportingService (rule : rules.RuleResponse) : RemoteService unit :=
  {| Execute := fun c srv =>
       (match c as c0 return ApiReply (Payload c0) with
        | GetRule _ => found rule
        | GetNetworkTunnelGroup _ => found tunnelGroup
        | AddPrivateResource _ => found reportedResource
        | GetPrivateResource _ => found reportedResource
        | GetDestinations _ => found observedDestinations
        | _ => okReply
        end, srv) |}.

Definition agent : resconn.ConnectorResponse :=
  resconn.mkConnectorResponse (Some 44) (Some "host") (Some "i-0abc") (Some "connected")
    (Some false) (Some true).

Definition identity (id : Z) : reports.Identity :=
  reports.mkIdentity id "user" (Some "directory_user").

(** A service for the further operations: it creates the tunnel group 7
    and the destination list 5, lists the given agents, accepts every
    PATCH and delivers the given identities in batches. *)
Definition furtherService (agents : resconn.ListConnectorsValue)
    (identities : list reports.Identity) : FurtherService unit :=
  {| ExecuteFurther := fun c srv =>
       (match c as c0 return ApiReply (FurtherPayload c0) with
        | AddNetworkTunnelGroup _ =>
            found (ntg.mkAddedNetworkTunnelGroup 7 (ntg.Hubs tunnelGroup))
        | CreateDestinationList body =>
            found (destinationlists.mkDestinationListObject 5
                     (destinationlists.CreateName body))
        | ListConnectors _ => found agents
        | PatchConnector _ _ => okReply
        | GetIdentities _ offset _ _ => found (firstn 100 (skipn (Z.to_nat offset) identities))
        end, srv) |}.

(** A service that fails every further operation with the same status. *)
Definition failFurther (code : Z) (status : string) : FurtherService unit :=
  {| ExecuteFurther := fun c srv => (failedReply code status EmptyString, srv) |}.

(** ntg.NewDeviceTypeFromValue, as far as the examples need it: it knows
    the device type ASA only. *)
Definition deviceType (name : string) : option string :=
  if String.eqb name "ASA" then Some name else None.

(** json.Marshal of a one-entry map whose strings need no escape. *)
Definition marshal (key value : string) : string :=
  ("{" ++ DestinationList.quote ++ key ++ DestinationList.quote ++ ":"
   ++ DestinationList.quote ++ value ++ DestinationList.quote ++ "}")%string.

End Examples.

(** * Properties *)

(** ** Equality of framework values *)

Lemma StringEqual_true_iff (x y : StringValue) :
  StringEqual x y = true <-> x = y.
Proof.
  destruct x as [| |a], y as [| |b]; simpl; split; intro H;
    try reflexivity; try discriminate.
  - apply String.eqb_eq in H. now subst.
  - inversion H. apply String.eqb_refl.
Qed.

Lemma StringEqual_refl (x : StringValue) : StringEqual x x = true.
Proof. now apply StringEqual_true_iff. Qed.

Lemma BoolEqual_refl (x : BoolValue) : BoolEqual x x = true.
Proof. destruct x as [| |[|]]; reflexivity. Qed.

Lemma Int64Equal_refl (x : Int64Value) : Int64Equal x x = true.
Proof. destruct x; simpl; auto using Z.eqb_refl. Qed.

Lemma contains_refl {A} (eqb : A -> A -> bool) (l : list A) (x : A) :
  (forall a, eqb a a = true) -> In x l -> contains eqb l x = true.
Proof.
  intros Hrefl Hin. unfold contains. apply existsb_exists.
  exists x. split; [assumption | apply Hrefl].
Qed.

Lemma elementsEqual_refl {A} (eqb : A -> A -> bool) (l : list A) :
  (forall a, eqb a a = true) -> elementsEqual eqb l l = true.
Proof.
  intros Hrefl. unfold elementsEqual.
  rewrite Nat.eqb_refl. simpl.
  apply forallb_forall. intros x Hin. now apply contains_refl.
Qed.

Lemma SetEqual_refl {A} (eqb : A -> A -> bool) (s : SetValue A) :
  (forall a, eqb a a = true) -> SetEqual eqb s s = true.
Proof.
  intros Hrefl. destruct s; simpl; auto using elementsEqual_refl.
Qed.

(** ** Global settings: Delete *)

Section GlobalSettingsDelete.

Context {Srv : Type} {service : RemoteService Srv}.

(** C8.  Delete of the global-settings resource calls no API operation:
    whatever the stored state, the remote service is left as it was, the
    exchange log stays empty and the only diagnostics are those of reading
    the state; the framework then drops the resource from the Terraform
    state, unless reading the state failed. *)
Theorem global_settings_delete_calls_nothing
    (req : DeleteRequest GlobalSettings.globalSettingsResourceModel) (srv : Srv) :
  GlobalSettings.Delete req (fresh srv)
    = Returned tt (mkWorld srv [] (DeleteStateDiags req) StateUntouched)
  /\ DeleteResource (GlobalSettings.Delete req) (fresh srv)
    = Returned tt (mkWorld srv [] (DeleteStateDiags req)
                     (if diag.HasError (DeleteStateDiags req)
                      then StateUntouched else StateRemoved)).
Proof.
  unfold DeleteResource, GlobalSettings.Delete, bind, Append, HasError,
    RemoveResource, ret, fresh; simpl.
  split.
  - destruct (diag.HasError (DeleteStateDiags req)); reflexivity.
  - destruct (diag.HasError (DeleteStateDiags req)) eqn:E; simpl; rewrite ?E; reflexivity.
Qed.

End GlobalSettingsDelete.

(** ** Network tunnel group: comparison of the CIDR lists and Update *)

Lemma foundIn_In (test : StringValue) (b : list StringValue) :
  Ntg.foundIn test b = true <-> In test b.
Proof.
  induction b as [|c b IH]; simpl.
  - split; [discriminate | tauto].
  - destruct (StringEqual test c) eqn:E.
    + apply StringEqual_true_iff in E. subst. tauto.
    + rewrite IH. split; [tauto |].
      intros [H | H]; [| assumption].
      subst. rewrite StringEqual_refl in E. discriminate.
Qed.

Lemma everyFound_incl (a b : list StringValue) :
  Ntg.everyFound a b = true <-> incl a b.
Proof.
  induction a as [|x a IH]; simpl.
  - split; [intros _ y Hy; destruct Hy | reflexivity].
  - destruct (Ntg.foundIn x b) eqn:E; simpl.
    + apply foundIn_In in E. rewrite IH. split.
      * intros H y [Hy | Hy]; [now subst | now apply H].
      * intros H y Hy. apply H. now right.
    + split; [discriminate |].
      intros H. assert (In x b) as Hx by (apply H; now left).
      apply foundIn_In in Hx. congruence.
Qed.

Lemma compareStringSlicesAsSets_true_iff (a b : list StringValue) :
  Ntg.compareStringSlicesAsSets a b = true
  <-> List.length a = List.length b /\ incl a b.
Proof.
  unfold Ntg.compareStringSlicesAsSets.
  destruct (List.length a =? List.length b)%nat eqn:E; simpl.
  - apply Nat.eqb_eq in E. rewrite everyFound_incl. tauto.
  - apply Nat.eqb_neq in E. split; [discriminate | tauto].
Qed.

(** What each operation collected by Update stands for. *)
Lemma patchesFor_In (plan state : Ntg.ntgResourceModel)
    (p : ntg.PatchNetworkTunnelGroupRequestInner) :
  In p (Ntg.patchesFor plan state) ->
  ntg.Op p = "replace" /\
  ((ntg.Path p = "/name" /\ StringEqual (Ntg.Name plan) (Ntg.Name state) = false) \/
   (ntg.Path p = "/passphrase"
    /\ StringEqual (Ntg.PresharedKey plan) (Ntg.PresharedKey state) = false) \/
   (ntg.Path p = "/routing"
    /\ Ntg.compareStringSlicesAsSets (Ntg.NetworkCidrs state) (Ntg.NetworkCidrs plan) = false)).
Proof.
  unfold Ntg.patchesFor.
  destruct (StringEqual (Ntg.Name plan) (Ntg.Name state)) eqn:En;
  destruct (StringEqual (Ntg.PresharedKey plan) (Ntg.PresharedKey state)) eqn:Ek;
  destruct (Ntg.compareStringSlicesAsSets (Ntg.NetworkCidrs state) (Ntg.NetworkCidrs plan)) eqn:Ec;
  simpl; intros H;
  repeat match goal with
         | H : _ \/ _ |- _ => destruct H
         | H : False |- _ => destruct H
         end; subst; simpl; auto 6.
Qed.

Section NtgUpdate.

Context {Srv : Type} {service : RemoteService Srv}.

(** Update exchanges nothing, or one PATCH with the collected operations. *)
Lemma ntg_update_log (req : UpdateRequest Ntg.ntgResourceModel) (srv : Srv) :
  let plan := UpdatePlan req in
  let state := UpdateState req in
  let log := exchanges (finalWorld (Ntg.Update req (fresh srv))) in
  log = [] \/
  (Ntg.patchesFor plan state <> [] /\
   exists r, log = [exchangeOf (PatchNetworkTunnelGroup (ValueInt64 (Ntg.Id plan))
                                  (Ntg.patchesFor plan state)) r]).
Proof.
  unfold Ntg.Update, bind, Append, HasError, AddError, StateSet_, ret, invoke, afterCall, fresh.
  cbn [Diagnostics exchanges remote State finalWorld].
  destruct (diag.HasError (diag.Append [] (UpdatePlanDiags req))); [now left |].
  cbn [Diagnostics exchanges remote State finalWorld].
  destruct (diag.HasError _); [now left |].
  destruct (Ntg.patchesFor (UpdatePlan req) (UpdateState req)) as [|p ps] eqn:Ep.
  - now left.
  - cbn [nonEmptyList Diagnostics exchanges remote State finalWorld].
    destruct (Execute _ srv) as [r srv'].
    right. split; [discriminate |]. exists r.
    destruct (err r); reflexivity.
Qed.

(** With nothing to patch, Update exchanges nothing. *)
Lemma ntg_update_log_nil (req : UpdateRequest Ntg.ntgResourceModel) (srv : Srv) :
  Ntg.patchesFor (UpdatePlan req) (UpdateState req) = [] ->
  exchanges (finalWorld (Ntg.Update req (fresh srv))) = [].
Proof.
  intros Hnil. destruct (ntg_update_log req srv) as [H | [H _]].
  - exact H.
  - contradiction.
Qed.

End NtgUpdate.

Section NtgClaims.

Context {Srv : Type} {service : RemoteService Srv}.

(** C10.  compareStringSlicesAsSets answers true on any two lists that are
    permutations of each other and false on any two lists of different
    lengths; so Update of a network tunnel group puts no "/routing"
    operation in its PATCH when the planned network_cidrs reorder the list
    of the state. *)
Theorem compareStringSlicesAsSets_permutation :
  (forall a b : list StringValue,
      Permutation a b -> Ntg.compareStringSlicesAsSets a b = true)
  /\ (forall a b : list StringValue,
      List.length a <> List.length b -> Ntg.compareStringSlicesAsSets a b = false)
  /\ (forall (req : UpdateRequest Ntg.ntgResourceModel) (srv : Srv) e id body p,
      Permutation (Ntg.NetworkCidrs (UpdateState req)) (Ntg.NetworkCidrs (UpdatePlan req)) ->
      In e (exchanges (finalWorld (Ntg.Update req (fresh srv)))) ->
      request e = PatchNetworkTunnelGroup id body ->
      In p body ->
      ntg.Path p <> "/routing").
Proof.
  split; [| split].
  - intros a b Hperm. apply compareStringSlicesAsSets_true_iff. split.
    + now apply Permutation_length.
    + intros x Hx. now apply (Permutation_in x Hperm).
  - intros a b Hlen.
    destruct (Ntg.compareStringSlicesAsSets a b) eqn:E; [| reflexivity].
    apply compareStringSlicesAsSets_true_iff in E. tauto.
  - intros req srv e id body p Hperm He Hreq Hp.
    assert (Ntg.compareStringSlicesAsSets (Ntg.NetworkCidrs (UpdateState req))
              (Ntg.NetworkCidrs (UpdatePlan req)) = true) as Hcmp.
    { apply compareStringSlicesAsSets_true_iff. split.
      - now apply Permutation_length.
      - intros x Hx. now apply (Permutation_in x Hperm). }
    destruct (ntg_update_log req srv) as [Hlog | [_ [r Hlog]]];
      rewrite Hlog in He; simpl in He; [contradiction |].
    destruct He as [He | []]. subst e. simpl in Hreq.
    injection Hreq as _ Hbody. subst body.
    apply patchesFor_In in Hp.
    destruct Hp as [_ [[Hpath _] | [[Hpath _] | [_ Hfalse]]]].
    + rewrite Hpath. discriminate.
    + rewrite Hpath. discriminate.
    + congruence.
Qed.

(** C6, as the code has it.  Every exchange of Update of a network tunnel
    group is one PATCH of the planned id, and each of its operations is a
    "replace" of /name, /passphrase or /routing: of /name only if the
    planned name differs from the state, of /passphrase only if the planned
    preshared key differs, of /routing only if the planned CIDR list differs
    from the list of the state in length or as a set of values.  When the
    name and the key are unchanged and the two CIDR lists have the same
    length and the same values, Update calls nothing. *)
Theorem ntg_update_patches_only_what_differs
    (req : UpdateRequest Ntg.ntgResourceModel) (srv : Srv) :
  let plan := UpdatePlan req in
  let state := UpdateState req in
  let log := exchanges (finalWorld (Ntg.Update req (fresh srv))) in
  (forall e, In e log ->
     exists body,
       request e = PatchNetworkTunnelGroup (ValueInt64 (Ntg.Id plan)) body /\
       forall p, In p body ->
         ntg.Op p = "replace" /\
         ((ntg.Path p = "/name" /\ Ntg.Name plan <> Ntg.Name state) \/
          (ntg.Path p = "/passphrase" /\ Ntg.PresharedKey plan <> Ntg.PresharedKey state) \/
          (ntg.Path p = "/routing" /\
           (List.length (Ntg.NetworkCidrs plan) <> List.length (Ntg.NetworkCidrs state) \/
            ~ (forall c, In c (Ntg.NetworkCidrs state) <-> In c (Ntg.NetworkCidrs plan))))))
  /\ (Ntg.Name plan = Ntg.Name state ->
      Ntg.PresharedKey plan = Ntg.PresharedKey state ->
      List.length (Ntg.NetworkCidrs plan) = List.length (Ntg.NetworkCidrs state) ->
      (forall c, In c (Ntg.NetworkCidrs state) <-> In c (Ntg.NetworkCidrs plan)) ->
      log = []).
Proof.
  intros plan state log. split.
  - intros e He. subst log.
    destruct (ntg_update_log req srv) as [Hlog | [_ [r Hlog]]];
      rewrite Hlog in He; simpl in He; [contradiction |].
    destruct He as [He | []]. subst e.
    exists (Ntg.patchesFor plan state). split; [reflexivity |].
    intros p Hp. apply patchesFor_In in Hp.
    destruct Hp as [Hop Hcases]. split; [exact Hop |].
    destruct Hcases as [[Hpath Hne] | [[Hpath Hne] | [Hpath Hne]]].
    + left. split; [exact Hpath |]. intros Heq.
      apply StringEqual_true_iff in Heq. fold plan state in Hne. congruence.
    + right. left. split; [exact Hpath |]. intros Heq.
      apply StringEqual_true_iff in Heq. fold plan state in Hne. congruence.
    + right. right. split; [exact Hpath |].
      destruct (Nat.eq_dec (List.length (Ntg.NetworkCidrs plan))
                           (List.length (Ntg.NetworkCidrs state))) as [Hlen | Hlen];
        [right | now left].
      intros Hset.
      assert (Ntg.compareStringSlicesAsSets (Ntg.NetworkCidrs state)
                (Ntg.NetworkCidrs plan) = true) as Htrue.
      { apply compareStringSlicesAsSets_true_iff. split; [now symmetry |].
        intros c Hc. now apply Hset. }
      fold plan state in Hne. congruence.
  - intros Hname Hkey Hlen Hset. subst log.
    apply ntg_update_log_nil. fold plan state.
    unfold Ntg.patchesFor.
    rewrite Hname, Hkey, !StringEqual_refl.
    assert (Ntg.compareStringSlicesAsSets (Ntg.NetworkCidrs state)
              (Ntg.NetworkCidrs plan) = true) as Htrue.
    { apply compareStringSlicesAsSets_true_iff. split; [now symmetry |].
      intros c Hc. now apply Hset. }
    rewrite Htrue. reflexivity.
Qed.

End NtgClaims.

(** The reordered list at a concrete request: the name changes, the CIDRs
    are swapped, and the PATCH carries /name only. *)
Lemma compareStringSlicesAsSets_permutation_witness :
  Ntg.compareStringSlicesAsSets
    [Known "10.0.0.0/8"; Known "192.168.0.0/16"]
    [Known "192.168.0.0/16"; Known "10.0.0.0/8"] = true
  /\ Ntg.compareStringSlicesAsSets [Known "10.0.0.0/8"] [] = false
  /\ ntg.Path (ntg.NewPatchNetworkTunnelGroupRequestInner "replace" "/name"
                 (ntg.StringAsPatchNetworkTunnelGroupRequestInnerValue "new"))
     <> "/routing".
Proof.
  destruct (@compareStringSlicesAsSets_permutation unit acceptAll) as (H1 & H2 & H3).
  split; [| split].
  - apply H1. apply perm_swap.
  - apply H2. simpl. lia.
  - eapply (H3 (Examples.ntgUpdate
                  (Examples.ntgModel "new" "key" ["192.168.0.0/16"; "10.0.0.0/8"])
                  (Examples.ntgModel "old" "key" ["10.0.0.0/8"; "192.168.0.0/16"]))
               tt
               (mkExchange
                  (PatchNetworkTunnelGroup 7
                     [ntg.NewPatchNetworkTunnelGroupRequestInner "replace" "/name"
                        (ntg.StringAsPatchNetworkTunnelGroupRequestInnerValue "new")])
                  (httpRes (@okReply unit)) false)
               7).
    + apply perm_swap.
    + vm_compute. left. reflexivity.
    + reflexivity.
    + left. reflexivity.
Defined.

(** A request that changes the name and adds a CIDR: the operations are
    the two the theorem allows; and an unchanged request calls nothing. *)
Lemma ntg_update_patches_only_what_differs_witness :
  (exists body,
      body = [ntg.NewPatchNetworkTunnelGroupRequestInner "replace" "/name"
                (ntg.StringAsPatchNetworkTunnelGroupRequestInnerValue "new");
              ntg.NewPatchNetworkTunnelGroupRequestInner "replace" "/routing"
                (ntg.RoutingRequestAsPatchNetworkTunnelGroupRequestInnerValue "static"
                   ["10.0.0.0/8"; "192.168.0.0/16"])]
      /\ forall p, In p body -> ntg.Op p = "replace")
  /\ exchanges (finalWorld
       (Ntg.Update (service := acceptAll)
          (Examples.ntgUpdate (Examples.ntgModel "same" "key" ["10.0.0.0/8"])
                              (Examples.ntgModel "same" "key" ["10.0.0.0/8"]))
          (fresh tt))) = [].
Proof.
  split.
  - destruct (@ntg_update_patches_only_what_differs unit acceptAll
                (Examples.ntgUpdate
                   (Examples.ntgModel "new" "key" ["10.0.0.0/8"; "192.168.0.0/16"])
                   (Examples.ntgModel "old" "key" ["10.0.0.0/8"]))
                tt) as [H _].
    destruct (H (mkExchange
                   (PatchNetworkTunnelGroup 7
                      [ntg.NewPatchNetworkTunnelGroupRequestInner "replace" "/name"
                         (ntg.StringAsPatchNetworkTunnelGroupRequestInnerValue "new");
                       ntg.NewPatchNetworkTunnelGroupRequestInner "replace" "/routing"
                         (ntg.RoutingRequestAsPatchNetworkTunnelGroupRequestInnerValue "static"
                            ["10.0.0.0/8"; "192.168.0.0/16"])])
                   (httpRes (@okReply unit)) false))
      as [body [Hreq Hops]].
    + vm_compute. left. reflexivity.
    + exists body. split.
      * simpl in Hreq. injection Hreq as Hbody. now subst body.
      * intros p Hp. now apply Hops.
  - apply (@ntg_update_patches_only_what_differs unit acceptAll); reflexivity.
Defined.

(** C6 as stated fails: the planned list repeats the one CIDR of the state,
    so the two lists hold the same set of values, the name and the key are
    unchanged, and Update still patches /routing. *)
Lemma ntg_routing_patched_for_equal_sets :
  let plan := Examples.ntgModel "same" "key" ["10.0.0.0/8"; "10.0.0.0/8"] in
  let state := Examples.ntgModel "same" "key" ["10.0.0.0/8"] in
  Ntg.Name plan = Ntg.Name state
  /\ Ntg.PresharedKey plan = Ntg.PresharedKey state
  /\ (forall c, In c (Ntg.NetworkCidrs state) <-> In c (Ntg.NetworkCidrs plan))
  /\ map request
       (exchanges (finalWorld
          (Ntg.Update (service := acceptAll) (Examples.ntgUpdate plan state) (fresh tt))))
     = [PatchNetworkTunnelGroup 7
          [ntg.NewPatchNetworkTunnelGroupRequestInner "replace" "/routing"
             (ntg.RoutingRequestAsPatchNetworkTunnelGroupRequestInnerValue "static"
                ["10.0.0.0/8"; "10.0.0.0/8"])]].
Proof.
  repeat split.
  - simpl. tauto.
  - simpl. tauto.
Qed.

(** ** Access policy and private resource: Update without changes *)

Lemma diag_HasError_app (a b : diag.Diagnostics) :
  diag.HasError (a ++ b) = diag.HasError a || diag.HasError b.
Proof. unfold diag.HasError. apply existsb_app. Qed.

Lemma access_policy_hasChanges_false (plan state : AccessPolicy.accessPolicyResourceModel) :
  AccessPolicy.agreesWith plan state -> AccessPolicy.hasChanges plan state = false.
Proof.
  unfold AccessPolicy.agreesWith, AccessPolicy.hasChanges.
  intros (H1 & H2 & H3 & H4 & H5 & H6 & H7 & H8 & H9 & H10 & H11 & H12 & H13).
  rewrite H1, H2, H3, H4, H5, H6, H7, H8, H9, H10, H11, H12, H13. reflexivity.
Qed.

Lemma private_resource_hasResourceChanges_false
    (plan state : PrivateResource.privateResourceResourceModel) :
  PrivateResource.agreesWith plan state ->
  PrivateResource.hasResourceChanges plan state = false.
Proof.
  unfold PrivateResource.agreesWith, PrivateResource.hasResourceChanges.
  intros (H1 & H2 & H3 & H4 & H5).
  rewrite H1, H2, H3, H4, H5. reflexivity.
Qed.

Lemma access_policy_agreesWith_refl (plan : AccessPolicy.accessPolicyResourceModel) :
  AccessPolicy.agreesWith plan plan.
Proof.
  unfold AccessPolicy.agreesWith.
  repeat split;
    auto using StringEqual_refl, BoolEqual_refl, Int64Equal_refl,
               SetEqual_refl, Z.eqb_refl, String.eqb_refl.
Qed.

Lemma trafficSelectorEqual_refl (a : PrivateResource.trafficSelectorModel) :
  PrivateResource.trafficSelectorEqual a a = true.
Proof.
  unfold PrivateResource.trafficSelectorEqual. now rewrite !StringEqual_refl.
Qed.

Lemma addressTypesEqual_refl (a : PrivateResource.addressTypesModel) :
  PrivateResource.addressTypesEqual a a = true.
Proof.
  unfold PrivateResource.addressTypesEqual.
  rewrite !SetEqual_refl; auto using String.eqb_refl, trafficSelectorEqual_refl.
Qed.

Lemma private_resource_agreesWith_refl
    (plan : PrivateResource.privateResourceResourceModel) :
  PrivateResource.agreesWith plan plan.
Proof.
  unfold PrivateResource.agreesWith.
  repeat split;
    auto using StringEqual_refl, Int64Equal_refl, SetEqual_refl,
               String.eqb_refl, addressTypesEqual_refl.
Qed.

Section UpdateWithoutChanges.

Context {Srv : Type} {service : RemoteService Srv}.

Variable ProtocolClientToResource : string -> string.

(** Update of an access policy when hasChanges answers false. *)
Lemma access_policy_update_unchanged
    (req : UpdateRequest AccessPolicy.accessPolicyResourceModel) (srv : Srv) :
  AccessPolicy.hasChanges (UpdatePlan req) (UpdateState req) = false ->
  exchanges (finalWorld (AccessPolicy.Update req (fresh srv))) = []
  /\ remote (finalWorld (AccessPolicy.Update req (fresh srv))) = srv
  /\ (diag.HasError (UpdatePlanDiags req ++ UpdateStateDiags req) = false ->
      AccessPolicy.Update req (fresh srv)
      = Returned tt (mkWorld srv [] (UpdatePlanDiags req ++ UpdateStateDiags req)
                       (StateSet (UpdatePlan req)))).
Proof.
  intros Hsame.
  unfold AccessPolicy.Update, bind, Append, HasError, AddError, StateSet_, ret, fresh.
  cbn [Diagnostics exchanges remote State finalWorld]. unfold diag.Append.
  rewrite Hsame. cbn [app].
  destruct (diag.HasError (UpdatePlanDiags req)) eqn:Ep.
  - cbn. repeat split. rewrite diag_HasError_app, Ep. discriminate.
  - cbn [Diagnostics exchanges remote State finalWorld].
    destruct (diag.HasError (UpdatePlanDiags req ++ UpdateStateDiags req)) eqn:Es.
    + cbn. repeat split. discriminate.
    + cbn. repeat split. intros _. now rewrite app_nil_r.
Qed.

(** Update of a private resource when hasResourceChanges answers false. *)
Lemma private_resource_update_unchanged
    (req : UpdateRequest PrivateResource.privateResourceResourceModel) (srv : Srv) :
  PrivateResource.hasResourceChanges (UpdatePlan req) (UpdateState req) = false ->
  exchanges (finalWorld (PrivateResource.Update ProtocolClientToResource req (fresh srv))) = []
  /\ remote (finalWorld (PrivateResource.Update ProtocolClientToResource req (fresh srv))) = srv
  /\ (diag.HasError (UpdatePlanDiags req ++ UpdateStateDiags req) = false ->
      PrivateResource.Update ProtocolClientToResource req (fresh srv)
      = Returned tt (mkWorld srv [] (UpdatePlanDiags req ++ UpdateStateDiags req)
                       (StateSet (UpdatePlan req)))).
Proof.
  intros Hsame.
  unfold PrivateResource.Update, bind, Append, HasError, AddError, StateSet_, ret, fresh.
  cbn [Diagnostics exchanges remote State finalWorld]. unfold diag.Append.
  rewrite Hsame. cbn [app].
  destruct (diag.HasError (UpdatePlanDiags req ++ UpdateStateDiags req)) eqn:Es.
  - cbn. repeat split. discriminate.
  - cbn. repeat split. intros _. now rewrite app_nil_r.
Qed.

(** C5.  An Update whose plan agrees with the prior state on every compared
    field is a no-op on the remote side: Update of an access policy and
    Update of a private resource exchange nothing with the API, leave the
    service as it was, and (the plan and the state being readable) set the
    Terraform state to the plan. *)
Theorem update_without_changes_writes_nothing :
  (forall (req : UpdateRequest AccessPolicy.accessPolicyResourceModel) (srv : Srv),
      AccessPolicy.agreesWith (UpdatePlan req) (UpdateState req) ->
      exchanges (finalWorld (AccessPolicy.Update req (fresh srv))) = []
      /\ remote (finalWorld (AccessPolicy.Update req (fresh srv))) = srv
      /\ (diag.HasError (UpdatePlanDiags req ++ UpdateStateDiags req) = false ->
          AccessPolicy.Update req (fresh srv)
          = Returned tt (mkWorld srv [] (UpdatePlanDiags req ++ UpdateStateDiags req)
                           (StateSet (UpdatePlan req)))))
  /\ (forall (req : UpdateRequest PrivateResource.privateResourceResourceModel) (srv : Srv),
      PrivateResource.agreesWith (UpdatePlan req) (UpdateState req) ->
      exchanges (finalWorld
                   (PrivateResource.Update ProtocolClientToResource req (fresh srv))) = []
      /\ remote (finalWorld
                   (PrivateResource.Update ProtocolClientToResource req (fresh srv))) = srv
      /\ (diag.HasError (UpdatePlanDiags req ++ UpdateStateDiags req) = false ->
          PrivateResource.Update ProtocolClientToResource req (fresh srv)
          = Returned tt (mkWorld srv [] (UpdatePlanDiags req ++ UpdateStateDiags req)
                           (StateSet (UpdatePlan req))))).
Proof.
  split; intros req srv Hagree.
  - apply access_policy_update_unchanged.
    now apply access_policy_hasChanges_false.
  - apply private_resource_update_unchanged.
    now apply private_resource_hasResourceChanges_false.
Qed.

(** C9.  hasChanges does not look at Action: when the plan and the state
    agree on the thirteen compared fields and differ in Action, hasChanges
    answers false, Update calls no API operation, and the plan, with its
    new action, is what Update writes to the Terraform state. *)
Theorem hasChanges_ignores_action
    (req : UpdateRequest AccessPolicy.accessPolicyResourceModel) (srv : Srv) :
  let plan := UpdatePlan req in
  let state := UpdateState req in
  StringEqual (AccessPolicy.Name plan) (AccessPolicy.Name state) = true ->
  StringEqual (AccessPolicy.Description plan) (AccessPolicy.Description state) = true ->
  BoolEqual (AccessPolicy.Enabled plan) (AccessPolicy.Enabled state) = true ->
  Int64Equal (AccessPolicy.Priority plan) (AccessPolicy.Priority state) = true ->
  SetEqual Z.eqb (AccessPolicy.SourceIds plan) (AccessPolicy.SourceIds state) = true ->
  SetEqual String.eqb (AccessPolicy.SourceTypes plan) (AccessPolicy.SourceTypes state) = true ->
  SetEqual String.eqb (AccessPolicy.PrivateDestinationTypes plan)
                      (AccessPolicy.PrivateDestinationTypes state) = true ->
  SetEqual String.eqb (AccessPolicy.PublicDestinationTypes plan)
                      (AccessPolicy.PublicDestinationTypes state) = true ->
  SetEqual Z.eqb (AccessPolicy.PrivateResourceIds plan)
                 (AccessPolicy.PrivateResourceIds state) = true ->
  SetEqual Z.eqb (AccessPolicy.DestinationListIds plan)
                 (AccessPolicy.DestinationListIds state) = true ->
  StringEqual (AccessPolicy.LogLevel plan) (AccessPolicy.LogLevel state) = true ->
  Int64Equal (AccessPolicy.ClientPostureProfileId plan)
             (AccessPolicy.ClientPostureProfileId state) = true ->
  StringEqual (AccessPolicy.TrafficType plan) (AccessPolicy.TrafficType state) = true ->
  AccessPolicy.Action plan <> AccessPolicy.Action state ->
  diag.HasError (UpdatePlanDiags req ++ UpdateStateDiags req) = false ->
  AccessPolicy.hasChanges plan state = false
  /\ exists stored,
       AccessPolicy.Update req (fresh srv)
       = Returned tt (mkWorld srv [] (UpdatePlanDiags req ++ UpdateStateDiags req)
                        (StateSet stored))
       /\ stored = plan
       /\ AccessPolicy.Action stored <> AccessPolicy.Action state.
Proof.
  intros plan state H1 H2 H3 H4 H5 H6 H7 H8 H9 H10 H11 H12 H13 Haction Hdiags.
  assert (AccessPolicy.hasChanges plan state = false) as Hsame.
  { apply access_policy_hasChanges_false. unfold AccessPolicy.agreesWith. tauto. }
  split; [exact Hsame |].
  exists plan. split; [| split; [reflexivity | exact Haction]].
  now apply access_policy_update_unchanged.
Qed.

End UpdateWithoutChanges.

(** A plan equal to the state, for both resources, against a service that
    would accept any write. *)
Lemma update_without_changes_writes_nothing_witness :
  AccessPolicy.Update (service := acceptAll)
    (mkUpdateRequest (Examples.policy "rule" "allow") [] (Examples.policy "rule" "allow") [])
    (fresh tt)
  = Returned tt (mkWorld tt [] [] (StateSet (Examples.policy "rule" "allow")))
  /\ PrivateResource.Update (service := acceptAll) (fun protocol => protocol)
       (mkUpdateRequest (Examples.privateResource "app" []) []
                        (Examples.privateResource "app" []) [])
       (fresh tt)
     = Returned tt (mkWorld tt [] [] (StateSet (Examples.privateResource "app" []))).
Proof.
  destruct (@update_without_changes_writes_nothing unit acceptAll (fun protocol => protocol))
    as [Hpolicy Hresource].
  split.
  - apply (Hpolicy (mkUpdateRequest (Examples.policy "rule" "allow") []
                                    (Examples.policy "rule" "allow") []) tt).
    + vm_compute. repeat split.
    + reflexivity.
  - apply (Hresource (mkUpdateRequest (Examples.privateResource "app" []) []
                                      (Examples.privateResource "app" []) []) tt).
    + vm_compute. repeat split.
    + reflexivity.
Defined.

(** The action goes from block to allow and nothing else changes: no call,
    and the state now says allow. *)
Lemma hasChanges_ignores_action_witness :
  AccessPolicy.hasChanges (Examples.policy "rule" "allow") (Examples.policy "rule" "block")
    = false
  /\ exists stored,
       AccessPolicy.Update (service := acceptAll)
         (mkUpdateRequest (Examples.policy "rule" "allow") []
                          (Examples.policy "rule" "block") [])
         (fresh tt)
       = Returned tt (mkWorld tt [] [] (StateSet stored))
       /\ stored = Examples.policy "rule" "allow"
       /\ AccessPolicy.Action stored <> Known "block".
Proof.
  apply (@hasChanges_ignores_action unit acceptAll
           (mkUpdateRequest (Examples.policy "rule" "allow") []
                            (Examples.policy "rule" "block") []) tt);
    try reflexivity.
  simpl. discriminate.
Defined.

(** ** Global settings: PutState *)

Section GlobalSettingsPutState.

Context {Srv : Type} {service : RemoteService Srv}.

Local Abbreviation decryption := GlobalSettings.EnableGlobalDecryption.
Local Abbreviation profile := GlobalSettings.GlobalIPSProfileId.

Local Abbreviation putDecryption b :=
  (PutPolicySetting rules.SETTINGNAME_SSE_GLOBAL_IPS_ENABLED
     (rules.mkSettingsObject rules.SETTINGNAME_SSE_GLOBAL_IPS_ENABLED
        (rules.mkSettingValue None None (Some b)))).

Local Abbreviation putProfile i :=
  (PutPolicySetting rules.SETTINGNAME_UMBRELLA_POSTURE_IPS_PROFILE_ID
     (rules.mkSettingsObject rules.SETTINGNAME_UMBRELLA_POSTURE_IPS_PROFILE_ID
        (rules.mkSettingValue None (Some i) None))).

(** C7.  PutState always returns, and calls nothing but PutPolicySetting
    for the two settings.  A setting is written only when its planned value
    is not unknown and differs from the current value, and then with the
    planned value.  An unknown planned value is never written, and the plan
    field is filled from the current value (for the IPS profile id: unless
    the write of the decryption setting failed, in which case PutState has
    returned that error).  A planned value that is not unknown and equals
    the current value is not written, and the plan field and the current
    field stay as they were. *)
Theorem PutState_writes_known_changes_only
    (current plan : GlobalSettings.globalSettingsResourceModel) (srv : Srv) :
  exists current' plan' diags w,
    GlobalSettings.PutState current plan (fresh srv) = Returned (current', plan', diags) w
    /\ let log := map request (exchanges w) in
       (forall c, In c log ->
          (c = putDecryption (ValueBool (decryption plan))
           /\ IsUnknown (decryption plan) = false
           /\ ValueBool (decryption plan) <> ValueBool (decryption current))
          \/
          (c = putProfile (ValueInt64 (profile plan))
           /\ IsUnknown (profile plan) = false
           /\ ValueInt64 (profile plan) <> ValueInt64 (profile current)))
       /\ (IsUnknown (decryption plan) = true ->
           decryption plan' = decryption current
           /\ forall name body,
                In (PutPolicySetting name body) log ->
                name <> rules.SETTINGNAME_SSE_GLOBAL_IPS_ENABLED)
       /\ (IsUnknown (profile plan) = true ->
           (diag.HasError diags = false -> profile plan' = profile current)
           /\ forall name body,
                In (PutPolicySetting name body) log ->
                name <> rules.SETTINGNAME_UMBRELLA_POSTURE_IPS_PROFILE_ID)
       /\ (IsUnknown (decryption plan) = false ->
           ValueBool (decryption plan) = ValueBool (decryption current) ->
           decryption plan' = decryption plan
           /\ decryption current' = decryption current
           /\ forall name body,
                In (PutPolicySetting name body) log ->
                name <> rules.SETTINGNAME_SSE_GLOBAL_IPS_ENABLED)
       /\ (IsUnknown (profile plan) = false ->
           ValueInt64 (profile plan) = ValueInt64 (profile current) ->
           profile plan' = profile plan
           /\ profile current' = profile current
           /\ forall name body,
                In (PutPolicySetting name body) log ->
                name <> rules.SETTINGNAME_UMBRELLA_POSTURE_IPS_PROFILE_ID).
Proof.
  unfold GlobalSettings.PutState, bind, ret, invoke, afterCall, fresh.
  repeat (simpl;
          match goal with
          | |- context [IsUnknown ?x] => destruct (IsUnknown x) eqn:?
          | |- context [Bool.eqb ?a ?b] => destruct (Bool.eqb a b) eqn:?
          | |- context [Z.eqb ?a ?b] => destruct (Z.eqb a b) eqn:?
          | |- context [Execute ?c ?s] => destruct (Execute c s) as [[? ? [?|]] ?]
          end);
  repeat match goal with
         | H : Bool.eqb _ _ = true |- _ => apply Bool.eqb_prop in H
         | H : Bool.eqb _ _ = false |- _ => apply Bool.eqb_false_iff in H
         | H : (_ =? _) = true |- _ => apply Z.eqb_eq in H
         | H : (_ =? _) = false |- _ => apply Z.eqb_neq in H
         end;
  do 4 eexists; (split; [reflexivity |]);
  simpl;
  repeat split; intros;
  repeat match goal with
         | H : _ \/ _ |- _ => destruct H
         | H : False |- _ => destruct H
         | H : PutPolicySetting _ _ = PutPolicySetting _ _ |- _ => injection H as ? ?; subst
         end;
  subst; auto; try discriminate; try congruence.
Qed.

End GlobalSettingsPutState.

(** Decryption goes from false to true and the profile id is unknown in the
    plan: one write, of the decryption setting, and the plan takes the
    profile id of the current state. *)
Lemma PutState_writes_known_changes_only_witness :
  exists current' plan' diags w,
    GlobalSettings.PutState (service := acceptAll)
      (GlobalSettings.mkModel Null (Known false) (Known 9))
      (GlobalSettings.mkModel Unknown (Known true) Unknown)
      (fresh tt)
    = Returned (current', plan', diags) w
    /\ GlobalSettings.GlobalIPSProfileId plan' = Known 9
    /\ forall c, In c (map request (exchanges w)) ->
         c = PutPolicySetting rules.SETTINGNAME_SSE_GLOBAL_IPS_ENABLED
               (rules.mkSettingsObject rules.SETTINGNAME_SSE_GLOBAL_IPS_ENABLED
                  (rules.mkSettingValue None None (Some true))).
Proof.
  destruct (@PutState_writes_known_changes_only unit acceptAll
              (GlobalSettings.mkModel Null (Known false) (Known 9))
              (GlobalSettings.mkModel Unknown (Known true) Unknown) tt)
    as (current' & plan' & diags & w & Hrun & Hlog & _ & Hprofile & _).
  exists current', plan', diags, w.
  split; [exact Hrun |].
  split.
  - apply Hprofile; [reflexivity |].
    vm_compute in Hrun. injection Hrun as _ _ Hdiags _. now subst diags.
  - intros c Hc. destruct (Hlog c Hc) as [[Hput _] | [_ [Hknown _]]].
    + exact Hput.
    + discriminate Hknown.
Defined.

(** C7, as it is stated, fails when the write of the decryption setting
    fails.  The planned decryption flag differs from the current one, the
    planned IPS profile id is unknown, and PutPolicySetting is answered 500:
    PutState returns the error before it reaches the profile id, so this
    plan field stays unknown and is not filled from the current value 9. *)
Theorem PutState_keeps_unknown_profile_after_failed_write :
  exists current' plan' diags w,
    GlobalSettings.PutState (service := failAll 500 "500 Internal Server Error" EmptyString)
      (GlobalSettings.mkModel Null (Known false) (Known 9))
      (GlobalSettings.mkModel Unknown (Known true) Unknown)
      (fresh tt)
    = Returned (current', plan', diags) w
    /\ IsUnknown (GlobalSettings.GlobalIPSProfileId plan') = true
    /\ GlobalSettings.GlobalIPSProfileId current' = Known 9
    /\ diag.HasError diags = true
    /\ map request (exchanges w)
       = [PutPolicySetting rules.SETTINGNAME_SSE_GLOBAL_IPS_ENABLED
            (rules.mkSettingsObject rules.SETTINGNAME_SSE_GLOBAL_IPS_ENABLED
               (rules.mkSettingValue None None (Some true)))].
Proof.
  do 4 eexists. split; [vm_compute; reflexivity |].
  repeat split.
Qed.

(** ** The retry loop *)

Section RetryLoop.

Context {Srv : Type} {service : RemoteService Srv} {Mdl A : Type}.

Variable attempt : Prog (World Srv Mdl) (AttemptResult A).

Lemma retryLoop_ok (more : nat) (w w' : World Srv Mdl) (a : A) :
  attempt w = Returned (AttemptOk a) w' ->
  retryLoop more attempt w = Returned (inl a) w'.
Proof.
  intros H. destruct more; simpl; unfold bind; rewrite H; reflexivity.
Qed.

Lemma retryLoop_unrecoverable (more : nat) (w w' : World Srv Mdl) (msg : string) :
  attempt w = Returned (AttemptUnrecoverable msg) w' ->
  retryLoop more attempt w = Returned (inr msg) w'.
Proof.
  intros H. destruct more; simpl; unfold bind; rewrite H; reflexivity.
Qed.

Lemma retryLoop_retry (more : nat) (w w' : World Srv Mdl) (msg : string) :
  attempt w = Returned (AttemptError msg) w' ->
  retryLoop (S more) attempt w = retryLoop more attempt w'.
Proof.
  intros H. simpl. unfold bind at 1. rewrite H. reflexivity.
Qed.

Lemma retryLoop_last (w w' : World Srv Mdl) (msg : string) :
  attempt w = Returned (AttemptError msg) w' ->
  retryLoop 0 attempt w = Returned (inr msg) w'.
Proof.
  intros H. simpl. unfold bind. rewrite H. reflexivity.
Qed.

End RetryLoop.

(** ** Delete and the reply 404 *)

Ltac simpl_world := cbn [Diagnostics exchanges remote State app].

Ltac unfold_prog :=
  unfold bind, Append, HasError, AddError, StateSet_, RemoveResource, ret, panic, deref,
    invoke, fresh, diag.Append;
  cbn [Diagnostics exchanges remote State app].

Section DeleteNotFound.

Context {Srv : Type} {service : RemoteService Srv}.

Lemma access_policy_deleteAttempt_404
    (state : AccessPolicy.accessPolicyResourceModel)
    (w : World Srv AccessPolicy.accessPolicyResourceModel) r srv' h :
  Execute (DeleteRule (ValueInt64 (AccessPolicy.ID state))) (remote w) = (r, srv') ->
  httpRes r = Some h -> StatusCode h = 404 ->
  AccessPolicy.deleteAttempt state w
  = Returned (AttemptOk tt)
      (afterCall w (DeleteRule (ValueInt64 (AccessPolicy.ID state))) r srv').
Proof.
  intros Hexec Hres Hcode.
  unfold AccessPolicy.deleteAttempt. unfold_prog.
  rewrite Hexec. unfold statusIs. rewrite Hres, Hcode. reflexivity.
Qed.

Lemma connector_deleteAttempt_404 (agentID : Z)
    (w : World Srv ConnectorAgent.resourceConnectorAgentResourceModel) r srv' h :
  Execute (DeleteConnector agentID) (remote w) = (r, srv') ->
  httpRes r = Some h -> StatusCode h = 404 ->
  ConnectorAgent.deleteAttempt agentID w
  = Returned (AttemptOk tt) (afterCall w (DeleteConnector agentID) r srv').
Proof.
  intros Hexec Hres Hcode.
  unfold ConnectorAgent.deleteAttempt. unfold_prog.
  rewrite Hexec, Hres, Hcode. reflexivity.
Qed.

(** C4.  In the Delete of every resource a reply 404 counts as "already
    gone".  For the resources that delete with one call (private resource,
    network tunnel group, destination list) Delete returns after that call
    with no diagnostic of its own.  For the resources that delete in a retry
    loop (access policy, resource connector agent) a 404 at any attempt ends
    the loop at once with success, and Delete returns with no diagnostic of
    its own.  Delete of the global settings calls nothing, so it never
    sees a 404. *)
Theorem delete_treats_404_as_gone :
  (* access policy: any attempt of the loop, then Delete as a whole *)
  (forall state (w : World Srv AccessPolicy.accessPolicyResourceModel) more r srv' h,
      Execute (DeleteRule (ValueInt64 (AccessPolicy.ID state))) (remote w) = (r, srv') ->
      httpRes r = Some h -> StatusCode h = 404 ->
      retryLoop more (AccessPolicy.deleteAttempt state) w
      = Returned (inl tt)
          (afterCall w (DeleteRule (ValueInt64 (AccessPolicy.ID state))) r srv'))
  /\ (forall (req : DeleteRequest AccessPolicy.accessPolicyResourceModel) srv r srv' h,
      diag.HasError (DeleteStateDiags req) = false ->
      Execute (DeleteRule (ValueInt64 (AccessPolicy.ID (DeleteState req)))) srv = (r, srv') ->
      httpRes r = Some h -> StatusCode h = 404 ->
      AccessPolicy.Delete req (fresh srv)
      = Returned tt
          (mkWorld srv'
             [exchangeOf (DeleteRule (ValueInt64 (AccessPolicy.ID (DeleteState req)))) r]
             (DeleteStateDiags req) StateUntouched))
  (* private resource *)
  /\ (forall (req : DeleteRequest PrivateResource.privateResourceResourceModel) srv r srv' h,
      let id := fst (Atoi (ValueString (PrivateResource.ID (DeleteState req)))) in
      diag.HasError (DeleteStateDiags req) = false ->
      Execute (DeletePrivateResource id) srv = (r, srv') ->
      httpRes r = Some h -> StatusCode h = 404 ->
      PrivateResource.Delete req (fresh srv)
      = Returned tt
          (mkWorld srv' [exchangeOf (DeletePrivateResource id) r]
             (DeleteStateDiags req) StateUntouched))
  (* network tunnel group *)
  /\ (forall (req : DeleteRequest Ntg.ntgResourceModel) srv r srv' h,
      let id := ValueInt64 (Ntg.Id (DeleteState req)) in
      diag.HasError (DeleteStateDiags req) = false ->
      Execute (DeleteNetworkTunnelGroup id) srv = (r, srv') ->
      httpRes r = Some h -> StatusCode h = 404 ->
      Ntg.Delete req (fresh srv)
      = Returned tt
          (mkWorld srv' [exchangeOf (DeleteNetworkTunnelGroup id) r]
             (DeleteStateDiags req) StateUntouched))
  (* destination list *)
  /\ (forall (req : DeleteRequest DestinationList.destinationListResourceModel) srv r srv' h,
      let id := ValueInt64 (DestinationList.Id (DeleteState req)) in
      diag.HasError (DeleteStateDiags req) = false ->
      Execute (DeleteDestinationList id) srv = (r, srv') ->
      httpRes r = Some h -> StatusCode h = 404 ->
      DestinationList.Delete req (fresh srv)
      = Returned tt
          (mkWorld srv' [exchangeOf (DeleteDestinationList id) r]
             (DeleteStateDiags req) StateUntouched))
  (* resource connector agent: any attempt of the loop, then Delete as a whole *)
  /\ (forall agentID (w : World Srv ConnectorAgent.resourceConnectorAgentResourceModel)
             more r srv' h,
      Execute (DeleteConnector agentID) (remote w) = (r, srv') ->
      httpRes r = Some h -> StatusCode h = 404 ->
      retryLoop more (ConnectorAgent.deleteAttempt agentID) w
      = Returned (inl tt) (afterCall w (DeleteConnector agentID) r srv'))
  /\ (forall (req : DeleteRequest ConnectorAgent.resourceConnectorAgentResourceModel)
             srv r srv' h,
      let id := ValueInt64 (ConnectorAgent.ID (DeleteState req)) in
      diag.HasError (DeleteStateDiags req) = false ->
      Execute (DeleteConnector id) srv = (r, srv') ->
      httpRes r = Some h -> StatusCode h = 404 ->
      ConnectorAgent.Delete req (fresh srv)
      = Returned tt
          (mkWorld srv' [exchangeOf (DeleteConnector id) r]
             (DeleteStateDiags req) StateUntouched))
  (* global settings *)
  /\ (forall (req : DeleteRequest GlobalSettings.globalSettingsResourceModel) (srv : Srv),
      exchanges (finalWorld (GlobalSettings.Delete req (fresh srv))) = []).
Proof.
  repeat apply conj.
  - intros state w more r srv' h Hexec Hres Hcode.
    apply retryLoop_ok. now apply access_policy_deleteAttempt_404 with h.
  - intros req srv r srv' h Hdiags Hexec Hres Hcode.
    unfold AccessPolicy.Delete, retryDo. unfold bind at 1 2 3. unfold Append, HasError, fresh, diag.Append.
    cbn [Diagnostics exchanges remote State app]. rewrite Hdiags.
    erewrite retryLoop_ok.
    2: { eapply access_policy_deleteAttempt_404; [exact Hexec | exact Hres | exact Hcode]. }
    reflexivity.
  - intros req srv r srv' h id Hdiags Hexec Hres Hcode.
    unfold PrivateResource.Delete. unfold_prog. rewrite Hdiags. simpl_world.
    subst id. rewrite Hexec. cbn [Diagnostics exchanges remote State app].
    rewrite Hres. unfold PrivateResource.privateResourceHTTPNotFound. rewrite Hcode.
    reflexivity.
  - intros req srv r srv' h id Hdiags Hexec Hres Hcode.
    unfold Ntg.Delete. unfold_prog. rewrite Hdiags. simpl_world.
    subst id. rewrite Hexec. unfold statusIs. rewrite Hres, Hcode. reflexivity.
  - intros req srv r srv' h id Hdiags Hexec Hres Hcode.
    unfold DestinationList.Delete. unfold_prog. rewrite Hdiags. simpl_world.
    subst id. rewrite Hexec. cbn [Diagnostics exchanges remote State app].
    rewrite Hres. unfold DestinationList.httpStatusNotFound. rewrite Hcode.
    reflexivity.
  - intros agentID w more r srv' h Hexec Hres Hcode.
    apply retryLoop_ok. now apply connector_deleteAttempt_404 with h.
  - intros req srv r srv' h id Hdiags Hexec Hres Hcode.
    unfold ConnectorAgent.Delete, retryDo. unfold bind at 1 2 3. unfold Append, HasError, fresh, diag.Append.
    cbn [Diagnostics exchanges remote State app]. rewrite Hdiags.
    subst id.
    erewrite retryLoop_ok.
    2: { eapply connector_deleteAttempt_404; [exact Hexec | exact Hres | exact Hcode]. }
    reflexivity.
  - intros req srv.
    unfold GlobalSettings.Delete. unfold_prog.
    destruct (diag.HasError (DeleteStateDiags req)); reflexivity.
Qed.

End DeleteNotFound.

(** Every Delete against a service that answers 404 to everything: one
    call, no diagnostic. *)
Lemma delete_treats_404_as_gone_witness :
  retryLoop 2
    (AccessPolicy.deleteAttempt (service := Examples.notFound)
       (Examples.policy "rule" "allow")) (fresh tt)
  = Returned (inl tt) (afterCall (fresh tt) (DeleteRule 12) Examples.gone tt)
  /\ AccessPolicy.Delete (service := Examples.notFound)
       (mkDeleteRequest (Examples.policy "rule" "allow") []) (fresh tt)
     = Returned tt (mkWorld tt [exchangeOf (DeleteRule 12) Examples.gone] [] StateUntouched)
  /\ PrivateResource.Delete (service := Examples.notFound)
       (mkDeleteRequest (Examples.privateResource "app" []) []) (fresh tt)
     = Returned tt (mkWorld tt [exchangeOf (DeletePrivateResource 31) Examples.gone] [] StateUntouched)
  /\ Ntg.Delete (service := Examples.notFound)
       (mkDeleteRequest (Examples.ntgModel "tunnel" "key" []) []) (fresh tt)
     = Returned tt (mkWorld tt [exchangeOf (DeleteNetworkTunnelGroup 7) Examples.gone] [] StateUntouched)
  /\ DestinationList.Delete (service := Examples.notFound)
       (mkDeleteRequest (DestinationList.mkModel (Known 5) (Known "list") Null) []) (fresh tt)
     = Returned tt (mkWorld tt [exchangeOf (DeleteDestinationList 5) Examples.gone] [] StateUntouched)
  /\ retryLoop 5 (ConnectorAgent.deleteAttempt (service := Examples.notFound) 44) (fresh tt)
     = Returned (inl tt) (afterCall (fresh tt) (DeleteConnector 44) Examples.gone tt)
  /\ ConnectorAgent.Delete (service := Examples.notFound)
       (mkDeleteRequest (Examples.connector 44) []) (fresh tt)
     = Returned tt (mkWorld tt [exchangeOf (DeleteConnector 44) Examples.gone] [] StateUntouched).
Proof.
  destruct (@delete_treats_404_as_gone unit Examples.notFound)
    as (H1 & H2 & H3 & H4 & H5 & H6 & H7 & _).
  pose (h := mkHttpResponse 404 "404 Not Found" (Some (mkBody EmptyString None))).
  repeat apply conj.
  - exact (H1 (Examples.policy "rule" "allow") (fresh tt) 2%nat Examples.gone tt h
              eq_refl eq_refl eq_refl).
  - exact (H2 (mkDeleteRequest (Examples.policy "rule" "allow") []) tt Examples.gone tt h
              eq_refl eq_refl eq_refl eq_refl).
  - exact (H3 (mkDeleteRequest (Examples.privateResource "app" []) []) tt Examples.gone tt h
              eq_refl eq_refl eq_refl eq_refl).
  - exact (H4 (mkDeleteRequest (Examples.ntgModel "tunnel" "key" []) []) tt Examples.gone tt h
              eq_refl eq_refl eq_refl eq_refl).
  - exact (H5 (mkDeleteRequest (DestinationList.mkModel (Known 5) (Known "list") Null) [])
              tt Examples.gone tt h eq_refl eq_refl eq_refl eq_refl).
  - exact (H6 44 (fresh tt) 5%nat Examples.gone tt h eq_refl eq_refl eq_refl).
  - exact (H7 (mkDeleteRequest (Examples.connector 44) []) tt Examples.gone tt h
              eq_refl eq_refl eq_refl eq_refl).
Defined.

(** ** Read and the reply 404 *)

Section ReadNotFound.

Context {Srv : Type} {service : RemoteService Srv}.

Lemma connector_readAttempt_404
    (data : ConnectorAgent.resourceConnectorAgentResourceModel) (agentID : Z)
    (w : World Srv ConnectorAgent.resourceConnectorAgentResourceModel) r srv' h :
  Execute (GetConnector agentID) (remote w) = (r, srv') ->
  httpRes r = Some h -> StatusCode h = 404 ->
  ConnectorAgent.readAttempt data agentID w
  = Returned (AttemptOk tt)
      (mkWorld srv' (exchanges w ++ [exchangeOf (GetConnector agentID) r])
         (Diagnostics w) StateRemoved).
Proof.
  intros Hexec Hres Hcode.
  unfold ConnectorAgent.readAttempt. unfold_prog.
  rewrite Hexec, Hres, Hcode. reflexivity.
Qed.

(** C3, as the code has it.  Read of an access policy, of a network tunnel
    group and of a resource connector agent (there at any attempt of the
    retry loop) answers a reply 404 by removing the resource from the
    state, with no diagnostic of its own; so does Read of a private
    resource when the 404 comes with an error, as the client reports it.
    Read of a destination list does not look at the status code: a failed
    call whose body holds the not-found marker removes the resource, a
    failed call whose body does not hold it adds an error diagnostic and
    leaves the state.  Read of the global settings has no not-found case:
    any failed call adds an error diagnostic and leaves the state. *)
Theorem read_removes_resource_when_gone :
  (* access policy *)
  (forall (req : ReadRequest AccessPolicy.accessPolicyResourceModel) (srv : Srv) r srv' h,
      let id := ValueInt64 (AccessPolicy.ID (ReadState req)) in
      Execute (GetRule id) srv = (r, srv') ->
      httpRes r = Some h -> StatusCode h = 404 ->
      AccessPolicy.Read req (fresh srv)
      = Returned tt (mkWorld srv' [exchangeOf (GetRule id) r] [] StateRemoved))
  (* network tunnel group *)
  /\ (forall (req : ReadRequest Ntg.ntgResourceModel) (srv : Srv) r srv' h,
      let id := ValueInt64 (Ntg.Id (ReadState req)) in
      diag.HasError (ReadStateDiags req) = false ->
      Execute (GetNetworkTunnelGroup id) srv = (r, srv') ->
      httpRes r = Some h -> StatusCode h = 404 ->
      Ntg.Read req (fresh srv)
      = Returned tt (mkWorld srv' [exchangeOf (GetNetworkTunnelGroup id) r]
                       (ReadStateDiags req) StateRemoved))
  (* private resource *)
  /\ (forall (req : ReadRequest PrivateResource.privateResourceResourceModel) (srv : Srv)
             r srv' h e,
      let id := fst (Atoi (ValueString (PrivateResource.ID (ReadState req)))) in
      diag.HasError (ReadStateDiags req) = false ->
      Execute (GetPrivateResource id) srv = (r, srv') ->
      httpRes r = Some h -> StatusCode h = 404 -> err r = Some e ->
      PrivateResource.Read req (fresh srv)
      = Returned tt (mkWorld srv' [exchangeOf (GetPrivateResource id) r]
                       (ReadStateDiags req) StateRemoved))
  (* resource connector agent: any attempt of the loop, then Read as a whole *)
  /\ (forall data agentID (w : World Srv ConnectorAgent.resourceConnectorAgentResourceModel)
             more r srv' h,
      Execute (GetConnector agentID) (remote w) = (r, srv') ->
      httpRes r = Some h -> StatusCode h = 404 ->
      retryLoop more (ConnectorAgent.readAttempt data agentID) w
      = Returned (inl tt)
          (mkWorld srv' (exchanges w ++ [exchangeOf (GetConnector agentID) r])
             (Diagnostics w) StateRemoved))
  /\ (forall (req : ReadRequest ConnectorAgent.resourceConnectorAgentResourceModel)
             (srv : Srv) r srv' h,
      let id := ValueInt64 (ConnectorAgent.ID (ReadState req)) in
      diag.HasError (ReadStateDiags req) = false ->
      Execute (GetConnector id) srv = (r, srv') ->
      httpRes r = Some h -> StatusCode h = 404 ->
      ConnectorAgent.Read req (fresh srv)
      = Returned tt (mkWorld srv' [exchangeOf (GetConnector id) r]
                       (ReadStateDiags req) StateRemoved))
  (* destination list: the body decides, not the status *)
  /\ (forall (req : ReadRequest DestinationList.destinationListResourceModel) (srv : Srv)
             r srv' h e b,
      let id := ValueInt64 (DestinationList.Id (ReadState req)) in
      diag.HasError (ReadStateDiags req) = false ->
      Execute (GetDestinationList id) srv = (r, srv') ->
      err r = Some e -> httpRes r = Some h ->
      Body h = Some b -> readErr b = None ->
      DestinationList.Read req (fresh srv)
      = Returned tt
          (if Contains (content b) DestinationList.destinationListNotFoundError
           then mkWorld srv' [exchangeOf (GetDestinationList id) r] [] StateRemoved
           else mkWorld srv' [exchangeOf (GetDestinationList id) r]
                  [diag.NewErrorDiagnostic ("HTTP Response: " ++ Status h)%string]
                  StateUntouched))
  (* global settings: every failure is an error *)
  /\ (forall (req : ReadRequest GlobalSettings.globalSettingsResourceModel) (srv : Srv)
             r srv' e,
      diag.HasError (ReadStateDiags req) = false ->
      Execute GetPolicySettings srv = (r, srv') ->
      err r = Some e ->
      GlobalSettings.Read req (fresh srv)
      = Returned tt
          (mkWorld srv' [exchangeOf GetPolicySettings r]
             (ReadStateDiags req
              ++ [diag.NewErrorDiagnostic "Error retrieving global policy settings"])
             StateUntouched)).
Proof.
  repeat apply conj.
  - intros req srv r srv' h id Hexec Hres Hcode. subst id.
    unfold AccessPolicy.Read. unfold_prog. cbn [diag.HasError existsb]. simpl_world.
    rewrite Hexec. unfold statusIs. rewrite Hres, Hcode. reflexivity.
  - intros req srv r srv' h id Hdiags Hexec Hres Hcode. subst id.
    unfold Ntg.Read. unfold_prog. rewrite Hdiags. simpl_world.
    rewrite Hexec. unfold statusIs. rewrite Hres, Hcode. reflexivity.
  - intros req srv r srv' h e id Hdiags Hexec Hres Hcode Herr. subst id.
    unfold PrivateResource.Read. unfold_prog. rewrite Hdiags. simpl_world.
    rewrite Hexec. simpl_world. rewrite Hres, Herr.
    unfold PrivateResource.privateResourceHTTPNotFound. rewrite Hcode. reflexivity.
  - intros data agentID w more r srv' h Hexec Hres Hcode.
    apply retryLoop_ok. now apply connector_readAttempt_404 with h.
  - intros req srv r srv' h id Hdiags Hexec Hres Hcode. subst id.
    unfold ConnectorAgent.Read, retryDo. unfold bind at 1 2 3.
    unfold Append, HasError, fresh, diag.Append. simpl_world. rewrite Hdiags.
    erewrite retryLoop_ok.
    2: { eapply connector_readAttempt_404; [exact Hexec | exact Hres | exact Hcode]. }
    reflexivity.
  - intros req srv r srv' h e b id Hdiags Hexec Herr Hres Hbody Hread. subst id.
    unfold DestinationList.Read. rewrite Hdiags. unfold_prog.
    rewrite Hexec. simpl_world. rewrite Herr, Hres, Hbody.
    unfold ReadAll, Close, ret. simpl_world. cbn [fst snd]. rewrite Hread.
    destruct (Contains (content b) DestinationList.destinationListNotFoundError);
      reflexivity.
  - intros req srv r srv' e Hdiags Hexec Herr.
    unfold GlobalSettings.Read, GlobalSettings.FetchState. unfold_prog.
    rewrite Hdiags. simpl_world. rewrite Hexec. simpl_world. rewrite Herr.
    reflexivity.
Qed.

End ReadNotFound.

(** C3 as stated fails.  Against a service that answers every call with
    404 Not Found and an empty body, Read of a destination list and Read of
    the global settings each add an error diagnostic and do not remove the
    resource from the state. *)
Lemma read_404_surfaces_error :
  option_map StatusCode (httpRes (@Examples.gone unit)) = Some 404
  /\ DestinationList.Read (service := Examples.notFound)
    (mkReadRequest (DestinationList.mkModel (Known 5) (Known "list") Null) [])
    (fresh tt)
  = Returned tt
      (mkWorld tt [exchangeOf (GetDestinationList 5) Examples.gone]
         [diag.NewErrorDiagnostic "HTTP Response: 404 Not Found"] StateUntouched)
  /\ GlobalSettings.Read (service := Examples.notFound)
       (mkReadRequest (GlobalSettings.mkModel (Known "global-settings") (Known true) (Known 9))
                      [])
       (fresh tt)
     = Returned tt
         (mkWorld tt [exchangeOf GetPolicySettings Examples.gone]
            [diag.NewErrorDiagnostic "Error retrieving global policy settings"]
            StateUntouched).
Proof. repeat split. Qed.

(** Each Read against a service that reports the resource as missing. *)
Lemma read_removes_resource_when_gone_witness :
  AccessPolicy.Read (service := Examples.notFound)
    (mkReadRequest (Examples.policy "rule" "allow") []) (fresh tt)
  = Returned tt (mkWorld tt [exchangeOf (GetRule 12) Examples.gone] [] StateRemoved)
  /\ Ntg.Read (service := Examples.notFound)
       (mkReadRequest (Examples.ntgModel "tunnel" "key" []) []) (fresh tt)
     = Returned tt (mkWorld tt [exchangeOf (GetNetworkTunnelGroup 7) Examples.gone]
                      [] StateRemoved)
  /\ PrivateResource.Read (service := Examples.notFound)
       (mkReadRequest (Examples.privateResource "app" []) []) (fresh tt)
     = Returned tt (mkWorld tt [exchangeOf (GetPrivateResource 31) Examples.gone]
                      [] StateRemoved)
  /\ retryLoop 5
       (ConnectorAgent.readAttempt (service := Examples.notFound) (Examples.connector 44) 44)
       (fresh tt)
     = Returned (inl tt)
         (mkWorld tt [exchangeOf (GetConnector 44) Examples.gone] [] StateRemoved)
  /\ ConnectorAgent.Read (service := Examples.notFound)
       (mkReadRequest (Examples.connector 44) []) (fresh tt)
     = Returned tt (mkWorld tt [exchangeOf (GetConnector 44) Examples.gone] [] StateRemoved)
  /\ DestinationList.Read (service := Examples.listNotFound)
       (mkReadRequest (DestinationList.mkModel (Known 5) (Known "list") Null) [])
       (fresh tt)
     = Returned tt (mkWorld tt [exchangeOf (GetDestinationList 5) Examples.listGone]
                      [] StateRemoved)
  /\ GlobalSettings.Read (service := Examples.notFound)
       (mkReadRequest (GlobalSettings.mkModel (Known "global-settings") (Known true) (Known 9))
                      [])
       (fresh tt)
     = Returned tt
         (mkWorld tt [exchangeOf GetPolicySettings Examples.gone]
            [diag.NewErrorDiagnostic "Error retrieving global policy settings"]
            StateUntouched).
Proof.
  destruct (@read_removes_resource_when_gone unit Examples.notFound)
    as (H1 & H2 & H3 & H4 & H5 & _ & H7).
  destruct (@read_removes_resource_when_gone unit Examples.listNotFound)
    as (_ & _ & _ & _ & _ & H6 & _).
  pose (h := mkHttpResponse 404 "404 Not Found" (Some (mkBody EmptyString None))).
  repeat apply conj.
  - exact (H1 (mkReadRequest (Examples.policy "rule" "allow") []) tt Examples.gone tt h
              eq_refl eq_refl eq_refl).
  - exact (H2 (mkReadRequest (Examples.ntgModel "tunnel" "key" []) []) tt Examples.gone tt h
              eq_refl eq_refl eq_refl eq_refl).
  - exact (H3 (mkReadRequest (Examples.privateResource "app" []) []) tt Examples.gone tt h
              "404 Not Found" eq_refl eq_refl eq_refl eq_refl eq_refl).
  - exact (H4 (Examples.connector 44) 44 (fresh tt) 5%nat Examples.gone tt h
              eq_refl eq_refl eq_refl).
  - exact (H5 (mkReadRequest (Examples.connector 44) []) tt Examples.gone tt h
              eq_refl eq_refl eq_refl eq_refl).
  - exact (H6 (mkReadRequest (DestinationList.mkModel (Known 5) (Known "list") Null) [])
              tt Examples.listGone tt
              (mkHttpResponse 200 "200 OK"
                 (Some (mkBody DestinationList.destinationListNotFoundError None)))
              "200 OK" (mkBody DestinationList.destinationListNotFoundError None)
              eq_refl eq_refl eq_refl eq_refl eq_refl eq_refl).
  - exact (H7 (mkReadRequest
                 (GlobalSettings.mkModel (Known "global-settings") (Known true) (Known 9)) [])
              tt Examples.gone tt "404 Not Found" eq_refl eq_refl eq_refl).
Defined.

(** ** Create: which failures are retried *)

Section CreateRetry.

Context {Srv : Type} {service : RemoteService Srv}.

Variable ProtocolClientToResource : string -> string.

(** C1, as the code has it.  In the retry loop of Create of a private
    resource, a failed reply is retried exactly when its status is 409 or
    429; any other failed reply ends the loop as unrecoverable and Create
    reports an error diagnostic.  In the retry loop of Create of an access
    policy, a failed reply is retried exactly when its status is 409, or is
    400 with a body that holds "invalid data passed. the ID's provided
    for"; any other failed reply (429 included) ends the loop as
    unrecoverable with an error diagnostic. *)
Theorem create_retries_by_status :
  (* access policy, at any attempt of the loop *)
  (forall ruleDefinition plan (w : World Srv AccessPolicy.accessPolicyResourceModel)
          more r srv' e h b,
      Execute (AddRule ruleDefinition) (remote w) = (r, srv') ->
      err r = Some e -> httpRes r = Some h -> Body h = Some b ->
      let retryable :=
        StatusCode h = 409 \/
        (StatusCode h = 400 /\
         Contains (content b) "invalid data passed. the ID's provided for" = true) in
      let attempt := AccessPolicy.createAttempt ruleDefinition plan in
      (retryable ->
       retryLoop (S more) attempt w
       = retryLoop more attempt (afterCall w (AddRule ruleDefinition) r srv'))
      /\ (~ retryable ->
          retryLoop more attempt w
          = Returned (inr e)
              (mkWorld srv' (exchanges w ++ [exchangeOf (AddRule ruleDefinition) r])
                 (Diagnostics w ++ [diag.NewErrorDiagnostic "Error creating access policy"])
                 (State w))))
  (* private resource, at any attempt of the loop *)
  /\ (forall resourceDefinition
             (w : World Srv PrivateResource.privateResourceResourceModel)
             more r srv' e h b,
      Execute (AddPrivateResource resourceDefinition) (remote w) = (r, srv') ->
      err r = Some e -> httpRes r = Some h -> Body h = Some b ->
      let retryable := StatusCode h = 409 \/ StatusCode h = 429 in
      let attempt := PrivateResource.createAttempt resourceDefinition in
      (retryable ->
       retryLoop (S more) attempt w
       = retryLoop more attempt (afterCall w (AddPrivateResource resourceDefinition) r srv'))
      /\ (~ retryable ->
          retryLoop more attempt w
          = Returned (inr e) (afterCall w (AddPrivateResource resourceDefinition) r srv')))
  (* private resource: Create reports the unrecoverable failure *)
  /\ (forall (req : CreateRequest PrivateResource.privateResourceResourceModel) (srv : Srv)
             resourceDefinition diags r srv' e h b,
      diag.HasError (CreatePlanDiags req) = false ->
      PrivateResource.formatCreatePrivateResourceRequest ProtocolClientToResource
        (CreatePlan req) = (Some resourceDefinition, diags) ->
      diag.HasError diags = false ->
      Execute (AddPrivateResource resourceDefinition) srv = (r, srv') ->
      err r = Some e -> httpRes r = Some h -> Body h = Some b ->
      ~ (StatusCode h = 409 \/ StatusCode h = 429) ->
      PrivateResource.Create ProtocolClientToResource req (fresh srv)
      = Returned tt
          (mkWorld srv' [exchangeOf (AddPrivateResource resourceDefinition) r]
             (CreatePlanDiags req
              ++ [diag.NewErrorDiagnostic "Error creating private resource"])
             StateUntouched)).
Proof.
  repeat apply conj.
  - intros ruleDefinition plan w more r srv' e h b Hexec Herr Hres Hbody retryable attempt.
    assert (AccessPolicy.createAttempt ruleDefinition plan w
            = if (StatusCode h =? 400)
                 && Contains (content b) "invalid data passed. the ID's provided for"
                 || (StatusCode h =? 409)
              then Returned (AttemptError "retryable error")
                     (afterCall w (AddRule ruleDefinition) r srv')
              else Returned (AttemptUnrecoverable e)
                     (mkWorld srv' (exchanges w ++ [exchangeOf (AddRule ruleDefinition) r])
                        (Diagnostics w
                         ++ [diag.NewErrorDiagnostic "Error creating access policy"])
                        (State w))) as Hattempt.
    { unfold AccessPolicy.createAttempt. unfold_prog.
      rewrite Hexec. simpl_world. rewrite Hres, Herr, Hbody.
      unfold Close, ReadAll, ret. cbn [fst].
      destruct ((StatusCode h =? 400)
                && Contains (content b) "invalid data passed. the ID's provided for"
                || (StatusCode h =? 409)); reflexivity. }
    subst retryable attempt. split.
    + intros Hretry. eapply retryLoop_retry. rewrite Hattempt.
      destruct Hretry as [H409 | [H400 Hmark]].
      * rewrite H409. rewrite orb_true_r. reflexivity.
      * rewrite H400, Hmark. reflexivity.
    + intros Hno. eapply retryLoop_unrecoverable. rewrite Hattempt.
      destruct (Z.eqb_spec (StatusCode h) 409) as [H409 | H409]; [tauto |].
      destruct (Z.eqb_spec (StatusCode h) 400) as [H400 | H400];
        [| reflexivity].
      destruct (Contains (content b) "invalid data passed. the ID's provided for");
        [tauto | reflexivity].
  - intros resourceDefinition w more r srv' e h b Hexec Herr Hres Hbody retryable attempt.
    assert (PrivateResource.createAttempt resourceDefinition w
            = if (StatusCode h =? 409) || (StatusCode h =? 429)
              then Returned (AttemptError "retryable error")
                     (afterCall w (AddPrivateResource resourceDefinition) r srv')
              else Returned (AttemptUnrecoverable e)
                     (afterCall w (AddPrivateResource resourceDefinition) r srv'))
      as Hattempt.
    { unfold PrivateResource.createAttempt. unfold_prog.
      rewrite Hexec. simpl_world. rewrite Herr, Hres, Hbody.
      unfold ReadAll, ret.
      unfold PrivateResource.privateResourceHTTPConflict,
        PrivateResource.privateResourceHTTPTooManyReqs.
      destruct ((StatusCode h =? 409) || (StatusCode h =? 429)); reflexivity. }
    subst retryable attempt. split.
    + intros Hretry. eapply retryLoop_retry. rewrite Hattempt.
      destruct Hretry as [H409 | H429].
      * rewrite H409. reflexivity.
      * rewrite H429. rewrite orb_true_r. reflexivity.
    + intros Hno. eapply retryLoop_unrecoverable. rewrite Hattempt.
      destruct (Z.eqb_spec (StatusCode h) 409) as [H409 | H409]; [tauto |].
      destruct (Z.eqb_spec (StatusCode h) 429) as [H429 | H429]; [tauto |].
      reflexivity.
  - intros req srv resourceDefinition diags r srv' e h b
           Hdiags Hformat Hfdiags Hexec Herr Hres Hbody Hno.
    unfold PrivateResource.Create. unfold bind at 1 2. unfold Append, HasError, fresh, diag.Append.
    simpl_world. rewrite Hdiags, Hformat, Hfdiags.
    unfold PrivateResource.createPrivateResourceWithRetry, retryDo. unfold bind at 1.
    erewrite retryLoop_unrecoverable.
    2: { unfold PrivateResource.createAttempt. unfold_prog.
         rewrite Hexec. simpl_world. rewrite Herr, Hres, Hbody.
         unfold ReadAll, ret.
         unfold PrivateResource.privateResourceHTTPConflict,
           PrivateResource.privateResourceHTTPTooManyReqs.
         destruct (Z.eqb_spec (StatusCode h) 409) as [H409 | H409]; [tauto |].
         destruct (Z.eqb_spec (StatusCode h) 429) as [H429 | H429]; [tauto |].
         reflexivity. }
    reflexivity.
Qed.

End CreateRetry.

(** C1 as stated fails for the access policy.  Against a service that
    answers every call with 429, Create of an access policy calls once and
    gives up, where Create of a private resource uses its three attempts;
    against a service that answers 400 with the "invalid data" body, Create
    of an access policy uses its six attempts. *)
Lemma access_policy_create_does_not_retry_429 :
  let busy := failAll 429 "429 Too Many Requests" EmptyString in
  let invalid := failAll 400 "400 Bad Request"
                   "invalid data passed. the ID's provided for rule are not valid" in
  let policyReq := mkCreateRequest (Examples.policy "rule" "allow") [] in
  let resourceReq := mkCreateRequest (Examples.privateResource "app" []) [] in
  map replyStatus (exchanges (finalWorld (AccessPolicy.Create (service := busy)
                                            policyReq (fresh tt))))
  = [Some 429]
  /\ diag.HasError (Diagnostics (finalWorld (AccessPolicy.Create (service := busy)
                                               policyReq (fresh tt)))) = true
  /\ map replyStatus
       (exchanges (finalWorld (PrivateResource.Create (service := busy)
                                 (fun protocol => protocol) resourceReq (fresh tt))))
     = [Some 429; Some 429; Some 429]
  /\ map replyStatus (exchanges (finalWorld (AccessPolicy.Create (service := invalid)
                                               policyReq (fresh tt))))
     = [Some 400; Some 400; Some 400; Some 400; Some 400; Some 400].
Proof. repeat split. Qed.

(** The loops at concrete replies: a 409 is retried by both, a 429 by the
    private resource only, and a 500 ends Create of a private resource
    with an error. *)
Lemma create_retries_by_status_witness :
  let policyBody := AccessPolicy.formatCreateAccessPolicyRequest (Examples.policy "rule" "allow") in
  retryLoop 5
    (AccessPolicy.createAttempt (service := failAll 409 "409 Conflict" EmptyString)
       policyBody (Examples.policy "rule" "allow"))
    (fresh tt)
  = retryLoop 4
      (AccessPolicy.createAttempt (service := failAll 409 "409 Conflict" EmptyString)
         policyBody (Examples.policy "rule" "allow"))
      (afterCall (fresh tt) (AddRule policyBody)
         (failedReply 409 "409 Conflict" EmptyString) tt)
  /\ retryLoop 5
       (AccessPolicy.createAttempt (service := failAll 429 "429 Too Many Requests" EmptyString)
          policyBody (Examples.policy "rule" "allow"))
       (fresh tt)
     = Returned (inr "429 Too Many Requests")
         (mkWorld tt
            [exchangeOf (AddRule policyBody)
               (failedReply 429 "429 Too Many Requests" EmptyString)]
            [diag.NewErrorDiagnostic "Error creating access policy"] StateUntouched)
  /\ (forall resourceDefinition,
        retryLoop 2
          (PrivateResource.createAttempt
             (service := failAll 429 "429 Too Many Requests" EmptyString) resourceDefinition)
          (fresh tt)
        = retryLoop 1
            (PrivateResource.createAttempt
               (service := failAll 429 "429 Too Many Requests" EmptyString) resourceDefinition)
            (afterCall (fresh tt) (AddPrivateResource resourceDefinition)
               (failedReply 429 "429 Too Many Requests" EmptyString) tt))
  /\ (exists resourceDefinition,
        PrivateResource.Create (service := failAll 500 "500 Internal Server Error" EmptyString)
          (fun protocol => protocol)
          (mkCreateRequest (Examples.privateResource "app" []) []) (fresh tt)
        = Returned tt
            (mkWorld tt
               [exchangeOf (AddPrivateResource resourceDefinition)
                  (failedReply 500 "500 Internal Server Error" EmptyString)]
               [diag.NewErrorDiagnostic "Error creating private resource"] StateUntouched)).
Proof.
  intros policyBody.
  repeat apply conj.
  - destruct (@create_retries_by_status unit (failAll 409 "409 Conflict" EmptyString)
                (fun protocol => protocol)) as (H & _ & _).
    apply (H policyBody (Examples.policy "rule" "allow") (fresh tt) 4%nat
             (failedReply 409 "409 Conflict" EmptyString) tt "409 Conflict"
             (mkHttpResponse 409 "409 Conflict" (Some (mkBody EmptyString None)))
             (mkBody EmptyString None) eq_refl eq_refl eq_refl eq_refl).
    left. reflexivity.
  - destruct (@create_retries_by_status unit
                (failAll 429 "429 Too Many Requests" EmptyString)
                (fun protocol => protocol)) as (H & _ & _).
    apply (H policyBody (Examples.policy "rule" "allow") (fresh tt) 5%nat
             (failedReply 429 "429 Too Many Requests" EmptyString) tt "429 Too Many Requests"
             (mkHttpResponse 429 "429 Too Many Requests" (Some (mkBody EmptyString None)))
             (mkBody EmptyString None) eq_refl eq_refl eq_refl eq_refl).
    simpl. intros [H409 | [H400 _]]; discriminate.
  - intros resourceDefinition.
    destruct (@create_retries_by_status unit
                (failAll 429 "429 Too Many Requests" EmptyString)
                (fun protocol => protocol)) as (_ & H & _).
    apply (H resourceDefinition (fresh tt) 1%nat
             (failedReply 429 "429 Too Many Requests" EmptyString) tt "429 Too Many Requests"
             (mkHttpResponse 429 "429 Too Many Requests" (Some (mkBody EmptyString None)))
             (mkBody EmptyString None) eq_refl eq_refl eq_refl eq_refl).
    right. reflexivity.
  - destruct (@create_retries_by_status unit
                (failAll 500 "500 Internal Server Error" EmptyString)
                (fun protocol => protocol)) as (_ & _ & H).
    eexists.
    apply (H (mkCreateRequest (Examples.privateResource "app" []) []) tt _ []
             (failedReply 500 "500 Internal Server Error" EmptyString) tt
             "500 Internal Server Error"
             (mkHttpResponse 500 "500 Internal Server Error" (Some (mkBody EmptyString None)))
             (mkBody EmptyString None) eq_refl eq_refl eq_refl eq_refl eq_refl eq_refl eq_refl).
    simpl. intros [H409 | H429]; discriminate.
Defined.

(** ** Destination list: reconciliation in Update *)

Lemma reconciled_In (target : StringValue) (others : list DestinationList.destinationModel) :
  DestinationList.reconciled target others = true
  <-> In target (map DestinationList.Destination others).
Proof.
  induction others as [|o others IH]; simpl.
  - split; [discriminate | tauto].
  - destruct (StringEqual (DestinationList.Destination o) target) eqn:E.
    + apply StringEqual_true_iff in E. tauto.
    + rewrite IH. split; [tauto |].
      intros [H | H]; [| exact H].
      rewrite H, StringEqual_refl in E. discriminate.
Qed.

Lemma reconciled_false (target : StringValue) (others : list DestinationList.destinationModel) :
  DestinationList.reconciled target others = false
  <-> ~ In target (map DestinationList.Destination others).
Proof.
  rewrite <- reconciled_In.
  destruct (DestinationList.reconciled target others); split; congruence.
Qed.

Lemma missingDestinations_In (planned observed : list DestinationList.destinationModel)
    (d : destinationlists.DestinationCreateObject) :
  In d (DestinationList.missingDestinations planned observed)
  <-> exists p, In p planned
             /\ ~ In (DestinationList.Destination p) (map DestinationList.Destination observed)
             /\ d = DestinationList.createObjectFor p.
Proof.
  induction planned as [|q planned IH]; simpl.
  - split; [tauto | intros (p & [] & _)].
  - destruct (DestinationList.reconciled (DestinationList.Destination q) observed) eqn:E; simpl.
    + rewrite IH. apply reconciled_In in E. split.
      * intros (p & Hp & Hn & Hd). exists p. tauto.
      * intros (p & [Hp | Hp] & Hn & Hd); [subst; tauto | exists p; tauto].
    + apply reconciled_false in E. rewrite IH. split.
      * intros [Hd | (p & Hp & Hn & Hd)].
        -- exists q. split; [now left |]. split; [exact E | now symmetry].
        -- exists p. tauto.
      * intros (p & [Hp | Hp] & Hn & Hd).
        -- subst. now left.
        -- right. exists p. tauto.
Qed.

Lemma extraDestinations_In (observed planned : list DestinationList.destinationModel)
    (ids : list Z) :
  DestinationList.extraDestinations observed planned = Some ids ->
  forall z, In z ids
    <-> exists r, In r observed
               /\ ~ In (DestinationList.Destination r) (map DestinationList.Destination planned)
               /\ ParseInt (ValueString (DestinationList.DestId r)) = (z, true).
Proof.
  revert ids. induction observed as [|q observed IH]; simpl; intros ids Hids z.
  - injection Hids as <-. simpl. split; [tauto | intros (r & [] & _)].
  - destruct (DestinationList.reconciled (DestinationList.Destination q) planned) eqn:E; simpl in Hids.
    + apply reconciled_In in E. rewrite (IH ids Hids z). split.
      * intros (r & Hr & Hn & Hp). exists r. tauto.
      * intros (r & [Hr | Hr] & Hn & Hp); [subst; tauto | exists r; tauto].
    + apply reconciled_false in E.
      destruct (ParseInt (ValueString (DestinationList.DestId q))) as [destinationID ok] eqn:Ep.
      destruct ok; [| discriminate].
      destruct (DestinationList.extraDestinations observed planned) as [rest|] eqn:Er;
        [| discriminate].
      injection Hids as <-. simpl. rewrite (IH rest eq_refl z). split.
      * intros [Hz | (r & Hr & Hn & Hp)].
        -- subst. exists q. tauto.
        -- exists r. tauto.
      * intros (r & [Hr | Hr] & Hn & Hp).
        -- subst. left. congruence.
        -- right. exists r. tauto.
Qed.

Lemma extraDestinations_nil_iff (observed planned : list DestinationList.destinationModel) :
  DestinationList.extraDestinations observed planned = Some []
  <-> forall r, In r observed ->
        In (DestinationList.Destination r) (map DestinationList.Destination planned).
Proof.
  induction observed as [|q observed IH]; simpl.
  - split; [intros _ r [] | reflexivity].
  - destruct (DestinationList.reconciled (DestinationList.Destination q) planned) eqn:E.
    + apply reconciled_In in E. simpl. rewrite IH. split.
      * intros H r [Hr | Hr]; [now subst | now apply H].
      * intros H r Hr. apply H. now right.
    + apply reconciled_false in E. simpl. split.
      * destruct (ParseInt _) as [z [|]]; [| discriminate].
        destruct (DestinationList.extraDestinations observed planned); discriminate.
      * intros H. exfalso. apply E. apply H. now left.
Qed.

Lemma missingDestinations_nil_iff (planned observed : list DestinationList.destinationModel) :
  DestinationList.missingDestinations planned observed = []
  <-> forall p, In p planned ->
        In (DestinationList.Destination p) (map DestinationList.Destination observed).
Proof.
  induction planned as [|q planned IH]; simpl.
  - split; [intros _ p [] | reflexivity].
  - destruct (DestinationList.reconciled (DestinationList.Destination q) observed) eqn:E; simpl.
    + apply reconciled_In in E. rewrite IH. split.
      * intros H p [Hp | Hp]; [now subst | now apply H].
      * intros H p Hp. apply H. now right.
    + apply reconciled_false in E. split; [discriminate |].
      intros H. exfalso. apply E. apply H. now left.
Qed.

Lemma diag_HasError_AddError (ds : diag.Diagnostics) (summary : string) :
  diag.HasError (diag.AddError ds summary) = true.
Proof.
  unfold diag.AddError, diag.Append. rewrite diag_HasError_app. simpl.
  apply orb_true_r.
Qed.

Section DestinationListUpdate.

Context {Srv : Type} {service : RemoteService Srv}.

Local Abbreviation Model := DestinationList.destinationListResourceModel.

(** The name phase of Update only ever calls UpdateDestinationLists, keeps
    the id of the state, and on success adds no diagnostic. *)
Lemma updateName_spec (plan state state1 : Model) (w w1 : World Srv Model) :
  DestinationList.updateName plan state w = Returned (Some state1) w1 ->
  DestinationList.Id state1 = DestinationList.Id state
  /\ Diagnostics w1 = Diagnostics w
  /\ exists names,
       map request (exchanges w1) = map request (exchanges w) ++ names
       /\ forall c, In c names -> exists id name, c = UpdateDestinationLists id name.
Proof.
  unfold DestinationList.updateName. unfold_prog.
  destruct (StringEqual (DestinationList.Name plan) (DestinationList.Name state)); simpl.
  - intros H. injection H as <- <-. repeat split.
    exists []. split; [now rewrite app_nil_r | intros c []].
  - destruct (Execute _ (remote w)) as [[v h [e|]] srv']; simpl; [discriminate |].
    intros H. injection H as <- <-. simpl. repeat split.
    eexists. split.
    + rewrite map_app. reflexivity.
    + simpl. intros c [<- | []]. eauto.
Qed.

(** What the reconciliation phase calls after it has read the destinations. *)
Lemma reconcileDestinations_calls (plan state1 : Model) (w1 : World Srv Model)
    rg srv2 observed :
  Execute (GetDestinations (ValueInt64 (DestinationList.Id state1))) (remote w1) = (rg, srv2) ->
  err rg = None -> value rg = Some observed ->
  let obs := map DestinationList.modeledDestination observed in
  let planned := ElementsAs (DestinationList.Destinations plan) in
  let pid := ValueInt64 (DestinationList.Id plan) in
  let missing := DestinationList.missingDestinations planned obs in
  let final := finalWorld (DestinationList.reconcileDestinations plan state1 w1) in
  exists tail,
    map request (exchanges final)
    = map request (exchanges w1)
      ++ GetDestinations (ValueInt64 (DestinationList.Id state1)) :: tail
    /\ (forall id body, In (CreateDestinations id body) tail ->
          id = pid /\ body = missing /\ missing <> [])
    /\ (missing <> [] -> In (CreateDestinations pid missing) tail)
    /\ (forall id ids, In (DeleteDestinations id ids) tail ->
          id = pid /\ DestinationList.extraDestinations obs planned = Some ids /\ ids <> [])
    /\ (diag.HasError (Diagnostics final) = false ->
        exists ids, DestinationList.extraDestinations obs planned = Some ids
                    /\ (ids <> [] -> In (DeleteDestinations pid ids) tail)).
Proof.
  intros Hexec Herr Hval obs planned pid missing final.
  subst final. unfold DestinationList.reconcileDestinations, DestinationList.GetDestinations_.
  unfold_prog. rewrite Hexec. simpl_world. rewrite Herr, Hval. fold obs planned pid missing.
  unfold DestinationList.UpdateDestinations, DestinationList.GetDestinations_.
  unfold_prog.
  destruct missing as [|m ms] eqn:Em; cbn [nonEmptyList negb];
  repeat (cbn [Diagnostics exchanges remote State app nonEmptyList negb finalWorld
               err httpRes value];
          match goal with
          | |- context [Execute ?c ?s] =>
              let rv := fresh "rv" in let rh := fresh "rh" in
              let re := fresh "re" in let rs := fresh "rs" in
              destruct (Execute c s) as [[[rv|] [rh|] [re|]] rs]
          | |- context [DestinationList.extraDestinations ?a ?b] =>
              destruct (DestinationList.extraDestinations a b) as [[|? ?]|] eqn:?
          end);
  simpl;
  (eexists; split;
   [rewrite ?map_app; cbn [map request exchangeOf app];
    rewrite <- ?app_assoc; cbn [app]; reflexivity |]);
  repeat split; intros;
  repeat match goal with
         | H : In _ (_ :: _) |- _ => destruct H
         | H : In _ [] |- _ => destruct H
         | H : CreateDestinations _ _ = CreateDestinations _ _ |- _ =>
             injection H as ? ?; subst
         | H : DeleteDestinations _ _ = DeleteDestinations _ _ |- _ =>
             injection H as ? ?; subst
         | H : diag.HasError (diag.AddError _ _) = false |- _ =>
             rewrite diag_HasError_AddError in H; discriminate H
         end;
  try discriminate; try congruence; auto;
  try (simpl; tauto);
  try (eexists; split; [reflexivity | intros; simpl; tauto]).
Qed.

(** C2.  Update of a destination list reconciles by the destination
    string.  Once the plan and the state are read, the name phase is through
    and the API has reported the observed destinations: the create call, if
    there is one, goes to the planned list and carries exactly the planned
    destinations whose destination string is not among the observed ones,
    and there is one whenever such a destination exists; the delete call,
    if there is one, goes to the planned list and carries exactly the ids of
    the observed destinations whose destination string is not among the
    planned ones, and when Update ends without an error diagnostic there is
    one whenever such a destination exists; when the planned and the
    observed destination strings are the same set, Update calls neither
    CreateDestinations nor DeleteDestinations. *)
Theorem update_reconciles_by_destination
    (req : UpdateRequest Model) (srv : Srv) (state1 : Model) (w1 : World Srv Model)
    rg srv2 observed :
  let plan := UpdatePlan req in
  let planned := ElementsAs (DestinationList.Destinations plan) in
  let obs := map DestinationList.modeledDestination observed in
  let pid := ValueInt64 (DestinationList.Id plan) in
  let final := finalWorld (DestinationList.Update req (fresh srv)) in
  let calls := map request (exchanges final) in
  diag.HasError (UpdatePlanDiags req ++ UpdateStateDiags req) = false ->
  DestinationList.updateName plan (UpdateState req)
    (mkWorld srv [] (UpdatePlanDiags req ++ UpdateStateDiags req) StateUntouched)
  = Returned (Some state1) w1 ->
  Execute (GetDestinations (ValueInt64 (DestinationList.Id state1))) (remote w1) = (rg, srv2) ->
  err rg = None ->
  value rg = Some observed ->
  (forall id body,
      In (CreateDestinations id body) calls ->
      id = pid
      /\ forall d, In d body
           <-> exists p, In p planned
                      /\ ~ In (DestinationList.Destination p)
                             (map DestinationList.Destination obs)
                      /\ d = DestinationList.createObjectFor p)
  /\ ((exists p, In p planned
                /\ ~ In (DestinationList.Destination p) (map DestinationList.Destination obs)) ->
      exists body, In (CreateDestinations pid body) calls)
  /\ (forall id ids,
      In (DeleteDestinations id ids) calls ->
      id = pid
      /\ forall z, In z ids
           <-> exists r, In r obs
                      /\ ~ In (DestinationList.Destination r)
                             (map DestinationList.Destination planned)
                      /\ ParseInt (ValueString (DestinationList.DestId r)) = (z, true))
  /\ (diag.HasError (Diagnostics final) = false ->
      (exists r, In r obs
                 /\ ~ In (DestinationList.Destination r)
                        (map DestinationList.Destination planned)) ->
      exists ids, In (DeleteDestinations pid ids) calls)
  /\ ((forall s, In s (map DestinationList.Destination planned)
                 <-> In s (map DestinationList.Destination obs)) ->
      forall c, In c calls ->
        (forall id body, c <> CreateDestinations id body)
        /\ (forall id ids, c <> DeleteDestinations id ids)).
Proof.
  intros plan planned obs pid final calls Hdiags Hname Hexec Herr Hval.
  assert (final = finalWorld (DestinationList.reconcileDestinations plan state1 w1))
    as Hfinal.
  { subst final. unfold DestinationList.Update. unfold bind at 1 2 3 4.
    unfold Append, HasError, fresh, diag.Append. simpl_world.
    rewrite Hdiags. fold plan. rewrite Hname. reflexivity. }
  destruct (updateName_spec _ _ _ _ _ Hname) as (_ & _ & names & Hnames & Honly).
  simpl in Hnames.
  destruct (reconcileDestinations_calls plan state1 w1 rg srv2 observed Hexec Herr Hval)
    as (tail & Hcalls & Hcreate & Hcreated & Hdelete & Hdeleted).
  fold obs planned pid in Hcreate, Hcreated, Hdelete, Hdeleted.
  rewrite <- Hfinal in Hcalls, Hdeleted. fold calls in Hcalls.
  rewrite Hnames in Hcalls.
  assert (forall c, In c calls ->
            (exists id name, c = UpdateDestinationLists id name)
            \/ c = GetDestinations (ValueInt64 (DestinationList.Id state1))
            \/ In c tail) as Hin.
  { intros c Hc. rewrite Hcalls in Hc. apply in_app_or in Hc.
    destruct Hc as [Hc | [Hc | Hc]]; [left; now apply Honly | right; left; now symmetry | tauto]. }
  assert (forall c, In c tail -> In c calls) as Htail.
  { intros c Hc. rewrite Hcalls. apply in_or_app. right. now right. }
  repeat apply conj.
  - intros id body Hc.
    destruct (Hin _ Hc) as [(i & n & Heq) | [Heq | Ht]]; try discriminate.
    destruct (Hcreate id body Ht) as (Hid & Hbody & _).
    split; [exact Hid |]. intros d. rewrite Hbody. apply missingDestinations_In.
  - intros (p & Hp & Hnot).
    exists (DestinationList.missingDestinations planned obs).
    apply Htail, Hcreated. intros Hnil.
    assert (In (DestinationList.createObjectFor p)
               (DestinationList.missingDestinations planned obs)) as Hmem.
    { apply missingDestinations_In. exists p. tauto. }
    rewrite Hnil in Hmem. destruct Hmem.
  - intros id ids Hc.
    destruct (Hin _ Hc) as [(i & n & Heq) | [Heq | Ht]]; try discriminate.
    destruct (Hdelete id ids Ht) as (Hid & Hextra & _).
    split; [exact Hid |]. now apply extraDestinations_In.
  - intros Hok (r & Hr & Hnot).
    destruct (Hdeleted Hok) as (ids & Hextra & Hissued).
    exists ids. apply Htail, Hissued. intros Hnil. subst ids.
    apply Hnot. exact (proj1 (extraDestinations_nil_iff obs planned) Hextra r Hr).
  - intros Hsame c Hc.
    assert (DestinationList.missingDestinations planned obs = []) as Hmissing.
    { apply missingDestinations_nil_iff. intros p Hp. apply Hsame.
      now apply in_map. }
    assert (DestinationList.extraDestinations obs planned = Some []) as Hextra.
    { apply extraDestinations_nil_iff. intros r Hr. apply Hsame.
      now apply in_map. }
    split.
    + intros id body Heq. subst c.
      destruct (Hin _ Hc) as [(i & n & Heq) | [Heq | Ht]]; try discriminate.
      destruct (Hcreate id body Ht) as (_ & _ & Hne). contradiction.
    + intros id ids Heq. subst c.
      destruct (Hin _ Hc) as [(i & n & Heq) | [Heq | Ht]]; try discriminate.
      destruct (Hdelete id ids Ht) as (_ & Hids & Hne). congruence.
Qed.

End DestinationListUpdate.

(** The example list: what Update calls, in order. *)
Example update_reconciles_example :
  map request
    (exchanges (finalWorld (DestinationList.Update (service := Examples.listService)
                              Examples.listUpdate (fresh tt))))
  = [GetDestinations 5;
     CreateDestinations 5
       [destinationlists.mkDestinationCreateObject "c.example.com" (Some "new")];
     DeleteDestinations 5 [1];
     GetDestinations 5].
Proof. reflexivity. Qed.

(** The theorem at the example list: c.example.com is created and the
    observed a.example.com is deleted. *)
Lemma update_reconciles_by_destination_witness :
  let calls :=
    map request
      (exchanges (finalWorld (DestinationList.Update (service := Examples.listService)
                                Examples.listUpdate (fresh tt)))) in
  (exists body, In (CreateDestinations 5 body) calls)
  /\ (exists ids, In (DeleteDestinations 5 ids) calls)
  /\ (forall id ids, In (DeleteDestinations id ids) calls -> forall z, In z ids -> z = 1).
Proof.
  intros calls.
  destruct (@update_reconciles_by_destination unit Examples.listService
              Examples.listUpdate tt
              (DestinationList.mkModel (Known 5) (Known "list") Null)
              (mkWorld tt [] [] StateUntouched)
              (mkReply (Some Examples.observedDestinations)
                 (Some (mkHttpResponse 200 "200 OK" (Some (mkBody EmptyString None)))) None)
              tt Examples.observedDestinations
              eq_refl eq_refl eq_refl eq_refl eq_refl)
    as (_ & Hcreated & Hdelete & Hdeleted & _).
  repeat apply conj.
  - apply Hcreated.
    exists (Examples.planned "c.example.com" "new"). split.
    + simpl. tauto.
    + simpl. intros [H | [H | []]]; discriminate.
  - apply Hdeleted; [reflexivity |].
    exists (DestinationList.modeledDestination
              (destinationlists.mkDestinationObject "1" "a.example.com" "DOMAIN" None)).
    split.
    + simpl. tauto.
    + simpl. intros [H | [H | []]]; discriminate.
  - intros id ids Hin z Hz.
    destruct (Hdelete id ids Hin) as [_ Hids].
    apply Hids in Hz. destruct Hz as (r & Hr & Hnot & Hparse).
    simpl in Hr. destruct Hr as [Hr | [Hr | []]]; subst r.
    + vm_compute in Hparse. now injection Hparse.
    + exfalso. apply Hnot. simpl. tauto.
Defined.

(** C2, as it is stated, fails when the create call fails.  The API reports
    a.example.com and b.example.com, the plan holds b.example.com and
    c.example.com, and CreateDestinations is answered 500: Update reports
    the error and returns, so the observed a.example.com, which is not among
    the planned destinations, is not deleted. *)
Theorem update_skips_delete_after_failed_create :
  let final :=
    finalWorld (DestinationList.Update (service := Examples.createRefusing)
                  Examples.listUpdate (fresh tt)) in
  let calls := map request (exchanges final) in
  let planned := ElementsAs (DestinationList.Destinations (UpdatePlan Examples.listUpdate)) in
  let obs := map DestinationList.modeledDestination Examples.observedDestinations in
  (exists r, In r obs
             /\ ~ In (DestinationList.Destination r) (map DestinationList.Destination planned))
  /\ calls
     = [GetDestinations 5;
        CreateDestinations 5
          [destinationlists.mkDestinationCreateObject "c.example.com" (Some "new")]]
  /\ (forall id ids, ~ In (DeleteDestinations id ids) calls)
  /\ diag.HasError (Diagnostics final) = true
  /\ State final = StateUntouched.
Proof.
  intros final calls planned obs.
  assert (calls
          = [GetDestinations 5;
             CreateDestinations 5
               [destinationlists.mkDestinationCreateObject "c.example.com" (Some "new")]])
    as Hcalls by reflexivity.
  repeat apply conj.
  - exists (DestinationList.modeledDestination
              (destinationlists.mkDestinationObject "1" "a.example.com" "DOMAIN" None)).
    split.
    + simpl. tauto.
    + simpl. intros [H | [H | []]]; discriminate.
  - exact Hcalls.
  - intros id ids Hin. rewrite Hcalls in Hin.
    destruct Hin as [H | [H | []]]; discriminate.
  - reflexivity.
  - reflexivity.
Qed.

(** ** The library models at concrete inputs *)

Example ParseInt_decimal : ParseInt "42" = (42, true).
Proof. reflexivity. Qed.

Example ParseInt_signed : ParseInt "-17" = (-17, true) /\ ParseInt "+8" = (8, true).
Proof. split; reflexivity. Qed.

Example ParseInt_syntax : ParseInt "4x2" = (0, false) /\ ParseInt "-" = (0, false).
Proof. split; reflexivity. Qed.

Example ParseInt_range :
  ParseInt "9223372036854775807" = (9223372036854775807, true)
  /\ ParseInt "9223372036854775808" = (9223372036854775807, false)
  /\ ParseInt "-9223372036854775808" = (-9223372036854775808, true)
  /\ ParseInt "-9223372036854775809" = (-9223372036854775808, false).
Proof. repeat split. Qed.

Example Itoa_decimal : Itoa 31 = "31" /\ Itoa 0 = "0" /\ Itoa (-5) = "-5".
Proof. repeat split. Qed.

Example Contains_marker :
  Contains "HTTP 400: invalid data passed. the ID's provided for rule"
           "invalid data passed. the ID's provided for" = true
  /\ Contains "not found" DestinationList.destinationListNotFoundError = false.
Proof. split; reflexivity. Qed.

Example SetEqual_ignores_order :
  SetEqual Z.eqb (Known [1; 2]) (Known [2; 1]) = true
  /\ SetEqual Z.eqb (Known [1; 2]) (Known [1]) = false
  /\ SetEqual Z.eqb (Known [1]) Null = false.
Proof. repeat split. Qed.

(** ** The retry loops against a service that fails first and then
    reports the resource as missing *)

Example access_policy_delete_conflict_then_gone :
  let o := AccessPolicy.Delete (service := failThen 1 409 "409 Conflict" 404 "404 Not Found")
             (mkDeleteRequest (Examples.policy "rule" "allow") []) (fresh 0%nat) in
  map replyStatus (exchanges (finalWorld o)) = [Some 409; Some 404]
  /\ Diagnostics (finalWorld o) = []
  /\ hasPanicked o = false.
Proof. repeat split. Qed.

Example connector_read_busy_then_gone :
  let o := ConnectorAgent.Read
             (service := failThen 2 429 "429 Too Many Requests" 404 "404 Not Found")
             (mkReadRequest (Examples.connector 44) []) (fresh 0%nat) in
  map replyStatus (exchanges (finalWorld o)) = [Some 429; Some 429; Some 404]
  /\ Diagnostics (finalWorld o) = []
  /\ State (finalWorld o) = StateRemoved.
Proof. repeat split. Qed.

Example access_policy_delete_conflict_exhausted :
  let o := AccessPolicy.Delete (service := failAll 409 "409 Conflict" EmptyString)
             (mkDeleteRequest (Examples.policy "rule" "allow") []) (fresh tt) in
  map replyStatus (exchanges (finalWorld o)) = [Some 409; Some 409; Some 409]
  /\ diag.HasError (Diagnostics (finalWorld o)) = true.
Proof. repeat split. Qed.

(** * Further properties *)

(** ** Loops that dereference *)

Lemma collect_Some {A B} (body : A -> option B) (l : list A) :
  Forall (fun a => body a <> None) l -> exists bs, collect body l = Some bs.
Proof.
  induction 1 as [|a l Ha _ [bs IH]]; cbn [collect].
  - eexists; reflexivity.
  - destruct (body a) as [b|]; [| contradiction]. rewrite IH. eexists; reflexivity.
Qed.

Lemma collect_None {A B} (body : A -> option B) (l : list A) :
  Exists (fun a => body a = None) l -> collect body l = None.
Proof.
  induction 1 as [a l Ha | a l _ IH]; cbn [collect].
  - now rewrite Ha.
  - rewrite IH. now destruct (body a).
Qed.

Lemma collect_Forall2 {A B} (body : A -> option B) (l : list A) (bs : list B) :
  collect body l = Some bs -> Forall2 (fun a b => body a = Some b) l bs.
Proof.
  revert bs. induction l as [|a l IH]; cbn [collect]; intros bs H.
  - injection H as <-. constructor.
  - destruct (body a) as [b|] eqn:Ea; [| discriminate].
    destruct (collect body l) as [bs'|]; [| discriminate].
    injection H as <-. constructor; [exact Ea | now apply IH].
Qed.

Lemma collect_app {A B} (body : A -> option B) (l1 l2 : list A) :
  collect body (l1 ++ l2)
  = match collect body l1, collect body l2 with
    | Some bs1, Some bs2 => Some (bs1 ++ bs2)
    | _, _ => None
    end.
Proof.
  induction l1 as [|a l1 IH]; cbn [collect app].
  - now destruct (collect body l2).
  - destruct (body a) as [b|]; [| reflexivity]. rewrite IH.
    destruct (collect body l1), (collect body l2); reflexivity.
Qed.

Lemma hubInstance_complete (hub : ntg.Hub) :
  completeHub hub -> Ntg.hubInstance hub <> None.
Proof.
  unfold completeHub, Ntg.hubInstance. intros (Hid & Hname & Hip & Hauth & Hprimary).
  destruct (ntg.DatacenterName hub), (ntg.DatacenterIp hub), (ntg.HubId hub),
    (ntg.AuthId hub), (ntg.IsPrimary hub); congruence.
Qed.

Lemma hubInstance_incomplete (hub : ntg.Hub) :
  ~ completeHub hub -> Ntg.hubInstance hub = None.
Proof.
  unfold completeHub, Ntg.hubInstance. intros Hnot.
  destruct (ntg.DatacenterName hub), (ntg.DatacenterIp hub), (ntg.HubId hub),
    (ntg.AuthId hub), (ntg.IsPrimary hub); try reflexivity.
  exfalso. apply Hnot. repeat split; discriminate.
Qed.

Lemma hubs_complete (hubs : list ntg.Hub) :
  Forall completeHub hubs -> exists models, collect Ntg.hubInstance hubs = Some models.
Proof.
  intros Hall. apply collect_Some.
  eapply Forall_impl; [| exact Hall]. intros hub. apply hubInstance_complete.
Qed.

Lemma hubs_incomplete (hubs : list ntg.Hub) :
  Exists (fun hub => ~ completeHub hub) hubs -> collect Ntg.hubInstance hubs = None.
Proof.
  intros Hex. apply collect_None.
  eapply Exists_impl; [| exact Hex]. intros hub. apply hubInstance_incomplete.
Qed.

Lemma LoadFromAPI_incomplete (data : ConnectorAgent.resourceConnectorAgentResourceModel)
    (agent : resconn.ConnectorResponse) :
  ~ completeAgent agent -> ConnectorAgent.LoadFromAPI data agent = None.
Proof.
  unfold completeAgent, ConnectorAgent.LoadFromAPI. intros Hnot.
  destruct (resconn.Id agent), (resconn.Hostname agent), (resconn.InstanceId agent),
    (resconn.Status agent), (resconn.Confirmed agent), (resconn.Enabled agent);
    try reflexivity.
  exfalso. apply Hnot. repeat split; discriminate.
Qed.

(** A panic in the retried function ends retry.Do with the panic. *)
Lemma retryLoop_panics {Srv Mdl A : Type} (attempt : Prog (World Srv Mdl) (AttemptResult A))
    (more : nat) (w w' : World Srv Mdl) :
  attempt w = Panicked w' -> retryLoop more attempt w = Panicked w'.
Proof.
  intros H. destruct more; simpl; unfold bind; rewrite H; reflexivity.
Qed.

(** ** Network tunnel group: the CIDR lists *)

(** X1.  convertStringsToNetworkCidrs and convertNetworkCidrsToStrings undo
    each other: strings turned into values and back are the same strings, a
    list of known values turned into strings and back is the same list, and
    convertNetworkCidrsToStrings returns one string for every value it is
    given. *)
Theorem ntg_cidrs_round_trip :
  (forall cidrs : list string,
      Ntg.convertNetworkCidrsToStrings (Ntg.convertStringsToNetworkCidrs cidrs) = cidrs)
  /\ (forall values : list StringValue,
      Forall (fun v => exists s, v = Known s) values ->
      Ntg.convertStringsToNetworkCidrs (Ntg.convertNetworkCidrsToStrings values) = values)
  /\ (forall values : list StringValue,
      List.length (Ntg.convertNetworkCidrsToStrings values) = List.length values).
Proof.
  unfold Ntg.convertNetworkCidrsToStrings, Ntg.convertStringsToNetworkCidrs.
  repeat apply conj.
  - intros cidrs. rewrite map_map. simpl. apply map_id.
  - intros values H. rewrite map_map.
    induction H as [|v values [s ->] _ IH]; simpl; [reflexivity | now rewrite IH].
  - intros values. apply length_map.
Qed.

Lemma ntg_cidrs_round_trip_witness :
  Ntg.convertStringsToNetworkCidrs
    (Ntg.convertNetworkCidrsToStrings [Known "10.0.0.0/8"; Known "10.1.0.0/16"])
  = [Known "10.0.0.0/8"; Known "10.1.0.0/16"].
Proof.
  destruct ntg_cidrs_round_trip as (_ & Hback & _).
  apply Hback. repeat constructor; eexists; reflexivity.
Defined.

(** X2.  When the first list holds no value twice, compareStringSlicesAsSets
    answers true exactly when the second list is a permutation of the first. *)
Theorem compareStringSlicesAsSets_distinct (a b : list StringValue) :
  NoDup a ->
  (Ntg.compareStringSlicesAsSets a b = true <-> Permutation a b).
Proof.
  intros Hnd. rewrite compareStringSlicesAsSets_true_iff. split.
  - intros [Hlen Hincl]. apply NoDup_Permutation_bis; [exact Hnd | lia | exact Hincl].
  - intros Hp. split.
    + now apply Permutation_length.
    + intros x Hx. now apply Permutation_in with a.
Qed.

Lemma compareStringSlicesAsSets_distinct_witness :
  NoDup [Known "10.0.0.0/8"; Known "10.1.0.0/16"]
  /\ (Ntg.compareStringSlicesAsSets [Known "10.0.0.0/8"; Known "10.1.0.0/16"]
                                    [Known "10.1.0.0/16"; Known "10.0.0.0/8"] = true
      <-> Permutation [Known "10.0.0.0/8"; Known "10.1.0.0/16"]
                      [Known "10.1.0.0/16"; Known "10.0.0.0/8"]).
Proof.
  assert (NoDup [Known "10.0.0.0/8"; Known "10.1.0.0/16"] (A := StringValue)) as Hdistinct.
  { repeat constructor; simpl; intuition discriminate. }
  split; [exact Hdistinct |].
  exact (compareStringSlicesAsSets_distinct _ _ Hdistinct).
Defined.

(** ** Access policy: what Create sends and what Read makes of it *)

Lemma readConditions_app state a b :
  AccessPolicy.readConditions state (a ++ b)
  = match AccessPolicy.readConditions state a with
    | Some state' => AccessPolicy.readConditions state' b
    | None => None
    end.
Proof.
  revert state. induction a as [|c a IH]; intros state; simpl; [reflexivity |].
  destruct (AccessPolicy.readCondition state c); [apply IH | reflexivity].
Qed.

Lemma sourceTypes_back (names : list string) :
  Forall (fun t => In t AccessPolicy.ValidSourceTypes) names ->
  flat_map (fun typeId => if typeId =? AccessPolicy.DIRECTORY_USERS_TYPE_ID then [AccessPolicy.DIRECTORY_USERS]
                          else if typeId =? AccessPolicy.NETWORKS_TYPE_ID then [AccessPolicy.NETWORKS]
                          else [])
           (flat_map AccessPolicy.sourceTypeId names) = names.
Proof.
  induction 1 as [|t names Ht _ IH]; [reflexivity |].
  simpl in Ht. destruct Ht as [<- | [<- | []]]; simpl; now rewrite IH.
Qed.

Lemma privateTypes_back (names : list string) :
  Forall (fun t => In t AccessPolicy.ValidPrivateDestinationTypes) names ->
  flat_map (fun typeId => if String.eqb typeId AccessPolicy.PRIVATE_APPS_TYPE
                          then [AccessPolicy.PRIVATE_APPS_SCHEMA] else [])
           (flat_map AccessPolicy.privateTypeOf names) = names.
Proof.
  induction 1 as [|t names Ht _ IH]; [reflexivity |].
  simpl in Ht. destruct Ht as [<- | []]; simpl; now rewrite IH.
Qed.

Lemma publicTypes_internet (names : list string) :
  Forall (fun t => In t AccessPolicy.ValidPublicDestinationTypes) names ->
  NoDup names ->
  existsb (fun publicType => String.eqb publicType AccessPolicy.PUBLIC_INTERNET_SCHEMA) names = true ->
  names = [AccessPolicy.PUBLIC_INTERNET_SCHEMA].
Proof.
  intros Hvalid Hnd Hex.
  destruct Hvalid as [|t names Ht Hrest]; [discriminate Hex |].
  simpl in Ht. destruct Ht as [<- | []].
  destruct Hrest as [|u names Hu _]; [reflexivity |].
  simpl in Hu. destruct Hu as [<- | []].
  inversion Hnd as [|? ? Hnotin _]. exfalso. apply Hnotin. now left.
Qed.

Lemma access_policy_conditions_read_back (plan : AccessPolicy.accessPolicyResourceModel) :
  Forall (fun t => In t AccessPolicy.ValidSourceTypes) (ElementsAs (AccessPolicy.SourceTypes plan)) ->
  Forall (fun t => In t AccessPolicy.ValidPrivateDestinationTypes)
         (ElementsAs (AccessPolicy.PrivateDestinationTypes plan)) ->
  Forall (fun t => In t AccessPolicy.ValidPublicDestinationTypes)
         (ElementsAs (AccessPolicy.PublicDestinationTypes plan)) ->
  NoDup (ElementsAs (AccessPolicy.PublicDestinationTypes plan)) ->
  AccessPolicy.readConditions plan (AccessPolicy.buildSourceConditions plan ++ AccessPolicy.buildDestinationConditions plan)
  = Some plan.
Proof.
  intros Hsrc Hpriv Hpub Hnd.
  (* each condition that is built reads back as the field it was built from *)
  assert (nonEmptyList (ElementsAs (AccessPolicy.SourceIds plan)) = true ->
          AccessPolicy.readCondition plan
            (AccessPolicy.sourceCondition "umbrella.source.identity_ids"
               (rules.ArrayOfInt64AsAttributeValue (ElementsAs (AccessPolicy.SourceIds plan))) "INTERSECT")
          = Some plan) as H1.
  { destruct plan as [? ? ? ? ? ? ? ? ? ? [| |[|x l]] ? ? ? ?]; simpl; try discriminate.
    reflexivity. }
  assert (nonEmptyList (flat_map AccessPolicy.sourceTypeId (ElementsAs (AccessPolicy.SourceTypes plan))) = true ->
          AccessPolicy.readCondition plan
            (AccessPolicy.sourceCondition "umbrella.source.identity_type_ids"
               (rules.ArrayOfInt64AsAttributeValue
                  (flat_map AccessPolicy.sourceTypeId (ElementsAs (AccessPolicy.SourceTypes plan)))) "INTERSECT")
          = Some plan) as H2.
  { intros Hne. unfold AccessPolicy.readCondition, AccessPolicy.sourceCondition.
    cbn [rules.AttributeName_ rules.AttributeValue_ rules.AttributeNameDestination
         rules.AttributeNameSource rules.ArrayOfInt64AsAttributeValue rules.ArrayOfInt64].
    cbn [String.eqb Ascii.eqb Bool.eqb].
    rewrite (sourceTypes_back _ Hsrc).
    destruct plan as [? ? ? ? ? ? ? ? ? ? ? [| |[|x l]] ? ? ?]; simpl in Hne |- *;
      try discriminate. reflexivity. }
  assert (nonEmptyList (ElementsAs (AccessPolicy.PrivateResourceIds plan)) = true ->
          AccessPolicy.readCondition plan
            (AccessPolicy.destinationCondition "umbrella.destination.private_resource_ids"
               (rules.ArrayOfInt64AsAttributeValue (ElementsAs (AccessPolicy.PrivateResourceIds plan))) "IN")
          = Some plan) as H3.
  { destruct plan as [? ? ? [| |[|x l]] ? ? ? ? ? ? ? ? ? ? ?]; simpl; try discriminate.
    reflexivity. }
  assert (nonEmptyList (ElementsAs (AccessPolicy.DestinationListIds plan)) = true ->
          AccessPolicy.readCondition plan
            (AccessPolicy.destinationCondition "umbrella.destination.destination_list_ids"
               (rules.ArrayOfInt64AsAttributeValue (ElementsAs (AccessPolicy.DestinationListIds plan)))
               "INTERSECT")
          = Some plan) as H4.
  { destruct plan as [? ? ? ? [| |[|x l]] ? ? ? ? ? ? ? ? ? ?]; simpl; try discriminate.
    reflexivity. }
  assert (nonEmptyList (flat_map AccessPolicy.privateTypeOf (ElementsAs (AccessPolicy.PrivateDestinationTypes plan)))
          = true ->
          AccessPolicy.readCondition plan
            (AccessPolicy.destinationCondition "umbrella.destination.private_resource_types"
               (rules.ArrayOfStringAsAttributeValue
                  (flat_map AccessPolicy.privateTypeOf (ElementsAs (AccessPolicy.PrivateDestinationTypes plan))))
               "INTERSECT")
          = Some plan) as H5.
  { intros Hne. unfold AccessPolicy.readCondition, AccessPolicy.destinationCondition.
    cbn [rules.AttributeName_ rules.AttributeValue_ rules.AttributeNameDestination
         rules.AttributeNameSource rules.ArrayOfStringAsAttributeValue rules.ArrayOfString].
    cbn [String.eqb Ascii.eqb Bool.eqb].
    rewrite (privateTypes_back _ Hpriv).
    destruct plan as [? ? ? ? ? ? ? ? ? ? ? ? [| |[|x l]] ? ?]; simpl in Hne |- *;
      try discriminate. reflexivity. }
  assert (existsb (fun publicType => String.eqb publicType AccessPolicy.PUBLIC_INTERNET_SCHEMA)
                  (ElementsAs (AccessPolicy.PublicDestinationTypes plan)) = true ->
          AccessPolicy.readCondition plan
            (AccessPolicy.destinationCondition "umbrella.destination.all"
               (rules.BoolAsAttributeValue true) "=")
          = Some plan) as H6.
  { intros Hex. pose proof (publicTypes_internet _ Hpub Hnd Hex) as Heq.
    destruct plan as [? ? ? ? ? ? ? ? ? ? ? ? ? [| |l] ?]; simpl in Heq |- *;
      try discriminate. now subst l. }
  unfold AccessPolicy.buildSourceConditions, AccessPolicy.buildDestinationConditions.
  cbv zeta.
  destruct (nonEmptyList (ElementsAs (AccessPolicy.SourceIds plan)));
  destruct (nonEmptyList (flat_map AccessPolicy.sourceTypeId (ElementsAs (AccessPolicy.SourceTypes plan))));
  destruct (nonEmptyList (ElementsAs (AccessPolicy.PrivateResourceIds plan)));
  destruct (nonEmptyList (ElementsAs (AccessPolicy.DestinationListIds plan)));
  destruct (nonEmptyList (flat_map AccessPolicy.privateTypeOf
                            (ElementsAs (AccessPolicy.PrivateDestinationTypes plan))));
  destruct (existsb _ (ElementsAs (AccessPolicy.PublicDestinationTypes plan)));
  cbn [app AccessPolicy.readConditions];
  rewrite ?H1, ?H2, ?H3, ?H4, ?H5, ?H6 by reflexivity;
  cbn [AccessPolicy.readConditions];
  rewrite ?H1, ?H2, ?H3, ?H4, ?H5, ?H6 by reflexivity;
  cbn [AccessPolicy.readConditions];
  rewrite ?H1, ?H2, ?H3, ?H4, ?H5, ?H6 by reflexivity;
  cbn [AccessPolicy.readConditions];
  rewrite ?H1, ?H2, ?H3, ?H4, ?H5, ?H6 by reflexivity;
  cbn [AccessPolicy.readConditions];
  rewrite ?H1, ?H2, ?H3, ?H4, ?H5, ?H6 by reflexivity;
  cbn [AccessPolicy.readConditions];
  rewrite ?H1, ?H2, ?H3, ?H4, ?H5, ?H6 by reflexivity;
  reflexivity.
Qed.

Lemma access_policy_settings_read_back (plan : AccessPolicy.accessPolicyResourceModel) :
  (exists s, AccessPolicy.LogLevel plan = Known s) ->
  (exists s, AccessPolicy.TrafficType plan = Known s) ->
  IsUnknown (AccessPolicy.ClientPostureProfileId plan) = false ->
  fold_left AccessPolicy.readSetting (AccessPolicy.buildRuleSettings plan) plan = plan.
Proof.
  intros [l Hl] [t Ht] Hp.
  destruct plan as [? ? ? ? ? ? ? ll ? [| |p] ? ? ? ? tt0]; simpl in Hl, Ht, Hp; subst;
    try discriminate; reflexivity.
Qed.

(** X3.  What Create of an access policy sends, Read reads back unchanged:
    when the source and destination types of the plan are valid ones, its
    public destination types hold no type twice, its log level and traffic
    type are known and its posture profile id is not unknown, the loop of
    Read over the conditions that formatCreateAccessPolicyRequest builds
    from the plan, and its loop over the settings built from the plan, both
    leave the plan as it is. *)
Theorem access_policy_request_reads_back (plan : AccessPolicy.accessPolicyResourceModel) :
  Forall (fun t => In t AccessPolicy.ValidSourceTypes) (ElementsAs (AccessPolicy.SourceTypes plan)) ->
  Forall (fun t => In t AccessPolicy.ValidPrivateDestinationTypes)
         (ElementsAs (AccessPolicy.PrivateDestinationTypes plan)) ->
  Forall (fun t => In t AccessPolicy.ValidPublicDestinationTypes)
         (ElementsAs (AccessPolicy.PublicDestinationTypes plan)) ->
  NoDup (ElementsAs (AccessPolicy.PublicDestinationTypes plan)) ->
  (exists s, AccessPolicy.LogLevel plan = Known s) ->
  (exists s, AccessPolicy.TrafficType plan = Known s) ->
  IsUnknown (AccessPolicy.ClientPostureProfileId plan) = false ->
  let request := AccessPolicy.formatCreateAccessPolicyRequest plan in
  AccessPolicy.readConditions plan (rules.RuleConditions request) = Some plan
  /\ fold_left AccessPolicy.readSetting (rules.RuleSettings request) plan = plan.
Proof.
  intros Hsrc Hpriv Hpub Hnd Hl Ht Hp request. split.
  - now apply access_policy_conditions_read_back.
  - now apply access_policy_settings_read_back.
Qed.

Lemma access_policy_request_reads_back_witness :
  let request := AccessPolicy.formatCreateAccessPolicyRequest Examples.typedPolicy in
  AccessPolicy.readConditions Examples.typedPolicy (rules.RuleConditions request)
  = Some Examples.typedPolicy
  /\ fold_left AccessPolicy.readSetting (rules.RuleSettings request) Examples.typedPolicy
     = Examples.typedPolicy.
Proof.
  apply (access_policy_request_reads_back Examples.typedPolicy).
  - repeat constructor; simpl; tauto.
  - repeat constructor; simpl; tauto.
  - repeat constructor; simpl; tauto.
  - repeat constructor; simpl; tauto.
  - eexists; reflexivity.
  - eexists; reflexivity.
  - reflexivity.
Defined.

Section AccessPolicyReadBack.

Context {Srv : Type} {service : RemoteService Srv}.

(** X4.  Read of an access policy reports no drift when the API returns what
    Create sent: for a state with valid source and destination types, no
    public destination type twice, a known log level and traffic type and a
    posture profile id that is not unknown, if GetRule answers, without
    error and not with 404, a rule whose conditions and settings are the
    ones that Create builds from the state and whose name, action,
    description, enabled flag and priority are those of the state, then Read
    makes this one call, adds no diagnostic and stores the state unchanged. *)
Theorem access_policy_read_reports_no_drift
    (plan : AccessPolicy.accessPolicyResourceModel) (diags : diag.Diagnostics)
    (srv srv' : Srv) r readResp action :
  Forall (fun t => In t AccessPolicy.ValidSourceTypes) (ElementsAs (AccessPolicy.SourceTypes plan)) ->
  Forall (fun t => In t AccessPolicy.ValidPrivateDestinationTypes)
         (ElementsAs (AccessPolicy.PrivateDestinationTypes plan)) ->
  Forall (fun t => In t AccessPolicy.ValidPublicDestinationTypes)
         (ElementsAs (AccessPolicy.PublicDestinationTypes plan)) ->
  NoDup (ElementsAs (AccessPolicy.PublicDestinationTypes plan)) ->
  (exists s, AccessPolicy.LogLevel plan = Known s) ->
  (exists s, AccessPolicy.TrafficType plan = Known s) ->
  IsUnknown (AccessPolicy.ClientPostureProfileId plan) = false ->
  let request := AccessPolicy.formatCreateAccessPolicyRequest plan in
  Execute (GetRule (ValueInt64 (AccessPolicy.ID plan))) srv = (r, srv') ->
  statusIs r 404 = false ->
  err r = None ->
  value r = Some readResp ->
  rules.RespRuleConditions readResp = rules.RuleConditions request ->
  rules.RespRuleSettings readResp = rules.RuleSettings request ->
  AccessPolicy.Name plan = Known (rules.GetRuleName readResp) ->
  rules.RespRuleAction readResp = Some action ->
  AccessPolicy.Action plan = Known action ->
  AccessPolicy.Description plan = Known (rules.GetRuleDescription readResp) ->
  AccessPolicy.Enabled plan = Known (rules.GetRuleIsEnabled readResp) ->
  AccessPolicy.Priority plan = Known (rules.GetRulePriority readResp) ->
  AccessPolicy.Read (mkReadRequest plan diags) (fresh srv)
  = Returned tt
      (mkWorld srv' [exchangeOf (GetRule (ValueInt64 (AccessPolicy.ID plan))) r] [] (StateSet plan)).
Proof.
  intros Hsrc Hpriv Hpub Hnd Hl Ht Hp request Hexec H404 Herr Hval Hconds Hsets
         Hname Hresp Haction Hdesc Hen Hprio.
  unfold AccessPolicy.Read. unfold_prog. cbn [ReadState ReadStateDiags diag.HasError existsb].
  simpl_world. rewrite Hexec. unfold afterCall. simpl_world.
  rewrite H404, Herr, Hval, Hconds, Hsets.
  subst request. cbn [AccessPolicy.formatCreateAccessPolicyRequest rules.RuleConditions
                      rules.RuleSettings rules.NewAddRuleRequest].
  rewrite (access_policy_conditions_read_back plan Hsrc Hpriv Hpub Hnd).
  rewrite (access_policy_settings_read_back plan Hl Ht Hp).
  rewrite Hresp.
  rewrite <- Hname, <- Haction, <- Hdesc, <- Hen, <- Hprio.
  destruct plan; reflexivity.
Qed.

End AccessPolicyReadBack.

Lemma access_policy_read_reports_no_drift_witness :
  AccessPolicy.Read (service := Examples.reportingService (Examples.reportedRule Examples.typedPolicy))
    (mkReadRequest Examples.typedPolicy []) (fresh tt)
  = Returned tt
      (mkWorld tt [exchangeOf (GetRule 12)
                     (Examples.found (Examples.reportedRule Examples.typedPolicy))] []
         (StateSet Examples.typedPolicy)).
Proof.
  apply (@access_policy_read_reports_no_drift unit
           (Examples.reportingService (Examples.reportedRule Examples.typedPolicy))
           Examples.typedPolicy [] tt tt
           (Examples.found (Examples.reportedRule Examples.typedPolicy))
           (Examples.reportedRule Examples.typedPolicy) "allow").
  - repeat constructor; simpl; tauto.
  - repeat constructor; simpl; tauto.
  - repeat constructor; simpl; tauto.
  - repeat constructor; simpl; tauto.
  - eexists; reflexivity.
  - eexists; reflexivity.
  - reflexivity.
  - reflexivity.
  - reflexivity.
  - reflexivity.
  - reflexivity.
  - reflexivity.
  - reflexivity.
  - reflexivity.
  - reflexivity.
  - reflexivity.
  - reflexivity.
  - reflexivity.
  - reflexivity.
Defined.

(** X5.  The conditions that buildSourceConditions and
    buildDestinationConditions build for a plan name every attribute at most
    once, and none of them carries an empty list of ids, an empty list of
    names or the boolean false. *)
Theorem access_policy_conditions_well_formed (plan : AccessPolicy.accessPolicyResourceModel) :
  let conditions := AccessPolicy.buildSourceConditions plan ++ AccessPolicy.buildDestinationConditions plan in
  NoDup (map rules.AttributeName_ conditions)
  /\ forall c, In c conditions ->
       (forall ids, rules.ArrayOfInt64 (rules.AttributeValue_ c) = Some ids -> ids <> [])
       /\ (forall names, rules.ArrayOfString (rules.AttributeValue_ c) = Some names ->
             names <> [])
       /\ (forall b, rules.AVBool (rules.AttributeValue_ c) = Some b -> b = true).
Proof.
  unfold AccessPolicy.buildSourceConditions, AccessPolicy.buildDestinationConditions. cbv zeta.
  destruct (nonEmptyList (ElementsAs (AccessPolicy.SourceIds plan))) eqn:E1;
  destruct (nonEmptyList (flat_map AccessPolicy.sourceTypeId (ElementsAs (AccessPolicy.SourceTypes plan)))) eqn:E2;
  destruct (nonEmptyList (ElementsAs (AccessPolicy.PrivateResourceIds plan))) eqn:E3;
  destruct (nonEmptyList (ElementsAs (AccessPolicy.DestinationListIds plan))) eqn:E4;
  destruct (nonEmptyList (flat_map AccessPolicy.privateTypeOf
                            (ElementsAs (AccessPolicy.PrivateDestinationTypes plan)))) eqn:E5;
  destruct (existsb _ (ElementsAs (AccessPolicy.PublicDestinationTypes plan))) eqn:E6;
  cbn [app map rules.AttributeName_ AccessPolicy.sourceCondition AccessPolicy.destinationCondition];
  (split;
   [ repeat (constructor; [cbn [In]; intuition discriminate |]); constructor
   | intros c Hc; cbn [In] in Hc;
     repeat match goal with
            | H : _ \/ _ |- _ => destruct H
            | H : False |- _ => destruct H
            end; subst c;
     cbn [rules.AttributeValue_ rules.ArrayOfInt64 rules.ArrayOfString rules.AVBool
          rules.ArrayOfInt64AsAttributeValue rules.ArrayOfStringAsAttributeValue
          rules.BoolAsAttributeValue];
     repeat split; intros x Hx; try discriminate Hx;
     injection Hx as <-; try reflexivity;
     intros Hnil; rewrite Hnil in *; discriminate ]).
Qed.

Section AccessPolicyUpdate.

Context {Srv : Type} {service : RemoteService Srv}.

(** X6.  Update of an access policy never sends the description or the
    enabled flag: when the plan is the state with another description and
    another enabled flag, every call of Update is the PutRule of the id of
    the rule, with a body built from the name, action, priority, conditions
    and settings of the state; and when the description or the flag has
    changed and the priority is not 0, Update makes exactly this one call
    and, if it succeeds, stores the plan. *)
Theorem access_policy_update_omits_description_and_enabled
    (state : AccessPolicy.accessPolicyResourceModel) (description : StringValue) (enabled : BoolValue)
    (srv : Srv) :
  let plan := AccessPolicy.setEnabled (AccessPolicy.setDescription state description) enabled in
  let final := finalWorld (AccessPolicy.Update (mkUpdateRequest plan [] state []) (fresh srv)) in
  let payload priority :=
    rules.NewPutRuleRequest (ValueString (AccessPolicy.Name state)) (ValueString (AccessPolicy.Action state))
      priority (AccessPolicy.buildSourceConditions state ++ AccessPolicy.buildDestinationConditions state)
      (AccessPolicy.buildRuleSettings state) in
  (forall e, In e (exchanges final) ->
     request e = PutRule (ValueInt64 (AccessPolicy.ID state)) (payload (ValueInt64 (AccessPolicy.Priority state))))
  /\ (StringEqual description (AccessPolicy.Description state) = false
      \/ BoolEqual enabled (AccessPolicy.Enabled state) = false ->
      ValueInt64 (AccessPolicy.Priority state) <> 0 ->
      exists r,
        exchanges final
        = [exchangeOf (PutRule (ValueInt64 (AccessPolicy.ID state))
                         (payload (ValueInt64 (AccessPolicy.Priority state)))) r]
        /\ (err r = None -> State final = StateSet plan)).
Proof.
  intros plan final payload.
  assert (AccessPolicy.hasChanges plan state
          = negb (StringEqual description (AccessPolicy.Description state))
            || negb (BoolEqual enabled (AccessPolicy.Enabled state))) as Hchanges.
  { unfold AccessPolicy.hasChanges. subst plan. destruct state. 
    cbn [AccessPolicy.setEnabled AccessPolicy.setDescription AccessPolicy.Name AccessPolicy.Description AccessPolicy.Enabled AccessPolicy.Priority
         AccessPolicy.SourceIds AccessPolicy.SourceTypes AccessPolicy.PrivateDestinationTypes AccessPolicy.PublicDestinationTypes
         AccessPolicy.PrivateResourceIds AccessPolicy.DestinationListIds AccessPolicy.LogLevel AccessPolicy.ClientPostureProfileId
         AccessPolicy.TrafficType].
    rewrite !StringEqual_refl, !Int64Equal_refl.
    rewrite !SetEqual_refl by (intros; first [apply Z.eqb_refl | apply String.eqb_refl]).
    cbn [negb orb].
    rewrite !orb_false_r. reflexivity. }
  assert (rules.RulePriority (AccessPolicy.formatCreateAccessPolicyRequest plan)
          = if negb (ValueInt64 (AccessPolicy.Priority state) =? 0)
            then Some (ValueInt64 (AccessPolicy.Priority state)) else None) as Hprio.
  { subst plan. destruct state. reflexivity. }
  assert (forall priority,
             rules.NewPutRuleRequest
               (rules.RuleName (AccessPolicy.formatCreateAccessPolicyRequest plan))
               (rules.RuleAction (AccessPolicy.formatCreateAccessPolicyRequest plan)) priority
               (rules.RuleConditions (AccessPolicy.formatCreateAccessPolicyRequest plan))
               (rules.RuleSettings (AccessPolicy.formatCreateAccessPolicyRequest plan))
             = payload priority) as Hpayload.
  { intros priority. subst plan payload. destruct state. reflexivity. }
  assert (ValueInt64 (AccessPolicy.ID plan) = ValueInt64 (AccessPolicy.ID state)) as Hid
    by (subst plan; destruct state; reflexivity).
  subst final. unfold AccessPolicy.Update. unfold_prog.
  cbn [UpdatePlan UpdateState UpdatePlanDiags UpdateStateDiags diag.HasError existsb app].
  rewrite Hchanges, Hprio.
  destruct (negb (ValueInt64 (AccessPolicy.Priority state) =? 0)) eqn:Ep.
  - rewrite Hpayload, Hid. unfold afterCall. simpl_world.
    destruct (negb (StringEqual description (AccessPolicy.Description state))
              || negb (BoolEqual enabled (AccessPolicy.Enabled state))) eqn:Ec.
    + cbn [diag.HasError existsb]. simpl_world.
      match goal with
      | |- context [Execute ?c srv] => destruct (Execute c srv) as [[rv rh [re|]] rs]
      end; cbn [err finalWorld exchanges State]; split.
      * intros e [<- | []]. reflexivity.
      * intros _ _. eexists. split; [reflexivity |]. discriminate.
      * intros e [<- | []]. reflexivity.
      * intros _ _. eexists. split; [reflexivity |]. reflexivity.
    + cbn [diag.HasError existsb finalWorld exchanges]. split; [intros e [] |].
      intros Hdiff. apply orb_false_iff in Ec. destruct Ec as [E1 E2].
      apply negb_false_iff in E1, E2. destruct Hdiff; congruence.
  - destruct (negb (StringEqual description (AccessPolicy.Description state))
              || negb (BoolEqual enabled (AccessPolicy.Enabled state))) eqn:Ec;
      cbn [diag.HasError existsb finalWorld exchanges]; (split; [intros e [] |]).
    + intros _ Hnz. apply negb_false_iff, Z.eqb_eq in Ep. contradiction.
    + intros _ Hnz. apply negb_false_iff, Z.eqb_eq in Ep. contradiction.
Qed.

End AccessPolicyUpdate.

(** ** strconv: Itoa and Atoi, and the id of a private resource *)

Lemma parseDigits_of_uint_acc (d : Decimal.uint) (acc : positive) :
  parseDigits (NilEmpty.string_of_uint d) (Z.pos acc) = Some (Z.pos (Pos.of_uint_acc d acc)).
Proof.
  revert acc. induction d; intros acc;
    cbn [NilEmpty.string_of_uint parseDigits Pos.of_uint_acc];
    [reflexivity | ..];
    match goal with
    | |- context [digitOf ?c] =>
        let v := eval vm_compute in (digitOf c) in change (digitOf c) with v
    end; cbv iota beta;
    match goal with
    | |- parseDigits _ ?z = Some (Z.pos (Pos.of_uint_acc _ ?p)) =>
        replace z with (Z.pos p) by (rewrite ?Pos2Z.inj_add, ?Pos2Z.inj_mul; lia)
    end; apply IHd.
Qed.

Lemma parseDigits_of_uint (d : Decimal.uint) :
  parseDigits (NilEmpty.string_of_uint d) 0 = Some (Z.of_N (Pos.of_uint d)).
Proof.
  induction d; cbn [NilEmpty.string_of_uint parseDigits Pos.of_uint];
    [reflexivity | ..];
    match goal with
    | |- context [digitOf ?c] =>
        let v := eval vm_compute in (digitOf c) in change (digitOf c) with v
    end; cbv iota beta; cbn [Z.mul Z.add];
    [exact IHd | ..]; apply parseDigits_of_uint_acc.
Qed.

Lemma ParseInt_to_uint (p : positive) :
  ParseInt (NilEmpty.string_of_uint (Pos.to_uint p))
  = (if 2 ^ 63 <=? Z.pos p then (2 ^ 63 - 1, false) else (Z.pos p, true))
  /\ ParseUint (NilEmpty.string_of_uint (Pos.to_uint p))
     = Some (if Z.pos p <? 2 ^ 64 then (Z.pos p, true) else (2 ^ 64 - 1, false)).
Proof.
  pose proof (parseDigits_of_uint (Pos.to_uint p)) as Hd.
  rewrite DecimalPos.Unsigned.of_to in Hd. cbn [Z.of_N] in Hd.
  pose proof (DecimalPos.Unsigned.to_uint_nonnil p) as Hnn.
  assert (ParseUint (NilEmpty.string_of_uint (Pos.to_uint p))
          = Some (if Z.pos p <? 2 ^ 64 then (Z.pos p, true) else (2 ^ 64 - 1, false))) as Hu.
  { unfold ParseUint. rewrite Hd.
    destruct (Pos.to_uint p); [congruence | ..]; cbn [NilEmpty.string_of_uint];
      destruct (Z.pos p <? 2 ^ 64); reflexivity. }
  split; [| exact Hu].
  unfold ParseInt.
  destruct (Pos.to_uint p) eqn:E; [congruence | ..]; cbn [NilEmpty.string_of_uint] in *;
    match goal with
    | |- context [Ascii.eqb ?c "-"] =>
        change (Ascii.eqb c "-") with false; change (Ascii.eqb c "+") with false
    end; cbn [orb negb andb]; rewrite Hu;
    destruct (Z.pos p <? 2 ^ 64) eqn:E64; destruct (2 ^ 63 <=? Z.pos p) eqn:E63;
    try reflexivity; lia.
Qed.

Lemma Atoi_Itoa_int64 (z : Z) :
  - 2 ^ 63 <= z < 2 ^ 63 -> Atoi (Itoa z) = (z, true).
Proof.
  intros Hz. unfold Atoi, Itoa.
  destruct z as [|p|p]; cbn [Z.to_int NilZero.string_of_int].
  - reflexivity.
  - destruct (ParseInt_to_uint p) as [Hp _].
    assert (NilZero.string_of_uint (Pos.to_uint p) = NilEmpty.string_of_uint (Pos.to_uint p))
      as -> by (pose proof (DecimalPos.Unsigned.to_uint_nonnil p); destruct (Pos.to_uint p);
                [congruence | reflexivity ..]).
    rewrite Hp. destruct (2 ^ 63 <=? Z.pos p) eqn:E; [lia | reflexivity].
  - destruct (ParseInt_to_uint p) as [_ Hu].
    assert (NilZero.string_of_uint (Pos.to_uint p) = NilEmpty.string_of_uint (Pos.to_uint p))
      as -> by (pose proof (DecimalPos.Unsigned.to_uint_nonnil p); destruct (Pos.to_uint p);
                [congruence | reflexivity ..]).
    unfold ParseInt. change (Ascii.eqb "-" "-") with true. change (Ascii.eqb "-" "+") with false.
    cbn [orb negb andb]. rewrite Hu.
    destruct (Z.pos p <? 2 ^ 64) eqn:E64; [| lia].
    destruct (2 ^ 63 <? Z.pos p) eqn:E63; [lia | reflexivity].
Qed.

(** X7.  atoi64 reads back what strconv.Itoa prints: for every z of the
    int64 range, atoi64 of the decimal string of z is z. *)
Theorem atoi64_Itoa (z : Z) :
  - 2 ^ 63 <= z < 2 ^ 63 -> AccessPolicy.atoi64 (Itoa z) = z.
Proof.
  intros Hz. unfold AccessPolicy.atoi64. change (ParseInt (Itoa z)) with (Atoi (Itoa z)).
  now rewrite Atoi_Itoa_int64.
Qed.

Lemma atoi64_Itoa_witness :
  AccessPolicy.atoi64 (Itoa (-42)) = -42 /\ AccessPolicy.atoi64 (Itoa (2 ^ 63 - 1)) = 2 ^ 63 - 1.
Proof.
  split; apply atoi64_Itoa; lia.
Defined.

Section PrivateResourceId.

Context {Srv : Type} {service : RemoteService Srv}.

Variable ProtocolClientToResource : string -> string.

Lemma parseAddressList_ok (addressList : list PrivateResource.addressTypesModel) :
  exists inner, PrivateResource.parseAddressList ProtocolClientToResource addressList = (Some inner, []).
Proof.
  induction addressList as [|a rest [inner IH]]; simpl.
  - now exists [].
  - rewrite IH. eexists. reflexivity.
Qed.

Lemma formatCreatePrivateResourceRequest_ok (plan : PrivateResource.privateResourceResourceModel) :
  exists request,
    PrivateResource.formatCreatePrivateResourceRequest ProtocolClientToResource plan = (Some request, []).
Proof.
  unfold PrivateResource.formatCreatePrivateResourceRequest, PrivateResource.parseAccessTypes, PrivateResource.parseAddresses.
  cbn [diag.HasError existsb].
  destruct (parseAddressList_ok (ElementsAs (PrivateResource.Addresses plan))) as [inner ->].
  cbn [diag.HasError existsb]. eexists. reflexivity.
Qed.

(** X8.  The id that Create of a private resource stores leads Read and
    Delete back to the resource: when the request decodes and can be built
    and AddPrivateResource answers, without error, a resource whose id is in
    the int64 range, Create stores a state whose id is the decimal string of
    that id, and Read and Delete of this state make one call each,
    GetPrivateResource and DeletePrivateResource with exactly that id. *)
Theorem private_resource_id_round_trip
    (req : CreateRequest PrivateResource.privateResourceResourceModel) (srv srv' : Srv)
    request r created :
  diag.HasError (CreatePlanDiags req) = false ->
  fst (PrivateResource.formatCreatePrivateResourceRequest ProtocolClientToResource (CreatePlan req))
  = Some request ->
  Execute (AddPrivateResource request) srv = (r, srv') ->
  err r = None ->
  value r = Some created ->
  - 2 ^ 63 <= privateapps.GetResourceId created < 2 ^ 63 ->
  exists stored,
    State (finalWorld (PrivateResource.Create ProtocolClientToResource req (fresh srv))) = StateSet stored
    /\ PrivateResource.ID stored = Known (Itoa (privateapps.GetResourceId created))
    /\ (forall srv2, exists r2,
          exchanges (finalWorld (PrivateResource.Read (mkReadRequest stored []) (fresh srv2)))
          = [exchangeOf (GetPrivateResource (privateapps.GetResourceId created)) r2])
    /\ (forall srv2, exists r2,
          exchanges (finalWorld (PrivateResource.Delete (mkDeleteRequest stored []) (fresh srv2)))
          = [exchangeOf (DeletePrivateResource (privateapps.GetResourceId created)) r2]).
Proof.
  intros Hdiags Hreq Hexec Herr Hval Hrange.
  destruct (formatCreatePrivateResourceRequest_ok (CreatePlan req)) as [request' Hfmt].
  rewrite Hfmt in Hreq. cbn [fst] in Hreq. injection Hreq as ->.
  exists (PrivateResource.setID (CreatePlan req) (Known (Itoa (privateapps.GetResourceId created)))).
  split; [| split; [reflexivity | split]].
  - unfold PrivateResource.Create, PrivateResource.createPrivateResourceWithRetry, retryDo.
    unfold bind at 1 2. unfold Append, HasError, fresh, diag.Append. simpl_world.
    rewrite Hdiags, Hfmt. cbn [diag.HasError existsb].
    unfold bind at 1.
    erewrite retryLoop_ok.
    2: { unfold PrivateResource.createAttempt. unfold_prog. rewrite Hexec. simpl_world.
         rewrite Herr. reflexivity. }
    rewrite Hval. unfold_prog. reflexivity.
  - intros srv2. unfold PrivateResource.Read. unfold_prog.
    cbn [ReadState ReadStateDiags diag.HasError existsb PrivateResource.setID PrivateResource.ID ValueString].
    rewrite (Atoi_Itoa_int64 _ Hrange). cbn [fst]. unfold afterCall. simpl_world.
    match goal with
    | |- context [Execute ?c srv2] => destruct (Execute c srv2) as [[rv [rh|] [re|]] rs]
    end;
      cbn [httpRes err value finalWorld exchanges afterCall]; try (eexists; reflexivity).
    + destruct (StatusCode rh =? PrivateResource.privateResourceHTTPNotFound); eexists; reflexivity.
    + destruct rv as [rv|]; [| eexists; reflexivity].
      destruct (privateapps.RespName rv); [| eexists; reflexivity].
      destruct (privateapps.RespDescription rv); [| eexists; reflexivity].
      unfold PrivateResource.processReadAddresses, PrivateResource.processReadAccessTypes.
      cbn [diag.HasError existsb].
      destruct (match privateapps.RespAccessTypes rv with
                | AnySlice accessTypes => _ | _ => _ end) as [missing st].
      cbn [diag.HasError existsb finalWorld exchanges]. eexists; reflexivity.
  - intros srv2. unfold PrivateResource.Delete. unfold_prog.
    cbn [DeleteState DeleteStateDiags diag.HasError existsb PrivateResource.setID PrivateResource.ID ValueString].
    rewrite (Atoi_Itoa_int64 _ Hrange). cbn [fst]. unfold afterCall. simpl_world.
    match goal with
    | |- context [Execute ?c srv2] => destruct (Execute c srv2) as [[rv [rh|] [re|]] rs]
    end;
      cbn [httpRes err value finalWorld exchanges afterCall]; try (eexists; reflexivity);
      destruct (StatusCode rh =? PrivateResource.privateResourceHTTPNotFound);
      try destruct rv; eexists; reflexivity.
Qed.

End PrivateResourceId.

Lemma private_resource_id_round_trip_witness :
  exists stored,
    State (finalWorld
             (PrivateResource.Create
                (service := Examples.reportingService (Examples.reportedRule Examples.typedPolicy))
                (fun protocol => protocol)
                (mkCreateRequest (Examples.privateResource "app" []) []) (fresh tt)))
    = StateSet stored
    /\ PrivateResource.ID stored = Known "31"
    /\ map request
         (exchanges (finalWorld
                      (PrivateResource.Delete
                         (service := Examples.reportingService
                                       (Examples.reportedRule Examples.typedPolicy))
                         (mkDeleteRequest stored []) (fresh tt))))
       = [DeletePrivateResource 31].
Proof.
  edestruct (@private_resource_id_round_trip unit
               (Examples.reportingService (Examples.reportedRule Examples.typedPolicy))
               (fun protocol => protocol)
               (mkCreateRequest (Examples.privateResource "app" []) []) tt tt)
    as (stored & Hstate & Hid & _ & Hdelete).
  - reflexivity.
  - vm_compute. reflexivity.
  - reflexivity.
  - reflexivity.
  - reflexivity.
  - cbn. lia.
  - exists stored. split; [exact Hstate |]. split; [exact Hid |].
    destruct (Hdelete tt) as [r2 Hlog]. rewrite Hlog. reflexivity.
Defined.

(** ** Requests that could not be decoded *)

Ltac stop_at_first_check Hdiags :=
  unfold bind at 1 2; unfold Append, HasError, fresh, diag.Append; simpl_world;
  rewrite Hdiags; reflexivity.
Ltac stop_at_second_check Hdiags :=
  unfold bind at 1 2 3; unfold Append, HasError, fresh, diag.Append; simpl_world;
  rewrite Hdiags; reflexivity.
Ltac stop_at_either_check req Hdiags :=
  unfold bind at 1 2; unfold Append, HasError, fresh, diag.Append; simpl_world;
  destruct (diag.HasError (UpdatePlanDiags req)) eqn:Ep;
  [ eexists; split; [reflexivity | exact Ep]
  | unfold bind at 1 2; simpl_world; rewrite Hdiags;
    eexists; split; [reflexivity | exact Hdiags] ].

Section RequestErrors.

Context {Srv : Type} {service : RemoteService Srv}.

Variable ProtocolClientToResource : string -> string.

(** X9.  A handler whose request cannot be decoded (the diagnostics of its
    plan or state hold an error) calls nothing, leaves the state untouched
    and returns with the diagnostics in error: Create, Update and Delete of
    the access policy; Create, Read, Update and Delete of the private
    resource; Read, Update and Delete of the network tunnel group and of the
    destination list; Read and Delete of the connector agent; Create, Read
    and Update of the global settings. *)
Theorem handlers_stop_on_request_error :
  (forall (req : CreateRequest AccessPolicy.accessPolicyResourceModel) (srv : Srv),
      diag.HasError (CreatePlanDiags req) = true ->
      AccessPolicy.Create req (fresh srv) = Returned tt (mkWorld srv [] (CreatePlanDiags req) StateUntouched))
  /\ (forall (req : UpdateRequest AccessPolicy.accessPolicyResourceModel) (srv : Srv),
      diag.HasError (UpdatePlanDiags req ++ UpdateStateDiags req) = true ->
      exists ds, AccessPolicy.Update req (fresh srv) = Returned tt (mkWorld srv [] ds StateUntouched)
                 /\ diag.HasError ds = true)
  /\ (forall (req : DeleteRequest AccessPolicy.accessPolicyResourceModel) (srv : Srv),
      diag.HasError (DeleteStateDiags req) = true ->
      AccessPolicy.Delete req (fresh srv) = Returned tt (mkWorld srv [] (DeleteStateDiags req) StateUntouched))
  /\ (forall (req : CreateRequest PrivateResource.privateResourceResourceModel) (srv : Srv),
      diag.HasError (CreatePlanDiags req) = true ->
      PrivateResource.Create ProtocolClientToResource req (fresh srv)
      = Returned tt (mkWorld srv [] (CreatePlanDiags req) StateUntouched))
  /\ (forall (req : ReadRequest PrivateResource.privateResourceResourceModel) (srv : Srv),
      diag.HasError (ReadStateDiags req) = true ->
      PrivateResource.Read req (fresh srv) = Returned tt (mkWorld srv [] (ReadStateDiags req) StateUntouched))
  /\ (forall (req : UpdateRequest PrivateResource.privateResourceResourceModel) (srv : Srv),
      diag.HasError (UpdatePlanDiags req ++ UpdateStateDiags req) = true ->
      PrivateResource.Update ProtocolClientToResource req (fresh srv)
      = Returned tt (mkWorld srv [] (UpdatePlanDiags req ++ UpdateStateDiags req) StateUntouched))
  /\ (forall (req : DeleteRequest PrivateResource.privateResourceResourceModel) (srv : Srv),
      diag.HasError (DeleteStateDiags req) = true ->
      PrivateResource.Delete req (fresh srv) = Returned tt (mkWorld srv [] (DeleteStateDiags req) StateUntouched))
  /\ (forall (req : ReadRequest Ntg.ntgResourceModel) (srv : Srv),
      diag.HasError (ReadStateDiags req) = true ->
      Ntg.Read req (fresh srv) = Returned tt (mkWorld srv [] (ReadStateDiags req) StateUntouched))
  /\ (forall (req : UpdateRequest Ntg.ntgResourceModel) (srv : Srv),
      diag.HasError (UpdatePlanDiags req ++ UpdateStateDiags req) = true ->
      exists ds, Ntg.Update req (fresh srv) = Returned tt (mkWorld srv [] ds StateUntouched)
                 /\ diag.HasError ds = true)
  /\ (forall (req : DeleteRequest Ntg.ntgResourceModel) (srv : Srv),
      diag.HasError (DeleteStateDiags req) = true ->
      Ntg.Delete req (fresh srv) = Returned tt (mkWorld srv [] (DeleteStateDiags req) StateUntouched))
  /\ (forall (req : ReadRequest DestinationList.destinationListResourceModel) (srv : Srv),
      diag.HasError (ReadStateDiags req) = true ->
      DestinationList.Read req (fresh srv) = Returned tt (mkWorld srv [] (ReadStateDiags req) StateUntouched))
  /\ (forall (req : UpdateRequest DestinationList.destinationListResourceModel) (srv : Srv),
      diag.HasError (UpdatePlanDiags req ++ UpdateStateDiags req) = true ->
      DestinationList.Update req (fresh srv)
      = Returned tt (mkWorld srv [] (UpdatePlanDiags req ++ UpdateStateDiags req) StateUntouched))
  /\ (forall (req : DeleteRequest DestinationList.destinationListResourceModel) (srv : Srv),
      diag.HasError (DeleteStateDiags req) = true ->
      DestinationList.Delete req (fresh srv) = Returned tt (mkWorld srv [] (DeleteStateDiags req) StateUntouched))
  /\ (forall (req : ReadRequest ConnectorAgent.resourceConnectorAgentResourceModel) (srv : Srv),
      diag.HasError (ReadStateDiags req) = true ->
      ConnectorAgent.Read req (fresh srv) = Returned tt (mkWorld srv [] (ReadStateDiags req) StateUntouched))
  /\ (forall (req : DeleteRequest ConnectorAgent.resourceConnectorAgentResourceModel) (srv : Srv),
      diag.HasError (DeleteStateDiags req) = true ->
      ConnectorAgent.Delete req (fresh srv) = Returned tt (mkWorld srv [] (DeleteStateDiags req) StateUntouched))
  /\ (forall (req : CreateRequest GlobalSettings.globalSettingsResourceModel) (srv : Srv),
      diag.HasError (CreatePlanDiags req) = true ->
      GlobalSettings.Create req (fresh srv) = Returned tt (mkWorld srv [] (CreatePlanDiags req) StateUntouched))
  /\ (forall (req : ReadRequest GlobalSettings.globalSettingsResourceModel) (srv : Srv),
      diag.HasError (ReadStateDiags req) = true ->
      GlobalSettings.Read req (fresh srv) = Returned tt (mkWorld srv [] (ReadStateDiags req) StateUntouched))
  /\ (forall (req : UpdateRequest GlobalSettings.globalSettingsResourceModel) (srv : Srv),
      diag.HasError (UpdatePlanDiags req ++ UpdateStateDiags req) = true ->
      GlobalSettings.Update req (fresh srv)
      = Returned tt (mkWorld srv [] (UpdatePlanDiags req ++ UpdateStateDiags req) StateUntouched)).
Proof.
  repeat apply conj; intros req srv Hdiags.
  - unfold AccessPolicy.Create. stop_at_first_check Hdiags.
  - unfold AccessPolicy.Update. stop_at_either_check req Hdiags.
  - unfold AccessPolicy.Delete. stop_at_first_check Hdiags.
  - unfold PrivateResource.Create. stop_at_first_check Hdiags.
  - unfold PrivateResource.Read. stop_at_first_check Hdiags.
  - unfold PrivateResource.Update. stop_at_second_check Hdiags.
  - unfold PrivateResource.Delete. stop_at_first_check Hdiags.
  - unfold Ntg.Read. stop_at_first_check Hdiags.
  - unfold Ntg.Update. stop_at_either_check req Hdiags.
  - unfold Ntg.Delete. stop_at_first_check Hdiags.
  - unfold DestinationList.Read. rewrite Hdiags. reflexivity.
  - unfold DestinationList.Update. stop_at_second_check Hdiags.
  - unfold DestinationList.Delete. stop_at_first_check Hdiags.
  - unfold ConnectorAgent.Read. stop_at_first_check Hdiags.
  - unfold ConnectorAgent.Delete. stop_at_first_check Hdiags.
  - unfold GlobalSettings.Create. stop_at_first_check Hdiags.
  - unfold GlobalSettings.Read. stop_at_first_check Hdiags.
  - unfold GlobalSettings.Update. stop_at_second_check Hdiags.
Qed.

(** X10.  Read of an access policy does not stop when the state could not
    be decoded: whatever the diagnostics of decoding the state are, Read
    calls GetRule, once, with the id of the state as it was decoded. *)
Theorem access_policy_read_ignores_state_diagnostics
    (req : ReadRequest AccessPolicy.accessPolicyResourceModel) (srv : Srv) :
  exists r,
    exchanges (finalWorld (AccessPolicy.Read req (fresh srv)))
    = [exchangeOf (GetRule (ValueInt64 (AccessPolicy.ID (ReadState req)))) r].
Proof.
  unfold AccessPolicy.Read. unfold_prog. cbn [diag.HasError existsb]. unfold afterCall. simpl_world.
  match goal with
  | |- context [Execute ?c srv] => destruct (Execute c srv) as [[rv rh [re|]] rs]
  end; cbn [err value httpRes]; unfold statusIs; cbn [httpRes].
  - destruct rh as [rh|]; [destruct (StatusCode rh =? 404) |]; eexists; reflexivity.
  - destruct rh as [rh|]; [destruct (StatusCode rh =? 404) |];
      try (eexists; reflexivity);
      (destruct rv as [rv|]; [| eexists; reflexivity]);
      (destruct (AccessPolicy.readConditions _ _);
       [destruct (rules.RespRuleAction rv) |]; eexists; reflexivity).
Qed.

End RequestErrors.

Lemma handlers_stop_on_request_error_witness :
  AccessPolicy.Create (service := acceptAll)
    (mkCreateRequest Examples.typedPolicy [diag.NewErrorDiagnostic "plan"]) (fresh tt)
  = Returned tt (mkWorld tt [] [diag.NewErrorDiagnostic "plan"] StateUntouched)
  /\ GlobalSettings.Read (service := acceptAll)
       (mkReadRequest (GlobalSettings.mkModel Null Null Null) [diag.NewErrorDiagnostic "state"])
       (fresh tt)
     = Returned tt (mkWorld tt [] [diag.NewErrorDiagnostic "state"] StateUntouched).
Proof.
  pose proof (@handlers_stop_on_request_error unit acceptAll (fun protocol => protocol))
    as Hstop.
  split.
  - apply Hstop. reflexivity.
  - apply Hstop. reflexivity.
Defined.

(** ** Network tunnel group and private resource: what Update and Read store *)

Lemma diag_HasError_app_false (a b : diag.Diagnostics) :
  diag.HasError (a ++ b) = false ->
  diag.HasError a = false /\ diag.HasError b = false.
Proof.
  rewrite diag_HasError_app. apply orb_false_iff.
Qed.

Section NtgOutcome.

Context {Srv : Type} {service : RemoteService Srv}.

(** X11.  Update of a network tunnel group whose request decodes ends in one
    of two ways: either no call has failed, no diagnostic is added and the
    state stored has the name, the preshared key and the network CIDRs of
    the plan and the id, region, identifier prefix, device type and hubs of
    the old state; or the one call that was made has failed, the state is
    untouched and the error "Error updating network tunnel group" is added. *)
Theorem ntg_update_outcome (req : UpdateRequest Ntg.ntgResourceModel) (srv : Srv) :
  let plan := UpdatePlan req in
  let state := UpdateState req in
  let diags := UpdatePlanDiags req ++ UpdateStateDiags req in
  let final := finalWorld (Ntg.Update req (fresh srv)) in
  let merged :=
    Ntg.mkModel (Ntg.Id state) (Ntg.NetworkCidrs plan) (Ntg.Name plan) (Ntg.Region state)
      (Ntg.IdentifierPrefix state) (Ntg.PresharedKey plan) (Ntg.DeviceType state)
      (Ntg.Hubs state) in
  diag.HasError diags = false ->
  (State final = StateSet merged
   /\ Diagnostics final = diags
   /\ forall e, In e (exchanges final) -> failed e = false)
  \/ (State final = StateUntouched
      /\ Diagnostics final
         = diags ++ [diag.NewErrorDiagnostic "Error updating network tunnel group"]
      /\ exists e, exchanges final = [e] /\ failed e = true).
Proof.
  intros plan state diags final merged Hdiags.
  destruct (diag_HasError_app_false _ _ Hdiags) as [Hp Hs].
  subst final. unfold Ntg.Update. unfold_prog. rewrite Hp. simpl_world.
  fold diags. rewrite Hdiags. fold plan state.
  destruct (Ntg.patchesFor plan state) as [|p ps]; cbn [nonEmptyList].
  - left. cbn [finalWorld State Diagnostics exchanges]. rewrite app_nil_r.
    repeat split. intros e [].
  - unfold afterCall. simpl_world.
    match goal with
    | |- context [Execute ?c srv] => destruct (Execute c srv) as [[rv rh [re|]] rs]
    end; cbn [err finalWorld State Diagnostics exchanges].
    + right. repeat split. eexists. split; reflexivity.
    + left. rewrite app_nil_r. repeat split. intros e [<- | []]. reflexivity.
Qed.

(** X12.  When GetNetworkTunnelGroup answers a tunnel group (no error, no
    404), Read of a network tunnel group dereferences the name, the region,
    the static routing, the device type and every pointer of every hub of
    the answer.  When one of them is nil, Read panics and stores nothing.
    When all are set, Read stores a state that keeps the id, the identifier
    prefix and the preshared key of the old state and takes the name,
    region, device type, network CIDRs and hubs from the answer. *)
Theorem ntg_read_keeps_unreported_fields
    (req : ReadRequest Ntg.ntgResourceModel) (srv srv' : Srv) r readResp :
  let state := ReadState req in
  let outcome := Ntg.Read req (fresh srv) in
  diag.HasError (ReadStateDiags req) = false ->
  Execute (GetNetworkTunnelGroup (ValueInt64 (Ntg.Id state))) srv = (r, srv') ->
  statusIs r 404 = false ->
  err r = None ->
  value r = Some readResp ->
  (ntg.Name readResp = None \/ ntg.Region readResp = None
   \/ ntg.NetworkCIDRs readResp = None \/ ntg.DeviceType readResp = None
   \/ Exists (fun hub => ~ completeHub hub) (ntg.Hubs readResp) ->
   hasPanicked outcome = true
   /\ State (finalWorld outcome) = StateUntouched)
  /\ (forall name region networkCIDRs deviceType,
        ntg.Name readResp = Some name ->
        ntg.Region readResp = Some region ->
        ntg.NetworkCIDRs readResp = Some networkCIDRs ->
        ntg.DeviceType readResp = Some deviceType ->
        Forall completeHub (ntg.Hubs readResp) ->
        exists stored,
          hasPanicked outcome = false
          /\ State (finalWorld outcome) = StateSet stored
          /\ Ntg.Id stored = Ntg.Id state
          /\ Ntg.IdentifierPrefix stored = Ntg.IdentifierPrefix state
          /\ Ntg.PresharedKey stored = Ntg.PresharedKey state
          /\ Ntg.Name stored = Known name
          /\ Ntg.Region stored = Known region
          /\ Ntg.DeviceType stored = Known deviceType
          /\ Ntg.convertNetworkCidrsToStrings (Ntg.NetworkCidrs stored) = networkCIDRs
          /\ Forall2 (fun hub model => Ntg.hubInstance hub = Some model)
                     (ntg.Hubs readResp) (ElementsAs (Ntg.Hubs stored))).
Proof.
  intros state outcome Hdiags Hexec H404 Herr Hval. subst state outcome.
  unfold Ntg.Read. unfold_prog. rewrite Hdiags. simpl_world.
  rewrite Hexec. unfold afterCall. simpl_world. rewrite H404, Herr, Hval.
  split.
  - intros Hnil.
    destruct (ntg.Name readResp) as [name|]; [| split; reflexivity].
    destruct (ntg.Region readResp) as [region|]; [| split; reflexivity].
    destruct (ntg.NetworkCIDRs readResp) as [networkCIDRs|]; [| split; reflexivity].
    destruct (ntg.DeviceType readResp) as [deviceType|]; [| split; reflexivity].
    destruct Hnil as [H | [H | [H | [H | H]]]]; try discriminate H.
    rewrite (hubs_incomplete _ H). split; reflexivity.
  - intros name region networkCIDRs deviceType -> -> -> -> Hhubs.
    destruct (hubs_complete _ Hhubs) as [models Hmodels]. rewrite Hmodels.
    cbn [finalWorld State hasPanicked]. eexists. split; [reflexivity |].
    split; [reflexivity |].
    cbn [Ntg.setHubs Ntg.setDeviceType Ntg.setNetworkCidrs Ntg.setRegion Ntg.setName
         Ntg.Id Ntg.IdentifierPrefix Ntg.PresharedKey Ntg.Name Ntg.Region Ntg.DeviceType
         Ntg.NetworkCidrs Ntg.Hubs].
    repeat split.
    + unfold Ntg.convertNetworkCidrsToStrings, Ntg.convertStringsToNetworkCidrs.
      rewrite map_map. apply map_id.
    + apply collect_Forall2 in Hmodels.
      destruct models as [|m ms]; cbn [appended ValueFrom ElementsAs]; exact Hmodels.
Qed.

End NtgOutcome.

Lemma ntg_update_outcome_witness :
  let final :=
    finalWorld (Ntg.Update (service := failAll 500 "500 Internal Server Error" EmptyString)
                  (Examples.ntgUpdate (Examples.ntgModel "new" "key" ["10.0.0.0/8"])
                                      (Examples.ntgModel "old" "key" ["10.0.0.0/8"]))
                  (fresh tt)) in
  State final = StateUntouched
  /\ Diagnostics final = [diag.NewErrorDiagnostic "Error updating network tunnel group"].
Proof.
  destruct (@ntg_update_outcome unit (failAll 500 "500 Internal Server Error" EmptyString)
              (Examples.ntgUpdate (Examples.ntgModel "new" "key" ["10.0.0.0/8"])
                                  (Examples.ntgModel "old" "key" ["10.0.0.0/8"])) tt)
    as [(Hstate & _) | (Hstate & Hdiags & _)].
  - reflexivity.
  - discriminate Hstate.
  - split; [exact Hstate | exact Hdiags].
Defined.

Lemma ntg_read_keeps_unreported_fields_witness :
  exists stored,
    State (finalWorld
             (Ntg.Read
                (service := Examples.reportingService (Examples.reportedRule Examples.typedPolicy))
                (mkReadRequest (Examples.ntgModel "old" "key" []) []) (fresh tt)))
    = StateSet stored
    /\ Ntg.PresharedKey stored = Known "key"
    /\ Ntg.Name stored = Known "tunnel"
    /\ Ntg.convertNetworkCidrsToStrings (Ntg.NetworkCidrs stored) = ["10.0.0.0/8"].
Proof.
  edestruct (@ntg_read_keeps_unreported_fields unit
               (Examples.reportingService (Examples.reportedRule Examples.typedPolicy))
               (mkReadRequest (Examples.ntgModel "old" "key" []) []) tt tt)
    as [_ Hcomplete].
  - reflexivity.
  - reflexivity.
  - reflexivity.
  - reflexivity.
  - reflexivity.
  - edestruct Hcomplete as (stored & _ & Hstate & _ & _ & Hkey & Hname & _ & _ & Hcidrs & _).
    + reflexivity.
    + reflexivity.
    + reflexivity.
    + reflexivity.
    + repeat constructor; discriminate.
    + exists stored. repeat split; assumption.
Defined.

Section PrivateResourceFrame.

Context {Srv : Type} {service : RemoteService Srv}.

Variable ProtocolClientToResource : string -> string.

(** X13.  Update of a private resource ignores client_reachable_addresses: a
    plan that is the state with other client reachable addresses is no
    change for hasResourceChanges, and Update stores this plan without
    calling the API. *)
Theorem private_resource_update_ignores_client_reachable_addresses
    (state : PrivateResource.privateResourceResourceModel) (addresses : SetValue string) (srv : Srv) :
  let plan := PrivateResource.setClientReachableAddresses state addresses in
  PrivateResource.hasResourceChanges plan state = false
  /\ PrivateResource.Update ProtocolClientToResource (mkUpdateRequest plan [] state []) (fresh srv)
     = Returned tt (mkWorld srv [] [] (StateSet plan)).
Proof.
  intros plan.
  assert (PrivateResource.hasResourceChanges plan state = false) as Hno.
  { apply private_resource_hasResourceChanges_false.
    destruct (private_resource_agreesWith_refl state) as (H1 & H2 & H3 & H4 & H5).
    repeat split; assumption. }
  split; [exact Hno |].
  unfold PrivateResource.Update. unfold_prog. cbn [UpdatePlan UpdateState UpdatePlanDiags UpdateStateDiags
                                     diag.HasError existsb app].
  fold plan. rewrite Hno. reflexivity.
Qed.

Lemma readAccessType_frame (accessTypes : list Any) (missing : bool)
    (state : PrivateResource.privateResourceResourceModel) :
  let result := snd (fold_left PrivateResource.readAccessType accessTypes (missing, state)) in
  PrivateResource.ID result = PrivateResource.ID state
  /\ PrivateResource.Name result = PrivateResource.Name state
  /\ PrivateResource.AccessTypes result = PrivateResource.AccessTypes state
  /\ PrivateResource.Addresses result = PrivateResource.Addresses state
  /\ PrivateResource.Description result = PrivateResource.Description state
  /\ PrivateResource.CertificateID result = PrivateResource.CertificateID state.
Proof.
  revert missing state. induction accessTypes as [|a rest IH]; intros missing state.
  - simpl. repeat split.
  - cbn [fold_left].
    assert (exists missing' state',
               PrivateResource.readAccessType (missing, state) a = (missing', state')
               /\ PrivateResource.ID state' = PrivateResource.ID state
               /\ PrivateResource.Name state' = PrivateResource.Name state
               /\ PrivateResource.AccessTypes state' = PrivateResource.AccessTypes state
               /\ PrivateResource.Addresses state' = PrivateResource.Addresses state
               /\ PrivateResource.Description state' = PrivateResource.Description state
               /\ PrivateResource.CertificateID state' = PrivateResource.CertificateID state) as (m' & s' & -> & H).
    { unfold PrivateResource.readAccessType.
      destruct a as [| | |entries|]; try (do 2 eexists; repeat split; reflexivity).
      destruct (mapIndex entries "ClientBasedAccess") as [clientAccess|];
        [| do 2 eexists; repeat split; reflexivity].
      destruct (PrivateResource.isNil clientAccess); [do 2 eexists; repeat split; reflexivity |].
      destruct clientAccess as [| | |clientMap|]; try (do 2 eexists; repeat split; reflexivity).
      destruct (mapIndex clientMap "ReachableAddresses") as [[| | | |]|];
        do 2 eexists; repeat split; reflexivity. }
    specialize (IH m' s'). cbv zeta in IH |- *.
    destruct H as (E1 & E2 & E3 & E4 & E5 & E6).
    rewrite <- E1, <- E2, <- E3, <- E4, <- E5, <- E6. exact IH.
Qed.

(** X14.  When GetPrivateResource answers a resource without error, Read of
    a private resource dereferences the name and the description of the
    answer.  When one of them is nil, Read panics and stores nothing.  When
    both are set, Read stores a state that keeps the id, the access types
    and the certificate id of the old state, takes the name and the
    description from the answer, has one address entry for every reported
    address, with the reported addresses as its set and the null set for a
    nil slice, and has null client reachable addresses when the reported
    access types are no list. *)
Theorem private_resource_read_refreshes_only_reported_fields
    (req : ReadRequest PrivateResource.privateResourceResourceModel) (srv srv' : Srv) r h readResp :
  let state := ReadState req in
  let outcome := PrivateResource.Read req (fresh srv) in
  diag.HasError (ReadStateDiags req) = false ->
  Execute (GetPrivateResource (fst (Atoi (ValueString (PrivateResource.ID state))))) srv = (r, srv') ->
  httpRes r = Some h ->
  err r = None ->
  value r = Some readResp ->
  (privateapps.RespName readResp = None \/ privateapps.RespDescription readResp = None ->
   hasPanicked outcome = true
   /\ State (finalWorld outcome) = StateUntouched)
  /\ (forall name description,
        privateapps.RespName readResp = Some name ->
        privateapps.RespDescription readResp = Some description ->
        exists stored,
          hasPanicked outcome = false
          /\ State (finalWorld outcome) = StateSet stored
          /\ PrivateResource.ID stored = PrivateResource.ID state
          /\ PrivateResource.AccessTypes stored = PrivateResource.AccessTypes state
          /\ PrivateResource.CertificateID stored = PrivateResource.CertificateID state
          /\ PrivateResource.Name stored = Known name
          /\ PrivateResource.Description stored = Known description
          /\ List.length (ElementsAs (PrivateResource.Addresses stored))
             = List.length (privateapps.RespResourceAddresses readResp)
          /\ map PrivateResource.AddressList (ElementsAs (PrivateResource.Addresses stored))
             = map (fun address => ValueFrom (privateapps.DestinationAddr address))
                   (privateapps.RespResourceAddresses readResp)
          /\ ((forall accessTypes, privateapps.RespAccessTypes readResp <> AnySlice accessTypes) ->
              PrivateResource.ClientReachableAddresses stored = Null)).
Proof.
  intros state outcome Hdiags Hexec Hres Herr Hval. subst state outcome.
  unfold PrivateResource.Read. unfold_prog. rewrite Hdiags. simpl_world.
  rewrite Hexec. unfold afterCall. simpl_world. rewrite Hres, Herr, Hval.
  split.
  { intros Hnil.
    destruct (privateapps.RespName readResp) as [name|]; [| split; reflexivity].
    destruct (privateapps.RespDescription readResp) as [description|]; [| split; reflexivity].
    destruct Hnil as [H | H]; discriminate H. }
  intros name description -> ->.
  unfold PrivateResource.processReadAddresses. cbn [diag.HasError existsb].
  unfold PrivateResource.processReadAccessTypes.
  set (named := PrivateResource.setDescription (PrivateResource.setName (ReadState req) _) _).
  set (addressUpdate := fun resourceAddress =>
         PrivateResource.mkAddressTypes
           (ValueFrom (privateapps.DestinationAddr resourceAddress))
           (ValueFrom (Some
              (map (fun pp => PrivateResource.mkTrafficSelector (Known (privateapps.Ports pp))
                                (Known (privateapps.Protocol pp)))
                   (privateapps.ProtocolPorts resourceAddress))))).
  assert (forall l : list privateapps.ResourceAddressesInner,
             List.length (ElementsAs (ValueFrom (appended (map addressUpdate l))))
             = List.length l) as Hlen.
  { intros [|x l]; cbn; [reflexivity | now rewrite length_map]. }
  assert (forall l : list privateapps.ResourceAddressesInner,
             map PrivateResource.AddressList
                 (ElementsAs (ValueFrom (appended (map addressUpdate l))))
             = map (fun address => ValueFrom (privateapps.DestinationAddr address)) l) as Hmap.
  { intros [|x l]; cbn [map appended ValueFrom ElementsAs]; [reflexivity |].
    subst addressUpdate. cbn [PrivateResource.AddressList]. rewrite map_map. reflexivity. }
  destruct (privateapps.RespAccessTypes readResp) as [| |accessTypes| |] eqn:Eat.
  3: {
    pose proof (readAccessType_frame accessTypes true named) as Hframe.
    destruct (fold_left PrivateResource.readAccessType accessTypes (true, named)) as [missing st].
    cbn [snd] in Hframe. subst named. cbn in Hframe.
    destruct Hframe as (E1 & E2 & E3 & E4 & E5 & E6).
    cbn [diag.HasError existsb finalWorld State hasPanicked]. eexists.
    split; [reflexivity |]. split; [reflexivity |].
    destruct missing;
      cbn [PrivateResource.setAddresses PrivateResource.setClientReachableAddresses PrivateResource.ID PrivateResource.AccessTypes
           PrivateResource.CertificateID PrivateResource.Name PrivateResource.Description PrivateResource.Addresses PrivateResource.ClientReachableAddresses];
      repeat split; try assumption; try apply Hlen; try apply Hmap;
      intros Hnot; exfalso; now apply (Hnot accessTypes). }
  all: cbn [diag.HasError existsb finalWorld State hasPanicked]; eexists;
    (split; [reflexivity |]); (split; [reflexivity |]);
    subst named;
    cbn [PrivateResource.setAddresses PrivateResource.setClientReachableAddresses PrivateResource.setName PrivateResource.setDescription
         PrivateResource.ID PrivateResource.AccessTypes
         PrivateResource.CertificateID PrivateResource.Name PrivateResource.Description PrivateResource.Addresses PrivateResource.ClientReachableAddresses];
    repeat split; first [apply Hlen | apply Hmap].
Qed.

End PrivateResourceFrame.

Lemma private_resource_read_refreshes_only_reported_fields_witness :
  exists stored,
    State (finalWorld
             (PrivateResource.Read
                (service := Examples.reportingService (Examples.reportedRule Examples.typedPolicy))
                (mkReadRequest (Examples.privateResource "old" ["10.0.0.1"]) []) (fresh tt)))
    = StateSet stored
    /\ PrivateResource.ID stored = Known "31"
    /\ PrivateResource.Name stored = Known "app"
    /\ List.length (ElementsAs (PrivateResource.Addresses stored)) = 1%nat.
Proof.
  edestruct (@private_resource_read_refreshes_only_reported_fields unit
               (Examples.reportingService (Examples.reportedRule Examples.typedPolicy))
               (mkReadRequest (Examples.privateResource "old" ["10.0.0.1"]) []) tt tt)
    as [_ Hcomplete].
  - reflexivity.
  - reflexivity.
  - reflexivity.
  - reflexivity.
  - reflexivity.
  - edestruct Hcomplete as (stored & _ & Hstate & Hid & _ & _ & Hname & _ & Haddresses & _).
    + reflexivity.
    + reflexivity.
    + exists stored. repeat split; assumption.
Defined.

(** ** The retry loops of the handlers *)

Section RetryBounds.

Context {Srv : Type} {service : RemoteService Srv} {Mdl A : Type}.

Variable attempt : Prog (World Srv Mdl) (AttemptResult A).
Variable c : Call.
Variable retryable : Exchange -> bool.

Hypothesis attempt_calls_once :
  forall w, exists r,
    exchanges (finalWorld (attempt w)) = exchanges w ++ [exchangeOf c r]
    /\ forall msg w', attempt w = Returned (AttemptError msg) w' ->
                      retryable (exchangeOf c r) = true.

Lemma retryLoop_log (more : nat) (w : World Srv Mdl) :
  exists tail,
    exchanges (finalWorld (retryLoop more attempt w)) = exchanges w ++ tail
    /\ (1 <= List.length tail <= S more)%nat
    /\ Forall (fun e => request e = c) tail
    /\ retriedOnly retryable tail = true.
Proof.
  revert w. induction more as [|more IH]; intros w;
    destruct (attempt_calls_once w) as (r & Hlog & Hretry);
    cbn [retryLoop]; unfold bind at 1;
    destruct (attempt w) as [[a|msg|msg] w'|w'] eqn:Ea; cbn [finalWorld] in Hlog |- *;
    try (exists [exchangeOf c r]; cbn [List.length]; repeat split;
         [exact Hlog | lia | lia | repeat constructor]).
  destruct (IH w') as (tail & Htail & Hlen & Hall & Hret).
  exists (exchangeOf c r :: tail). rewrite Htail, Hlog, <- app_assoc. cbn [app List.length].
  repeat split; try lia.
  - constructor; [reflexivity | exact Hall].
  - cbn [retriedOnly]. destruct tail as [|e tail]; [reflexivity |].
    rewrite (Hretry msg w' eq_refl). exact Hret.
Qed.

End RetryBounds.

Section RetryBoundsOfHandlers.

Context {Srv : Type} {service : RemoteService Srv}.

Variable ProtocolClientToResource : string -> string.

Lemma failedWith_exchangeOf (codes : list Z) (c : Call) rv h e :
  existsb (Z.eqb (StatusCode h)) codes = true ->
  failedWith codes (exchangeOf c (mkReply rv (Some h) (Some e))) = true.
Proof.
  intros H. unfold failedWith, exchangeOf, replyStatus. cbn. exact H.
Qed.

(** X15.  Every retry loop makes at least one call and at most a fixed
    number, all of them the same operation with the same argument, and every
    call but the last one answered a status that the loop retries: Delete of
    an access policy makes at most 3 calls and retries failures with 409;
    Create of an access policy at most 6, failures with 400 or 409; Create
    of a private resource at most 3, failures with 409 or 429; Read and
    Delete of a connector agent at most 6, the status 429. *)
Theorem retry_loops_are_bounded :
  (forall (req : DeleteRequest AccessPolicy.accessPolicyResourceModel) (srv : Srv),
      diag.HasError (DeleteStateDiags req) = false ->
      let log := exchanges (finalWorld (AccessPolicy.Delete req (fresh srv))) in
      (1 <= List.length log <= 3)%nat
      /\ Forall (fun e => request e = DeleteRule (ValueInt64 (AccessPolicy.ID (DeleteState req)))) log
      /\ retriedOnly (failedWith [409]) log = true)
  /\ (forall (req : CreateRequest AccessPolicy.accessPolicyResourceModel) (srv : Srv),
      diag.HasError (CreatePlanDiags req) = false ->
      let log := exchanges (finalWorld (AccessPolicy.Create req (fresh srv))) in
      (1 <= List.length log <= 6)%nat
      /\ Forall (fun e => request e
                          = AddRule (AccessPolicy.formatCreateAccessPolicyRequest (CreatePlan req))) log
      /\ retriedOnly (failedWith [400; 409]) log = true)
  /\ (forall (req : CreateRequest PrivateResource.privateResourceResourceModel) (srv : Srv) body,
      diag.HasError (CreatePlanDiags req) = false ->
      fst (PrivateResource.formatCreatePrivateResourceRequest ProtocolClientToResource (CreatePlan req))
      = Some body ->
      let log := exchanges (finalWorld (PrivateResource.Create ProtocolClientToResource req (fresh srv))) in
      (1 <= List.length log <= 3)%nat
      /\ Forall (fun e => request e = AddPrivateResource body) log
      /\ retriedOnly (failedWith [409; 429]) log = true)
  /\ (forall (req : ReadRequest ConnectorAgent.resourceConnectorAgentResourceModel) (srv : Srv),
      diag.HasError (ReadStateDiags req) = false ->
      let log := exchanges (finalWorld (ConnectorAgent.Read req (fresh srv))) in
      (1 <= List.length log <= 6)%nat
      /\ Forall (fun e => request e = GetConnector (ValueInt64 (ConnectorAgent.ID (ReadState req)))) log
      /\ retriedOnly (fun e => match replyStatus e with
                               | Some code => code =? 429
                               | None => false
                               end) log = true)
  /\ (forall (req : DeleteRequest ConnectorAgent.resourceConnectorAgentResourceModel) (srv : Srv),
      diag.HasError (DeleteStateDiags req) = false ->
      let log := exchanges (finalWorld (ConnectorAgent.Delete req (fresh srv))) in
      (1 <= List.length log <= 6)%nat
      /\ Forall (fun e => request e = DeleteConnector (ValueInt64 (ConnectorAgent.ID (DeleteState req)))) log
      /\ retriedOnly (fun e => match replyStatus e with
                               | Some code => code =? 429
                               | None => false
                               end) log = true).
Proof.
  repeat apply conj.
  - intros req srv Hdiags log. subst log.
    assert (forall w, exists r,
               exchanges (finalWorld (AccessPolicy.deleteAttempt (DeleteState req) w))
               = exchanges w ++ [exchangeOf (DeleteRule (ValueInt64 (AccessPolicy.ID (DeleteState req)))) r]
               /\ forall msg w',
                    AccessPolicy.deleteAttempt (DeleteState req) w = Returned (AttemptError msg) w' ->
                    failedWith [409]
                      (exchangeOf (DeleteRule (ValueInt64 (AccessPolicy.ID (DeleteState req)))) r) = true)
      as Hatt.
    { intros w. unfold AccessPolicy.deleteAttempt. unfold_prog. unfold afterCall.
      match goal with
      | |- context [Execute ?c ?s] => destruct (Execute c s) as [[rv [rh|] [re|]] rs]
      end; unfold statusIs; cbn [httpRes err isSome andb];
      try destruct (StatusCode rh =? 404) eqn:E404;
      try destruct (StatusCode rh =? 409) eqn:E409;
      eexists; (split; [reflexivity |]); intros msg w' Heq; try discriminate Heq.
      apply failedWith_exchangeOf. cbn [existsb]. now rewrite E409. }
    assert (exchanges (finalWorld (AccessPolicy.Delete req (fresh srv)))
            = exchanges (finalWorld (retryLoop 2 (AccessPolicy.deleteAttempt (DeleteState req))
                                       (mkWorld srv [] (DeleteStateDiags req) StateUntouched))))
      as ->.
    { unfold AccessPolicy.Delete, retryDo. unfold bind at 1 2 3.
      unfold Append, HasError, fresh, diag.Append.
      simpl_world. rewrite Hdiags. cbn [Nat.pred].
      destruct (retryLoop 2 _ _) as [[[]|msg] w'|w']; reflexivity. }
    destruct (retryLoop_log _ _ _ Hatt 2 (mkWorld srv [] (DeleteStateDiags req) StateUntouched))
      as (tail & -> & Hlen & Hall & Hret).
    exact (conj Hlen (conj Hall Hret)).
  - intros req srv Hdiags log. subst log.
    set (body := AccessPolicy.formatCreateAccessPolicyRequest (CreatePlan req)).
    assert (forall w, exists r,
               exchanges (finalWorld (AccessPolicy.createAttempt body (CreatePlan req) w))
               = exchanges w ++ [exchangeOf (AddRule body) r]
               /\ forall msg w',
                    AccessPolicy.createAttempt body (CreatePlan req) w = Returned (AttemptError msg) w' ->
                    failedWith [400; 409] (exchangeOf (AddRule body) r) = true)
      as Hatt.
    { intros w. unfold AccessPolicy.createAttempt. unfold_prog. unfold afterCall.
      match goal with
      | |- context [Execute ?c ?s] =>
          destruct (Execute c s) as [[rv [[code status [bd|]]|] [re|]] rs]
      end; unfold Close, ReadAll; unfold_prog; cbn [httpRes err Body StatusCode fst];
      simpl_world;
      try (destruct (diag.HasError (Diagnostics w ++ [])));
      try (destruct (code =? 400) eqn:E400); try (destruct (code =? 409) eqn:E409);
      try (destruct (Contains _ _)); cbn [andb orb];
      eexists; (split; [reflexivity |]); intros msg w' Heq; try discriminate Heq;
      apply failedWith_exchangeOf; cbn [existsb StatusCode]; rewrite ?E400, ?E409;
      reflexivity. }
    assert (exchanges (finalWorld (AccessPolicy.Create req (fresh srv)))
            = exchanges (finalWorld (retryLoop 5 (AccessPolicy.createAttempt body (CreatePlan req))
                                       (mkWorld srv [] (CreatePlanDiags req) StateUntouched))))
      as ->.
    { unfold AccessPolicy.Create, retryDo. unfold bind at 1 2 3.
      unfold Append, HasError, fresh, diag.Append.
      simpl_world. rewrite Hdiags. cbn [Nat.pred]. fold body.
      destruct (retryLoop 5 _ _) as [[[]|msg] w'|w']; try reflexivity.
      unfold_prog. destruct (diag.HasError (Diagnostics w')); reflexivity. }
    destruct (retryLoop_log _ _ _ Hatt 5 (mkWorld srv [] (CreatePlanDiags req) StateUntouched))
      as (tail & -> & Hlen & Hall & Hret).
    exact (conj Hlen (conj Hall Hret)).
  - intros req srv body Hdiags Hbody log. subst log.
    destruct (formatCreatePrivateResourceRequest_ok ProtocolClientToResource (CreatePlan req))
      as [body' Hfmt].
    rewrite Hfmt in Hbody. cbn [fst] in Hbody. injection Hbody as ->.
    assert (forall w, exists r,
               exchanges (finalWorld (PrivateResource.createAttempt body w))
               = exchanges w ++ [exchangeOf (AddPrivateResource body) r]
               /\ forall msg w',
                    PrivateResource.createAttempt body w = Returned (AttemptError msg) w' ->
                    failedWith [409; 429] (exchangeOf (AddPrivateResource body) r) = true)
      as Hatt.
    { intros w. unfold PrivateResource.createAttempt. unfold_prog. unfold afterCall.
      match goal with
      | |- context [Execute ?c ?s] =>
          destruct (Execute c s) as [[rv [[code status [bd|]]|] [re|]] rs]
      end; unfold ReadAll; unfold_prog; cbn [httpRes err Body StatusCode];
      unfold PrivateResource.privateResourceHTTPConflict, PrivateResource.privateResourceHTTPTooManyReqs;
      try (destruct (code =? 409) eqn:E409); try (destruct (code =? 429) eqn:E429);
      cbn [andb orb];
      eexists; (split; [reflexivity |]); intros msg w' Heq; try discriminate Heq;
      apply failedWith_exchangeOf; cbn [existsb StatusCode]; rewrite ?E409, ?E429;
      reflexivity. }
    assert (exchanges (finalWorld (PrivateResource.Create ProtocolClientToResource req (fresh srv)))
            = exchanges (finalWorld (retryLoop 2 (PrivateResource.createAttempt body)
                                       (mkWorld srv [] (CreatePlanDiags req) StateUntouched))))
      as ->.
    { unfold PrivateResource.Create, PrivateResource.createPrivateResourceWithRetry, retryDo. unfold bind at 1 2.
      unfold Append, HasError, fresh, diag.Append.
      simpl_world. rewrite Hdiags, Hfmt. cbn [diag.HasError existsb]. unfold bind at 1.
      cbn [Nat.pred PrivateResource.retryMaxAttempts].
      destruct (retryLoop 2 _ _) as [[created|msg] w'|w']; reflexivity. }
    destruct (retryLoop_log _ _ _ Hatt 2 (mkWorld srv [] (CreatePlanDiags req) StateUntouched))
      as (tail & -> & Hlen & Hall & Hret).
    exact (conj Hlen (conj Hall Hret)).
  - intros req srv Hdiags log. subst log.
    set (id := ValueInt64 (ConnectorAgent.ID (ReadState req))).
    set (busy := fun e => match replyStatus e with Some code => code =? 429 | None => false end).
    assert (forall w, exists r,
               exchanges (finalWorld (ConnectorAgent.readAttempt (ReadState req) id w))
               = exchanges w ++ [exchangeOf (GetConnector id) r]
               /\ forall msg w',
                    ConnectorAgent.readAttempt (ReadState req) id w = Returned (AttemptError msg) w' ->
                    busy (exchangeOf (GetConnector id) r) = true)
      as Hatt.
    { intros w. unfold ConnectorAgent.readAttempt. unfold_prog. unfold afterCall.
      match goal with
      | |- context [Execute ?c ?s] =>
          destruct (Execute c s) as [[[rv|] [[code status bd]|] [re|]] rs]
      end; cbn [httpRes err value StatusCode];
      unfold ConnectorAgent.connectorHTTPNotFound, ConnectorAgent.connectorHTTPTooManyReqs, ConnectorAgent.connectorHTTPOK;
      try (destruct (code =? 404) eqn:E404); try (destruct (code =? 429) eqn:E429);
      try (destruct (code =? 200) eqn:E200);
      try (destruct (ConnectorAgent.LoadFromAPI _ _));
      eexists; (split; [reflexivity |]); intros msg w' Heq; try discriminate Heq;
      subst busy; cbn; exact E429. }
    assert (exchanges (finalWorld (ConnectorAgent.Read req (fresh srv)))
            = exchanges (finalWorld (retryLoop 5 (ConnectorAgent.readAttempt (ReadState req) id)
                                       (mkWorld srv [] (ReadStateDiags req) StateUntouched))))
      as ->.
    { unfold ConnectorAgent.Read, retryDo. unfold bind at 1 2 3.
      unfold Append, HasError, fresh, diag.Append.
      simpl_world. rewrite Hdiags. cbn [Nat.pred ConnectorAgent.connectorRetryMaxAttempts]. fold id.
      destruct (retryLoop 5 _ _) as [[[]|msg] w'|w']; reflexivity. }
    destruct (retryLoop_log _ _ _ Hatt 5 (mkWorld srv [] (ReadStateDiags req) StateUntouched))
      as (tail & -> & Hlen & Hall & Hret).
    exact (conj Hlen (conj Hall Hret)).
  - intros req srv Hdiags log. subst log.
    set (id := ValueInt64 (ConnectorAgent.ID (DeleteState req))).
    set (busy := fun e => match replyStatus e with Some code => code =? 429 | None => false end).
    assert (forall w, exists r,
               exchanges (finalWorld (ConnectorAgent.deleteAttempt id w))
               = exchanges w ++ [exchangeOf (DeleteConnector id) r]
               /\ forall msg w',
                    ConnectorAgent.deleteAttempt id w = Returned (AttemptError msg) w' ->
                    busy (exchangeOf (DeleteConnector id) r) = true)
      as Hatt.
    { intros w. unfold ConnectorAgent.deleteAttempt. unfold_prog. unfold afterCall.
      match goal with
      | |- context [Execute ?c ?s] =>
          destruct (Execute c s) as [[rv [[code status bd]|] [re|]] rs]
      end; cbn [httpRes err value StatusCode];
      unfold ConnectorAgent.connectorHTTPNotFound, ConnectorAgent.connectorHTTPTooManyReqs;
      try (destruct (code =? 429) eqn:E429); try (destruct (code =? 404) eqn:E404);
      eexists; (split; [reflexivity |]); intros msg w' Heq; try discriminate Heq;
      subst busy; cbn; exact E429. }
    assert (exchanges (finalWorld (ConnectorAgent.Delete req (fresh srv)))
            = exchanges (finalWorld (retryLoop 5 (ConnectorAgent.deleteAttempt id)
                                       (mkWorld srv [] (DeleteStateDiags req) StateUntouched))))
      as ->.
    { unfold ConnectorAgent.Delete, retryDo. unfold bind at 1 2 3.
      unfold Append, HasError, fresh, diag.Append.
      simpl_world. rewrite Hdiags. cbn [Nat.pred ConnectorAgent.connectorRetryMaxAttempts]. fold id.
      destruct (retryLoop 5 _ _) as [[[]|msg] w'|w']; reflexivity. }
    destruct (retryLoop_log _ _ _ Hatt 5 (mkWorld srv [] (DeleteStateDiags req) StateUntouched))
      as (tail & -> & Hlen & Hall & Hret).
    exact (conj Hlen (conj Hall Hret)).
Qed.

End RetryBoundsOfHandlers.

Lemma retry_loops_are_bounded_witness :
  let log :=
    exchanges (finalWorld
                 (AccessPolicy.Create (service := failAll 409 "409 Conflict" EmptyString)
                    (mkCreateRequest Examples.typedPolicy []) (fresh tt))) in
  (1 <= List.length log <= 6)%nat
  /\ retriedOnly (failedWith [400; 409]) log = true.
Proof.
  destruct (@retry_loops_are_bounded unit (failAll 409 "409 Conflict" EmptyString)
              (fun protocol => protocol))
    as (_ & Hcreate & _).
  destruct (Hcreate (mkCreateRequest Examples.typedPolicy []) tt) as (Hlen & _ & Hretried).
  - reflexivity.
  - split; [exact Hlen | exact Hretried].
Defined.

(** ** Handlers that stop at the first failed call *)

Ltac run_handler :=
  repeat (cbn [Diagnostics exchanges remote State app nonEmptyList negb finalWorld
               err httpRes value fst snd];
          match goal with
          | |- context [Execute ?c ?s] =>
              let rv := fresh "rv" in let rh := fresh "rh" in
              let re := fresh "re" in let rs := fresh "rs" in
              destruct (Execute c s) as [[rv rh re] rs]
          | |- context [match ?x with Some _ => _ | None => _ end] => is_var x; destruct x
          end).

Ltac finish_handler :=
  cbn; repeat split; intros; first [reflexivity | discriminate | congruence].

Ltac settle_handler :=
  cbn; repeat split; intros; try first [reflexivity | discriminate | congruence].

Ltac run_put_state :=
  repeat (cbn [Diagnostics exchanges remote State app finalWorld err httpRes value fst snd
               diag.HasError existsb negb andb
               GlobalSettings.EnableGlobalDecryption GlobalSettings.GlobalIPSProfileId GlobalSettings.Id
               GlobalSettings.setEnableGlobalDecryption GlobalSettings.setGlobalIPSProfileId GlobalSettings.setId];
          match goal with
          | |- context [IsUnknown ?x] => destruct (IsUnknown x) eqn:?
          | |- context [Bool.eqb ?a ?b] => destruct (Bool.eqb a b) eqn:?
          | |- context [Z.eqb ?a ?b] => destruct (Z.eqb a b) eqn:?
          | |- context [Execute ?c ?s] =>
              let rv := fresh "rv" in let rh := fresh "rh" in
              let re := fresh "re" in let rs := fresh "rs" in
              destruct (Execute c s) as [[rv rh [re|]] rs]
          end).

Section FirstFailure.

Context {Srv : Type} {service : RemoteService Srv}.

(** X16.  Update of a destination list makes no call after a failed one; it
    stores a state only when no call has failed and leaves the state
    untouched when one has. *)
Theorem destination_list_update_stops_at_first_failure
    (req : UpdateRequest DestinationList.destinationListResourceModel) (srv : Srv) :
  let final := finalWorld (DestinationList.Update req (fresh srv)) in
  endsAtFirstFailure (exchanges final) = true
  /\ (forall stored, State final = StateSet stored -> noneFailed (exchanges final) = true)
  /\ (noneFailed (exchanges final) = false -> State final = StateUntouched).
Proof.
  cbv zeta.
  unfold DestinationList.Update, DestinationList.updateName, DestinationList.reconcileDestinations, DestinationList.UpdateDestinations,
    DestinationList.GetDestinations_.
  unfold_prog.
  destruct (diag.HasError (UpdatePlanDiags req ++ UpdateStateDiags req));
    [finish_handler |].
  destruct (negb (StringEqual (DestinationList.Name (UpdatePlan req)) (DestinationList.Name (UpdateState req))));
  run_handler;
  try finish_handler.
  all: cbn [DestinationList.setName DestinationList.Id].
  all: destruct (DestinationList.missingDestinations _ _) as [|m ms]; run_handler.
  all: try finish_handler.
  all: destruct (DestinationList.extraDestinations _ _) as [[|x xs]|]; run_handler.
  all: try finish_handler.
Qed.

(** X17.  Create and Update of the global settings make no call after a
    failed one; they store a state only when no call has failed, and when
    one has they leave the state untouched and report an error. *)
Theorem global_settings_writes_stop_at_first_failure :
  (forall (req : CreateRequest GlobalSettings.globalSettingsResourceModel) (srv : Srv),
      let final := finalWorld (GlobalSettings.Create req (fresh srv)) in
      endsAtFirstFailure (exchanges final) = true
      /\ (forall stored, State final = StateSet stored -> noneFailed (exchanges final) = true)
      /\ (noneFailed (exchanges final) = false ->
          State final = StateUntouched /\ diag.HasError (Diagnostics final) = true))
  /\ (forall (req : UpdateRequest GlobalSettings.globalSettingsResourceModel) (srv : Srv),
      let final := finalWorld (GlobalSettings.Update req (fresh srv)) in
      endsAtFirstFailure (exchanges final) = true
      /\ (forall stored, State final = StateSet stored -> noneFailed (exchanges final) = true)
      /\ (noneFailed (exchanges final) = false ->
          State final = StateUntouched /\ diag.HasError (Diagnostics final) = true)).
Proof.
  split; intros req srv; cbv zeta.
  - unfold GlobalSettings.Create, GlobalSettings.FetchState, GlobalSettings.PutState. unfold_prog.
    destruct (diag.HasError (CreatePlanDiags req)); [finish_handler |].
    simpl_world.
    match goal with
    | |- context [Execute ?c ?s] => destruct (Execute c s) as [[rv rh [re|]] rs]
    end; cbn [err value].
    + settle_handler. rewrite diag_HasError_app. apply orb_true_r.
    + cbn [diag.HasError existsb]. set (current := fold_left GlobalSettings.fetchSetting _ _).
      clearbody current.
      run_put_state; settle_handler; rewrite diag_HasError_app; apply orb_true_r.
  - unfold GlobalSettings.Update, GlobalSettings.PutState. unfold_prog.
    destruct (diag.HasError (UpdatePlanDiags req ++ UpdateStateDiags req));
      [finish_handler |].
    run_put_state; settle_handler; rewrite diag_HasError_app; apply orb_true_r.
Qed.

End FirstFailure.

(** ** Global settings: the state that is stored *)

Lemma fetchSetting_known (settings : list rules.SettingsObject)
    (state : GlobalSettings.globalSettingsResourceModel) :
  let fetched := fold_left GlobalSettings.fetchSetting settings state in
  GlobalSettings.Id fetched = GlobalSettings.Id state
  /\ (IsUnknown (GlobalSettings.EnableGlobalDecryption state) = false ->
      IsUnknown (GlobalSettings.EnableGlobalDecryption fetched) = false)
  /\ (IsUnknown (GlobalSettings.GlobalIPSProfileId state) = false ->
      IsUnknown (GlobalSettings.GlobalIPSProfileId fetched) = false).
Proof.
  revert state. induction settings as [|s rest IH]; intros state; [cbn; tauto |].
  cbn [fold_left]. specialize (IH (GlobalSettings.fetchSetting state s)). cbv zeta in IH |- *.
  destruct IH as (Hid & He & Hp).
  assert (GlobalSettings.Id (GlobalSettings.fetchSetting state s) = GlobalSettings.Id state
          /\ (IsUnknown (GlobalSettings.EnableGlobalDecryption state) = false ->
              IsUnknown (GlobalSettings.EnableGlobalDecryption (GlobalSettings.fetchSetting state s)) = false)
          /\ (IsUnknown (GlobalSettings.GlobalIPSProfileId state) = false ->
              IsUnknown (GlobalSettings.GlobalIPSProfileId (GlobalSettings.fetchSetting state s)) = false))
    as (Hid' & He' & Hp').
  { unfold GlobalSettings.fetchSetting.
    destruct (rules.ObjSettingName s); try (cbn; tauto).
    - destruct (rules.SVBool _); cbn; tauto.
    - destruct (rules.SVInt64 _); cbn; tauto. }
  rewrite Hid, Hid'. auto.
Qed.

Section GlobalSettingsState.

Context {Srv : Type} {service : RemoteService Srv}.

(** X18.  A state that Create of the global settings stores has the fixed
    resource id and no unknown setting; so has a state that Update stores,
    when the settings of the old state were not unknown. *)
Theorem global_settings_store_no_unknown :
  (forall (req : CreateRequest GlobalSettings.globalSettingsResourceModel) (srv : Srv) stored,
      State (finalWorld (GlobalSettings.Create req (fresh srv))) = StateSet stored ->
      GlobalSettings.Id stored = Known GlobalSettings.globalSettingsResourceID
      /\ IsUnknown (GlobalSettings.EnableGlobalDecryption stored) = false
      /\ IsUnknown (GlobalSettings.GlobalIPSProfileId stored) = false)
  /\ (forall (req : UpdateRequest GlobalSettings.globalSettingsResourceModel) (srv : Srv) stored,
      IsUnknown (GlobalSettings.EnableGlobalDecryption (UpdateState req)) = false ->
      IsUnknown (GlobalSettings.GlobalIPSProfileId (UpdateState req)) = false ->
      State (finalWorld (GlobalSettings.Update req (fresh srv))) = StateSet stored ->
      GlobalSettings.Id stored = Known GlobalSettings.globalSettingsResourceID
      /\ IsUnknown (GlobalSettings.EnableGlobalDecryption stored) = false
      /\ IsUnknown (GlobalSettings.GlobalIPSProfileId stored) = false).
Proof.
  split.
  - intros req srv stored.
    unfold GlobalSettings.Create, GlobalSettings.FetchState, GlobalSettings.PutState. unfold_prog.
    destruct (diag.HasError (CreatePlanDiags req)); [discriminate |].
    simpl_world.
    match goal with
    | |- context [Execute ?c ?s] => destruct (Execute c s) as [[rv rh [re|]] rs]
    end; cbn [err value]; [discriminate |].
    cbn [diag.HasError existsb].
    destruct (fetchSetting_known (match rv with Some l => l | None => [] end)
                (GlobalSettings.mkModel Null Null Null)) as (_ & He & Hp).
    specialize (He eq_refl). specialize (Hp eq_refl).
    set (current := fold_left GlobalSettings.fetchSetting _ _) in *. clearbody current.
    match goal with |- _ -> ?G => set (claim := G) end.
    run_put_state; cbn; intros H; try discriminate H; subst claim; injection H as <-; cbn;
      repeat split; congruence.
  - intros req srv stored He Hp.
    unfold GlobalSettings.Update, GlobalSettings.PutState. unfold_prog.
    destruct (diag.HasError (UpdatePlanDiags req ++ UpdateStateDiags req)); [discriminate |].
    match goal with |- _ -> ?G => set (claim := G) end.
    run_put_state; cbn; intros H; try discriminate H; subst claim; injection H as <-; cbn;
      repeat split; congruence.
Qed.

(** X19.  PutState is idempotent: when it has returned without an error,
    running it again on the two models and the world it has left makes no
    call, changes nothing and returns the same. *)
Theorem PutState_is_idempotent
    (current plan current' plan' : GlobalSettings.globalSettingsResourceModel)
    (diags : diag.Diagnostics) (w w' : World Srv GlobalSettings.globalSettingsResourceModel) :
  GlobalSettings.PutState current plan w = Returned (current', plan', diags) w' ->
  diag.HasError diags = false ->
  GlobalSettings.PutState current' plan' w' = Returned (current', plan', diags) w'.
Proof.
  unfold GlobalSettings.PutState. unfold_prog. intros H Hd.
  destruct current as [ci [| |[|]] [| |cp]], plan as [pi [| |[|]] [| |pp]];
    repeat (cbn [Diagnostics exchanges remote State app finalWorld err httpRes value fst snd
                 diag.HasError existsb negb andb IsUnknown ValueBool ValueInt64 Bool.eqb
                 GlobalSettings.EnableGlobalDecryption GlobalSettings.GlobalIPSProfileId GlobalSettings.Id
                 GlobalSettings.setEnableGlobalDecryption GlobalSettings.setGlobalIPSProfileId GlobalSettings.setId] in H;
            match type of H with
            | context [Z.eqb ?a ?b] => destruct (Z.eqb a b) eqn:?
            | context [Execute ?c ?s] =>
                let rv := fresh "rv" in let rh := fresh "rh" in
                let re := fresh "re" in let rs := fresh "rs" in
                destruct (Execute c s) as [[rv rh [re|]] rs]
            end);
    injection H as <- <- <- <-; try discriminate Hd;
    cbn [Diagnostics exchanges remote State app finalWorld err httpRes value fst snd
         diag.HasError existsb negb andb IsUnknown ValueBool ValueInt64 Bool.eqb
         GlobalSettings.EnableGlobalDecryption GlobalSettings.GlobalIPSProfileId GlobalSettings.Id
         GlobalSettings.setEnableGlobalDecryption GlobalSettings.setGlobalIPSProfileId GlobalSettings.setId];
    rewrite ?Z.eqb_refl;
    repeat match goal with
           | E : (?a =? ?b) = true |- context [?a =? ?b] => rewrite E
           end;
    cbn [negb andb IsUnknown diag.HasError existsb]; try reflexivity; destruct w; reflexivity.
Qed.

End GlobalSettingsState.

Lemma global_settings_store_no_unknown_witness :
  exists stored,
    State (finalWorld
             (GlobalSettings.Create (service := acceptAll)
                (mkCreateRequest (GlobalSettings.mkModel Unknown (Known true) Unknown) [])
                (fresh tt)))
    = StateSet stored
    /\ IsUnknown (GlobalSettings.EnableGlobalDecryption stored) = false
    /\ IsUnknown (GlobalSettings.GlobalIPSProfileId stored) = false.
Proof.
  destruct (@global_settings_store_no_unknown unit acceptAll) as [Hcreate _].
  eexists. split; [vm_compute; reflexivity |].
  apply (Hcreate (mkCreateRequest (GlobalSettings.mkModel Unknown (Known true) Unknown) []) tt).
  vm_compute. reflexivity.
Defined.

Lemma PutState_is_idempotent_witness :
  exists current' plan' diags w',
    GlobalSettings.PutState (service := acceptAll)
      (GlobalSettings.mkModel Null (Known false) (Known 9))
      (GlobalSettings.mkModel Unknown (Known true) Unknown) (fresh tt)
    = Returned (current', plan', diags) w'
    /\ GlobalSettings.PutState (service := acceptAll) current' plan' w'
       = Returned (current', plan', diags) w'.
Proof.
  do 4 eexists. split.
  - vm_compute. reflexivity.
  - eapply (@PutState_is_idempotent unit acceptAll
              (GlobalSettings.mkModel Null (Known false) (Known 9))
              (GlobalSettings.mkModel Unknown (Known true) Unknown) _ _ _ (fresh tt)).
    + vm_compute. reflexivity.
    + reflexivity.
Defined.

(** ** Create of a network tunnel group *)

Ltac simpl_client :=
  cbn [Diagnostics exchanges remote State app backend furtherExchanges].

Ltac unfold_further :=
  unfold invokeFurther, afterFurtherCall, freshClient;
  unfold_prog; simpl_client.

Section NtgCreate.

Context {Srv : Type} {further : FurtherService Srv}.

Variable NewDeviceTypeFromValue : string -> option string.

(** X20.  Create of a network tunnel group whose plan decodes: when the
    client library rejects the device type of the plan, Create calls nothing
    and adds "Error parsing device type for tunnel"; otherwise it makes
    exactly one call, AddNetworkTunnelGroup with the name, region,
    identifier prefix, key and device type of the plan and a static routing
    over the CIDRs of the plan.  When this call fails, Create adds "Error
    creating network tunnel group" and stores nothing.  When it answers a
    tunnel group, Create dereferences every pointer of every hub of the
    answer: when one of them is nil, Create panics and stores nothing; when
    all are set, Create stores the plan with the id and the hubs of the
    answer, a state against which Update of the same plan has nothing to
    patch.  When it answers no tunnel group and no error, Create panics. *)
Theorem ntg_create_outcome (req : CreateRequest Ntg.ntgResourceModel) (srv : Srv) :
  let plan := CreatePlan req in
  let outcome := NtgCreation.Create NewDeviceTypeFromValue req (freshClient srv) in
  let final := finalWorld outcome in
  let log := furtherExchanges (remote final) in
  diag.HasError (CreatePlanDiags req) = false ->
  (log = []
   /\ NewDeviceTypeFromValue (ValueString (Ntg.DeviceType plan)) = None
   /\ State final = StateUntouched
   /\ Diagnostics final
      = CreatePlanDiags req ++ [diag.NewErrorDiagnostic "Error parsing device type for tunnel"])
  \/ exists deviceType r srv',
       let call :=
         AddNetworkTunnelGroup
           (ntg.mkAddNetworkTunnelGroupRequest
              (ValueString (Ntg.Name plan)) (ValueString (Ntg.Region plan))
              (ValueString (Ntg.IdentifierPrefix plan))
              (ValueString (Ntg.PresharedKey plan))
              (Some (ntg.mkRoutingRequest "static"
                       (Ntg.convertNetworkCidrsToStrings (Ntg.NetworkCidrs plan))))
              (Some deviceType)) in
       NewDeviceTypeFromValue (ValueString (Ntg.DeviceType plan)) = Some deviceType
       /\ ExecuteFurther call srv = (r, srv')
       /\ log = [furtherExchangeOf call r]
       /\ match err r, value r with
          | Some _, _ =>
              State final = StateUntouched
              /\ Diagnostics final
                 = CreatePlanDiags req
                   ++ [diag.NewErrorDiagnostic "Error creating network tunnel group"]
          | None, Some created =>
              (Exists (fun hub => ~ completeHub hub) (ntg.AddedHubs created) ->
               hasPanicked outcome = true
               /\ State final = StateUntouched)
              /\ (Forall completeHub (ntg.AddedHubs created) ->
                  exists stored,
                    hasPanicked outcome = false
                    /\ State final = StateSet stored
                    /\ Diagnostics final = CreatePlanDiags req
                    /\ Ntg.Id stored = Known (ntg.AddedId created)
                    /\ Forall2 (fun hub model => Ntg.hubInstance hub = Some model)
                               (ntg.AddedHubs created) (ElementsAs (Ntg.Hubs stored))
                    /\ Ntg.patchesFor plan stored = []
                    /\ Ntg.Region stored = Ntg.Region plan
                    /\ Ntg.IdentifierPrefix stored = Ntg.IdentifierPrefix plan
                    /\ Ntg.DeviceType stored = Ntg.DeviceType plan)
          | None, None =>
              hasPanicked outcome = true
              /\ State final = StateUntouched
          end.
Proof.
  intros plan outcome final log Hdiags. subst log final outcome plan.
  unfold NtgCreation.Create. unfold_further. rewrite Hdiags. simpl_client.
  destruct (NewDeviceTypeFromValue _) as [deviceType|] eqn:Edev.
  - simpl_client.
    unfold ntg.SetDeviceType, ntg.SetRouting, ntg.NewAddNetworkTunnelGroupRequest.
    cbn [ntg.AddName ntg.AddRegion ntg.AuthIdPrefix ntg.Passphrase ntg.Routing
         ntg.AddDeviceType].
    right. exists deviceType.
    match goal with
    | |- context [ExecuteFurther ?c srv] =>
        destruct (ExecuteFurther c srv) as [[rv rh [re|]] rs]
    end; cbn [err value]; [| destruct rv as [created|]].
    + do 2 eexists. cbv zeta. split; [reflexivity |]. split; [reflexivity |].
      cbn [finalWorld remote furtherExchanges app State Diagnostics hasPanicked].
      split; [reflexivity |]. cbn [err value]. split; reflexivity.
    + do 2 eexists. cbv zeta. split; [reflexivity |]. split; [reflexivity |].
      cbn [err value]. split.
      { destruct (collect Ntg.hubInstance (ntg.AddedHubs created));
          cbn [finalWorld remote furtherExchanges app]; reflexivity. }
      split.
      * intros Hnil. rewrite (hubs_incomplete _ Hnil). split; reflexivity.
      * intros Hall. destruct (hubs_complete _ Hall) as [models Hmodels]. rewrite Hmodels.
        cbn [finalWorld remote furtherExchanges app State Diagnostics hasPanicked].
        eexists. split; [reflexivity |]. split; [reflexivity |]. rewrite app_nil_r.
        cbn [Ntg.setHubs Ntg.setId Ntg.Id Ntg.Hubs Ntg.Region Ntg.IdentifierPrefix
             Ntg.DeviceType].
        repeat split.
        -- apply collect_Forall2 in Hmodels.
           destruct models as [|m ms]; cbn [appended ValueFrom ElementsAs]; exact Hmodels.
        -- unfold Ntg.patchesFor.
           cbn [Ntg.Name Ntg.PresharedKey Ntg.NetworkCidrs Ntg.setHubs Ntg.setId].
           rewrite !StringEqual_refl.
           assert (Ntg.compareStringSlicesAsSets (Ntg.NetworkCidrs (CreatePlan req))
                     (Ntg.NetworkCidrs (CreatePlan req)) = true) as ->.
           { apply compareStringSlicesAsSets_true_iff. split; [reflexivity | apply incl_refl]. }
           reflexivity.
    + do 2 eexists. cbv zeta. split; [reflexivity |]. split; [reflexivity |].
      cbn [finalWorld remote furtherExchanges app State Diagnostics hasPanicked].
      split; [reflexivity |]. cbn [err value]. split; reflexivity.
  - left. cbn [finalWorld remote furtherExchanges State Diagnostics]. repeat split.
Qed.

End NtgCreate.

Lemma ntg_create_outcome_witness :
  let plan := Examples.ntgModel "tunnel" "key" ["10.0.0.0/8"] in
  exists stored,
    State (finalWorld
             (NtgCreation.Create (further := Examples.furtherService resconn.OtherValue [])
                Examples.deviceType (mkCreateRequest plan []) (freshClient tt)))
    = StateSet stored
    /\ Ntg.patchesFor plan stored = []
    /\ Ntg.Region stored = Known "us-east".
Proof.
  intros plan.
  destruct (@ntg_create_outcome unit (Examples.furtherService resconn.OtherValue [])
              Examples.deviceType (mkCreateRequest plan []) tt)
    as [(_ & Hnone & _) | (deviceType & r & srv' & _ & Hcall & _ & Hout)].
  - reflexivity.
  - discriminate Hnone.
  - cbn in Hcall. injection Hcall as <- _. cbn [err value Examples.found] in Hout.
    destruct Hout as [_ Hcomplete].
    destruct Hcomplete as (stored & _ & Hstate & _ & _ & _ & Hpatches & Hregion & _).
    + repeat constructor; discriminate.
    + exists stored. repeat split; assumption.
Defined.

(** ** Create of a destination list *)

Section DestinationListCreate.

Context {Srv : Type} {service : RemoteService Srv} {further : FurtherService Srv}.

Local Abbreviation Model := DestinationList.destinationListResourceModel.

(** X21.  Create of a destination list, once CreateDestinationList has been
    answered with a response: on any status but 200 nothing is read back or
    stored, and Create adds "HTTP Response: <status>" when the client
    reports an error and panics when it reports none; on 200 with a decoded
    list, Create reads the destinations back with one GetDestinations of the
    new id, and then either stores the new id, the planned name and the
    destinations observed, or, when reading back fails, reports an error and
    stores nothing although the list exists. *)
Theorem destination_list_create_outcome
    (req : CreateRequest Model) (srv srv1 : Srv) r h :
  let plan := CreatePlan req in
  let body :=
    destinationlists.mkDestinationListCreate "none" false (ValueString (DestinationList.Name plan))
      (Some DestinationListCreation.defaultBundleTypeID) (map DestinationListCreation.createEntry (ElementsAs (DestinationList.Destinations plan))) in
  let outcome := DestinationListCreation.Create req (freshClient srv) in
  let final := finalWorld outcome in
  diag.HasError (CreatePlanDiags req) = false ->
  ExecuteFurther (CreateDestinationList body) srv = (r, srv1) ->
  httpRes r = Some h ->
  (* any status but 200 is a failure, also when the client reports no error *)
  (StatusCode h <> 200 ->
   furtherExchanges (remote final) = [furtherExchangeOf (CreateDestinationList body) r]
   /\ exchanges final = []
   /\ State final = StateUntouched
   /\ match err r with
      | Some _ =>
          outcome = Returned tt final
          /\ Diagnostics final
             = CreatePlanDiags req
               ++ [diag.NewErrorDiagnostic ("HTTP Response: " ++ Status h)%string]
      | None => hasPanicked outcome = true
      end)
  /\ (forall created,
        StatusCode h = 200 -> value r = Some created ->
        let id := destinationlists.ListId created in
        exists rg,
          furtherExchanges (remote final) = [furtherExchangeOf (CreateDestinationList body) r]
          /\ exchanges final = [exchangeOf (GetDestinations id) rg]
          /\ match err rg, httpRes rg, value rg with
             | Some _, Some _, _ =>
                 (* the list exists, the state does not record it *)
                 State final = StateUntouched
                 /\ diag.HasError (Diagnostics final) = true
             | None, _, Some observed =>
                 State final
                 = StateSet (DestinationList.mkModel (Known id) (DestinationList.Name plan)
                               (Known (map DestinationList.modeledDestination observed)))
                 /\ Diagnostics final = CreatePlanDiags req
             | _, _, _ => hasPanicked outcome = true
             end).
Proof.
  intros plan body outcome final Hdiags Hexec Hres.
  subst final outcome body plan. unfold DestinationListCreation.Create. unfold_further. rewrite Hdiags.
  simpl_client. rewrite Hexec. simpl_client.
  rewrite Hres. unfold DestinationList.httpStatusOK. split.
  - intros Hcode. apply Z.eqb_neq in Hcode. rewrite Hcode. cbn [negb].
    destruct (err r) as [e|] eqn:Ee; cbn [finalWorld remote furtherExchanges exchanges State
                                          Diagnostics hasPanicked];
      repeat split.
  - intros created Hcode Hval. apply Z.eqb_eq in Hcode. rewrite Hcode. cbn [negb].
    rewrite Hval. unfold DestinationList.UpdateDestinations, DestinationList.GetDestinations_. unfold_prog.
    cbn [DestinationListCreation.setId DestinationList.Id ValueInt64].
    cbn [Execute clientService remote backend furtherExchanges].
    destruct (Execute (GetDestinations _) srv1) as [[rv rh re] rs].
    exists (mkReply rv rh re).
    destruct re as [e|], rh as [rh|], rv as [observed|];
      cbn [err httpRes value finalWorld remote furtherExchanges exchanges State Diagnostics
           hasPanicked afterCall app diag.HasError existsb diag.AddError diag.Append
           diag.NewErrorDiagnostic diag.isError diag.severity fst snd orb];
      repeat split; try reflexivity;
      try (rewrite diag_HasError_app; apply orb_true_r);
      try (now rewrite app_nil_r).
Qed.

End DestinationListCreate.

Lemma destination_list_create_outcome_witness :
  exists stored,
    State (finalWorld
             (DestinationListCreation.Create
                (service := Examples.reportingService (Examples.reportedRule Examples.typedPolicy))
                (further := Examples.furtherService resconn.OtherValue [])
                (mkCreateRequest
                   (DestinationList.mkModel Unknown (Known "list")
                      (Known [Examples.planned "a.example.com" "new"])) [])
                (freshClient tt)))
    = StateSet stored
    /\ DestinationList.Id stored = Known 5.
Proof.
  edestruct (@destination_list_create_outcome unit
               (Examples.reportingService (Examples.reportedRule Examples.typedPolicy))
               (Examples.furtherService resconn.OtherValue [])
               (mkCreateRequest
                  (DestinationList.mkModel Unknown (Known "list")
                     (Known [Examples.planned "a.example.com" "new"])) [])
               tt tt)
    as [_ Hcreated].
  - reflexivity.
  - reflexivity.
  - reflexivity.
  - edestruct Hcreated as (rg & _ & _ & Hout).
    + reflexivity.
    + reflexivity.
    + destruct (err rg) as [e |], (httpRes rg) as [h |], (value rg) as [observed |];
        try (vm_compute in Hout; discriminate Hout);
        try (destruct Hout as [Hstate _]; vm_compute in Hstate; discriminate Hstate);
        destruct Hout as [Hstate _]; eexists; (split; [exact Hstate | reflexivity]).
Defined.

(** ** Create and Update of a resource connector agent *)

Section ConnectorSynchronize.

Context {Srv : Type} {further : FurtherService Srv}.

Local Abbreviation Model := ConnectorAgent.resourceConnectorAgentResourceModel.

Lemma connector_synchronize_spec (state plan : Model) (w : World (Client Srv) Model) :
  exists state' w' tail,
    ConnectorAgentConfiguration.Synchronize state plan w = Returned state' w'
    /\ furtherExchanges (remote w') = furtherExchanges (remote w) ++ tail
    /\ exchanges w' = exchanges w
    /\ Diagnostics w' = Diagnostics w
    /\ State w' = State w
    /\ ConnectorAgent.ID state' = ConnectorAgent.ID state
    /\ ConnectorAgent.InstanceID state' = ConnectorAgent.InstanceID state
    /\ ConnectorAgent.Hostname state' = ConnectorAgent.Hostname state
    /\ ConnectorAgent.Status state' = ConnectorAgent.Status state
    /\ (List.length tail <= 2)%nat
    /\ (forall e, In e tail ->
          furtherRequest e = enablingPatch (ValueInt64 (ConnectorAgent.ID state)) "/confirmed"
          \/ furtherRequest e = enablingPatch (ValueInt64 (ConnectorAgent.ID state)) "/enabled")
    /\ (ConnectorAgent.Confirmed state' = ConnectorAgent.Confirmed state
        \/ (ConnectorAgent.Confirmed state' = Known true /\ ConnectorAgent.Confirmed plan = Known true
            /\ ValueBool (ConnectorAgent.Confirmed state) = false
            /\ exists e, In e tail /\ furtherFailed e = false
                 /\ furtherRequest e = enablingPatch (ValueInt64 (ConnectorAgent.ID state)) "/confirmed"))
    /\ (ConnectorAgent.Enabled state' = ConnectorAgent.Enabled state
        \/ (ConnectorAgent.Enabled state' = Known true /\ ConnectorAgent.Enabled plan = Known true
            /\ ValueBool (ConnectorAgent.Enabled state) = false
            /\ exists e, In e tail /\ furtherFailed e = false
                 /\ furtherRequest e = enablingPatch (ValueInt64 (ConnectorAgent.ID state)) "/enabled"))
    /\ (Forall (fun e => furtherFailed e = true) tail -> state' = state)
    /\ ((exists e, In e tail
                   /\ furtherRequest e = enablingPatch (ValueInt64 (ConnectorAgent.ID state)) "/confirmed") ->
        ValueBool (ConnectorAgent.Confirmed plan) = true /\ ValueBool (ConnectorAgent.Confirmed state) = false)
    /\ ((exists e, In e tail
                   /\ furtherRequest e = enablingPatch (ValueInt64 (ConnectorAgent.ID state)) "/enabled") ->
        ValueBool (ConnectorAgent.Enabled plan) = true /\ ValueBool (ConnectorAgent.Enabled state) = false).
Proof.
  unfold ConnectorAgentConfiguration.Synchronize, ConnectorAgentConfiguration.patchConnectorField. unfold_further.
  unfold ConnectorAgentConfiguration.connectorPatchOpReplace, ConnectorAgentConfiguration.connectorPatchPathConfirmed,
    ConnectorAgentConfiguration.connectorPatchPathEnabled, enablingPatch.
  destruct state as [sid sinst shost sstatus sconf sen].
  destruct plan as [pid pinst phost pstatus [| |[|]] [| |[|]]];
    destruct sconf as [| |[|]]; destruct sen as [| |[|]];
    cbn [ConnectorAgent.Confirmed ConnectorAgent.Enabled ConnectorAgent.ID ConnectorAgent.InstanceID ConnectorAgent.Hostname ConnectorAgent.Status
         ValueBool Bool.eqb andb negb ConnectorAgentConfiguration.ValueBoolPointer ConnectorAgentConfiguration.setConfirmed ConnectorAgentConfiguration.setEnabled];
    repeat (simpl_client;
            cbn [err ConnectorAgent.Confirmed ConnectorAgent.Enabled ConnectorAgent.ID ConnectorAgent.InstanceID ConnectorAgent.Hostname ConnectorAgent.Status
                 ValueBool Bool.eqb andb negb ConnectorAgentConfiguration.ValueBoolPointer ConnectorAgentConfiguration.setConfirmed
                 ConnectorAgentConfiguration.setEnabled];
            match goal with
            | |- context [ExecuteFurther ?c ?s] =>
                let rv := fresh "rv" in let rh := fresh "rh" in
                let re := fresh "re" in let rs := fresh "rs" in
                destruct (ExecuteFurther c s) as [[rv rh [re|]] rs]
            end);
    do 3 eexists; (split; [reflexivity |]); simpl_client;
    (split; [first [reflexivity | symmetry; apply app_nil_r
                   | rewrite <- app_assoc; reflexivity] |]);
    cbn [List.length In ConnectorAgent.Confirmed ConnectorAgent.Enabled ConnectorAgent.ID ConnectorAgent.InstanceID ConnectorAgent.Hostname ConnectorAgent.Status
         ValueBool app];
    repeat split; try reflexivity; try lia;
    try (intros e0 He0;
         repeat match type of He0 with
                | _ \/ _ => destruct He0 as [He0 | He0]
                | False => destruct He0
                end; subst e0; cbn; tauto);
    try (intros Hall; rewrite ?Forall_cons_iff in Hall; cbn in Hall;
         first [reflexivity | intuition discriminate]);
    try (match goal with
         | H : exists e, _ /\ _ |- _ => destruct H as (e0 & He0 & Hreq)
         end;
         repeat match type of He0 with
                | _ \/ _ => destruct He0 as [He0 | He0]
                | False => destruct He0
                end; subst e0; cbn in Hreq; discriminate Hreq);
    try (left; reflexivity);
    try (right; split; [reflexivity | split; [reflexivity | split; [reflexivity |]]];
         first [ eexists; split; [left; reflexivity | split; reflexivity]
               | eexists; split; [right; left; reflexivity | split; reflexivity] ]).
Qed.

(** X22.  Synchronize only ever switches a flag on: it returns after at most
    two calls, each of them the PATCH that replaces /confirmed or /enabled
    of the agent of the state by true; for a flag that the plan does not set
    to true, or that the state has true already, it sends no PATCH and keeps
    the flag of the state; it adds no diagnostic, and when every PATCH has
    failed the state is unchanged. *)
Theorem connector_synchronize_only_enables
    (state plan : Model) (w : World (Client Srv) Model) :
  exists state' w' tail,
    ConnectorAgentConfiguration.Synchronize state plan w = Returned state' w'
    /\ furtherExchanges (remote w') = furtherExchanges (remote w) ++ tail
    /\ exchanges w' = exchanges w
    /\ Diagnostics w' = Diagnostics w
    /\ (List.length tail <= 2)%nat
    /\ (forall e, In e tail ->
          furtherRequest e = enablingPatch (ValueInt64 (ConnectorAgent.ID state)) "/confirmed"
          \/ furtherRequest e = enablingPatch (ValueInt64 (ConnectorAgent.ID state)) "/enabled")
    /\ (ValueBool (ConnectorAgent.Confirmed plan) = false \/ ValueBool (ConnectorAgent.Confirmed state) = true ->
        ConnectorAgent.Confirmed state' = ConnectorAgent.Confirmed state
        /\ forall e, In e tail ->
             furtherRequest e <> enablingPatch (ValueInt64 (ConnectorAgent.ID state)) "/confirmed")
    /\ (ValueBool (ConnectorAgent.Enabled plan) = false \/ ValueBool (ConnectorAgent.Enabled state) = true ->
        ConnectorAgent.Enabled state' = ConnectorAgent.Enabled state
        /\ forall e, In e tail ->
             furtherRequest e <> enablingPatch (ValueInt64 (ConnectorAgent.ID state)) "/enabled")
    /\ (Forall (fun e => furtherFailed e = true) tail -> state' = state).
Proof.
  destruct (connector_synchronize_spec state plan w)
    as (state' & w' & tail & Hrun & Hlog & Hex & Hdiags & _ & _ & _ & _ & _ & Hlen & Hreq
        & Hconf & Hen & Hfail & Hpc & Hpe).
  exists state', w', tail. repeat split; try assumption.
  - destruct Hconf as [Hkeep | (_ & Hplan & Hstate & _)]; [exact Hkeep |].
    rewrite Hplan in H. cbn in H. destruct H as [H | H]; congruence.
  - intros e He Hr. destruct Hpc as [Hp Hs]; [now exists e |].
    destruct H as [H | H]; congruence.
  - destruct Hen as [Hkeep | (_ & Hplan & Hstate & _)]; [exact Hkeep |].
    rewrite Hplan in H. cbn in H. destruct H as [H | H]; congruence.
  - intros e He Hr. destruct Hpe as [Hp Hs]; [now exists e |].
    destruct H as [H | H]; congruence.
Qed.

(** X23.  Update of a connector agent whose request decodes never reports a
    failure: it returns without a new diagnostic and stores a state with the
    id, instance id, hostname and status of the old state, also when a PATCH
    has failed; when every PATCH has failed, the state stored is the old
    state. *)
Theorem connector_update_reports_no_failure (req : UpdateRequest Model) (srv : Srv) :
  let diags := UpdatePlanDiags req ++ UpdateStateDiags req in
  let state := UpdateState req in
  diag.HasError diags = false ->
  exists stored final,
    ConnectorAgentConfiguration.Update req (freshClient srv) = Returned tt final
    /\ State final = StateSet stored
    /\ Diagnostics final = diags
    /\ exchanges final = []
    /\ ConnectorAgent.ID stored = ConnectorAgent.ID state
    /\ ConnectorAgent.InstanceID stored = ConnectorAgent.InstanceID state
    /\ ConnectorAgent.Hostname stored = ConnectorAgent.Hostname state
    /\ ConnectorAgent.Status stored = ConnectorAgent.Status state
    /\ (Forall (fun e => furtherFailed e = true) (furtherExchanges (remote final)) ->
        stored = state).
Proof.
  intros diags state Hdiags.
  unfold ConnectorAgentConfiguration.Update. unfold bind at 1 2 3. unfold Append, HasError, freshClient, fresh, diag.Append.
  simpl_client. fold diags. rewrite Hdiags. fold state. unfold bind at 1.
  destruct (connector_synchronize_spec state (UpdatePlan req)
              (mkWorld (mkClient srv []) [] diags StateUntouched))
    as (state' & w' & tail & -> & Hlog & Hex & Hd & _ & Hid & Hin & Hh & Hs & _ & _
        & _ & _ & Hfail & _ & _).
  unfold_prog. exists state'. eexists. split; [reflexivity |]. simpl_client.
  cbn [app] in Hlog. rewrite Hlog, Hex, Hd, app_nil_r. simpl_client.
  repeat split; assumption.
Qed.

Variable Marshal : string -> string -> string.

Lemma findAttempt_waiting (filters : string) (data : Model) (w : World (Client Srv) Model)
    r srv' :
  ExecuteFurther (ListConnectors filters) (backend (remote w)) = (r, srv') ->
  waitingReply r ->
  exists msg,
    ConnectorAgentConfiguration.findAttempt filters data w
    = Returned (AttemptError msg) (afterFurtherCall w (ListConnectors filters) r srv').
Proof.
  intros Hexec Hwait. unfold ConnectorAgentConfiguration.findAttempt. unfold invokeFurther. unfold_prog.
  rewrite Hexec. unfold waitingReply in Hwait.
  destruct r as [rv rh [re|]]; cbn [err httpRes value] in *.
  - unfold ConnectorAgentConfiguration.handleListConnectorsError.
    destruct rh as [h|]; [| contradiction].
    unfold ConnectorAgent.connectorHTTPBadRequest, ConnectorAgent.connectorHTTPTooManyReqs.
    assert ((StatusCode h =? 400) || (StatusCode h =? 429) = true) as ->.
    { apply orb_true_iff. rewrite !Z.eqb_eq. exact Hwait. }
    eexists. reflexivity.
  - unfold ConnectorAgentConfiguration.processConnectorResponse, ConnectorAgentConfiguration.processAgents.
    destruct rv as [[total agents|total agents|]|]; subst; cbn [Z.eqb];
      eexists; reflexivity.
Qed.

Lemma retryLoop_waiting (filters : string) (data : Model) :
  (forall s, exists r s', ExecuteFurther (ListConnectors filters) s = (r, s')
                          /\ waitingReply r) ->
  forall more (w : World (Client Srv) Model),
  exists msg w',
    retryLoop more (ConnectorAgentConfiguration.findAttempt filters data) w = Returned (inr msg) w'
    /\ exchanges w' = exchanges w
    /\ Diagnostics w' = Diagnostics w
    /\ State w' = State w
    /\ exists tail,
         furtherExchanges (remote w') = furtherExchanges (remote w) ++ tail
         /\ List.length tail = S more
         /\ Forall (fun e => furtherRequest e = ListConnectors filters) tail.
Proof.
  intros Hservice. induction more as [|more IH]; intros w;
    destruct (Hservice (backend (remote w))) as (r & s' & Hexec & Hwait);
    destruct (findAttempt_waiting filters data w r s' Hexec Hwait) as [msg Hatt].
  - rewrite (retryLoop_last _ _ _ _ Hatt). do 2 eexists. split; [reflexivity |].
    unfold afterFurtherCall. simpl_client. repeat split.
    eexists. split; [reflexivity |]. split; [reflexivity | repeat constructor].
  - rewrite (retryLoop_retry _ _ _ _ _ Hatt).
    destruct (IH (afterFurtherCall w (ListConnectors filters) r s'))
      as (msg' & w' & -> & Hex & Hd & Hs & tail & Hlog & Hlen & Hall).
    do 2 eexists. split; [reflexivity |].
    unfold afterFurtherCall in *. simpl_client. cbn [Diagnostics exchanges State remote
      furtherExchanges] in Hex, Hd, Hs, Hlog.
    repeat split; try assumption.
    exists (furtherExchangeOf (ListConnectors filters) r :: tail).
    rewrite Hlog, <- app_assoc. cbn [app List.length]. repeat split.
    + now rewrite Hlen.
    + constructor; [reflexivity | exact Hall].
Qed.

(** X24.  As long as the service lists no agent for the filter of the plan
    (a total of 0, a value that is no list of agents or no value, or a
    failure with 400 or 429), Create of a connector agent asks again: it
    makes 6 calls, all of them ListConnectors with this filter, then adds
    "Could not retrieve resource connector agent config" and stores nothing. *)
Theorem connector_create_waits_for_the_agent
    (req : CreateRequest Model) (srv : Srv) (filters : string) :
  diag.HasError (CreatePlanDiags req) = false ->
  ConnectorAgentConfiguration.buildAgentFilter Marshal (CreatePlan req) = inl filters ->
  (forall s, exists r s', ExecuteFurther (ListConnectors filters) s = (r, s')
                          /\ waitingReply r) ->
  exists final,
    ConnectorAgentConfiguration.Create Marshal req (freshClient srv) = Returned tt final
    /\ State final = StateUntouched
    /\ Diagnostics final
       = CreatePlanDiags req
         ++ [diag.NewErrorDiagnostic "Could not retrieve resource connector agent config"]
    /\ exchanges final = []
    /\ List.length (furtherExchanges (remote final)) = 6%nat
    /\ Forall (fun e => furtherRequest e = ListConnectors filters)
              (furtherExchanges (remote final)).
Proof.
  intros Hdiags Hfilter Hservice.
  unfold ConnectorAgentConfiguration.Create, ConnectorAgentConfiguration.findAndConfigureAgent, retryDo.
  unfold bind at 1 2. unfold Append, HasError, freshClient, fresh, diag.Append.
  simpl_client. rewrite Hdiags, Hfilter. unfold bind at 1.
  cbn [Nat.pred ConnectorAgent.connectorRetryMaxAttempts].
  destruct (retryLoop_waiting filters (CreatePlan req) Hservice 5
              (mkWorld (mkClient srv []) [] (CreatePlanDiags req) StateUntouched))
    as (msg & w' & -> & Hex & Hd & Hs & tail & Hlog & Hlen & Hall).
  unfold_prog. eexists. split; [reflexivity |]. simpl_client.
  cbn [Diagnostics exchanges State remote furtherExchanges app] in Hex, Hd, Hs, Hlog.
  rewrite Hs, Hd, Hex, Hlog. repeat split; assumption.
Qed.

(** X25.  Create of a connector agent whose plan decodes: with neither an
    instance id nor a hostname it calls nothing and adds "Error building
    agent filter"; the filter is built from the instance id when there is
    one, else from the hostname; when the first ListConnectors reports more
    than one agent, or fails with a status other than 400 and 429, Create
    makes this one call, adds "Could not retrieve resource connector agent
    config" and stores nothing.  When it reports exactly one agent, Create
    dereferences the six pointers of this agent: when one of them is nil,
    Create panics after this one call and stores nothing; when all are set,
    Create stores the id, instance id, hostname and status of the agent, and
    for each of the two flags either the value of the agent or true. *)
Theorem connector_create_outcome (req : CreateRequest Model) (srv : Srv) :
  let data := CreatePlan req in
  let outcome := ConnectorAgentConfiguration.Create Marshal req (freshClient srv) in
  diag.HasError (CreatePlanDiags req) = false ->
  (* no filter can be built: nothing is called *)
  (IsNull (ConnectorAgent.InstanceID data) = true -> IsNull (ConnectorAgent.Hostname data) = true ->
   outcome
   = Returned tt
       (mkWorld (mkClient srv []) []
          (CreatePlanDiags req ++ [diag.NewErrorDiagnostic "Error building agent filter"])
          StateUntouched))
  (* the instance id takes precedence over the hostname *)
  /\ (IsNull (ConnectorAgent.InstanceID data) = false ->
      ConnectorAgentConfiguration.buildAgentFilter Marshal data
      = inl (Marshal "instanceId" (ValueString (ConnectorAgent.InstanceID data))))
  /\ (IsNull (ConnectorAgent.InstanceID data) = true -> IsNull (ConnectorAgent.Hostname data) = false ->
      ConnectorAgentConfiguration.buildAgentFilter Marshal data
      = inl (Marshal "hostname" (ValueString (ConnectorAgent.Hostname data))))
  /\ (forall filters r srv1,
        ConnectorAgentConfiguration.buildAgentFilter Marshal data = inl filters ->
        ExecuteFurther (ListConnectors filters) srv = (r, srv1) ->
        (* more than one agent, or an error that is no 400 and no 429: one
           call and an error *)
        ((err r = None /\ exists total agents,
             value r = Some (resconn.ConnectorListRes total agents) /\ 1 < total)
         \/ (err r <> None /\ forall h, httpRes r = Some h ->
               StatusCode h <> 400 /\ StatusCode h <> 429) ->
         outcome
         = Returned tt
             (mkWorld (mkClient srv1 [furtherExchangeOf (ListConnectors filters) r]) []
                (CreatePlanDiags req
                 ++ [diag.NewErrorDiagnostic
                       "Could not retrieve resource connector agent config"])
                StateUntouched))
        (* one agent: LoadFromAPI dereferences its pointers *)
        /\ (forall agent agents,
              err r = None ->
              value r = Some (resconn.ConnectorListRes 1 (agent :: agents)) ->
              (* a nil pointer: one call and a panic *)
              (~ completeAgent agent ->
               outcome
               = Panicked
                   (mkWorld (mkClient srv1 [furtherExchangeOf (ListConnectors filters) r]) []
                      (CreatePlanDiags req) StateUntouched))
              (* all set: the values of the agent are stored, the flags as
                 Synchronize leaves them *)
              /\ (forall id hostname instanceId status confirmed enabled,
                    resconn.Id agent = Some id ->
                    resconn.Hostname agent = Some hostname ->
                    resconn.InstanceId agent = Some instanceId ->
                    resconn.Status agent = Some status ->
                    resconn.Confirmed agent = Some confirmed ->
                    resconn.Enabled agent = Some enabled ->
                    exists stored final,
                      outcome = Returned tt final
                      /\ State final = StateSet stored
                      /\ Diagnostics final = CreatePlanDiags req
                      /\ ConnectorAgent.ID stored = Known id
                      /\ ConnectorAgent.InstanceID stored = Known instanceId
                      /\ ConnectorAgent.Hostname stored = Known hostname
                      /\ ConnectorAgent.Status stored = Known status
                      /\ (ConnectorAgent.Confirmed stored = Known confirmed
                          \/ ConnectorAgent.Confirmed stored = Known true)
                      /\ (ConnectorAgent.Enabled stored = Known enabled
                          \/ ConnectorAgent.Enabled stored = Known true)))).
Proof.
  intros data outcome Hdiags. subst outcome data.
  assert (ConnectorAgentConfiguration.Create Marshal req (freshClient srv)
          = match ConnectorAgentConfiguration.buildAgentFilter Marshal (CreatePlan req) with
            | inr _ =>
                Returned tt
                  (mkWorld (mkClient srv []) []
                     (CreatePlanDiags req
                      ++ [diag.NewErrorDiagnostic "Error building agent filter"])
                     StateUntouched)
            | inl filters =>
                match retryLoop 5 (ConnectorAgentConfiguration.findAttempt filters (CreatePlan req))
                        (mkWorld (mkClient srv []) [] (CreatePlanDiags req)
                           StateUntouched) with
                | Returned (inl stored) w' =>
                    Returned tt (mkWorld (remote w') (exchanges w') (Diagnostics w' ++ [])
                                   (StateSet stored))
                | Returned (inr _) w' =>
                    Returned tt
                      (mkWorld (remote w') (exchanges w')
                         (Diagnostics w'
                          ++ [diag.NewErrorDiagnostic
                                "Could not retrieve resource connector agent config"])
                         (State w'))
                | Panicked w' => Panicked w'
                end
            end) as Hcreate.
  { unfold ConnectorAgentConfiguration.Create, ConnectorAgentConfiguration.findAndConfigureAgent, retryDo.
    unfold bind at 1 2. unfold Append, HasError, freshClient, fresh, diag.Append.
    simpl_client. rewrite Hdiags.
    destruct (ConnectorAgentConfiguration.buildAgentFilter Marshal (CreatePlan req)) as [filters|e]; [| reflexivity].
    unfold bind at 1. cbn [Nat.pred ConnectorAgent.connectorRetryMaxAttempts].
    destruct (retryLoop 5 _ _) as [[stored|msg] w'|w']; reflexivity. }
  rewrite Hcreate. clear Hcreate.
  repeat apply conj.
  - intros Hi Hh. unfold ConnectorAgentConfiguration.buildAgentFilter. rewrite Hi, Hh. reflexivity.
  - intros Hi. unfold ConnectorAgentConfiguration.buildAgentFilter. rewrite Hi. reflexivity.
  - intros Hi Hh. unfold ConnectorAgentConfiguration.buildAgentFilter. rewrite Hi, Hh. reflexivity.
  - intros filters r srv1 Hfilter Hexec. rewrite Hfilter. split.
    + intros Hcase.
      assert (exists msg,
                 ConnectorAgentConfiguration.findAttempt filters (CreatePlan req)
                   (mkWorld (mkClient srv []) [] (CreatePlanDiags req) StateUntouched)
                 = Returned (AttemptUnrecoverable msg)
                     (afterFurtherCall
                        (mkWorld (mkClient srv []) [] (CreatePlanDiags req) StateUntouched)
                        (ListConnectors filters) r srv1)) as [msg Hatt].
      { unfold ConnectorAgentConfiguration.findAttempt. unfold invokeFurther. unfold_prog. simpl_client.
        rewrite Hexec.
        destruct Hcase as [(Herr & total & agents & Hval & Htotal) | (Herr & Hstatus)].
        - rewrite Herr, Hval. unfold ConnectorAgentConfiguration.processConnectorResponse, ConnectorAgentConfiguration.processAgents.
          assert ((total =? 0) = false) as -> by lia.
          assert ((total >? 1) = true) as -> by lia.
          eexists. reflexivity.
        - destruct (err r) as [e|]; [| congruence].
          unfold ConnectorAgentConfiguration.handleListConnectorsError.
          unfold ConnectorAgent.connectorHTTPBadRequest, ConnectorAgent.connectorHTTPTooManyReqs.
          destruct (httpRes r) as [h|] eqn:Eh.
          + destruct (Hstatus h eq_refl) as [H400 H429].
            apply Z.eqb_neq in H400, H429. rewrite H400, H429. eexists. reflexivity.
          + eexists. reflexivity. }
      rewrite (retryLoop_unrecoverable _ _ _ _ _ Hatt).
      unfold afterFurtherCall. simpl_client. reflexivity.
    + intros agent agents Herr Hval. split.
      * intros Hnil.
        erewrite retryLoop_panics.
        2: { unfold ConnectorAgentConfiguration.findAttempt. unfold invokeFurther. unfold_prog.
             simpl_client. rewrite Hexec.
             rewrite Herr, Hval.
             unfold ConnectorAgentConfiguration.processConnectorResponse,
               ConnectorAgentConfiguration.processAgents.
             cbn [Z.eqb Z.gtb Z.compare Pos.compare Pos.compare_cont].
             unfold_prog. rewrite (LoadFromAPI_incomplete _ _ Hnil). reflexivity. }
        unfold afterFurtherCall. simpl_client. reflexivity.
      * intros id hostname instanceId status confirmed enabled Eid Ehost Einst Est Econf Een.
        set (loaded := ConnectorAgent.mkModel (Known id) (Known instanceId) (Known hostname)
                         (Known status) (Known confirmed) (Known enabled)).
        assert (ConnectorAgent.LoadFromAPI (CreatePlan req) agent = Some loaded) as Hload.
        { unfold ConnectorAgent.LoadFromAPI. rewrite Eid, Ehost, Einst, Est, Econf, Een.
          reflexivity. }
        destruct (connector_synchronize_spec loaded (CreatePlan req)
                    (afterFurtherCall
                       (mkWorld (mkClient srv []) [] (CreatePlanDiags req) StateUntouched)
                       (ListConnectors filters) r srv1))
          as (state' & w' & tail & Hsync & Hlog & Hex & Hd & Hs & Hid & Hin & Hh & Hst & _ & _
              & Hconf & Hen & _ & _ & _).
        erewrite retryLoop_ok.
        2: { unfold ConnectorAgentConfiguration.findAttempt. unfold invokeFurther. unfold_prog.
             simpl_client. rewrite Hexec.
             rewrite Herr, Hval.
             unfold ConnectorAgentConfiguration.processConnectorResponse,
               ConnectorAgentConfiguration.processAgents.
             cbn [Z.eqb Z.gtb Z.compare Pos.compare Pos.compare_cont].
             unfold_prog. rewrite Hload. rewrite Hsync. reflexivity. }
        exists state'. eexists. split; [reflexivity |].
        cbn [State Diagnostics]. rewrite Hd. unfold afterFurtherCall. simpl_client.
        rewrite app_nil_r.
        rewrite Hid, Hin, Hh, Hst. subst loaded.
        cbn [ConnectorAgent.ID ConnectorAgent.InstanceID ConnectorAgent.Hostname
             ConnectorAgent.Status].
        cbn [ConnectorAgent.Confirmed ConnectorAgent.Enabled] in Hconf, Hen.
        repeat split.
        -- destruct Hconf as [-> | (-> & _)]; [left | right]; reflexivity.
        -- destruct Hen as [-> | (-> & _)]; [left | right]; reflexivity.
Qed.

End ConnectorSynchronize.

Lemma connector_update_reports_no_failure_witness :
  let state :=
    ConnectorAgent.mkModel (Known 44) (Known "i-0abc") (Known "host") (Known "connected")
      (Known false) (Known false) in
  let final :=
    finalWorld
      (ConnectorAgentConfiguration.Update
         (further := Examples.failFurther 500 "500 Internal Server Error")
         (mkUpdateRequest (Examples.connector 44) [] state []) (freshClient tt)) in
  State final = StateSet state /\ Diagnostics final = [].
Proof.
  intros state.
  destruct (@connector_update_reports_no_failure unit
              (Examples.failFurther 500 "500 Internal Server Error")
              (mkUpdateRequest (Examples.connector 44) [] state []) tt)
    as (stored & final & Hrun & Hstate & Hdiags & _ & _ & _ & _ & _ & Hsame).
  - reflexivity.
  - cbv zeta. rewrite Hrun. cbn [finalWorld]. rewrite Hstate, Hdiags.
    split; [| reflexivity].
    f_equal. apply Hsame.
    vm_compute in Hrun. injection Hrun as Hfinal. subst final.
    repeat constructor.
Defined.

Lemma connector_create_waits_for_the_agent_witness :
  exists final,
    ConnectorAgentConfiguration.Create
      (further := Examples.furtherService (resconn.ConnectorListRes 0 []) [])
      Examples.marshal (mkCreateRequest (Examples.connector 0) []) (freshClient tt)
    = Returned tt final
    /\ State final = StateUntouched
    /\ List.length (furtherExchanges (remote final)) = 6%nat.
Proof.
  edestruct (@connector_create_waits_for_the_agent unit
               (Examples.furtherService (resconn.ConnectorListRes 0 []) [])
               Examples.marshal (mkCreateRequest (Examples.connector 0) []) tt)
    as (final & Hrun & Hstate & _ & _ & Hlen & _).
  - reflexivity.
  - reflexivity.
  - intros s. do 2 eexists. split; reflexivity.
  - exists final. repeat split; assumption.
Defined.

Lemma connector_create_outcome_witness :
  exists stored final,
    ConnectorAgentConfiguration.Create
      (further := Examples.furtherService (resconn.ConnectorListRes 1 [Examples.agent]) [])
      Examples.marshal (mkCreateRequest (Examples.connector 0) []) (freshClient tt)
    = Returned tt final
    /\ State final = StateSet stored
    /\ ConnectorAgent.ID stored = Known 44
    /\ ConnectorAgent.Hostname stored = Known "host".
Proof.
  destruct (@connector_create_outcome unit
              (Examples.furtherService (resconn.ConnectorListRes 1 [Examples.agent]) [])
              Examples.marshal (mkCreateRequest (Examples.connector 0) []) tt)
    as (_ & _ & _ & Hcall).
  - reflexivity.
  - edestruct (Hcall (Examples.marshal "instanceId" "i-0abc")) as [_ Hone].
    + reflexivity.
    + reflexivity.
    + edestruct (Hone Examples.agent []) as [_ Hcomplete].
      * reflexivity.
      * reflexivity.
      * edestruct Hcomplete
          as (stored & final & Hrun & Hstate & _ & Hid & _ & Hhost & _);
          try reflexivity.
        exists stored, final. repeat split; assumption.
Defined.

(** ** The identity data source *)

Section IdentityRetrieval.

Context {Srv : Type} {further : FurtherService Srv}.

Local Abbreviation W := (World (Client Srv) IdentityDataSource.identityDataSourceModel).

Variables filter identityType : string.

Local Abbreviation search := (IdentityDataSource.percent ++ filter ++ IdentityDataSource.percent)%string.

Lemma grownBy_refl (w : W) : grownBy 0 w w.
Proof.
  repeat split. exists []. split; [now rewrite app_nil_r | reflexivity].
Qed.

Lemma grownBy_trans (n m : nat) (w1 w2 w3 : W) :
  grownBy n w1 w2 -> grownBy m w2 w3 -> grownBy (n + m) w1 w3.
Proof.
  intros (E1 & D1 & S1 & t1 & L1 & N1) (E2 & D2 & S2 & t2 & L2 & N2).
  repeat split; try congruence.
  exists (t1 ++ t2). split.
  - now rewrite L2, L1, app_assoc.
  - rewrite length_app. lia.
Qed.

Lemma grownBy_call (w : W) (c : FurtherCall) r srv' :
  grownBy 1 w (afterFurtherCall w c r srv').
Proof.
  unfold afterFurtherCall. repeat split. simpl_client. eexists. split; reflexivity.
Qed.

Lemma fetchBatch_rate_limited (vars : IdentityDataSource.retrieval) (w : W) :
  IdentityDataSource.rateLimited filter identityType ->
  exists msg w',
    IdentityDataSource.fetchBatch filter identityType vars w = Returned (vars, AttemptError msg) w'
    /\ grownBy 1 w w'.
Proof.
  intros Hrl. destruct (Hrl (IdentityDataSource.offset vars) (backend (remote w)))
    as (r & s' & h & Hexec & Herr & Hres & Hcode).
  unfold IdentityDataSource.fetchBatch. unfold invokeFurther. unfold_prog. rewrite Hexec.
  destruct (err r) as [e|] eqn:Ee; [| congruence].
  unfold statusIs. rewrite Hres, Hcode. cbn [Z.eqb Pos.eqb].
  do 2 eexists. split; [reflexivity | apply grownBy_call].
Qed.

Lemma fetchWithRetry_rate_limited (more : nat) (vars : IdentityDataSource.retrieval) (w : W) :
  IdentityDataSource.rateLimited filter identityType ->
  exists msg w',
    IdentityDataSource.fetchWithRetry more filter identityType vars w = Returned (vars, Some msg) w'
    /\ grownBy (S more) w w'.
Proof.
  intros Hrl. revert w. induction more as [|more IH]; intros w;
    destruct (fetchBatch_rate_limited vars w Hrl) as (msg & w1 & Hb & Hg);
    cbn [IdentityDataSource.fetchWithRetry]; unfold bind at 1; rewrite Hb.
  - do 2 eexists. split; [reflexivity | exact Hg].
  - destruct (IH w1) as (msg' & w' & -> & Hg').
    do 2 eexists. split; [reflexivity |].
    change (S (S more)) with (1 + S more)%nat. now apply grownBy_trans with w1.
Qed.

(** X26.  While the service answers 429 to every GetIdentities of the
    filter, getIdentitiesForFilter does not end: after any number of rounds
    of its loop it is still in the loop, and it has made three calls in
    every round. *)
Theorem identity_retrieval_never_ends_while_rate_limited (rounds : nat) (srv : Srv) :
  IdentityDataSource.rateLimited filter identityType ->
  exists w',
    IdentityDataSource.getIdentitiesForFilter rounds filter identityType (freshClient srv)
    = Returned None w'
    /\ List.length (furtherExchanges (remote w')) = (3 * rounds)%nat.
Proof.
  intros Hrl. unfold IdentityDataSource.getIdentitiesForFilter.
  assert (forall rounds vars (w : W),
             exists w', IdentityDataSource.retrieve rounds filter identityType vars w = Returned None w'
                        /\ grownBy (3 * rounds) w w') as Hloop.
  { clear rounds. induction rounds as [|rounds IH]; intros vars w.
    - exists w. split; [reflexivity | apply grownBy_refl].
    - cbn [IdentityDataSource.retrieve]. unfold bind at 1.
      destruct (fetchWithRetry_rate_limited 2
                  (IdentityDataSource.mkRetrieval (IdentityDataSource.offset vars) (IdentityDataSource.diagnostics vars)
                     (IdentityDataSource.identities vars) false) w Hrl) as (msg & w1 & -> & Hg).
      cbn [isSome IdentityDataSource.diagnostics IdentityDataSource.done IdentityDataSource.offset IdentityDataSource.identities andb].
      destruct (negb (diag.HasError (IdentityDataSource.diagnostics vars)));
        cbn [IdentityDataSource.done];
        match goal with
        | |- context [IdentityDataSource.retrieve rounds filter identityType ?v w1] =>
            destruct (IH v w1) as (w' & -> & Hg')
        end;
        exists w'; (split; [reflexivity |]);
        replace (3 * S rounds)%nat with (3 + 3 * rounds)%nat by lia;
        now apply grownBy_trans with w1. }
  destruct (Hloop rounds (IdentityDataSource.mkRetrieval 0 [] [] false) (freshClient srv))
    as (w' & -> & _ & _ & _ & tail & Hlog & Hlen).
  exists w'. split; [reflexivity |]. rewrite Hlog. exact Hlen.
Qed.

Lemma firstn_next {A} (n m : nat) (l : list A) :
  firstn n l ++ firstn m (skipn n l) = firstn (n + m) l.
Proof.
  revert l. induction n as [|n IH]; intros l; [reflexivity |].
  destruct l as [|x l]; cbn [firstn skipn app Nat.add].
  - now rewrite firstn_nil.
  - now rewrite IH.
Qed.

Lemma retrieve_paginated (all : list reports.Identity) :
  IdentityDataSource.paginated filter identityType all ->
  forall rounds n done (w : W) collected,
    (n <= List.length all)%nat ->
    ((List.length all - n) / 100 < rounds)%nat ->
    collect IdentityDataSource.modeledIdentity (firstn n all) = Some collected ->
    let outcome :=
      IdentityDataSource.retrieve rounds filter identityType
        (IdentityDataSource.mkRetrieval (Z.of_nat n) [] collected done) w in
    (forall models,
        collect IdentityDataSource.modeledIdentity all = Some models ->
        exists w',
          outcome = Returned (Some (models, [])) w'
          /\ grownBy (S ((List.length all - n) / 100)) w w')
    /\ (collect IdentityDataSource.modeledIdentity all = None ->
        hasPanicked outcome = true).
Proof.
  intros Hpages. induction rounds as [|rounds IH]; intros n done w collected Hn Hrounds Hc;
    [lia |].
  cbv zeta.
  cbn [IdentityDataSource.retrieve]. unfold bind.
  cbn [IdentityDataSource.offset IdentityDataSource.diagnostics IdentityDataSource.identities].
  destruct (Hpages n (backend (remote w))) as (r & s' & Hexec & Herr & Hval).
  cbn [IdentityDataSource.fetchWithRetry]. unfold bind.
  unfold IdentityDataSource.fetchBatch. unfold invokeFurther. unfold_prog.
  cbn [IdentityDataSource.offset IdentityDataSource.diagnostics IdentityDataSource.identities IdentityDataSource.done].
  rewrite Hexec, Herr, Hval.
  assert (collect IdentityDataSource.modeledIdentity all
          = match collect IdentityDataSource.modeledIdentity (firstn 100 (skipn n all)),
                  collect IdentityDataSource.modeledIdentity (skipn (n + 100) all) with
            | Some batch, Some rest => Some (collected ++ batch ++ rest)
            | _, _ => None
            end) as Hall.
  { rewrite <- (firstn_skipn n all) at 1. rewrite collect_app, Hc.
    rewrite <- (firstn_skipn 100 (skipn n all)) at 1. rewrite collect_app.
    rewrite skipn_skipn. rewrite (Nat.add_comm 100 n).
    destruct (collect IdentityDataSource.modeledIdentity (firstn 100 (skipn n all))),
      (collect IdentityDataSource.modeledIdentity (skipn (n + 100) all));
      reflexivity. }
  destruct (collect IdentityDataSource.modeledIdentity (firstn 100 (skipn n all)))
    as [batch|] eqn:Ebatch.
  2: { split; [| reflexivity]. intros models Hm. rewrite Hm in Hall. discriminate Hall. }
  cbn [isSome andb IdentityDataSource.done IdentityDataSource.identities IdentityDataSource.diagnostics IdentityDataSource.offset].
  rewrite length_firstn, length_skipn.
  unfold IdentityDataSource.identityBatchSize.
  destruct (Z.of_nat (Nat.min 100 (List.length all - n)) <? 100) eqn:Eshort.
  - apply Z.ltb_lt in Eshort.
    assert (List.length all - n < 100)%nat as Hshort by lia.
    rewrite skipn_all2 in Hall by lia. cbn [collect] in Hall. rewrite app_nil_r in Hall.
    split.
    + intros models Hm. rewrite Hm in Hall. injection Hall as ->.
      eexists. split; [reflexivity |].
      rewrite Nat.div_small by exact Hshort. apply grownBy_call.
    + intros Hnone. rewrite Hnone in Hall. discriminate Hall.
  - apply Z.ltb_ge in Eshort.
    assert (100 <= List.length all - n)%nat as Hfull by lia.
    replace (Z.of_nat n + 100) with (Z.of_nat (n + 100)) by lia.
    assert ((List.length all - n) / 100 = S ((List.length all - (n + 100)) / 100))%nat as Hdiv.
    { replace (List.length all - n)%nat with (1 * 100 + (List.length all - (n + 100)))%nat
        by lia.
      rewrite Nat.div_add_l by lia. reflexivity. }
    assert (collect IdentityDataSource.modeledIdentity (firstn (n + 100) all)
            = Some (collected ++ batch)) as Hnext.
    { rewrite <- firstn_next, collect_app, Hc, Ebatch. reflexivity. }
    match goal with
    | |- context [IdentityDataSource.retrieve rounds filter identityType _ ?w1] =>
        destruct (IH (n + 100)%nat false w1 (collected ++ batch)) as [Hsome Hnone];
          [lia | lia | exact Hnext |]
    end.
    split.
    + intros models Hm. destruct (Hsome models Hm) as (w' & -> & Hg).
      exists w'. split; [reflexivity |].
      rewrite Hdiv.
      change (S (S ((List.length all - (n + 100)) / 100)))
        with (1 + S ((List.length all - (n + 100)) / 100))%nat.
      eapply grownBy_trans; [apply grownBy_call | exact Hg].
    + exact Hnone.
Qed.

(** X27.  When the service delivers a list of identities in batches of 100
    and every identity of the list has its type, getIdentitiesForFilter
    returns every identity of the list, in the order of the list and without
    a diagnostic, after one call for each batch: one more call than the list
    has full hundreds.  When an identity of the list has no type, a nil
    pointer, getIdentitiesForFilter panics. *)
Theorem identity_retrieval_collects_every_batch
    (all : list reports.Identity) (rounds : nat) (srv : Srv) :
  let outcome :=
    IdentityDataSource.getIdentitiesForFilter rounds filter identityType (freshClient srv) in
  IdentityDataSource.paginated filter identityType all ->
  (List.length all / 100 < rounds)%nat ->
  (Forall (fun identity => reports.Type_ identity <> None) all ->
   exists models w',
     outcome = Returned (Some (models, [])) w'
     /\ Forall2 (fun identity model =>
                   IdentityDataSource.modeledIdentity identity = Some model) all models
     /\ List.length (furtherExchanges (remote w')) = S (List.length all / 100))
  /\ (Exists (fun identity => reports.Type_ identity = None) all ->
      hasPanicked outcome = true).
Proof.
  intros outcome Hpages Hrounds. subst outcome.
  unfold IdentityDataSource.getIdentitiesForFilter.
  destruct (retrieve_paginated all Hpages rounds 0 false (freshClient srv) [])
    as [Hsome Hnone].
  - lia.
  - now rewrite Nat.sub_0_r.
  - reflexivity.
  - cbv zeta in Hsome, Hnone. change (Z.of_nat 0) with 0 in Hsome, Hnone. split.
    + intros Htyped.
      destruct (collect_Some IdentityDataSource.modeledIdentity all) as [models Hmodels].
      { eapply Forall_impl; [| exact Htyped]. intros identity Htype.
        unfold IdentityDataSource.modeledIdentity.
        destruct (reports.Type_ identity) eqn:Etype; [discriminate | congruence]. }
      destruct (Hsome models Hmodels) as (w' & Hrun & _ & _ & _ & tail & Hlog & Hlen).
      exists models, w'. split; [exact Hrun |]. split.
      * now apply collect_Forall2.
      * rewrite Hlog. rewrite Nat.sub_0_r in Hlen. exact Hlen.
    + intros Hnil. apply Hnone. apply collect_None.
      eapply Exists_impl; [| exact Hnil]. intros identity Htype.
      unfold IdentityDataSource.modeledIdentity. now rewrite Htype.
Qed.

Lemma fetchBatch_keeps (vars : IdentityDataSource.retrieval) (w : W) :
  keeps w (IdentityDataSource.fetchBatch filter identityType vars w)
  /\ forall vars' result w',
       IdentityDataSource.fetchBatch filter identityType vars w = Returned (vars', result) w' ->
       diag.HasError (IdentityDataSource.diagnostics vars) = true ->
       diag.HasError (IdentityDataSource.diagnostics vars') = true.
Proof.
  unfold IdentityDataSource.fetchBatch, keeps. unfold invokeFurther, afterFurtherCall. unfold_prog.
  destruct (ExecuteFurther _ (backend (remote w))) as [[rv rh [re|]] rs];
    cbn [err value];
    [destruct (statusIs _ 429)
    | destruct rv as [data|];
      [destruct (collect IdentityDataSource.modeledIdentity data) |]];
    cbn [finalWorld exchanges Diagnostics State]; (split; [repeat split |]);
    intros vars' result w' Heq Herr; try discriminate Heq;
    injection Heq as <- _ _; cbn [IdentityDataSource.diagnostics]; try exact Herr.
  apply diag_HasError_AddError.
Qed.

Lemma fetchWithRetry_keeps (more : nat) (vars : IdentityDataSource.retrieval) (w : W) :
  keeps w (IdentityDataSource.fetchWithRetry more filter identityType vars w)
  /\ forall vars' err w',
       IdentityDataSource.fetchWithRetry more filter identityType vars w = Returned (vars', err) w' ->
       diag.HasError (IdentityDataSource.diagnostics vars) = true ->
       diag.HasError (IdentityDataSource.diagnostics vars') = true.
Proof.
  revert vars w. induction more as [|more IH]; intros vars w;
    destruct (fetchBatch_keeps vars w) as ((E & D & S) & Hsticky);
    cbn [IdentityDataSource.fetchWithRetry]; unfold bind;
    destruct (IdentityDataSource.fetchBatch filter identityType vars w) as [[vars1 [[]|msg|msg]] w1|w1];
    cbn [finalWorld] in E, D, S; unfold keeps; unfold_prog; cbn [finalWorld];
    try (split; [repeat split; assumption |];
         intros vars' err w' Heq Herr; try discriminate Heq;
         injection Heq as <- _ _; now apply (Hsticky _ _ _ eq_refl)).
  destruct (IH vars1 w1) as ((E' & D' & S') & Hsticky'). split.
  - repeat split; congruence.
  - intros vars' err w' Heq Herr. apply (Hsticky' _ _ _ Heq).
    now apply (Hsticky _ _ _ eq_refl).
Qed.

Lemma retrieve_keeps (rounds : nat) (vars : IdentityDataSource.retrieval) (w : W) :
  keeps w (IdentityDataSource.retrieve rounds filter identityType vars w)
  /\ forall found getDiag w',
       IdentityDataSource.retrieve rounds filter identityType vars w = Returned (Some (found, getDiag)) w' ->
       diag.HasError (IdentityDataSource.diagnostics vars) = true ->
       diag.HasError getDiag = true.
Proof.
  revert vars w. induction rounds as [|rounds IH]; intros vars w.
  - split; [repeat split | discriminate].
  - cbn [IdentityDataSource.retrieve]. unfold bind.
    destruct (fetchWithRetry_keeps 2
                (IdentityDataSource.mkRetrieval (IdentityDataSource.offset vars) (IdentityDataSource.diagnostics vars)
                   (IdentityDataSource.identities vars) false) w) as ((E & D & S) & Hsticky).
    destruct (IdentityDataSource.fetchWithRetry 2 filter identityType _ w) as [[vars1 err1] w1|w1];
      [| split; [repeat split; assumption | discriminate]].
    cbn [finalWorld] in E, D, S. specialize (Hsticky _ _ _ eq_refl).
    cbn [IdentityDataSource.diagnostics] in Hsticky.
    set (vars2 := if isSome err1 && negb (diag.HasError (IdentityDataSource.diagnostics vars1))
                  then _ else vars1).
    assert (diag.HasError (IdentityDataSource.diagnostics vars) = true ->
            diag.HasError (IdentityDataSource.diagnostics vars2) = true) as Hsticky2.
    { intros Herr. subst vars2.
      destruct (isSome err1 && negb (diag.HasError (IdentityDataSource.diagnostics vars1)));
        [apply diag_HasError_AddError | now apply Hsticky]. }
    destruct (IdentityDataSource.done vars2).
    + unfold keeps. unfold_prog. cbn [finalWorld]. split; [repeat split; assumption |].
      intros found getDiag w' Heq Herr. injection Heq as _ <- _. now apply Hsticky2.
    + destruct (IH vars2 w1) as ((E' & D' & S') & Hsticky'). split.
      * repeat split; congruence.
      * intros found getDiag w' Heq Herr. apply (Hsticky' _ _ _ Heq). now apply Hsticky2.
Qed.

End IdentityRetrieval.

Lemma identity_retrieval_never_ends_while_rate_limited_witness :
  exists w',
    IdentityDataSource.getIdentitiesForFilter
      (further := Examples.failFurther 429 "429 Too Many Requests")
      2 "user" IdentityDataSource.identityTypeUser (freshClient tt)
    = Returned None w'
    /\ List.length (furtherExchanges (remote w')) = 6%nat.
Proof.
  apply (@identity_retrieval_never_ends_while_rate_limited unit
           (Examples.failFurther 429 "429 Too Many Requests")
           "user" IdentityDataSource.identityTypeUser 2 tt).
  intros offset s. do 3 eexists. split; [reflexivity |].
  cbn. repeat split. discriminate.
Defined.

Lemma identity_retrieval_collects_every_batch_witness :
  let all := map Examples.identity [1; 2; 3] in
  exists models w',
    IdentityDataSource.getIdentitiesForFilter
      (further := Examples.furtherService resconn.OtherValue all)
      1 "user" IdentityDataSource.identityTypeUser (freshClient tt)
    = Returned (Some (models, [])) w'
    /\ map IdentityDataSource.Id models = [Known 1; Known 2; Known 3]
    /\ List.length (furtherExchanges (remote w')) = 1%nat.
Proof.
  intros all.
  destruct (@identity_retrieval_collects_every_batch unit
              (Examples.furtherService resconn.OtherValue all)
              "user" IdentityDataSource.identityTypeUser all 1 tt)
    as [Htyped _].
  - intros n s. do 2 eexists. split; [reflexivity |]. split; [reflexivity |].
    cbn [value Examples.found]. now rewrite Nat2Z.id.
  - cbn. lia.
  - destruct Htyped as (models & w' & Hrun & Hmodels & Hlen).
    + repeat constructor; discriminate.
    + exists models, w'. split; [exact Hrun |]. split; [| exact Hlen].
      do 4 (let H := fresh in inversion Hmodels as [| ? ? ? ? H Hmodels']; subst;
            try (injection H as <-); clear Hmodels; try rename Hmodels' into Hmodels).
      reflexivity.
Defined.

Section IdentityRead.

Context {Srv : Type} {further : FurtherService Srv}.

(** X28.  Once the first three GetIdentities of Read of the identity data
    source have been answered 429, Read stores no state, whatever the
    service answers afterwards: the state stays untouched, and when Read
    returns it returns with an error. *)
Theorem identity_read_fails_after_three_rate_limits
    (req : IdentityDataSource.ConfigRequest) (rounds : nat) (s0 s1 s2 s3 : Srv) r1 r2 r3 :
  let call :=
    GetIdentities IdentityDataSource.identityBatchSize 0
      (IdentityDataSource.percent ++ ValueString (IdentityDataSource.Filter (IdentityDataSource.Config req)) ++ IdentityDataSource.percent)%string
      IdentityDataSource.identityTypeUser in
  let outcome := IdentityDataSource.Read rounds req (freshClient s0) in
  diag.HasError (IdentityDataSource.ConfigDiags req) = false ->
  ExecuteFurther call s0 = (r1, s1) ->
  ExecuteFurther call s1 = (r2, s2) ->
  ExecuteFurther call s2 = (r3, s3) ->
  (err r1 <> None /\ statusIs r1 429 = true) ->
  (err r2 <> None /\ statusIs r2 429 = true) ->
  (err r3 <> None /\ statusIs r3 429 = true) ->
  State (finalWorld outcome) = StateUntouched
  /\ exchanges (finalWorld outcome) = []
  /\ (forall final, outcome = Returned true final ->
        diag.HasError (Diagnostics final) = true).
Proof.
  intros call outcome Hdiags H1 H2 H3 [E1 L1] [E2 L2] [E3 L3]. subst outcome call.
  destruct rounds as [|rounds].
  { unfold IdentityDataSource.Read, IdentityDataSource.getIdentitiesForFilter. unfold_prog. cbn [freshClient].
    unfold freshClient, fresh. simpl_client. rewrite Hdiags. cbn [finalWorld State exchanges].
    repeat split. intros final Heq. discriminate Heq. }
  unfold IdentityDataSource.Read, IdentityDataSource.getIdentitiesForFilter.
  cbn [IdentityDataSource.retrieve IdentityDataSource.fetchWithRetry]. unfold IdentityDataSource.fetchBatch.
  unfold_further. rewrite Hdiags.
  cbn [IdentityDataSource.offset IdentityDataSource.diagnostics IdentityDataSource.identities].
  (* the three attempts of the first round *)
  simpl_client. rewrite H1. simpl_client.
  destruct (err r1) as [e1|]; [| congruence]. rewrite L1.
  simpl_client. cbn [IdentityDataSource.offset]. rewrite H2. simpl_client.
  destruct (err r2) as [e2|]; [| congruence]. rewrite L2.
  simpl_client. cbn [IdentityDataSource.offset]. rewrite H3. simpl_client.
  destruct (err r3) as [e3|]; [| congruence]. rewrite L3.
  cbn [isSome andb negb IdentityDataSource.diagnostics diag.HasError existsb IdentityDataSource.done IdentityDataSource.offset
       IdentityDataSource.identities].
  match goal with
  | |- context [IdentityDataSource.retrieve rounds ?f ?t ?v ?w] =>
      destruct (retrieve_keeps f t rounds v w) as ((E & D & S) & Hsticky);
      destruct (IdentityDataSource.retrieve rounds f t v w) as [[[found getDiag]|] w'|w'] eqn:Erun
  end; cbn [finalWorld] in E, D, S; cbn [exchanges Diagnostics State] in E, D, S.
  - specialize (Hsticky _ _ _ eq_refl (diag_HasError_AddError _ _)).
    rewrite Hsticky. unfold_prog. cbn [finalWorld State exchanges Diagnostics].
    rewrite S, E. repeat split.
    intros final Heq. injection Heq as <-. cbn [Diagnostics].
    rewrite diag_HasError_app, Hsticky. apply orb_true_r.
  - cbn [finalWorld]. rewrite S, E. repeat split. intros final Heq. discriminate Heq.
  - cbn [finalWorld]. rewrite S, E. repeat split. intros final Heq. discriminate Heq.
Qed.

End IdentityRead.

Lemma identity_read_fails_after_three_rate_limits_witness :
  let outcome :=
    IdentityDataSource.Read (further := Examples.failFurther 429 "429 Too Many Requests") 1
      (IdentityDataSource.mkConfigRequest (IdentityDataSource.mkModel Null (Known "user")) [])
      (freshClient tt) in
  State (finalWorld outcome) = StateUntouched
  /\ exchanges (finalWorld outcome) = [].
Proof.
  destruct (@identity_read_fails_after_three_rate_limits unit
              (Examples.failFurther 429 "429 Too Many Requests")
              (IdentityDataSource.mkConfigRequest
                 (IdentityDataSource.mkModel Null (Known "user")) [])
              1 tt tt tt tt
              (failedReply 429 "429 Too Many Requests" EmptyString)
              (failedReply 429 "429 Too Many Requests" EmptyString)
              (failedReply 429 "429 Too Many Requests" EmptyString))
    as (Hstate & Hlog & _).
  - reflexivity.
  - reflexivity.
  - reflexivity.
  - reflexivity.
  - split; [discriminate | reflexivity].
  - split; [discriminate | reflexivity].
  - split; [discriminate | reflexivity].
  - split; [exact Hstate | exact Hlog].
Defined.
